(** * theano/sandbox/gpuarray/dnn.py: a shallow embedding

    The cuDNN operator layer of Theano's gpuarray back end: the
    availability gate ([dnn_available], [version]), the descriptor
    operators, the three convolution operators with their shape and
    gradient rules, the entry points [dnn_conv] and [dnn_pool], and the
    local graph optimizers.

    Python integers are [Z]; tuples and lists are [list]; strings are
    [string].  An exception is a value of [exn] carried by [Raise].
    Functions that only compute are written in the error monad [Result];
    functions that read or write the process state (the attributes
    [dnn_available.avail], [dnn_available.msg], [version.v]) or that
    create graph objects are written in the monad [M], which threads the
    state and keeps it when an exception is raised, as Python does. *)

From Stdlib Require Import ZArith QArith List String Ascii Bool Arith Lia.
Import ListNotations.
Local Open Scope string_scope.
Local Open Scope list_scope.
Local Open Scope Z_scope.

(** ** Exceptions and the error monad *)

Inductive exn : Type :=
| IndexError
| UnboundLocalError (name : string)
| AssertionError (what : string)
| ZeroDivisionError
| TypeError (message : string)
| ValueError (message : string)
| RuntimeError (message : string)
| Exception (message : string)
| RecursionError.

Inductive Result (A : Type) : Type :=
| Ok (a : A)
| Raise (e : exn).
Arguments Ok {A} a.
Arguments Raise {A} e.

Definition rbind {A B} (r : Result A) (k : A -> Result B) : Result B :=
  match r with
  | Ok a => k a
  | Raise e => Raise e
  end.

(** [seq[i]] for a constant, non-negative index. *)
Definition getitem {A} (l : list A) (i : nat) : Result A :=
  match nth_error l i with
  | Some a => Ok a
  | None => Raise IndexError
  end.

(** Reading a local variable that a skipped branch left unbound. *)
Definition local {A} (name : string) (o : option A) : Result A :=
  match o with
  | Some a => Ok a
  | None => Raise (UnboundLocalError name)
  end.

(** Python's [a // b] on integers: floor division, an error on zero. *)
Definition floordiv (a b : Z) : Result Z :=
  if b =? 0 then Raise ZeroDivisionError else Ok (a / b).

(** [border_mode] is a string, an integer or a tuple of integers. *)
Inductive border_mode : Type :=
| BMStr (s : string)
| BMInt (n : Z)
| BMTuple (t : list Z).

Definition border_mode_is (bm : border_mode) (s : string) : bool :=
  match bm with
  | BMStr s' => String.eqb s' s
  | _ => false
  end.

(** ** Graph objects

    A Python [Variable] is an object with a type, an owner ([None] for a
    graph input or a constant, otherwise the [Apply] node that produced
    it) and, for a constant, its data.  Objects have an identity, and a
    rewrite may build a node that is equal in every field to an existing
    one (a fresh [GpuAllocEmpty]) yet is a different object, so variables
    live in a heap and are named by their address [var].  Every operator
    of this file has one output, so an [Apply] node is stored with, and
    identified by, its output variable. *)

Definition var := nat.

Inductive Ty : Type :=
| GpuArrayType (dtype : string) (ndim : nat)
| TensorType (dtype : string) (ndim : nat)
| Scalar (dtype : string)
| CDataType (ctype freefunc : string)
| DisconnectedType
| NullType (why : string).

Inductive Const : Type :=
| CInt (z : Z)
| CFloat (q : Q).

Inductive ScalarOp : Type :=
| Log | Add | Sub | Mul | IntDiv
| Cast (dtype : string)
| OtherScalarOp (name : string).

(** Parameters of the host-side pooling gradient nodes
    ([theano.tensor.signal.downsample]) that the lifting rules read. *)
Record PoolParams : Type := mkPoolParams {
  pp_ds : list Z;
  pp_st : list Z;
  pp_padding : list Z;
  pp_mode : string;
  pp_ignore_border : bool }.

Inductive Op : Type :=
(* operators defined in dnn.py, with their __props__ *)
| GpuDnnConvDesc (bm : border_mode) (subsample : list Z) (conv_mode : string)
| GpuDnnConv (algo : string) (inplace : bool)
| GpuDnnConvGradW (algo : string) (inplace : bool)
| GpuDnnConvGradI (algo : string) (inplace : bool)
| GpuDnnPoolDesc (ws stride : list Z) (mode : string) (pad : list Z)
| GpuDnnPool
| GpuDnnPoolGrad
| GpuDnnSoftmax (algo mode : string)
| GpuDnnSoftmaxGrad (algo mode : string)
(* operators of the surrounding framework *)
| GpuAllocEmpty (dtype : string)
| GpuContiguous
| GpuFromHost
| HostFromGpu
| GpuElemwise (scalar_op : ScalarOp)
| Elemwise (scalar_op : ScalarOp)
| ScalarApply (scalar_op : ScalarOp)
| DimShuffle (new_order : list (option nat))
| FlipLastTwo
| Shape
| Shape_i (i : nat)
| AveragePoolGrad (p : PoolParams)
| OtherOp (name : string).

Record Apply : Type := mkApply {
  op : Op;
  inputs : list var }.

Record PyVariable : Type := mkVariable {
  vtype : Ty;
  owner : option Apply;
  data : option Const }.

(** ** Process state

    The attributes [dnn_available.avail], [dnn_available.msg] and
    [version.v], the heap of graph objects, and a log of the probes run
    so far (the log is only written, never read by the program). *)

Inductive event : Type :=
| ProbeBody      (* control passed the cache test of dnn_available *)
| CompileProbe   (* GCC_compiler.try_flags was called *)
| VersionProbe.  (* the DnnVersion function was compiled and run *)

Record State : Type := mkState {
  avail : option bool;
  msg : option string;
  version_v : option Z;
  log : list event;
  heap : list PyVariable }.

Definition initial_state : State :=
  {| avail := None; msg := None; version_v := None; log := []; heap := [] |}.

Definition M (A : Type) : Type := State -> Result A * State.

Definition ret {A} (a : A) : M A := fun s => (Ok a, s).
Definition raise {A} (e : exn) : M A := fun s => (Raise e, s).
Definition bind {A B} (m : M A) (k : A -> M B) : M B :=
  fun s =>
    match m s with
    | (Ok a, s') => k a s'
    | (Raise e, s') => (Raise e, s')
    end.
Definition lift {A} (r : Result A) : M A := fun s => (r, s).

Declare Scope m_scope.
Delimit Scope m_scope with m.
Notation "x <- m ;; k" := (bind m (fun x => k))
  (at level 61, m at next level, right associativity) : m_scope.
Notation "m ;; k" := (bind m (fun _ => k))
  (at level 61, right associativity) : m_scope.
Local Open Scope m_scope.

Definition get_avail : M (option bool) := fun s => (Ok (avail s), s).
Definition get_version_v : M (option Z) := fun s => (Ok (version_v s), s).
Definition set_avail (b : bool) : M unit := fun s =>
  (Ok tt, {| avail := Some b; msg := msg s; version_v := version_v s;
             log := log s; heap := heap s |}).
Definition set_msg (m : string) : M unit := fun s =>
  (Ok tt, {| avail := avail s; msg := Some m; version_v := version_v s;
             log := log s; heap := heap s |}).
Definition set_version_v (v : Z) : M unit := fun s =>
  (Ok tt, {| avail := avail s; msg := msg s; version_v := Some v;
             log := log s; heap := heap s |}).
Definition emit (ev : event) : M unit := fun s =>
  (Ok tt, {| avail := avail s; msg := msg s; version_v := version_v s;
             log := log s ++ [ev]; heap := heap s |}).

(** ** The environment

    What the module reads from outside itself: the [pygpu] binding, the
    device in use, the result of the trial compilation, the versions the
    cuDNN header and library report, and the two configuration flags. *)

Record Env : Type := mkEnv {
  pygpu_present : bool;        (* pygpu is not None *)
  device : string;             (* init_dev.device *)
  bin_id : string;             (* pygpu.get_default_context().bin_id *)
  try_flags_comp : bool;       (* first component of GCC_compiler.try_flags *)
  try_flags_err : string;      (* third component *)
  header_version : Z;          (* CUDNN_VERSION *)
  library_version : Z;         (* cudnnGetVersion() *)
  algo_fwd : string;           (* config.dnn.conv.algo_fwd *)
  algo_bwd : string }.         (* config.dnn.conv.algo_bwd *)

(** [s[:-2]]: all but the last two characters. *)
Definition drop_last2 (s : string) : string :=
  String.substring 0 (String.length s - 2) s.

(** Python's recursion limit; [dnn_available] and [version] call each
    other, and the recursion is cut at this depth. *)
Definition recursion_limit : nat := 1000.

(** ** The availability gate: [dnn_available] (lines 35-103) and
       [version] (lines 179-200) *)

Section Gate.

Variable env : Env.

Definition msg_old_release : string :=
  "You have an old release of CuDNN (or a release candidate) that isn't supported.  Please update to at least v2 final version.".

Definition msg_v3_rc : string :=
  "You have installed a release candidate of CuDNN v3. This isn't supported. Please update to v3 final version.".

(** The body of [version], with the callee [dnn_available] abstracted. *)
Definition version_body (dnn_available : M bool) : M Z :=
  ok <- dnn_available ;;
  if negb ok then
    raise (Exception "We can't determine the cudnn version as it is not available")
  else
    cached <- get_version_v ;;
    match cached with
    | Some v => ret v
    | None =>
        emit VersionProbe ;;
        if negb (header_version env =? library_version env)
        then raise (RuntimeError "Mixed dnn version.")
        else set_version_v (library_version env) ;;
             ret (library_version env)
    end.

(** The body of [dnn_available], with the callee [version] abstracted. *)
Definition dnn_available_body (version : M Z) : M bool :=
  cached <- get_avail ;;
  match cached with
  | Some b => ret b
  | None =>
      emit ProbeBody ;;
      if negb (pygpu_present env) then
        set_msg "PyGPU not available" ;;
        set_avail false ;;
        ret false
      else if negb (String.prefix "cuda" (device env)) then
        set_msg ("Not on a CUDA device. Got " ++ device env ++ ".") ;;
        set_avail false ;;
        ret false
      else
        (if (drop_last2 (bin_id env) <? "30")%string then
           set_msg "Device not supported by cuDNN" ;;
           set_avail false
         else ret tt) ;;
        emit CompileProbe ;;
        set_avail (try_flags_comp env) ;;
        a <- get_avail ;;
        (if negb (match a with Some true => true | _ => false end) then
           set_msg ("Theano cannot compile with cuDNN. We got this error:"
                    ++ try_flags_err env)
         else
           v <- version ;;
           if v <? 2000 then
             set_avail false ;;
             set_msg msg_old_release ;;
             raise (RuntimeError msg_old_release)
           else if (3000 <=? v) && (v <? 3007) then
             set_avail false ;;
             set_msg msg_v3_rc ;;
             raise (RuntimeError msg_v3_rc)
           else ret tt) ;;
        a' <- get_avail ;;
        ret (match a' with Some b => b | None => false end)
  end.

Fixpoint dnn_available_rec (depth : nat) : M bool :=
  match depth with
  | O => raise RecursionError
  | S d => dnn_available_body (version_body (dnn_available_rec d))
  end.

Definition dnn_available : M bool := dnn_available_rec recursion_limit.

Definition version : M Z :=
  version_body (dnn_available_rec (pred recursion_limit)).

End Gate.

(** ** Graph construction primitives

    The functions of this part belong to modules of the framework that
    dnn.py imports ([theano.gof], [theano.tensor], [theano.scalar],
    [.basic_ops]).  Only what dnn.py relies on is kept: which node is
    built, on which inputs, with which output type. *)

(** Modelled from the spec: the allocation of a [Variable] object by the
    graph layer; its address is the next free one. *)

Definition new_variable (t : Ty) (o : option Apply) (d : option Const) : M var :=
  fun s =>
    (Ok (List.length (heap s)),
     {| avail := avail s; msg := msg s; version_v := version_v s;
        log := log s; heap := heap s ++ [mkVariable t o d] |}).

(** Modelled from the spec: [op] called on [ins], a new [Apply] node and
    its output variable. *)
Definition call_op (o : Op) (ins : list var) (t : Ty) : M var :=
  new_variable t (Some (mkApply o ins)) None.

Definition deref (v : var) : M PyVariable :=
  fun s =>
    match nth_error (heap s) v with
    | Some x => (Ok x, s)
    | None => (Raise (Exception "no such object"), s)
    end.

Definition type_of (v : var) : M Ty := x <- deref v ;; ret (vtype x).
Definition owner_of (v : var) : M (option Apply) := x <- deref v ;; ret (owner x).

Definition ndim_of (t : Ty) : option nat :=
  match t with
  | GpuArrayType _ n | TensorType _ n => Some n
  | Scalar _ => Some O
  | _ => None
  end.

Definition dtype_of (t : Ty) : option string :=
  match t with
  | GpuArrayType d _ | TensorType d _ | Scalar d => Some d
  | _ => None
  end.

Definition attr {A} (name : string) (o : option A) : M A :=
  match o with
  | Some a => ret a
  | None => raise (Exception ("AttributeError: " ++ name))
  end.

(** Modelled from the spec: [as_gpuarray_variable] of [.basic_ops]; a GPU
    variable is returned as it is, a host tensor is transferred. *)
Definition as_gpuarray_variable (x : var) : M var :=
  t <- type_of x ;;
  match t with
  | GpuArrayType _ _ => ret x
  | TensorType d n => call_op GpuFromHost [x] (GpuArrayType d n)
  | _ => raise (TypeError "cannot convert to a GpuArray variable")
  end.

(** Modelled from the spec: [gpu_contiguous], the contiguity-enforcing
    operator of [.basic_ops]. *)
Definition gpu_contiguous (x : var) : M var :=
  x' <- as_gpuarray_variable x ;;
  t <- type_of x' ;;
  call_op GpuContiguous [x'] t.

(** A value that is a Python integer or a symbolic integer scalar. *)
Inductive IntLike : Type :=
| PyInt (z : Z)
| Sym (v : var).

(** A shape that is a Python sequence or a symbolic vector. *)
Inductive ShapeLike : Type :=
| PyList (l : list IntLike)
| SymVec (v : var).

Definition int64_scalar : Ty := TensorType "int64" 0.

(** Modelled from the spec: a Python integer met by a symbolic
    operation becomes a constant of the tensor layer; dtype inference is
    not kept, integer scalars are int64. *)
Definition as_tensor (a : IntLike) : M var :=
  match a with
  | Sym v => ret v
  | PyInt z => new_variable int64_scalar None (Some (CInt z))
  end.

(** Modelled from the spec: [+], [-], [*], [//] between integers that
    are Python numbers (computed at once) or symbolic (one elementwise
    node). *)
Definition int_binop (o : ScalarOp) (f : Z -> Z -> Result Z) (a b : IntLike)
    : M IntLike :=
  match a, b with
  | PyInt x, PyInt y => z <- lift (f x y) ;; ret (PyInt z)
  | _, _ =>
      va <- as_tensor a ;;
      vb <- as_tensor b ;;
      r <- call_op (Elemwise o) [va; vb] int64_scalar ;;
      ret (Sym r)
  end.

Definition int_add := int_binop Add (fun x y => Ok (x + y)).
Definition int_sub := int_binop Sub (fun x y => Ok (x - y)).
Definition int_mul := int_binop Mul (fun x y => Ok (x * y)).
Definition int_floordiv := int_binop IntDiv floordiv.

(** Modelled from the spec: [x.shape], the shape-extraction operator. *)
Definition shape_of_var (x : var) : M var :=
  call_op Shape [x] (TensorType "int64" 1).

(** Modelled from the spec: [shape_i(x, i, fgraph)] of
    [theano.compile.ops]. *)
Definition shape_i (x : var) (i : nat) : M var :=
  call_op (Shape_i i) [x] int64_scalar.

(** Modelled from the spec: [sh[i]] for a constant index [i], on a
    Python sequence or on a symbolic vector. *)
Definition shape_getitem (sh : ShapeLike) (i : nat) : M IntLike :=
  match sh with
  | PyList l => lift (getitem l i)
  | SymVec v => r <- call_op (Shape_i i) [v] int64_scalar ;; ret (Sym r)
  end.

Fixpoint mapM {A B} (f : A -> M B) (l : list A) : M (list B) :=
  match l with
  | [] => ret []
  | a :: l' => b <- f a ;; bs <- mapM f l' ;; ret (b :: bs)
  end.

(** Modelled from the spec: [GpuAllocEmpty(dtype)] of [.basic_ops]
    called on the entries of [shape]. *)
Definition GpuAllocEmpty_call (dtype : string) (shape : list IntLike) : M var :=
  ins <- mapM as_tensor shape ;;
  call_op (GpuAllocEmpty dtype) ins (GpuArrayType dtype (List.length shape)).

(** Modelled from the spec: [empty_like(x)] of [.basic_ops], which is
    [GpuAllocEmpty(x.type.dtype)] on the entries of [x.shape]. *)
Definition empty_like (x : var) : M var :=
  t <- type_of x ;;
  d <- attr "dtype" (dtype_of t) ;;
  n <- attr "ndim" (ndim_of t) ;;
  sh <- shape_of_var x ;;
  dims <- mapM (fun i => shape_getitem (SymVec sh) i) (seq 0 n) ;;
  GpuAllocEmpty_call d dims.

Definition is_perm_order (order : list (option nat)) (n : nat) : bool :=
  forallb (fun o => match o with Some i => (i <? n)%nat | None => true end) order
  && (List.length (filter (fun o => match o with Some _ => true | None => false end) order)
      =? n)%nat.

(** Modelled from the spec: [x.dimshuffle(...)] of the tensor layer;
    ['x'] is [None]. *)
Definition dimshuffle (x : var) (order : list (option nat)) : M var :=
  t <- type_of x ;;
  match t with
  | GpuArrayType d n =>
      if is_perm_order order n
      then call_op (DimShuffle order) [x] (GpuArrayType d (List.length order))
      else raise (ValueError "dimshuffle")
  | TensorType d n =>
      if is_perm_order order n
      then call_op (DimShuffle order) [x] (TensorType d (List.length order))
      else raise (ValueError "dimshuffle")
  | _ => raise (Exception "AttributeError: dimshuffle")
  end.

(** Modelled from the spec: [x[:, :, ::-1, ::-1]] of the tensor layer. *)
Definition flip_last_two (x : var) : M var :=
  t <- type_of x ;;
  match ndim_of t with
  | Some n => if (4 <=? n)%nat then call_op FlipLastTwo [x] t
              else raise IndexError
  | None => raise (TypeError "not subscriptable")
  end.

(** Modelled from the spec: [x * a] of the tensor layer, for a tensor
    [x] and a scalar [a]. *)
Definition mul (x a : var) : M var :=
  t <- type_of x ;;
  d <- attr "dtype" (dtype_of t) ;;
  n <- attr "ndim" (ndim_of t) ;;
  call_op (Elemwise Mul) [x; a] (TensorType d n).

(** Modelled from the spec: [grad_not_implemented(op, x_pos, x)] of
    [theano.gradient], a variable of [NullType]. *)
Definition grad_not_implemented (o : Op) (x_pos : nat) (x : var) : M var :=
  new_variable (NullType "grad not implemented") None None.

(** Modelled from the spec: [DisconnectedType()()] of
    [theano.gradient]. *)
Definition disconnected : M var := new_variable DisconnectedType None None.

Definition assert (b : bool) (what : string) : M unit :=
  if b then ret tt else raise (AssertionError what).

Definition mem_string (x : string) (l : list string) : bool :=
  existsb (String.eqb x) l.

Definition list_Z_eqb (a b : list Z) : bool :=
  if list_eq_dec Z.eq_dec a b then true else false.

(** Arguments that may be omitted ([None]), a Python number, or a
    variable. *)
Inductive Arg : Type :=
| ANone
| APy (c : Const)
| AVar (v : var).

(** Modelled from the spec: [theano.scalar.constant(x)] for a Python
    number. *)
Definition constant (c : Const) : M var :=
  match c with
  | CInt _ => new_variable (Scalar "int64") None (Some c)
  | CFloat _ => new_variable (Scalar "float64") None (Some c)
  end.

(** Modelled from the spec: [as_scalar(x)] of [theano.scalar]. *)
Definition as_scalar (x : var) : M var :=
  t <- type_of x ;;
  match t with
  | Scalar _ => ret x
  | TensorType d O => call_op (OtherOp "ScalarFromTensor") [x] (Scalar d)
  | _ => raise (TypeError "cannot convert to Scalar")
  end.

(** Modelled from the spec: [x.astype(dtype)] on a scalar variable. *)
Definition astype (x : var) (dtype : string) : M var :=
  call_op (ScalarApply (Cast dtype)) [x] (Scalar dtype).

(** [_zero] and [_one] (lines 295-297): float64 scalar constants. *)
Definition _zero : Const := CFloat 0.
Definition _one : Const := CFloat 1.

(** [ensure_dt] (lines 300-311) *)
Definition ensure_dt (val : Arg) (default : Const) (name dtype : string) : M var :=
  v0 <- match val with
        | ANone => new_variable (Scalar "float64") None (Some default)
        | APy c => constant c
        | AVar v => ret v
        end ;;
  t0 <- type_of v0 ;;
  v1 <- match ndim_of t0 with
        | Some O => as_scalar v0
        | _ => ret v0
        end ;;
  t1 <- type_of v1 ;;
  match t1 with
  | Scalar d =>
      if negb (String.eqb d dtype) then astype v1 dtype else ret v1
  | _ => raise (TypeError (name ++ ": expected a scalar value"))
  end.

Definition conv_desc_type : Ty :=
  CDataType "cudnnConvolutionDescriptor_t" "cudnnDestroyConvolutionDescriptor".
Definition pool_desc_type : Ty :=
  CDataType "cudnnPoolingDescriptor_t" "cudnnDestroyPoolingDescriptor".

Definition is_ctype (t : Ty) (c : string) : bool :=
  match t with
  | CDataType c' _ => String.eqb c' c
  | _ => false
  end.

Definition in_4_5 (n : nat) : bool := (n =? 4)%nat || (n =? 5)%nat.

Definition algo_of (o : Op) : M string :=
  match o with
  | GpuDnnConv a _ | GpuDnnConvGradW a _ | GpuDnnConvGradI a _
  | GpuDnnSoftmax a _ | GpuDnnSoftmaxGrad a _ => ret a
  | _ => raise (Exception "AttributeError: algo")
  end.

Definition inplace_of (o : Op) : M bool :=
  match o with
  | GpuDnnConv _ i | GpuDnnConvGradW _ i | GpuDnnConvGradI _ i => ret i
  | _ => raise (Exception "AttributeError: inplace")
  end.

Definition unpack1 {A} (l : list A) : M A :=
  match l with
  | [a] => ret a
  | _ => raise (ValueError "unpack")
  end.

Definition unpack2 {A} (l : list A) : M (A * A) :=
  match l with
  | [a; b] => ret (a, b)
  | _ => raise (ValueError "unpack")
  end.

Definition unpack6 {A} (l : list A) : M (A * A * A * A * A * A) :=
  match l with
  | [a; b; c; d; e; f] => ret (a, b, c, d, e, f)
  | _ => raise (ValueError "unpack")
  end.

Definition bwd_algos : list string :=
  ["none"; "deterministic"; "fft"; "guess_once"; "guess_on_shape_change";
   "time_once"; "time_on_shape_change"].

Definition fwd_algos : list string :=
  ["none"; "small"; "large"; "fft"; "guess_once"; "guess_on_shape_change";
   "time_once"; "time_on_shape_change"].

Section Operators.

Variable env : Env.

(** ** [GpuDnnConvDesc] (lines 203-293) *)

Definition GpuDnnConvDesc_init (bm : border_mode) (subsample : list Z)
    (conv_mode : string) : M Op :=
  let bm1 := match bm with
             | BMInt n => BMTuple (repeat n (List.length subsample))
             | _ => bm
             end in
  match bm1 with
  | BMTuple t =>
      assert (List.length t =? List.length subsample)%nat
             "len(border_mode) == len(subsample)"
  | _ => ret tt
  end ;;
  match bm1 with
  | BMTuple [] => raise (ValueError "min() arg is an empty sequence")
  | BMTuple t =>
      if forallb (fun p => 0 <=? p) t then ret tt
      else raise (ValueError "invalid border_mode")
  | BMStr s =>
      if mem_string s ["valid"; "full"] then ret tt
      else raise (ValueError "invalid border_mode")
  | BMInt _ => raise (ValueError "invalid border_mode")
  end ;;
  assert ((List.length subsample =? 2)%nat || (List.length subsample =? 3)%nat)
         "len(subsample) in (2, 3)" ;;
  assert (mem_string conv_mode ["conv"; "cross"]) "conv_mode in ('conv', 'cross')" ;;
  ret (GpuDnnConvDesc bm1 subsample conv_mode).

Definition GpuDnnConvDesc_make_node (self : Op) (kern_shape : var) : M var :=
  t <- type_of kern_shape ;;
  match t with
  | TensorType "int64" 1 | GpuArrayType "int64" 1 =>
      call_op self [kern_shape] conv_desc_type
  | _ => raise (TypeError "kern must be 1D shape tensor")
  end.

(** ** [GpuDnnConv] (lines 314-493) *)

Definition GpuDnnConv_init (algo : option string) (inplace : bool) : M Op :=
  let algo := match algo with Some a => a | None => algo_fwd env end in
  v <- version env ;;
  (if v <? 3000 then
     if String.eqb algo "fft" then
       raise (RuntimeError "CuDNN FFT convolution requires CuDNN v3")
     else if mem_string algo ["guess_once"; "guess_on_shape_change"] then
       raise (RuntimeError "CuDNN selection of convolution implementation based on heuristics requires CuDNN v3")
     else if mem_string algo ["time_once"; "time_on_shape_change"] then
       raise (RuntimeError "CuDNN convolution timing requires CuDNN v3")
     else ret tt
   else ret tt) ;;
  assert (mem_string algo fwd_algos) "self.algo in [...]" ;;
  ret (GpuDnnConv algo inplace).

(** The rank tests shared, word for word, by the three [make_node]
    methods; [n1], [n2], [n3] name the arguments in the messages. *)
Definition check_ranks (a b c : Ty) (n1 n2 n3 : string) : M nat :=
  na <- attr "ndim" (ndim_of a) ;;
  (if negb (in_4_5 na) then raise (TypeError (n1 ++ " must be 4D or 5D tensor"))
   else ret tt) ;;
  nb <- attr "ndim" (ndim_of b) ;;
  (if negb (in_4_5 nb) then raise (TypeError (n2 ++ " must be 4D or 5D tensor"))
   else ret tt) ;;
  nc <- attr "ndim" (ndim_of c) ;;
  (if negb (in_4_5 nc) then raise (TypeError (n3 ++ " must be 4D or 5D tensor"))
   else ret tt) ;;
  (if negb (na =? nb)%nat || negb (na =? nc)%nat then
     raise (TypeError "The number of dimensions must match")
   else ret tt) ;;
  ret na.

Definition GpuDnnConv_make_node (self : Op) (img kern output desc : var)
    (alpha beta : Arg) : M var :=
  img <- as_gpuarray_variable img ;;
  kern <- as_gpuarray_variable kern ;;
  output <- as_gpuarray_variable output ;;
  ti <- type_of img ;;
  tk <- type_of kern ;;
  to <- type_of output ;;
  n <- check_ranks ti tk to "img" "kern" "output" ;;
  algo <- algo_of self ;;
  (if (n =? 5)%nat && String.eqb algo "fft" then
     raise (ValueError "convolution algo fft can't be used for 3d convolutions")
   else ret tt) ;;
  td <- type_of desc ;;
  (if negb (is_ctype td "cudnnConvolutionDescriptor_t") then
     raise (TypeError "desc must be cudnnConvolutionDescriptor_t")
   else ret tt) ;;
  dt <- attr "dtype" (dtype_of ti) ;;
  alpha <- ensure_dt alpha _one "alpha" dt ;;
  beta <- ensure_dt beta _zero "beta" dt ;;
  call_op self [img; kern; output; desc; alpha; beta] to.

(** ** [GpuDnnConvGradW] (lines 496-608) *)

Definition GpuDnnConvGradW_init (inplace : bool) (algo : option string) : M Op :=
  let algo := match algo with Some a => a | None => algo_bwd env end in
  assert (mem_string algo bwd_algos) "self.algo in [...]" ;;
  ret (GpuDnnConvGradW algo inplace).

Definition GpuDnnConvGradW_make_node (self : Op) (img topgrad output desc : var)
    (alpha beta : Arg) : M var :=
  img <- as_gpuarray_variable img ;;
  topgrad <- as_gpuarray_variable topgrad ;;
  output <- as_gpuarray_variable output ;;
  ti <- type_of img ;;
  tt' <- type_of topgrad ;;
  to <- type_of output ;;
  n <- check_ranks ti tt' to "img" "topgrad" "output" ;;
  algo <- algo_of self ;;
  (if (n =? 5)%nat && mem_string algo ["fft"; "deterministic"] then
     raise (ValueError "convolution algo can't be used for 3d convolutions")
   else ret tt) ;;
  td <- type_of desc ;;
  (if negb (is_ctype td "cudnnConvolutionDescriptor_t") then
     raise (TypeError "desc must be cudnnConvolutionDescriptor_t")
   else ret tt) ;;
  dt <- attr "dtype" (dtype_of ti) ;;
  alpha <- ensure_dt alpha _one "alpha" dt ;;
  beta <- ensure_dt beta _zero "beta" dt ;;
  call_op self [img; topgrad; output; desc; alpha; beta] to.

(** ** [GpuDnnConvGradI] (lines 611-723) *)

Definition GpuDnnConvGradI_init (inplace : bool) (algo : option string) : M Op :=
  let algo := match algo with Some a => a | None => algo_bwd env end in
  assert (mem_string algo bwd_algos) "self.algo in [...]" ;;
  ret (GpuDnnConvGradI algo inplace).

Definition GpuDnnConvGradI_make_node (self : Op) (kern topgrad output desc : var)
    (alpha beta : Arg) : M var :=
  kern <- as_gpuarray_variable kern ;;
  topgrad <- as_gpuarray_variable topgrad ;;
  output <- as_gpuarray_variable output ;;
  tk <- type_of kern ;;
  tt' <- type_of topgrad ;;
  to <- type_of output ;;
  n <- check_ranks tk tt' to "kern" "topgrad" "output" ;;
  algo <- algo_of self ;;
  (if (n =? 5)%nat && mem_string algo ["fft"; "deterministic"] then
     raise (ValueError "convolution algo can't be used for 3d convolutions")
   else ret tt) ;;
  td <- type_of desc ;;
  (if negb (is_ctype td "cudnnConvolutionDescriptor_t") then
     raise (TypeError "desc must be cudnnConvolutionDescriptor_t")
   else ret tt) ;;
  dt <- attr "dtype" (dtype_of tk) ;;
  alpha <- ensure_dt alpha _one "alpha" dt ;;
  beta <- ensure_dt beta _zero "beta" dt ;;
  call_op self [kern; topgrad; output; desc; alpha; beta] to.

(** [GpuDnnConv.get_out_shape] (lines 441-490).  [ishape] and [kshape]
    "can be symbolic or scalar"; [border_mode] and [subsample] are the
    attributes of a descriptor operator. *)
Definition get_out_shape (ishape kshape : ShapeLike) (bm : border_mode)
    (subsample : list Z) : M (list IntLike) :=
  b <- shape_getitem ishape 0 ;;
  h <- shape_getitem ishape 2 ;;
  w <- shape_getitem ishape 3 ;;
  nb <- shape_getitem kshape 0 ;;
  kh <- shape_getitem kshape 2 ;;
  kw <- shape_getitem kshape 3 ;;
  let nd := List.length subsample in
  (* if nd > 2: d = ishape[4]; kd = ishape[4] *)
  d_kd <- (if (2 <? nd)%nat
           then d <- shape_getitem ishape 4 ;;
                kd <- shape_getitem ishape 4 ;;
                ret (Some d, Some kd)
           else ret (None, None)) ;;
  let d := fst d_kd in
  let kd := snd d_kd in
  sh <- lift (getitem subsample 0) ;;
  sw <- lift (getitem subsample 1) ;;
  sd <- (if (2 <? nd)%nat
         then sd <- lift (getitem subsample 2) ;; ret (Some sd)
         else ret None) ;;
  pads <-
    (if border_mode_is bm "full" then
       padh <- int_sub kh (PyInt 1) ;;
       padw <- int_sub kw (PyInt 1) ;;
       (* if nd > 4: padd = kd - 1 *)
       padd <- (if (4 <? nd)%nat
                then kd' <- lift (local "kd" kd) ;;
                     p <- int_sub kd' (PyInt 1) ;;
                     ret (Some p)
                else ret None) ;;
       ret (padh, padw, padd)
     else
       match bm with
       | BMTuple t =>
           padh <- lift (getitem t 0) ;;
           padw <- lift (getitem t 1) ;;
           padd <- (if (2 <? nd)%nat
                    then p <- lift (getitem t 2) ;; ret (Some (PyInt p))
                    else ret None) ;;
           ret (PyInt padh, PyInt padw, padd)
       | _ =>
           assert (border_mode_is bm "valid") "border_mode == 'valid'" ;;
           ret (PyInt 0, PyInt 0, Some (PyInt 0))
       end) ;;
  let '(padh, padw, padd) := pads in
  (* (h + 2 * padh - kh) // sh + 1 *)
  x <- int_mul (PyInt 2) padh ;;
  x <- int_add h x ;;
  x <- int_sub x kh ;;
  x <- int_floordiv x (PyInt sh) ;;
  r2 <- int_add x (PyInt 1) ;;
  (* (w + 2 * padw - kw) // sw + 1 *)
  y <- int_mul (PyInt 2) padw ;;
  y <- int_add w y ;;
  y <- int_sub y kw ;;
  y <- int_floordiv y (PyInt sw) ;;
  r3 <- int_add y (PyInt 1) ;;
  let res := [b; nb; r2; r3] in
  if (2 <? nd)%nat then
    (* res.append(d + 2 * padd - kd // sd + 1) *)
    d' <- lift (local "d" d) ;;
    padd' <- lift (local "padd" padd) ;;
    z <- int_mul (PyInt 2) padd' ;;
    z <- int_add d' z ;;
    kd' <- lift (local "kd" kd) ;;
    sd' <- lift (local "sd" sd) ;;
    q <- int_floordiv kd' (PyInt sd') ;;
    z <- int_sub z q ;;
    r4 <- int_add z (PyInt 1) ;;
    ret (res ++ [r4])
  else ret res.

(** [GpuDnnConv.grad] (lines 423-435) *)
Definition GpuDnnConv_grad (self : Op) (inp grads : list var) : M (list var) :=
  p <- unpack6 inp ;;
  let '(img, kerns, output, desc, alpha, beta) := p in
  top <- unpack1 grads ;;
  top <- gpu_contiguous top ;;
  opI <- GpuDnnConvGradI_init false None ;;
  e_img <- empty_like img ;;
  d_img <- GpuDnnConvGradI_make_node opI kerns top e_img desc ANone ANone ;;
  opW <- GpuDnnConvGradW_init false None ;;
  e_kerns <- empty_like kerns ;;
  d_kerns <- GpuDnnConvGradW_make_node opW img top e_kerns desc ANone ANone ;;
  d_alpha <- grad_not_implemented self 4 alpha ;;
  d_beta <- grad_not_implemented self 5 beta ;;
  g_img <- mul d_img alpha ;;
  g_kerns <- mul d_kerns alpha ;;
  g_out <- mul top beta ;;
  g_desc <- disconnected ;;
  ret [g_img; g_kerns; g_out; g_desc; d_alpha; d_beta].

(** [GpuDnnConv.connection_pattern] (lines 437-439) *)
Definition GpuDnnConv_connection_pattern (node : var) : list (list Z) :=
  [[1]; [1]; [1]; [0]; [1]; [1]].

(** [infer_shape] of the three convolution operators: [shape[2]]. *)
Definition conv_infer_shape {A} (shape : list A) : Result (list A) :=
  rbind (getitem shape 2) (fun s => Ok [s]).


(** [GpuDnnConvGradI.grad] (lines 646-658) *)
Definition GpuDnnConvGradI_grad (self : Op) (inp grads : list var) : M (list var) :=
  p <- unpack6 inp ;;
  let '(kerns, top, output, desc, alpha, beta) := p in
  img <- unpack1 grads ;;
  img <- gpu_contiguous img ;;
  opW <- GpuDnnConvGradW_init false None ;;
  e_kerns <- empty_like kerns ;;
  d_kerns <- GpuDnnConvGradW_make_node opW img top e_kerns desc ANone ANone ;;
  opF <- GpuDnnConv_init None false ;;
  e_top <- empty_like top ;;
  d_top <- GpuDnnConv_make_node opF img kerns e_top desc ANone ANone ;;
  d_alpha <- grad_not_implemented self 4 alpha ;;
  d_beta <- grad_not_implemented self 5 beta ;;
  g_kerns <- mul d_kerns alpha ;;
  g_top <- mul d_top alpha ;;
  g_out <- mul img beta ;;
  g_desc <- disconnected ;;
  ret [g_kerns; g_top; g_out; g_desc; d_alpha; d_beta].

(** ** [dnn_conv] (lines 726-822) *)

Definition swap01 : list (option nat) := [Some 1; Some 0; Some 2; Some 3]%nat.

Definition dnn_conv (img kerns : var) (bm : border_mode) (subsample : list Z)
    (conv_mode : string) (direction_hint workmem algo : option string) : M var :=
  algo <- match workmem with
          | Some w =>
              match algo with
              | Some _ => raise (ValueError "You can't use both algo and workmem")
              | None => ret (Some w)
              end
          | None => ret algo
          end ;;
  if border_mode_is bm "valid" && list_Z_eqb subsample [1; 1]
     && match direction_hint with
        | Some h => String.eqb h "bprop weights"
        | None => false
        end
  then
    img <- dimshuffle img swap01 ;;
    img <- gpu_contiguous img ;;
    kerns <- (if String.eqb conv_mode "conv" then flip_last_two kerns
              else ret kerns) ;;
    kerns <- dimshuffle kerns swap01 ;;
    kerns <- gpu_contiguous kerns ;;
    i2 <- shape_i img 2 ;;
    k2 <- shape_i kerns 2 ;;
    s <- int_sub (Sym i2) (Sym k2) ;;
    shape2 <- int_add s (PyInt 1) ;;
    i3 <- shape_i img 3 ;;
    k3 <- shape_i kerns 3 ;;
    s <- int_sub (Sym i3) (Sym k3) ;;
    shape3 <- int_add s (PyInt 1) ;;
    ti <- type_of img ;;
    dt <- attr "dtype" (dtype_of ti) ;;
    k1 <- shape_i kerns 1 ;;
    i1 <- shape_i img 1 ;;
    out <- GpuAllocEmpty_call dt [Sym k1; Sym i1; shape2; shape3] ;;
    dop <- GpuDnnConvDesc_init (BMStr "valid") [1; 1] "cross" ;;
    osh <- shape_of_var out ;;
    desc <- GpuDnnConvDesc_make_node dop osh ;;
    gw <- GpuDnnConvGradW_init false None ;;
    conv <- GpuDnnConvGradW_make_node gw img kerns out desc ANone ANone ;;
    r <- dimshuffle conv swap01 ;;
    as_gpuarray_variable r
  else if border_mode_is bm "full" && list_Z_eqb subsample [1; 1]
          && negb match direction_hint with
                  | Some h => String.eqb h "forward!"
                  | None => false
                  end
  then
    img <- gpu_contiguous img ;;
    kerns <- dimshuffle kerns swap01 ;;
    kerns <- gpu_contiguous kerns ;;
    let conv_mode := if String.eqb conv_mode "conv" then "cross" else "conv" in
    i2 <- shape_i img 2 ;;
    k2 <- shape_i kerns 2 ;;
    s <- int_add (Sym i2) (Sym k2) ;;
    shape2 <- int_sub s (PyInt 1) ;;
    i3 <- shape_i img 3 ;;
    k3 <- shape_i kerns 3 ;;
    s <- int_add (Sym i3) (Sym k3) ;;
    shape3 <- int_sub s (PyInt 1) ;;
    ti <- type_of img ;;
    dt <- attr "dtype" (dtype_of ti) ;;
    i0 <- shape_i img 0 ;;
    k1 <- shape_i kerns 1 ;;
    out <- GpuAllocEmpty_call dt [Sym i0; Sym k1; shape2; shape3] ;;
    dop <- GpuDnnConvDesc_init (BMStr "valid") [1; 1] conv_mode ;;
    ksh <- shape_of_var kerns ;;
    desc <- GpuDnnConvDesc_make_node dop ksh ;;
    gi <- GpuDnnConvGradI_init false None ;;
    GpuDnnConvGradI_make_node gi kerns img out desc ANone ANone
  else
    img <- gpu_contiguous img ;;
    kerns <- gpu_contiguous kerns ;;
    dop <- GpuDnnConvDesc_init bm subsample conv_mode ;;
    ksh <- shape_of_var kerns ;;
    desc <- GpuDnnConvDesc_make_node dop ksh ;;
    ish <- shape_of_var img ;;
    ksh' <- shape_of_var kerns ;;
    out_shp <- match dop with
               | GpuDnnConvDesc bm' sub' _ =>
                   get_out_shape (SymVec ish) (SymVec ksh') bm' sub'
               | _ => raise (Exception "AttributeError: border_mode")
               end ;;
    ti <- type_of img ;;
    dt <- attr "dtype" (dtype_of ti) ;;
    out <- GpuAllocEmpty_call dt out_shp ;;
    fop <- GpuDnnConv_init algo false ;;
    GpuDnnConv_make_node fop img kerns out desc ANone ANone.

(** ** [GpuDnnPoolDesc], [GpuDnnPool], [GpuDnnPoolGrad], [dnn_pool]
       (lines 825-1079) *)

Definition GpuDnnPoolDesc_init (ws stride : list Z) (mode : string)
    (pad : list Z) : M Op :=
  let mode := if String.eqb mode "average" then "average_inc_pad" else mode in
  assert (mem_string mode ["max"; "average_inc_pad"; "average_exc_pad"])
         "mode in ('max', 'average_inc_pad', 'average_exc_pad')" ;;
  assert ((List.length ws =? List.length stride)%nat
          && (List.length stride =? List.length pad)%nat)
         "len(ws) == len(stride) and len(stride) == len(pad)" ;;
  assert ((List.length ws =? 2)%nat || (List.length ws =? 3)%nat)
         "len(ws) in (2, 3)" ;;
  (if (List.length ws =? 3)%nat then
     v <- version env ;;
     if v <? 3000 then raise (RuntimeError "CuDNN 3d pooling requires v3")
     else ret tt
   else ret tt) ;;
  ret (GpuDnnPoolDesc ws stride mode pad).

Definition get_ndim (o : Op) : M nat :=
  match o with
  | GpuDnnPoolDesc ws _ _ _ => ret (List.length ws)
  | _ => raise (Exception "AttributeError: get_ndim")
  end.

Definition GpuDnnPoolDesc_make_node (self : Op) : M var :=
  call_op self [] pool_desc_type.

Definition check_pool_rank (t : Ty) (nd : nat) (name : string) : M unit :=
  n <- attr "ndim" (ndim_of t) ;;
  if negb (n =? nd)%nat then raise (TypeError (name ++ " must be a tensor of the descriptor's rank"))
  else ret tt.

Definition GpuDnnPool_make_node (self : Op) (img desc : var) : M var :=
  img <- as_gpuarray_variable img ;;
  ti <- type_of img ;;
  o <- owner_of desc ;;
  match o with
  | Some a => nd <- get_ndim (op a) ;; check_pool_rank ti (nd + 2) "img"
  | None => ret tt
  end ;;
  td <- type_of desc ;;
  (if negb (is_ctype td "cudnnPoolingDescriptor_t") then
     raise (TypeError "desc must be cudnnPoolingDescriptor_t")
   else ret tt) ;;
  call_op self [img; desc] ti.

Definition GpuDnnPoolGrad_make_node (self : Op) (inp out out_grad desc : var)
    : M var :=
  inp <- as_gpuarray_variable inp ;;
  out_grad <- as_gpuarray_variable out_grad ;;
  out <- as_gpuarray_variable out ;;
  ti <- type_of inp ;;
  tg <- type_of out_grad ;;
  to <- type_of out ;;
  o <- owner_of desc ;;
  match o with
  | Some a =>
      nd <- get_ndim (op a) ;;
      check_pool_rank ti (nd + 2) "inp" ;;
      check_pool_rank tg (nd + 2) "out_grad" ;;
      check_pool_rank to (nd + 2) "out"
  | None => ret tt
  end ;;
  td <- type_of desc ;;
  (if negb (is_ctype td "cudnnPoolingDescriptor_t") then
     raise (TypeError "desc must be cudnnPoolingDescriptor_t")
   else ret tt) ;;
  call_op self [inp; out; out_grad; desc] ti.

Definition dnn_pool (img : var) (ws stride : list Z) (mode : string)
    (pad : list Z) : M var :=
  img <- gpu_contiguous img ;;
  dop <- GpuDnnPoolDesc_init ws stride mode pad ;;
  desc <- GpuDnnPoolDesc_make_node dop ;;
  GpuDnnPool_make_node GpuDnnPool img desc.

(** ** [GpuDnnSoftmaxBase], [GpuDnnSoftmax] (lines 1082-1162) *)

Definition GpuDnnSoftmaxBase_init (algo mode : string) : M unit :=
  assert (mem_string algo ["fast"; "accurate"; "log"])
         "algo in ('fast', 'accurate', 'log')" ;;
  (if String.eqb algo "log" then
     v <- version env ;;
     if v <? 3000 then raise (RuntimeError "Need CuDNN v3 for log-softmax")
     else ret tt
   else ret tt) ;;
  assert (mem_string mode ["instance"; "channel"])
         "mode in ('instance', 'channel')".

Definition GpuDnnSoftmax_init (algo mode : string) : M Op :=
  GpuDnnSoftmaxBase_init algo mode ;;
  ret (GpuDnnSoftmax algo mode).

Definition GpuDnnSoftmax_make_node (self : Op) (x : var) : M var :=
  x <- as_gpuarray_variable x ;;
  t <- type_of x ;;
  n <- attr "ndim" (ndim_of t) ;;
  assert (n =? 4)%nat "x.ndim == 4" ;;
  call_op self [x] t.

(** ** The function graph seen by the local optimizers

    A rule reads [v.clients], which the function graph of [theano.gof]
    keeps equal to the list of places where [v] is used: pairs (node,
    input position) for the nodes of the graph, and ("output", position)
    for the graph's outputs. *)

(** Modelled from the spec: the function graph, by the addresses of its
    nodes' outputs and of its outputs. *)

Record FunctionGraph : Type := mkFunctionGraph {
  apply_nodes : list var;
  fg_outputs : list var }.

Inductive client : Type :=
| CNode (node : var) (i : nat)
| COutput (i : nat).

Fixpoint positions (v : var) (l : list var) (i : nat) : list nat :=
  match l with
  | [] => []
  | x :: l' =>
      if (x =? v)%nat then i :: positions v l' (S i) else positions v l' (S i)
  end.

Definition node_inputs (h : list PyVariable) (n : var) : list var :=
  match nth_error h n with
  | Some x => match owner x with Some a => inputs a | None => [] end
  | None => []
  end.

(** Modelled from the spec: [v.clients] in the graph [fg]. *)
Definition clients (fg : FunctionGraph) (h : list PyVariable) (v : var)
    : list client :=
  flat_map (fun n => map (CNode n) (positions v (node_inputs h n) 0))
           (apply_nodes fg)
  ++ map COutput (positions v (fg_outputs fg) 0).

Definition clients_of (fg : FunctionGraph) (v : var) : M (list client) :=
  fun s => (Ok (clients fg (heap s) v), s).

Definition node_of (node : var) : M Apply :=
  o <- owner_of node ;;
  attr "op" o.

(** [l[i] = x] on a Python list. *)
Definition setitem {A} (l : list A) (i : nat) (x : A) : M (list A) :=
  if (i <? List.length l)%nat
  then ret (firstn i l ++ x :: skipn (S i) l)
  else raise IndexError.

Definition is_alloc_empty (o : Op) : option string :=
  match o with
  | GpuAllocEmpty d => Some d
  | _ => None
  end.

(** The test of lines 1251-1254, and the replacement of the destination
    when it holds; the same three lines appear in each in-place rule. *)
Definition fresh_dest (fg : FunctionGraph) (ins : list var) : M (list var) :=
  dest <- lift (getitem ins 2) ;;
  o <- owner_of dest ;;
  match o with
  | Some a =>
      match is_alloc_empty (op a) with
      | Some dtype =>
          cl <- clients_of fg dest ;;
          if (1 <? List.length cl)%nat then
            fresh <- GpuAllocEmpty_call dtype (map Sym (inputs a)) ;;
            setitem ins 2 fresh
          else ret ins
      | None => ret ins
      end
  | None => ret ins
  end.

Definition as_args (l : list var) : M (var * var * var * var * Arg * Arg) :=
  match l with
  | [a; b; c; d] => ret (a, b, c, d, ANone, ANone)
  | [a; b; c; d; e] => ret (a, b, c, d, AVar e, ANone)
  | [a; b; c; d; e; f] => ret (a, b, c, d, AVar e, AVar f)
  | _ => raise (TypeError "make_node() takes from 5 to 7 positional arguments")
  end.

(** [local_dnn_conv_inplace] (lines 1245-1255) *)
Definition local_dnn_conv_inplace (fg : FunctionGraph) (node : var)
    : M (option (list var)) :=
  n <- node_of node ;;
  match op n with
  | GpuDnnConv algo inplace =>
      if inplace then ret None
      else
        ins <- fresh_dest fg (inputs n) ;;
        new_op <- GpuDnnConv_init (Some algo) true ;;
        p <- as_args ins ;;
        let '(a, b, c, d, e, f) := p in
        r <- GpuDnnConv_make_node new_op a b c d e f ;;
        ret (Some [r])
  | _ => ret None
  end.

(** [local_dnn_convgw_inplace] (lines 1258-1268) *)
Definition local_dnn_convgw_inplace (fg : FunctionGraph) (node : var)
    : M (option (list var)) :=
  n <- node_of node ;;
  match op n with
  | GpuDnnConvGradW algo inplace =>
      if inplace then ret None
      else
        ins <- fresh_dest fg (inputs n) ;;
        new_op <- GpuDnnConvGradW_init true (Some algo) ;;
        p <- as_args ins ;;
        let '(a, b, c, d, e, f) := p in
        r <- GpuDnnConvGradW_make_node new_op a b c d e f ;;
        ret (Some [r])
  | _ => ret None
  end.

(** [local_dnn_convgi_inplace] (lines 1271-1281) *)
Definition local_dnn_convgi_inplace (fg : FunctionGraph) (node : var)
    : M (option (list var)) :=
  n <- node_of node ;;
  match op n with
  | GpuDnnConvGradI algo inplace =>
      if inplace then ret None
      else
        ins <- fresh_dest fg (inputs n) ;;
        new_op <- GpuDnnConvGradI_init true (Some algo) ;;
        p <- as_args ins ;;
        let '(a, b, c, d, e, f) := p in
        r <- GpuDnnConvGradI_make_node new_op a b c d e f ;;
        ret (Some [r])
  | _ => ret None
  end.

(** [local_avg_pool_dnn_grad_stride] (lines 1366-1385) *)
Definition local_avg_pool_dnn_grad_stride (node : var) : M (option var) :=
  ok <- dnn_available env ;;
  if negb ok then ret None
  else
    n <- node_of node ;;
    match op n with
    | AveragePoolGrad p =>
        if negb (pp_ignore_border p) then ret None
        else
          io <- unpack2 (inputs n) ;;
          let '(inp, out_grad) := io in
          cg <- gpu_contiguous out_grad ;;
          dop <- GpuDnnPoolDesc_init (pp_ds p) (pp_st p) (pp_mode p) (pp_padding p) ;;
          desc <- GpuDnnPoolDesc_make_node dop ;;
          ci <- gpu_contiguous inp ;;
          r <- GpuDnnPoolGrad_make_node GpuDnnPoolGrad ci cg cg desc ;;
          ret (Some r)
    | _ => raise (Exception "AttributeError: ignore_border")
    end.

Definition is_softmax (o : Op) : option string :=
  match o with
  | GpuDnnSoftmax _ mode => Some mode
  | _ => None
  end.

(** [local_log_softmax_dnn] (lines 1401-1414) *)
Definition local_log_softmax_dnn (fg : FunctionGraph) (node : var)
    : M (option (list var)) :=
  ok <- dnn_available env ;;
  too_old <- (if negb ok then ret true
              else v <- version env ;; ret (v <? 3000)) ;;
  if (too_old : bool) then ret None
  else
    n <- node_of node ;;
    match op n with
    | GpuElemwise Log =>
        x <- lift (getitem (inputs n) 0) ;;
        o <- owner_of x ;;
        match o with
        | Some softmax_node =>
            match is_softmax (op softmax_node) with
            | Some mode =>
                cl <- clients_of fg x ;;
                if (List.length cl =? 1)%nat then
                  new_softmax <- GpuDnnSoftmax_init "log" mode ;;
                  x0 <- lift (getitem (inputs softmax_node) 0) ;;
                  r <- GpuDnnSoftmax_make_node new_softmax x0 ;;
                  ret (Some [r])
                else ret None
            | None => ret None
            end
        | None => ret None
        end
    | _ => ret None
    end.

End Operators.

(** ** Substituting a rewrite's result into the function graph

    The navigator that drives the local optimizers belongs to the
    framework ([theano.gof]).  After a rule returns [new] for [node], it
    replaces the output of [node] by [new] wherever it is used (inputs of
    the graph's nodes, outputs of the graph), drops [node], and imports
    the nodes the rule created, which are the owned variables allocated
    since the rule started. *)

Definition subst_var (old new x : var) : var :=
  if (x =? old)%nat then new else x.

(** Modelled from the spec: the inputs of the graph's nodes after [old]
    is replaced by [new]. *)
Definition redirect (nodes : list var) (old new : var) (h : list PyVariable)
    : list PyVariable :=
  map (fun ix : nat * PyVariable =>
         let (i, x) := ix in
         if existsb (Nat.eqb i) nodes then
           match owner x with
           | Some a =>
               mkVariable (vtype x)
                 (Some (mkApply (op a) (map (subst_var old new) (inputs a))))
                 (data x)
           | None => x
           end
         else x)
      (combine (seq 0 (List.length h)) h).

Definition has_owner (h : list PyVariable) (v : var) : bool :=
  match nth_error h v with
  | Some x => match owner x with Some _ => true | None => false end
  | None => false
  end.

(** Modelled from the spec: the replace operation of the graph, a
    substitution of [new] for [old] that drops the node of [old] and
    imports the nodes created from address [first_new] on. *)
Definition replace_node (fg : FunctionGraph) (old new : var) (first_new : nat)
    (h : list PyVariable) : FunctionGraph * list PyVariable :=
  let imported :=
    filter (has_owner h) (seq first_new (List.length h - first_new)) in
  ({| apply_nodes :=
        filter (fun n => negb (n =? old)%nat) (apply_nodes fg) ++ imported;
      fg_outputs := map (subst_var old new) (fg_outputs fg) |},
   redirect (apply_nodes fg) old new h).

(** Modelled from the spec: one step of the navigator with a local
    optimizer [rule] at [node]; the graph and heap afterwards, or [None]
    when the rule does not fire. *)
Definition rewrite_at (rule : FunctionGraph -> var -> M (option (list var)))
    (fg : FunctionGraph) (node : var) (s : State)
    : option (var * FunctionGraph * list PyVariable) :=
  match rule fg node s with
  | (Ok (Some [new]), s') =>
      let (fg', h') := replace_node fg node new (List.length (heap s)) (heap s') in
      Some (new, fg', h')
  | _ => None
  end.

(** The operator that owns [v], and the variables it reads. *)
Definition op_at (h : list PyVariable) (v : var) : option Op :=
  match nth_error h v with
  | Some x => match owner x with Some a => Some (op a) | None => None end
  | None => None
  end.

(** [destroy_map = {0: [2]}] of an in-place convolution operator: the
    buffer the node at [v] overwrites, if any. *)
Definition destroyed_input (h : list PyVariable) (v : var) : option var :=
  match op_at h v with
  | Some (GpuDnnConv _ true) | Some (GpuDnnConvGradW _ true)
  | Some (GpuDnnConvGradI _ true) => nth_error (node_inputs h v) 2
  | _ => None
  end.

(** ** The shape rule as the specification words it

    For every spatial axis [i],
    [floor((in[i] + 2*p[i] - k[i]) / s[i]) + 1], with [p[i] = k[i] - 1]
    for "full" and [p[i] = 0] for "valid"; batch and channel-out pass
    through. *)

Fixpoint spec_spatial (ins ks ps ss : list Z) : list Z :=
  match ins, ks, ps, ss with
  | i :: ins', k :: ks', p :: ps', s :: ss' =>
      ((i + 2 * p - k) / s + 1) :: spec_spatial ins' ks' ps' ss'
  | _, _, _, _ => []
  end.

Definition spec_pad (bm : border_mode) (kspatial : list Z) : option (list Z) :=
  match bm with
  | BMTuple t => Some t
  | BMStr s =>
      if String.eqb s "full" then Some (map (fun k => k - 1) kspatial)
      else if String.eqb s "valid" then Some (map (fun _ => 0) kspatial)
      else None
  | BMInt _ => None
  end.

Definition spec_out_shape (ishape kshape : list Z) (bm : border_mode)
    (subsample : list Z) : option (list Z) :=
  match ishape, kshape with
  | batch :: _ :: ispatial, cout :: _ :: kspatial =>
      match spec_pad bm kspatial with
      | Some p => Some (batch :: cout :: spec_spatial ispatial kspatial p subsample)
      | None => None
      end
  | _, _ => None
  end.

Definition ints (l : list Z) : list IntLike := map PyInt l.

(** ** Runs of the gate and sample environments *)

(** Sequential calls of the gate, each in the environment of its time. *)
Fixpoint calls (es : list Env) (s : State) : list (Result bool) * State :=
  match es with
  | [] => ([], s)
  | e :: es' =>
      let (r, s1) := dnn_available e s in
      let (rs, s2) := calls es' s1 in
      (r :: rs, s2)
  end.

Definition event_eqb (a b : event) : bool :=
  match a, b with
  | ProbeBody, ProbeBody | CompileProbe, CompileProbe
  | VersionProbe, VersionProbe => true
  | _, _ => false
  end.

Definition count_event (ev : event) (l : list event) : nat :=
  List.length (filter (event_eqb ev) l).

(** A device of compute capability 2.0 on an otherwise working host. *)
Definition env_sm20 : Env :=
  {| pygpu_present := true; device := "cuda0"; bin_id := "sm_20";
     try_flags_comp := true; try_flags_err := EmptyString;
     header_version := 3007; library_version := 3007;
     algo_fwd := "small"; algo_bwd := "none" |}.

(** The same host when the header and the library disagree. *)
Definition env_mixed : Env :=
  {| pygpu_present := true; device := "cuda0"; bin_id := "sm_35";
     try_flags_comp := true; try_flags_err := EmptyString;
     header_version := 3007; library_version := 4004;
     algo_fwd := "small"; algo_bwd := "none" |}.


(** A working host with cuDNN v2 (version 2000), and one with v3. *)
Definition env_v2 : Env :=
  {| pygpu_present := true; device := "cuda0"; bin_id := "sm_35";
     try_flags_comp := true; try_flags_err := EmptyString;
     header_version := 2000; library_version := 2000;
     algo_fwd := "small"; algo_bwd := "none" |}.

Definition env_v3 : Env :=
  {| pygpu_present := true; device := "cuda0"; bin_id := "sm_35";
     try_flags_comp := true; try_flags_err := EmptyString;
     header_version := 3007; library_version := 3007;
     algo_fwd := "small"; algo_bwd := "none" |}.

(** The process state once the gate has been consulted on such a host. *)
Definition state_v2 : State := snd (version env_v2 initial_state).
Definition state_v3 : State := snd (version env_v3 initial_state).

(** The [border_mode] arguments a convolution descriptor accepts for
    [n] strides. *)
Definition valid_border_mode (bm : border_mode) (n : nat) : bool :=
  match bm with
  | BMStr s => mem_string s ["valid"; "full"]
  | BMInt p => 0 <=? p
  | BMTuple t => (List.length t =? n)%nat && forallb (fun p => 0 <=? p) t
  end.

(** [border_mode] as the descriptor stores it: an integer is repeated
    once per stride. *)
Definition stored_border_mode (bm : border_mode) (n : nat) : border_mode :=
  match bm with
  | BMInt p => BMTuple (repeat p n)
  | _ => bm
  end.

(** ** Reading the heap *)

Definition type_at (h : list PyVariable) (v : var) : option Ty :=
  option_map vtype (nth_error h v).

Definition node_at (h : list PyVariable) (v : var) : option Apply :=
  match nth_error h v with
  | Some x => owner x
  | None => None
  end.

(** [v] is a constant of type [t] holding [c]. *)
Definition is_constant (h : list PyVariable) (v : var) (t : Ty) (c : Const)
    : Prop :=
  nth_error h v = Some (mkVariable t None (Some c)).

(** [v] is the float64 scalar constant [c] brought to [dtype]: the
    constant itself when [dtype] is float64, a cast of it otherwise. *)
Definition default_scalar (h : list PyVariable) (v : var) (c : Const)
    (dtype : string) : Prop :=
  (dtype = "float64" /\ is_constant h v (Scalar "float64") c) \/
  (dtype <> "float64" /\
   exists c0,
     nth_error h v
     = Some (mkVariable (Scalar dtype)
               (Some (mkApply (ScalarApply (Cast dtype)) [c0])) None) /\
     is_constant h c0 (Scalar "float64") c).

(** The number a scalar variable denotes when it is a constant or a
    chain of casts of one (casts between floating types keep 0 and 1). *)
Fixpoint scalar_value (fuel : nat) (h : list PyVariable) (v : var) : option Q :=
  match fuel with
  | O => None
  | S f =>
      match nth_error h v with
      | Some (mkVariable _ None (Some (CFloat q))) => Some q
      | Some (mkVariable _ None (Some (CInt z))) => Some (inject_Z z)
      | Some (mkVariable _ (Some (mkApply (ScalarApply (Cast _)) [x])) _) =>
          scalar_value f h x
      | _ => None
      end
  end.

Definition has_type (h : list PyVariable) (v : var) (t : Ty) : Prop :=
  exists o d, nth_error h v = Some (mkVariable t o d).

(** The node at [r] applies [o] to [a], [b], [c], [d] and to two scalars
    that are the defaults of the omitted [alpha] and [beta]: the constants
    1 and 0 in the dtype [dt]. *)
Definition default_scaling_node (h : list PyVariable) (r : var) (o : Op)
    (a b c d : var) (dt : string) : Prop :=
  exists alpha beta,
    node_at h r = Some (mkApply o [a; b; c; d; alpha; beta]) /\
    default_scalar h alpha _one dt /\
    default_scalar h beta _zero dt /\
    scalar_value 2 h alpha = Some 1%Q /\
    scalar_value 2 h beta = Some 0%Q.

(** Modelled from the spec: the numeric kernels are native code outside
    this file; the specification gives their contract as
    [output := alpha * op(primary, secondary) + beta * output]. *)
Definition conv_contract (alpha beta op_result output : Q) : Q :=
  (alpha * op_result + beta * output)%Q.

(** [s'] differs from [s] only by objects added to the heap. *)
Definition grows (s s' : State) : Prop :=
  exists l, s' = {| avail := avail s; msg := msg s; version_v := version_v s;
                    log := log s; heap := heap s ++ l |}.

(** A sample heap: a float32 image (0), kernel (1) and output buffer (2)
    of rank 4, a convolution descriptor (3), two float32 scalars (4, 5)
    and a gradient of the output (6), all graph inputs, on a v3 host. *)
Definition sample_heap : list PyVariable :=
  [ mkVariable (GpuArrayType "float32" 4) None None;
    mkVariable (GpuArrayType "float32" 4) None None;
    mkVariable (GpuArrayType "float32" 4) None None;
    mkVariable conv_desc_type None None;
    mkVariable (Scalar "float32") None None;
    mkVariable (Scalar "float32") None None;
    mkVariable (GpuArrayType "float32" 4) None None ].

Definition sample_state : State :=
  {| avail := Some true; msg := None; version_v := Some 3007;
     log := [ProbeBody; CompileProbe; VersionProbe]; heap := sample_heap |}.

(** [g] is the product [x * a]. *)
Definition scaled_by (h : list PyVariable) (g x a : var) : Prop :=
  node_at h g = Some (mkApply (Elemwise Mul) [x; a]).

(** [v] is an empty buffer of dtype [dt] with [n] dimensions read from
    the shape of [x]. *)
Definition empty_like_of (h : list PyVariable) (v x : var) (dt : string)
    (n : nat) : Prop :=
  exists sh dims,
    node_at h v = Some (mkApply (GpuAllocEmpty dt) dims) /\
    node_at h sh = Some (mkApply Shape [x]) /\
    List.length dims = n /\
    forall i d, nth_error dims i = Some d ->
                node_at h d = Some (mkApply (Shape_i i) [sh]).

(** ** What the shapes of a graph evaluate to *)

Fixpoint mapM_opt {A B} (f : A -> option B) (l : list A) : option (list B) :=
  match l with
  | [] => Some []
  | a :: l' =>
      match f a, mapM_opt f l' with
      | Some b, Some bs => Some (b :: bs)
      | _, _ => None
      end
  end.

Definition permute (order : list (option nat)) (sh : list Z) : option (list Z) :=
  mapM_opt (fun o => match o with
                     | Some i => nth_error sh i
                     | None => Some 1
                     end) order.

Definition eval_binop (o : ScalarOp) (x y : Z) : option Z :=
  match o with
  | Add => Some (x + y)
  | Sub => Some (x - y)
  | Mul => Some (x * y)
  | IntDiv => if y =? 0 then None else Some (x / y)
  | _ => None
  end.

(** Modelled from the spec: given the shapes of the graph inputs, the
    shape of a tensor variable and the value of an integer scalar, as the
    framework's operators (contiguity, transfer, axis permutation, empty
    allocation, shape extraction, integer arithmetic) and the
    [infer_shape] methods of the convolution operators determine them. *)
Fixpoint eval_shape (fuel : nat) (h : list PyVariable)
    (leaf : var -> option (list Z)) (v : var) : option (list Z) :=
  match fuel with
  | O => None
  | S f =>
      match nth_error h v with
      | None => None
      | Some x =>
          match owner x with
          | None => leaf v
          | Some a =>
              match op a, inputs a with
              | GpuContiguous, [y] | GpuFromHost, [y] | HostFromGpu, [y]
              | FlipLastTwo, [y] => eval_shape f h leaf y
              | DimShuffle order, [y] =>
                  match eval_shape f h leaf y with
                  | Some sh => permute order sh
                  | None => None
                  end
              | GpuAllocEmpty _, dims => mapM_opt (eval_int f h leaf) dims
              (* infer_shape of the convolution operators: shape[2] *)
              | GpuDnnConv _ _, [_; _; out; _; _; _]
              | GpuDnnConvGradW _ _, [_; _; out; _; _; _]
              | GpuDnnConvGradI _ _, [_; _; out; _; _; _] =>
                  eval_shape f h leaf out
              | _, _ => None
              end
          end
      end
  end
with eval_int (fuel : nat) (h : list PyVariable)
    (leaf : var -> option (list Z)) (v : var) : option Z :=
  match fuel with
  | O => None
  | S f =>
      match nth_error h v with
      | None => None
      | Some x =>
          match owner x, data x with
          | None, Some (CInt z) => Some z
          | Some a, _ =>
              match op a, inputs a with
              | Shape_i i, [y] =>
                  let t := match node_at h y with
                           | Some (mkApply Shape [t]) => t
                           | _ => y
                           end in
                  match eval_shape f h leaf t with
                  | Some sh => nth_error sh i
                  | None => None
                  end
              | Elemwise o, [p; q] =>
                  match eval_int f h leaf p, eval_int f h leaf q with
                  | Some x, Some y => eval_binop o x y
                  | _, _ => None
                  end
              | _, _ => None
              end
          | _, _ => None
          end
      end
  end.

(** The shapes of scenario 1 and 2 for the image (0) and kernel (1) of
    the sample heap. *)
Definition sample_shapes (v : var) : option (list Z) :=
  match v with
  | 0%nat => Some [2; 3; 8; 8]
  | 1%nat => Some [4; 3; 3; 3]
  | _ => None
  end.

Definition complement_mode (conv_mode : string) : string :=
  if String.eqb conv_mode "conv" then "cross" else "conv".

Definition is_forward_hint (hint : option string) : bool :=
  match hint with
  | Some h => String.eqb h "forward!"
  | None => false
  end.

(** [v] is [x op y] on integer scalars. *)
Definition int_node (h : list PyVariable) (v : var) (o : ScalarOp) (x y : var)
    : Prop :=
  node_at h v = Some (mkApply (Elemwise o) [x; y]).

(** [v] is [shape_i(x, i)]. *)
Definition shape_i_node (h : list PyVariable) (v : var) (i : nat) (x : var)
    : Prop :=
  node_at h v = Some (mkApply (Shape_i i) [x]).

Definition int_const (h : list PyVariable) (v : var) (z : Z) : Prop :=
  nth_error h v = Some (mkVariable int64_scalar None (Some (CInt z))).

(** [t] is a tensor type, on the host or on the GPU, of dtype [d] and
    rank [n]. *)
Definition tensor_type (t : Ty) (d : string) (n : nat) : Prop :=
  t = GpuArrayType d n \/ t = TensorType d n.

(** [x] is [v] itself, or the transfer of [v] to the GPU. *)
Definition on_gpu_of (h : list PyVariable) (x v : var) : Prop :=
  x = v \/ node_at h x = Some (mkApply GpuFromHost [v]).

(** The pooling mode as the descriptor stores it. *)
Definition stored_mode (mode : string) : string :=
  if String.eqb mode "average" then "average_inc_pad" else mode.

(** A heap with a host-side average-pooling gradient node (2) on an
    input (0) and an output gradient (1) of rank 4. *)
Definition avg_pool_params : PoolParams :=
  {| pp_ds := [2; 2]; pp_st := [2; 2]; pp_padding := [0; 0];
     pp_mode := "average_exc_pad"; pp_ignore_border := true |}.

Definition avg_pool_state : State :=
  {| avail := Some true; msg := None; version_v := Some 3007;
     log := [ProbeBody; CompileProbe; VersionProbe];
     heap := [ mkVariable (TensorType "float32" 4) None None;
               mkVariable (TensorType "float32" 4) None None;
               mkVariable (TensorType "float32" 4)
                 (Some (mkApply (AveragePoolGrad avg_pool_params) [0; 1]%nat))
                 None ] |}.

(** A heap with a softmax node (1) on a rank-4 input (0), and the
    elementwise logarithm (2) of its output. *)
Definition softmax_state : State :=
  {| avail := Some true; msg := None; version_v := Some 3007;
     log := [ProbeBody; CompileProbe; VersionProbe];
     heap := [ mkVariable (GpuArrayType "float32" 4) None None;
               mkVariable (GpuArrayType "float32" 4)
                 (Some (mkApply (GpuDnnSoftmax "accurate" "channel") [0%nat]))
                 None;
               mkVariable (GpuArrayType "float32" 4)
                 (Some (mkApply (GpuElemwise Log) [1%nat])) None ] |}.


(** ** The in-place rules: common shape and graph invariants *)

(** The three in-place rules are one function up to the operator they
    match ([sel]), the constructor they call ([init]) and its
    [make_node]. *)
Definition inplace_rule (sel : Op -> option (string * bool))
    (init : string -> M Op)
    (make_node : Op -> var -> var -> var -> var -> Arg -> Arg -> M var)
    (fg : FunctionGraph) (node : var) : M (option (list var)) :=
  n <- node_of node ;;
  match sel (op n) with
  | Some (algo, inplace) =>
      if (inplace : bool) then ret None
      else
        ins <- fresh_dest fg (inputs n) ;;
        new_op <- init algo ;;
        p <- as_args ins ;;
        let '(a, b, c, d, e, f) := p in
        r <- make_node new_op a b c d e f ;;
        ret (Some [r])
  | None => ret None
  end.

Definition sel_conv (o : Op) : option (string * bool) :=
  match o with GpuDnnConv a i => Some (a, i) | _ => None end.
Definition sel_convgw (o : Op) : option (string * bool) :=
  match o with GpuDnnConvGradW a i => Some (a, i) | _ => None end.
Definition sel_convgi (o : Op) : option (string * bool) :=
  match o with GpuDnnConvGradI a i => Some (a, i) | _ => None end.

(** A function graph over a heap: its nodes are distinct, its nodes,
    their inputs and its outputs are allocated, and every empty
    allocation has the type its operator gives it. *)
Definition wf_graph (fg : FunctionGraph) (h : list PyVariable) : Prop :=
  NoDup (apply_nodes fg) /\
  (forall n, In n (apply_nodes fg) ->
     (n < List.length h)%nat /\
     forall x, In x (node_inputs h n) -> (x < List.length h)%nat) /\
  (forall x, In x (fg_outputs fg) -> (x < List.length h)%nat) /\
  (forall v dtype dims,
     node_at h v = Some (mkApply (GpuAllocEmpty dtype) dims) ->
     has_type h v (GpuArrayType dtype (List.length dims)) /\
     forall x, In x dims -> (x < List.length h)%nat).

(** The inputs of a convolution node as [make_node] leaves them. *)
Definition conv_inputs_typed (h : list PyVariable)
    (a b out desc alpha beta : var) (n : nat) : Prop :=
  exists dt dk dto,
    has_type h a (GpuArrayType dt n) /\
    has_type h b (GpuArrayType dk n) /\
    has_type h out (GpuArrayType dto n) /\
    has_type h desc conv_desc_type /\
    has_type h alpha (Scalar dt) /\
    has_type h beta (Scalar dt) /\
    (n = 4 \/ n = 5)%nat.

(** The destination is an empty allocation with more than one client:
    the test of the in-place rules. *)
Definition shared_alloc (fg : FunctionGraph) (h : list PyVariable)
    (dest : var) : Prop :=
  exists dtype dims,
    node_at h dest = Some (mkApply (GpuAllocEmpty dtype) dims) /\
    (1 < List.length (clients fg h dest))%nat.

(** A graph in which the output buffer (2) of a forward convolution (7)
    of the sample heap is a graph input that another node (8) reads too. *)
Definition shared_state : State :=
  {| avail := Some true; msg := None; version_v := Some 3007;
     log := [ProbeBody; CompileProbe; VersionProbe];
     heap := sample_heap ++
       [ mkVariable (GpuArrayType "float32" 4)
           (Some (mkApply (GpuDnnConv "small" false) [0; 1; 2; 3; 4; 5]%nat))
           None;
         mkVariable (GpuArrayType "float32" 4)
           (Some (mkApply (GpuElemwise (OtherScalarOp "exp")) [2%nat])) None ] |}.

Definition shared_fg : FunctionGraph :=
  {| apply_nodes := [7; 8]%nat; fg_outputs := [7; 8]%nat |}.

(** The state with one more object on the heap. *)
Definition push (s : State) (x : PyVariable) : State :=
  {| avail := avail s; msg := msg s; version_v := version_v s;
     log := log s; heap := heap s ++ [x] |}.

(** What an in-place rule achieves on a matched node
    [mk algo false] applied to [i0, i1, dest, desc, al, be]: the navigator
    substitutes one node [r], an application of [mk algo true] to the same
    inputs except perhaps the third, [dest'], which [r] overwrites.  When
    [dest] is a shared empty allocation, [dest'] is a new variable made by
    the same allocation and [r] is its only client; otherwise [dest'] is
    [dest], with as many clients as before.  So a destination that an
    empty allocation produced always ends with exactly one client. *)
Definition inplace_rewrite_ok
    (rule : FunctionGraph -> var -> M (option (list var)))
    (mk : string -> bool -> Op) (fg : FunctionGraph) (s : State)
    (node : var) (algo : string) (i0 i1 dest desc al be : var) : Prop :=
  exists r fg' h' dest',
    rewrite_at rule fg node s = Some (r, fg', h') /\
    op_at h' r = Some (mk algo true) /\
    node_inputs h' r = [i0; i1; dest'; desc; al; be] /\
    destroyed_input h' r = Some dest' /\
    (shared_alloc fg (heap s) dest ->
     dest' = List.length (heap s) /\
     node_at h' dest' = node_at (heap s) dest /\
     List.length (clients fg' h' dest') = 1%nat) /\
    (~ shared_alloc fg (heap s) dest ->
     dest' = dest /\
     List.length (clients fg' h' dest)
     = List.length (clients fg (heap s) dest)) /\
    (forall dtype dims,
       node_at (heap s) dest = Some (mkApply (GpuAllocEmpty dtype) dims) ->
       List.length (clients fg' h' dest') = 1%nat).

(** A graph in which the output buffer (8) of a forward convolution (9)
    is an empty allocation that another node (10) reads too; 7 is the
    integer constant its four dimensions are read from. *)
Definition alloc_state : State :=
  {| avail := Some true; msg := None; version_v := Some 3007;
     log := [ProbeBody; CompileProbe; VersionProbe];
     heap := sample_heap ++
       [ mkVariable int64_scalar None (Some (CInt 8));
         mkVariable (GpuArrayType "float32" 4)
           (Some (mkApply (GpuAllocEmpty "float32") [7; 7; 7; 7]%nat)) None;
         mkVariable (GpuArrayType "float32" 4)
           (Some (mkApply (GpuDnnConv "small" false) [0; 1; 8; 3; 4; 5]%nat))
           None;
         mkVariable (GpuArrayType "float32" 4)
           (Some (mkApply (GpuElemwise (OtherScalarOp "exp")) [8%nat])) None ] |}.

Definition alloc_fg : FunctionGraph :=
  {| apply_nodes := [8; 9; 10]%nat; fg_outputs := [9; 10]%nat |}.

(** A v3 host configured with the deterministic backward algorithm, and
    a heap like the sample one with tensors of rank 5. *)
Definition env_deterministic : Env :=
  {| pygpu_present := true; device := "cuda0"; bin_id := "sm_35";
     try_flags_comp := true; try_flags_err := EmptyString;
     header_version := 3007; library_version := 3007;
     algo_fwd := "small"; algo_bwd := "deterministic" |}.

Definition rank5_state : State :=
  {| avail := Some true; msg := None; version_v := Some 3007;
     log := [ProbeBody; CompileProbe; VersionProbe];
     heap := [ mkVariable (GpuArrayType "float32" 5) None None;
               mkVariable (GpuArrayType "float32" 5) None None;
               mkVariable (GpuArrayType "float32" 5) None None;
               mkVariable conv_desc_type None None;
               mkVariable (Scalar "float32") None None;
               mkVariable (Scalar "float32") None None;
               mkVariable (GpuArrayType "float32" 5) None None ] |}.

(** * The rest of the module

    The functions of dnn.py that the sections above do not reach: the
    optimizer that insists on cuDNN, the macro definitions the operators
    hand to their C code, the shape and gradient rules of pooling and
    softmax, and the remaining local optimizers. *)

From Stdlib Require Import DecimalString.

(** ** [NoCuDNNRaise.apply] (lines 1417-1429) *)

Definition get_msg : M (option string) := fun s => (Ok (msg s), s).

(** [prefix + m] on strings, where [m] may be [None]. *)
Definition str_add (prefix : string) (m : option string) : M string :=
  match m with
  | Some x => ret (prefix ++ x)%string
  | None => raise (TypeError "can only concatenate str (not NoneType) to str")
  end.

Definition newline : string := String (ascii_of_nat 10) EmptyString.

Definition msg_no_cudnn : string :=
  ("cuDNN optimization was enabled, but Theano was not able to use it. We got this error: "
   ++ newline)%string.

Definition NoCuDNNRaise_apply (env : Env) (fgraph : FunctionGraph) : M unit :=
  ok <- dnn_available env ;;
  if negb ok then
    m <- get_msg ;;
    text <- str_add msg_no_cudnn m ;;
    raise (AssertionError text)
  else ret tt.

(** A host without the GPU bindings. *)
Definition env_no_pygpu : Env :=
  {| pygpu_present := false; device := "cpu"; bin_id := EmptyString;
     try_flags_comp := false; try_flags_err := EmptyString;
     header_version := 0; library_version := 0;
     algo_fwd := "small"; algo_bwd := "none" |}.

(** A host whose cuDNN is a release candidate of v3. *)
Definition env_v3_rc : Env :=
  {| pygpu_present := true; device := "cuda0"; bin_id := "sm_35";
     try_flags_comp := true; try_flags_err := EmptyString;
     header_version := 3002; library_version := 3002;
     algo_fwd := "small"; algo_bwd := "none" |}.

(** Whenever the verdict is [False], a message has been recorded. *)
Definition gate_inv (s : State) : Prop :=
  avail s = Some false -> exists m, msg s = Some m.

(** ** [get_op_params]: the macro definitions of the C code *)

(** Python's [str] on an integer. *)
Definition str (z : Z) : string := NilZero.string_of_int (Z.to_int z).

Definition params : Type := list (string * string).

(** [GpuDnnConvDesc.get_op_params] (lines 257-290) *)
Definition GpuDnnConvDesc_get_op_params (self : Op) : Result params :=
  match self with
  | GpuDnnConvDesc bm subsample conv_mode =>
      rbind
        (match bm with
         | BMTuple t =>
             rbind (getitem t 0) (fun p0 =>
             rbind (getitem t 1) (fun p1 =>
             rbind (if (2 <? List.length t)%nat
                    then rbind (getitem t 2) (fun p2 => Ok (str p2))
                    else Ok "0") (fun pad2 =>
             Ok (str p0, str p1, pad2, "2"))))
         | BMStr s =>
             if String.eqb s "valid" then Ok ("0", "0", "0", "1")
             else if String.eqb s "full" then Ok ("0", "0", "0", "0")
             else Raise (ValueError "Invalid value for border_mode")
         | BMInt _ => Raise (ValueError "Invalid value for border_mode")
         end)
        (fun pads =>
           let '(pad0, pad1, pad2, bmode) := pads in
           let conv_flag := if String.eqb conv_mode "conv"
                            then "CUDNN_CONVOLUTION"
                            else "CUDNN_CROSS_CORRELATION" in
           rbind (getitem subsample 0) (fun s0 =>
           rbind (getitem subsample 1) (fun s1 =>
           rbind (if (2 <? List.length subsample)%nat
                  then rbind (getitem subsample 2) (fun s2 => Ok (str s2))
                  else Ok "0") (fun sub2 =>
           Ok [("NB_DIMS", str (Z.of_nat (List.length subsample)));
               ("BORDER_MODE", bmode);
               ("PAD_0", pad0); ("PAD_1", pad1); ("PAD_2", pad2);
               ("CONV_MODE", conv_flag);
               ("SUB_0", str s0); ("SUB_1", str s1); ("SUB_2", sub2)]))))
  | _ => Raise (Exception "AttributeError: border_mode")
  end.

(** The three tests on [self.algo] that close [get_op_params] of the
    forward operator (lines 383-389) and, word for word, sit in the
    version-3 branch of the two gradient operators (lines 565-571 and
    680-686). *)
Definition choose_defs (algo : string) : params :=
  (if mem_string algo ["guess_once"; "guess_on_shape_change";
                       "time_once"; "time_on_shape_change"]
   then [("CHOOSE_ALGO", EmptyString)] else []) ++
  (if mem_string algo ["guess_once"; "time_once"]
   then [("CHOOSE_ONCE", EmptyString)] else []) ++
  (if mem_string algo ["time_once"; "time_on_shape_change"]
   then [("CHOOSE_TIME", EmptyString)] else []).

Definition inplace_defs (inplace : bool) : params :=
  if inplace then [("CONV_INPLACE", "1")] else [].

(** [GpuDnnConv.get_op_params] (lines 367-391) *)
Definition GpuDnnConv_get_op_params (self : Op) : Result params :=
  match self with
  | GpuDnnConv algo inplace =>
      let alg :=
        if String.eqb algo "none"
        then "CUDNN_CONVOLUTION_FWD_ALGO_IMPLICIT_GEMM"
        else if String.eqb algo "small"
        then "CUDNN_CONVOLUTION_FWD_ALGO_IMPLICIT_PRECOMP_GEMM"
        else if String.eqb algo "large"
        then "CUDNN_CONVOLUTION_FWD_ALGO_GEMM"
        else if String.eqb algo "fft"
        then "CUDNN_CONVOLUTION_FWD_ALGO_FFT"
        else "CUDNN_CONVOLUTION_FWD_ALGO_IMPLICIT_PRECOMP_GEMM" in
      Ok (inplace_defs inplace ++ [("CONV_ALGO", alg)] ++ choose_defs algo)
  | _ => Raise (Exception "AttributeError: inplace")
  end.

(** The choice of [alg] in the version-3 branch of a gradient operator:
    a default, then three independent tests. *)
Definition bwd_alg (prefix algo : string) : string :=
  let alg := (prefix ++ "ALGO_0")%string in
  let alg := if String.eqb algo "none" then (prefix ++ "ALGO_0")%string
             else alg in
  let alg := if String.eqb algo "deterministic"
             then (prefix ++ "ALGO_1")%string else alg in
  let alg := if String.eqb algo "fft" then (prefix ++ "ALGO_FFT")%string
             else alg in
  alg.

Definition bwd_get_op_params (env : Env) (prefix algo : string)
    (inplace : bool) : M params :=
  v <- version env ;;
  if v <? 3000 then ret (inplace_defs inplace ++ [("CONV_ALGO", "0")])
  else ret (inplace_defs inplace ++ choose_defs algo
            ++ [("CONV_ALGO", bwd_alg prefix algo)]).

(** [GpuDnnConvGradW.get_op_params] (lines 549-575) *)
Definition GpuDnnConvGradW_get_op_params (env : Env) (self : Op) : M params :=
  match self with
  | GpuDnnConvGradW algo inplace =>
      bwd_get_op_params env "CUDNN_CONVOLUTION_BWD_FILTER_" algo inplace
  | _ => raise (Exception "AttributeError: inplace")
  end.

(** [GpuDnnConvGradI.get_op_params] (lines 664-690) *)
Definition GpuDnnConvGradI_get_op_params (env : Env) (self : Op) : M params :=
  match self with
  | GpuDnnConvGradI algo inplace =>
      bwd_get_op_params env "CUDNN_CONVOLUTION_BWD_DATA_" algo inplace
  | _ => raise (Exception "AttributeError: inplace")
  end.

(** Reading a list of definitions: the value of the first definition of
    [k], and how many times [k] is defined. *)
Fixpoint lookup_param (k : string) (l : params) : option string :=
  match l with
  | [] => None
  | (k', v) :: l' => if String.eqb k' k then Some v else lookup_param k l'
  end.

Definition defined (k : string) (l : params) : bool :=
  existsb (fun kv => String.eqb (fst kv) k) l.

Definition count_param (k : string) (l : params) : nat :=
  List.length (filter (fun kv => String.eqb (fst kv) k) l).

(** ** Pooling: shape and gradient (lines 966-993, 1042-1043) *)

Definition pool_desc_attrs (o : Op) : M (list Z * list Z * list Z) :=
  match o with
  | GpuDnnPoolDesc ws stride _ pad => ret (ws, stride, pad)
  | _ => raise (Exception "AttributeError: ws")
  end.

(** One spatial entry, [(shape[0][i] + 2 * p[j] - w[j]) // s[j] + 1],
    with the subscripts read in the order Python evaluates them. *)
Definition pool_out_dim (sh : list IntLike) (i : nat) (p w s : list Z)
    (j : nat) : M IntLike :=
  x <- lift (getitem sh i) ;;
  pj <- lift (getitem p j) ;;
  y <- int_add x (PyInt (2 * pj)) ;;
  wj <- lift (getitem w j) ;;
  y <- int_sub y (PyInt wj) ;;
  sj <- lift (getitem s j) ;;
  y <- int_floordiv y (PyInt sj) ;;
  int_add y (PyInt 1).

(** [GpuDnnPool.infer_shape] (lines 966-977) *)
Definition GpuDnnPool_infer_shape (node : var) (shape : list (list IntLike))
    : M (list (list IntLike)) :=
  n <- node_of node ;;
  d <- lift (getitem (inputs n) 1) ;;
  o <- owner_of d ;;
  a <- attr "op" o ;;
  wsp <- pool_desc_attrs (op a) ;;
  let '(w, s, p) := wsp in
  sh <- lift (getitem shape 0) ;;
  b <- lift (getitem sh 0) ;;
  c <- lift (getitem sh 1) ;;
  r2 <- pool_out_dim sh 2 p w s 0 ;;
  r3 <- pool_out_dim sh 3 p w s 1 ;;
  let res := [b; c; r2; r3] in
  if (2 <? List.length w)%nat then
    r4 <- pool_out_dim sh 4 p w s 2 ;;
    ret [res ++ [r4]]
  else ret [res].



(** ** Softmax: gradient (lines 1111-1115, 1155-1162, 1184-1189) *)

Definition GpuDnnSoftmaxGrad_init (env : Env) (algo mode : string) : M Op :=
  GpuDnnSoftmaxBase_init env algo mode ;;
  ret (GpuDnnSoftmaxGrad algo mode).

Definition GpuDnnSoftmaxGrad_make_node (self : Op) (dy sm : var) : M var :=
  dy <- as_gpuarray_variable dy ;;
  sm <- as_gpuarray_variable sm ;;
  tdy <- type_of dy ;;
  n <- attr "ndim" (ndim_of tdy) ;;
  assert (n =? 4)%nat "dy.ndim == 4" ;;
  tsm <- type_of sm ;;
  m <- attr "ndim" (ndim_of tsm) ;;
  assert (m =? 4)%nat "sm.ndim == 4" ;;
  call_op self [dy; sm] tsm.

Definition mode_of (o : Op) : M string :=
  match o with
  | GpuDnnSoftmax _ m | GpuDnnSoftmaxGrad _ m => ret m
  | _ => raise (Exception "AttributeError: mode")
  end.

(** [GpuDnnSoftmax.grad] (lines 1155-1162) *)
Definition GpuDnnSoftmax_grad (env : Env) (self : Op) (inp grads : list var)
    : M (list var) :=
  x <- unpack1 inp ;;
  g_sm <- unpack1 grads ;;
  sm <- GpuDnnSoftmax_make_node self x ;;
  algo <- algo_of self ;;
  mode <- mode_of self ;;
  gop <- GpuDnnSoftmaxGrad_init env algo mode ;;
  r <- GpuDnnSoftmaxGrad_make_node gop g_sm sm ;;
  ret [r].

(** ** The local optimizers on nodes of the host graph

    The nodes these rules match carry operators defined elsewhere in the
    framework ([GpuConv], [DownsampleFactorMax], [MaxPoolGrad]); a rule
    reads the operator of the node and its inputs, which is what a
    [HostApply] holds. *)

Inductive HostOp : Type :=
| GpuConv (bm : border_mode) (subsample : list Z)
          (direction_hint : option string)
| DownsampleFactorMax (p : PoolParams)
| MaxPoolGrad (p : PoolParams)
| OtherHostOp (name : string).

Record HostApply : Type := mkHostApply {
  hop : HostOp;
  hinputs : list var }.

Definition hint_is (h : option string) (s : string) : bool :=
  match h with
  | Some x => String.eqb x s
  | None => false
  end.

(** [local_conv_dnn] (lines 1193-1207) *)
Definition local_conv_dnn (env : Env) (node : HostApply)
    : M (option (list var)) :=
  ok <- dnn_available env ;;
  if negb ok then ret None
  else
    match hop node with
    | GpuConv bm subsample direction_hint =>
        if negb (border_mode_is bm "full" || border_mode_is bm "valid")
        then ret None
        else
          p <- unpack2 (hinputs node) ;;
          let '(img, kern) := p in
          rval <- dnn_conv env img kern bm subsample "conv" direction_hint
                    None None ;;
          ret (Some [rval])
    | _ => ret None
    end.

(** [local_conv_dnn_alternative] (lines 1213-1238) *)
Definition local_conv_dnn_alternative (env : Env) (node : HostApply)
    : M (option (list var)) :=
  ok <- dnn_available env ;;
  if negb ok then ret None
  else
    match hop node with
    | GpuConv bm subsample direction_hint =>
        if negb (border_mode_is bm "full" || border_mode_is bm "valid")
           || negb (list_Z_eqb subsample [1; 1])
        then ret None
        else
          p <- unpack2 (hinputs node) ;;
          let '(img, kern) := p in
          let direction_hint :=
            if border_mode_is bm "full" then Some "forward!"
            else if border_mode_is bm "valid" then
              if hint_is direction_hint "bprop weights" then Some "forward"
              else Some "bprop weights"
            else direction_hint in
          rval <- dnn_conv env img kern bm subsample "conv" direction_hint
                    None None ;;
          ret (Some [rval])
    | _ => ret None
    end.

Definition pool_params_of (o : HostOp) : M PoolParams :=
  match o with
  | DownsampleFactorMax p | MaxPoolGrad p => ret p
  | _ => raise (Exception "AttributeError: ignore_border")
  end.

Definition unpack3 {A} (l : list A) : M (A * A * A) :=
  match l with
  | [a; b; c] => ret (a, b, c)
  | _ => raise (ValueError "unpack")
  end.

(** [local_pool_dnn_alternative] (lines 1330-1343) *)
Definition local_pool_dnn_alternative (env : Env) (node : HostApply)
    : M (option var) :=
  ok <- dnn_available env ;;
  if negb ok then ret None
  else
    p <- pool_params_of (hop node) ;;
    if negb (pp_ignore_border p) then ret None
    else
      img <- unpack1 (hinputs node) ;;
      o <- owner_of img ;;
      a <- attr "inputs" o ;;
      x <- lift (getitem (inputs a) 0) ;;
      c <- gpu_contiguous x ;;
      r <- dnn_pool env c (pp_ds p) (pp_st p) (pp_mode p) (pp_padding p) ;;
      ret (Some r).

(** [local_pool_dnn_grad_stride] (lines 1346-1363) *)
Definition local_pool_dnn_grad_stride (env : Env) (node : HostApply)
    : M (option var) :=
  ok <- dnn_available env ;;
  if negb ok then ret None
  else
    p <- pool_params_of (hop node) ;;
    if negb (pp_ignore_border p) then ret None
    else
      io <- unpack3 (hinputs node) ;;
      let '(inp, out, out_grad) := io in
      dop <- GpuDnnPoolDesc_init env (pp_ds p) (pp_st p) (pp_mode p)
               (pp_padding p) ;;
      desc <- GpuDnnPoolDesc_make_node dop ;;
      ci <- gpu_contiguous inp ;;
      co <- gpu_contiguous out ;;
      cg <- gpu_contiguous out_grad ;;
      r <- GpuDnnPoolGrad_make_node GpuDnnPoolGrad ci co cg desc ;;
      ret (Some r).

(** ** The bodies of the merge rules (lines 1291-1327)

    [alpha_merge] and [output_merge] of [.opt_util] call the decorated
    function with the matched node and the inputs of the merged node;
    the function rebuilds the node. *)

Definition local_dnn_conv_alpha_merge (env : Env) (node : var)
    (ins : list var) : M (list var) :=
  n <- node_of node ;;
  algo <- algo_of (op n) ;;
  new_op <- GpuDnnConv_init env (Some algo) false ;;
  p <- as_args ins ;;
  let '(a, b, c, d, e, f) := p in
  r <- GpuDnnConv_make_node new_op a b c d e f ;;
  ret [r].

Definition local_dnn_convw_alpha_merge (env : Env) (node : var)
    (ins : list var) : M (list var) :=
  n <- node_of node ;;
  algo <- algo_of (op n) ;;
  new_op <- GpuDnnConvGradW_init env false (Some algo) ;;
  p <- as_args ins ;;
  let '(a, b, c, d, e, f) := p in
  r <- GpuDnnConvGradW_make_node new_op a b c d e f ;;
  ret [r].

Definition local_dnn_convi_alpha_merge (env : Env) (node : var)
    (ins : list var) : M (list var) :=
  n <- node_of node ;;
  algo <- algo_of (op n) ;;
  new_op <- GpuDnnConvGradI_init env false (Some algo) ;;
  p <- as_args ins ;;
  let '(a, b, c, d, e, f) := p in
  r <- GpuDnnConvGradI_make_node new_op a b c d e f ;;
  ret [r].

(** [inputs[0:2] + (gpu_contiguous(inputs[2]),) + inputs[3:]] *)
Definition contiguous_dest (ins : list var) : M (list var) :=
  x <- lift (getitem ins 2) ;;
  c <- gpu_contiguous x ;;
  ret (firstn 2 ins ++ [c] ++ skipn 3 ins).

Definition local_dnn_conv_output_merge (env : Env) (node : var)
    (ins : list var) : M (list var) :=
  ins <- contiguous_dest ins ;;
  n <- node_of node ;;
  algo <- algo_of (op n) ;;
  new_op <- GpuDnnConv_init env (Some algo) false ;;
  p <- as_args ins ;;
  let '(a, b, c, d, e, f) := p in
  r <- GpuDnnConv_make_node new_op a b c d e f ;;
  ret [r].

Definition local_dnn_convw_output_merge (env : Env) (node : var)
    (ins : list var) : M (list var) :=
  ins <- contiguous_dest ins ;;
  n <- node_of node ;;
  algo <- algo_of (op n) ;;
  new_op <- GpuDnnConvGradW_init env false (Some algo) ;;
  p <- as_args ins ;;
  let '(a, b, c, d, e, f) := p in
  r <- GpuDnnConvGradW_make_node new_op a b c d e f ;;
  ret [r].

Definition local_dnn_convi_output_merge (env : Env) (node : var)
    (ins : list var) : M (list var) :=
  ins <- contiguous_dest ins ;;
  n <- node_of node ;;
  algo <- algo_of (op n) ;;
  new_op <- GpuDnnConvGradI_init env false (Some algo) ;;
  p <- as_args ins ;;
  let '(a, b, c, d, e, f) := p in
  r <- GpuDnnConvGradI_make_node new_op a b c d e f ;;
  ret [r].

(** ** Arguments the constructors accept *)

(** The arguments [GpuDnnConvDesc.__init__] accepts. *)
Definition conv_desc_args_ok (bm : border_mode) (subsample : list Z)
    (conv_mode : string) : bool :=
  valid_border_mode bm (List.length subsample)
  && ((List.length subsample =? 2)%nat || (List.length subsample =? 3)%nat)
  && mem_string conv_mode ["conv"; "cross"].

(** The arguments [GpuDnnPoolDesc.__init__] accepts for a window with
    two axes. *)
Definition pool_desc_args_ok (stride : list Z) (mode : string) (pad : list Z)
    : bool :=
  mem_string (stored_mode mode) ["max"; "average_inc_pad"; "average_exc_pad"]
  && (List.length stride =? 2)%nat && (List.length pad =? 2)%nat.

(** ["BORDER_MODE"] as [get_op_params] encodes it. *)
Definition border_mode_code (bm : border_mode) : string :=
  match bm with
  | BMStr s => if String.eqb s "valid" then "1" else "0"
  | _ => "2"
  end.

Definition conv_desc_keys : list string :=
  ["NB_DIMS"; "BORDER_MODE"; "PAD_0"; "PAD_1"; "PAD_2"; "CONV_MODE";
   "SUB_0"; "SUB_1"; "SUB_2"].

(** ** Well-formed convolution nodes *)

(** The node at [r] applies [o] to [a], [b], [c], [desc] and two
    scalars: three GPU tensors of one rank [n], 4 or 5, a convolution
    descriptor, and scalars of the dtype of the first tensor; its output
    has the type of the third. *)
Definition conv_node_wf (h : list PyVariable) (r : var) (o : Op)
    (a b c desc : var) (n : nat) : Prop :=
  exists al be dt dk dto ff,
    node_at h r = Some (mkApply o [a; b; c; desc; al; be]) /\
    has_type h a (GpuArrayType dt n) /\
    has_type h b (GpuArrayType dk n) /\
    has_type h c (GpuArrayType dto n) /\
    has_type h desc (CDataType "cudnnConvolutionDescriptor_t" ff) /\
    has_type h al (Scalar dt) /\
    has_type h be (Scalar dt) /\
    has_type h r (GpuArrayType dto n) /\
    (n = 4 \/ n = 5)%nat.

(** The ranks [make_node] accepts: all equal, and 4 or 5. *)
Definition ranks_ok (na nb nc : nat) : bool :=
  in_4_5 na && (na =? nb)%nat && (na =? nc)%nat.

(** ** Sample pooling graphs *)

(** A pooling node (2) on a rank-4 image (0) and a descriptor (1) that
    is a graph input, with no owner to read the window from. *)
Definition ownerless_desc_state : State :=
  {| avail := Some true; msg := None; version_v := Some 3007;
     log := [ProbeBody; CompileProbe; VersionProbe];
     heap := [ mkVariable (GpuArrayType "float32" 4) None None;
               mkVariable pool_desc_type None None ] |}.

(** A pooling node (2) on a rank-4 image (0) with a descriptor (1) built
    by the descriptor operator: windows of 2 by 2, stride 2, no pad. *)
Definition pooled_state : State :=
  {| avail := Some true; msg := None; version_v := Some 3007;
     log := [ProbeBody; CompileProbe; VersionProbe];
     heap := [ mkVariable (GpuArrayType "float32" 4) None None;
               mkVariable pool_desc_type
                 (Some (mkApply (GpuDnnPoolDesc [2; 2] [2; 2] "max" [0; 0]) []))
                 None;
               mkVariable (GpuArrayType "float32" 4)
                 (Some (mkApply GpuDnnPool [0; 1]%nat)) None ] |}.

Definition max_pool_params : PoolParams :=
  {| pp_ds := [2; 2]; pp_st := [2; 2]; pp_padding := [0; 0];
     pp_mode := "max"; pp_ignore_border := true |}.

(** A host graph in which a rank-4 tensor that lives on the GPU (0) is
    transferred to the host (1) and pooled there. *)
Definition host_pool_state : State :=
  {| avail := Some true; msg := None; version_v := Some 3007;
     log := [ProbeBody; CompileProbe; VersionProbe];
     heap := [ mkVariable (GpuArrayType "float32" 4) None None;
               mkVariable (TensorType "float32" 4)
                 (Some (mkApply HostFromGpu [0%nat])) None ] |}.

(** A state in which the gate has been found closed. *)
Definition closed_state : State :=
  {| avail := Some false; msg := Some "PyGPU not available";
     version_v := None; log := [ProbeBody];
     heap := [ mkVariable (TensorType "float32" 4) None None;
               mkVariable (TensorType "float32" 4) None None ] |}.

(** The algorithm names [GpuDnnConv.__init__] accepts with version [v]. *)
Definition conv_algo_ok (v : Z) (algo : string) : bool :=
  if v <? 3000 then mem_string algo ["none"; "small"; "large"]
  else mem_string algo fwd_algos.

(** [algo] as a constructor stores it: the argument, or the configured
    default when the argument is [None]. *)
Definition stored_algo (algo : option string) (default : string) : string :=
  match algo with
  | Some a => a
  | None => default
  end.

(** ** What the merge rules build *)

(** The node at [r] applies the out-of-place operator [mk algo false],
    where [algo] is the algorithm of the operator of [node] in [h], to
    [x], [y], [z] (each moved to the GPU when it is not there) and to
    [desc]. *)
Definition rebuilt_from (h h' : list PyVariable) (node r : var)
    (mk : string -> bool -> Op) (x y z desc : var) : Prop :=
  exists o algo a b c n,
    op_at h node = Some o /\
    (forall t, algo_of o t = (Ok algo, t)) /\
    conv_node_wf h' r (mk algo false) a b c desc n /\
    on_gpu_of h' a x /\ on_gpu_of h' b y /\ on_gpu_of h' c z.

(** The sample heap with an in-place forward convolution (7) on it. *)
Definition inplace_state : State :=
  {| avail := Some true; msg := None; version_v := Some 3007;
     log := [ProbeBody; CompileProbe; VersionProbe];
     heap := sample_heap ++
       [ mkVariable (GpuArrayType "float32" 4)
           (Some (mkApply (GpuDnnConv "small" true) [0; 1; 2; 3; 4; 5]%nat))
           None ] |}.

(** ** What the convolution rules return *)

(** [r] is the output of an out-of-place forward convolution. *)
Definition forward_result (h : list PyVariable) (r : var) (algo : string)
    : Prop :=
  op_at h r = Some (GpuDnnConv algo false).

(** [r] is the output, with its first two axes swapped, of an
    out-of-place weight-gradient convolution. *)
Definition weight_result (h : list PyVariable) (r : var) (algo : string)
    : Prop :=
  exists conv,
    node_at h r = Some (mkApply (DimShuffle swap01) [conv]) /\
    op_at h conv = Some (GpuDnnConvGradW algo false).

(** A [GpuConv] node with unit strides on [img] and [kern]. *)
Definition unit_conv (bm : string) (hint : option string) (img kern : var)
    : HostApply :=
  {| hop := GpuConv (BMStr bm) [1; 1] hint; hinputs := [img; kern] |}.

(** ** Scaling factors of a node *)

(** What may be passed for [alpha] or [beta]: nothing, a Python number,
    or a variable that is a scalar or a tensor of rank 0. *)
Definition scalar_arg (h : list PyVariable) (val : Arg) : Prop :=
  match val with
  | AVar v => exists d, has_type h v (Scalar d) \/ has_type h v (TensorType d 0)
  | _ => True
  end.

(** The scalar at [al], passed for [alpha], denotes a number under which
    the contract of the kernels leaves the result of the operation
    unscaled. *)
Definition no_scaling (h : list PyVariable) (al : var) : Prop :=
  exists qa,
    scalar_value 2 h al = Some qa /\
    forall qb r out, (conv_contract qa qb r out == r + qb * out)%Q.

(** The scalar at [be], passed for [beta], denotes a number under which
    the contract adds nothing of the previous content of the output
    buffer. *)
Definition no_accumulation (h : list PyVariable) (be : var) : Prop :=
  exists qb,
    scalar_value 2 h be = Some qb /\
    forall qa r out, (conv_contract qa qb r out == qa * r)%Q.

(** [x'] is where a conversion to the GPU reads [x], of type [t], from:
    [x] itself when it is on the GPU, its transfer when it is on the
    host. *)
Definition moved_to_gpu (h : list PyVariable) (t : Ty) (x' x : var)
    : Prop :=
  match t with
  | GpuArrayType _ _ => x' = x
  | _ => node_at h x' = Some (mkApply GpuFromHost [x])
  end.

(** The scalars at [al] and [be] denote numbers under which the contract
    gives the result of the operation alone. *)
Definition plain_op (h : list PyVariable) (al be : var) : Prop :=
  exists qa qb : Q,
    scalar_value 2 h al = Some qa /\
    scalar_value 2 h be = Some qb /\
    forall r out : Q, (conv_contract qa qb r out == r)%Q.

(** [m] run in [s] builds a node of [self] on [x], [y] and [out], of the
    types [tx], [ty] and [to], each moved to the GPU when it is not
    there, and on [desc]; the primary tensor has dtype [dt] and rank
    [n]; the scalar the node holds for an omitted [alpha] is the
    constant 1 and the scalar it holds for an omitted [beta] is the
    constant 0, each in the dtype [dt]. *)
Definition built_with_defaults (m : M var) (self : Op) (s : State)
    (x y out desc : var) (tx ty to : Ty) (dt : string) (n : nat)
    (alpha beta : Arg) : Prop :=
  exists r s' a b c al be,
    m s = (Ok r, s') /\
    node_at (heap s') r = Some (mkApply self [a; b; c; desc; al; be]) /\
    has_type (heap s') a (GpuArrayType dt n) /\
    moved_to_gpu (heap s') tx a x /\
    moved_to_gpu (heap s') ty b y /\
    moved_to_gpu (heap s') to c out /\
    (alpha = ANone ->
     default_scalar (heap s') al _one dt /\ no_scaling (heap s') al) /\
    (beta = ANone ->
     default_scalar (heap s') be _zero dt /\ no_accumulation (heap s') be) /\
    (alpha = ANone -> beta = ANone -> plain_op (heap s') al be).

(** The sample heap extended by a float64 tensor of rank 4 on the host
    (7) and a float64 tensor of rank 0 on the host (8). *)
Definition host_grad_state : State :=
  {| avail := Some true; msg := None; version_v := Some 3007;
     log := [ProbeBody; CompileProbe; VersionProbe];
     heap := sample_heap ++
       [ mkVariable (TensorType "float64" 4) None None;
         mkVariable (TensorType "float64" 0) None None ] |}.
(** * Theorems *)

#[local] Arguments Z.mul : simpl never.
#[local] Arguments Z.add : simpl never.
#[local] Arguments Z.sub : simpl never.
#[local] Arguments Z.div : simpl never.
#[local] Arguments Z.ltb : simpl never.
#[local] Arguments Z.leb : simpl never.
#[local] Arguments Z.eqb : simpl never.
#[local] Arguments String.eqb : simpl nomatch.
#[local] Arguments mem_string : simpl never.

(** ** Output-shape inference *)

Lemma border_mode_is_full : border_mode_is (BMStr "full") "full" = true.
Proof. reflexivity. Qed.

(** With two spatial axes and non-zero strides the code computes the
    specified formula, for "valid", for "full" and for an explicit pad. *)
Lemma get_out_shape_2d (b c h w nb c' kh kw sh sw : Z) (bm : border_mode)
    (p : list Z) (s : State) :
  sh <> 0 -> sw <> 0 ->
  spec_pad bm [kh; kw] = Some p -> List.length p = 2%nat ->
  exists out,
    spec_out_shape [b; c; h; w] [nb; c'; kh; kw] bm [sh; sw] = Some out /\
    get_out_shape (PyList (ints [b; c; h; w])) (PyList (ints [nb; c'; kh; kw]))
      bm [sh; sw] s = (Ok (ints out), s).
Proof.
  intros Hsh Hsw Hp Hlen.
  unfold spec_out_shape. rewrite Hp.
  destruct p as [|ph [|pw [|? ?]]]; try discriminate. clear Hlen.
  eexists; split; [reflexivity|].
  apply Z.eqb_neq in Hsh, Hsw.
  destruct bm as [m | n | t]; cbn in Hp.
  - destruct (String.eqb m "full") eqn:Ef.
    + apply String.eqb_eq in Ef; subst m. injection Hp as <- <-.
      cbn. unfold floordiv. rewrite Hsh. cbn. unfold floordiv. rewrite Hsw. cbn.
      reflexivity.
    + destruct (String.eqb m "valid") eqn:Ev; try discriminate.
      apply String.eqb_eq in Ev; subst m. injection Hp as <- <-.
      cbn. unfold floordiv. rewrite Hsh. cbn. unfold floordiv. rewrite Hsw. cbn.
      reflexivity.
  - discriminate.
  - injection Hp as ->.
    cbn. unfold floordiv. rewrite Hsh. cbn. unfold floordiv. rewrite Hsw. cbn.
    reflexivity.
Qed.

(** Scenario 1: image [2,3,8,8], kernel [4,3,3,3], "valid", stride (1,1). *)
Example get_out_shape_scenario1 (s : State) :
  get_out_shape (PyList (ints [2; 3; 8; 8])) (PyList (ints [4; 3; 3; 3]))
    (BMStr "valid") [1; 1] s = (Ok (ints [2; 4; 6; 6]), s).
Proof. reflexivity. Qed.

(** With "full" padding the same shapes give [2,4,10,10]. *)
Example get_out_shape_full_2d (s : State) :
  get_out_shape (PyList (ints [2; 3; 8; 8])) (PyList (ints [4; 3; 3; 3]))
    (BMStr "full") [1; 1] s = (Ok (ints [2; 4; 10; 10]), s).
Proof. reflexivity. Qed.

(** C1 (forward output-shape inference, spatial rank 2 or 3).  The rule
    holds for two spatial axes ([get_out_shape_2d]), but not for three:
    on image [2,3,8,8,8], kernel [4,3,3,3,3], stride (1,1,1) the specified
    shape is [2,4,6,6,6] for "valid" and [2,4,10,10,10] for "full", while
    the code returns [2,4,6,6,1] for "valid" (the depth of the kernel is
    read from the image, and the quotient binds tighter than the sum) and
    raises an unbound-local error for "full" (the depth pad is only set
    when there are more than four strides). *)
Theorem C1_get_out_shape_rank3_diverges (s : State) :
  spec_out_shape [2; 3; 8; 8; 8] [4; 3; 3; 3; 3] (BMStr "valid") [1; 1; 1]
    = Some [2; 4; 6; 6; 6] /\
  get_out_shape (PyList (ints [2; 3; 8; 8; 8])) (PyList (ints [4; 3; 3; 3; 3]))
    (BMStr "valid") [1; 1; 1] s = (Ok (ints [2; 4; 6; 6; 1]), s) /\
  spec_out_shape [2; 3; 8; 8; 8] [4; 3; 3; 3; 3] (BMStr "full") [1; 1; 1]
    = Some [2; 4; 10; 10; 10] /\
  get_out_shape (PyList (ints [2; 3; 8; 8; 8])) (PyList (ints [4; 3; 3; 3; 3]))
    (BMStr "full") [1; 1; 1] s = (Raise (UnboundLocalError "padd"), s).
Proof. repeat split. Qed.

(** ** The availability gate *)

#[local] Arguments String.prefix : simpl never.
#[local] Arguments String.ltb : simpl never.
#[local] Arguments String.append : simpl never.
#[local] Arguments drop_last2 : simpl never.

(** A cached verdict is returned as it is, and nothing else happens. *)
Lemma dnn_available_cached (e : Env) (d : nat) (s : State) (b : bool) :
  avail s = Some b -> dnn_available_rec e (S d) s = (Ok b, s).
Proof.
  intros H. cbn. unfold dnn_available_body, bind, get_avail.
  rewrite H. reflexivity.
Qed.

(** The body of [dnn_available] calls [version] only in states where the
    verdict is already [True]. *)
Lemma dnn_available_body_ext (e : Env) (V1 V2 : M Z) (s : State) :
  (forall s', avail s' = Some true -> V1 s' = V2 s') ->
  dnn_available_body e V1 s = dnn_available_body e V2 s.
Proof.
  intros HV. unfold dnn_available_body, bind, get_avail.
  destruct (avail s); [reflexivity|].
  cbn.
  destruct (pygpu_present e); [|reflexivity]. cbn.
  destruct (String.prefix "cuda" (device e)); [|reflexivity]. cbn.
  destruct (drop_last2 (bin_id e) <? "30")%string; cbn;
    (destruct (try_flags_comp e); cbn; [|reflexivity]);
    rewrite HV by reflexivity; reflexivity.
Qed.

Lemma version_body_cached_avail (e : Env) (d : nat) (s : State) :
  avail s = Some true ->
  version_body e (dnn_available_rec e (S d)) s
  = version_body e (dnn_available_rec e 1) s.
Proof.
  intros H. unfold version_body, bind.
  rewrite !(dnn_available_cached e _ s true H). reflexivity.
Qed.

(** Two levels of recursion are all [dnn_available] ever uses, so the
    recursion limit is never reached. *)
Lemma dnn_available_rec_depth (e : Env) (d : nat) (s : State) :
  dnn_available_rec e (S (S d)) s = dnn_available_rec e 2 s.
Proof.
  change (dnn_available_body e (version_body e (dnn_available_rec e (S d))) s
          = dnn_available_body e (version_body e (dnn_available_rec e 1)) s).
  apply dnn_available_body_ext. intros s' H.
  apply version_body_cached_avail, H.
Qed.

Lemma dnn_available_unfold (e : Env) (s : State) :
  dnn_available e s = dnn_available_rec e 2 s.
Proof. apply (dnn_available_rec_depth e 998 s). Qed.

Lemma dnn_available_hit (e : Env) (s : State) (b : bool) :
  avail s = Some b -> dnn_available e s = (Ok b, s).
Proof. intros H. apply (dnn_available_cached e 999 s b H). Qed.

(** [version] once the gate is open and the version is cached. *)
Lemma version_hit (e : Env) (s : State) (v : Z) :
  avail s = Some true -> version_v s = Some v -> version e s = (Ok v, s).
Proof.
  intros Ha Hv. unfold version, version_body, bind.
  change (pred recursion_limit) with (S 998).
  rewrite (dnn_available_cached e 998 s true Ha). cbn.
  unfold get_version_v. rewrite Hv. reflexivity.
Qed.

Lemma calls_cached (es : list Env) (s : State) (b : bool) :
  avail s = Some b -> calls es s = (map (fun _ => Ok b) es, s).
Proof.
  intros H. induction es as [|e es IH]; [reflexivity|].
  cbn [calls map]. rewrite (dnn_available_hit e s b H), IH. reflexivity.
Qed.

(** The first call leaves a verdict behind, whatever its outcome, and
    runs the probe body, the trial compilation and the version probe at
    most once each. *)
Lemma first_call_caches (e : Env) :
  exists b,
    avail (snd (dnn_available e initial_state)) = Some b /\
    count_event ProbeBody (log (snd (dnn_available e initial_state))) = 1%nat /\
    (count_event CompileProbe (log (snd (dnn_available e initial_state))) <= 1)%nat /\
    (count_event VersionProbe (log (snd (dnn_available e initial_state))) <= 1)%nat.
Proof.
  rewrite dnn_available_unfold.
  cbn. unfold dnn_available_body, bind, get_avail. cbn.
  destruct (pygpu_present e); cbn; [|exists false; cbn; auto].
  destruct (String.prefix "cuda" (device e)); cbn; [|exists false; cbn; auto].
  destruct (drop_last2 (bin_id e) <? "30")%string; cbn;
    (destruct (try_flags_comp e); cbn; [|exists false; cbn; auto]);
    unfold version_body, bind, get_avail; cbn;
    (destruct (header_version e =? library_version e); cbn;
     [|exists true; cbn; auto]);
    (destruct (library_version e <? 2000); cbn; [exists false; cbn; auto|]);
    (destruct ((3000 <=? library_version e) && (library_version e <? 3007));
     cbn; [exists false; cbn; auto | exists true; cbn; auto]).
Qed.

(** C5 (memoization of the gate).  Over any sequence of calls, each in
    its own environment, starting from a fresh process: after the first
    call a verdict is cached whatever the outcome was; the log of the
    whole run holds the probe body once, and the trial compilation and
    the version probe at most once; every later call returns the cached
    verdict and changes nothing. *)
Theorem C5_dnn_available_memoized (e : Env) (es : list Env) :
  exists b,
    avail (snd (dnn_available e initial_state)) = Some b /\
    calls es (snd (dnn_available e initial_state))
      = (map (fun _ => Ok b) es, snd (dnn_available e initial_state)) /\
    snd (calls (e :: es) initial_state) = snd (dnn_available e initial_state) /\
    count_event ProbeBody (log (snd (calls (e :: es) initial_state))) = 1%nat /\
    (count_event CompileProbe (log (snd (calls (e :: es) initial_state))) <= 1)%nat /\
    (count_event VersionProbe (log (snd (calls (e :: es) initial_state))) <= 1)%nat.
Proof.
  destruct (first_call_caches e) as (b & Hb & Hp & Hc & Hv).
  exists b. split; [exact Hb|].
  pose proof (calls_cached es _ b Hb) as Hrest.
  split; [exact Hrest|].
  assert (Hs : snd (calls (e :: es) initial_state)
               = snd (dnn_available e initial_state)).
  { cbn [calls]. destruct (dnn_available e initial_state) as [r s1].
    cbn [snd] in *. rewrite Hrest. reflexivity. }
  rewrite Hs. auto.
Qed.

(** The stages that end the probe: no [pygpu], a device that is not
    CUDA, a failed trial compilation, a version below 2000 or a release
    candidate of v3.  Each caches [False] with its own message. *)
Lemma gate_no_pygpu (e : Env) :
  pygpu_present e = false ->
  dnn_available e initial_state
  = (Ok false, {| avail := Some false; msg := Some "PyGPU not available";
                  version_v := None; log := [ProbeBody]; heap := [] |}).
Proof.
  intros H. rewrite dnn_available_unfold. cbn.
  unfold dnn_available_body, bind, get_avail. cbn. rewrite H. reflexivity.
Qed.

Lemma gate_not_cuda (e : Env) :
  pygpu_present e = true -> String.prefix "cuda" (device e) = false ->
  dnn_available e initial_state
  = (Ok false,
     {| avail := Some false;
        msg := Some ("Not on a CUDA device. Got " ++ device e ++ ".")%string;
        version_v := None; log := [ProbeBody]; heap := [] |}).
Proof.
  intros H1 H2. rewrite dnn_available_unfold. cbn.
  unfold dnn_available_body, bind, get_avail. cbn. rewrite H1. cbn.
  rewrite H2. reflexivity.
Qed.

Lemma gate_compile_fails (e : Env) :
  pygpu_present e = true -> String.prefix "cuda" (device e) = true ->
  try_flags_comp e = false ->
  exists m,
    dnn_available e initial_state
    = (Ok false, {| avail := Some false; msg := Some m; version_v := None;
                    log := [ProbeBody; CompileProbe]; heap := [] |}).
Proof.
  intros H1 H2 H3. rewrite dnn_available_unfold. cbn.
  unfold dnn_available_body, bind, get_avail. cbn. rewrite H1. cbn.
  rewrite H2. cbn.
  destruct (drop_last2 (bin_id e) <? "30")%string; cbn; rewrite H3; cbn;
    eexists; reflexivity.
Qed.

Lemma gate_old_version (e : Env) :
  pygpu_present e = true -> String.prefix "cuda" (device e) = true ->
  (drop_last2 (bin_id e) <? "30")%string = false ->
  try_flags_comp e = true ->
  header_version e = library_version e ->
  library_version e < 2000 ->
  dnn_available e initial_state
  = (Raise (RuntimeError msg_old_release),
     {| avail := Some false; msg := Some msg_old_release;
        version_v := Some (library_version e);
        log := [ProbeBody; CompileProbe; VersionProbe]; heap := [] |}).
Proof.
  intros H1 H2 H3 H4 H5 H6. rewrite dnn_available_unfold. cbn.
  unfold dnn_available_body, bind, get_avail. cbn. rewrite H1. cbn.
  rewrite H2. cbn. rewrite H3. cbn. rewrite H4. cbn.
  unfold version_body, bind, get_avail. cbn.
  rewrite H5, Z.eqb_refl. cbn.
  apply Z.ltb_lt in H6. rewrite H6. reflexivity.
Qed.

(** When the compute-capability test fires, the probe goes on: a
    successful compilation and an accepted version overwrite the verdict. *)
Lemma gate_low_capability_falls_through (e : Env) :
  pygpu_present e = true -> String.prefix "cuda" (device e) = true ->
  (drop_last2 (bin_id e) <? "30")%string = true ->
  try_flags_comp e = true ->
  header_version e = library_version e ->
  3007 <= library_version e ->
  dnn_available e initial_state
  = (Ok true,
     {| avail := Some true; msg := Some "Device not supported by cuDNN";
        version_v := Some (library_version e);
        log := [ProbeBody; CompileProbe; VersionProbe]; heap := [] |}).
Proof.
  intros H1 H2 H3 H4 H5 H6. rewrite dnn_available_unfold. cbn.
  unfold dnn_available_body, bind, get_avail. cbn. rewrite H1. cbn.
  rewrite H2. cbn. rewrite H3. cbn. rewrite H4. cbn.
  unfold version_body, bind, get_avail. cbn.
  rewrite H5, Z.eqb_refl. cbn.
  replace (library_version e <? 2000) with false by (symmetry; apply Z.ltb_ge; lia).
  replace (library_version e <? 3007) with false by (symmetry; apply Z.ltb_ge; lia).
  rewrite andb_false_r. reflexivity.
Qed.

(** C6 (every failing stage ends the probe with "unavailable").  On a
    CUDA device whose [bin_id] is "sm_20", below the threshold 3.0, the
    test compares the prefix "sm_" with "30" and does not fire; the probe
    compiles, reads version 3007 and caches "available" with no message.
    Had the test fired, the branch has no return and the verdict is
    overwritten all the same ([gate_low_capability_falls_through]).  A
    header/library mismatch raises while "available" stays cached. *)
Theorem C6_low_compute_capability_is_available :
  (drop_last2 (bin_id env_sm20) <? "30")%string = false /\
  dnn_available env_sm20 initial_state
  = (Ok true, {| avail := Some true; msg := None; version_v := Some 3007;
                 log := [ProbeBody; CompileProbe; VersionProbe]; heap := [] |}) /\
  dnn_available env_mixed initial_state
  = (Raise (RuntimeError "Mixed dnn version."),
     {| avail := Some true; msg := None; version_v := None;
        log := [ProbeBody; CompileProbe; VersionProbe]; heap := [] |}).
Proof.
  split; [reflexivity|].
  split; rewrite dnn_available_unfold; reflexivity.
Qed.

(** ** Descriptor construction *)

Lemma mem_string_cases (x : string) (l : list string) :
  mem_string x l = true -> In x l.
Proof.
  unfold mem_string. intros H. apply existsb_exists in H.
  destruct H as (y & Hy & E). apply String.eqb_eq in E. subst. exact Hy.
Qed.

Lemma state_v2_version :
  version env_v2 state_v2 = (Ok 2000, state_v2).
Proof. reflexivity. Qed.

Lemma state_v3_version :
  version env_v3 state_v3 = (Ok 3007, state_v3).
Proof. reflexivity. Qed.

(** Counterexample to C7 as stated: with cuDNN 2000 detected, below the
    version 3000 that brought N-dimensional descriptors, a convolution
    descriptor with three strides is constructed without error. *)
Lemma C7_conv_descriptor_no_version_check :
  version env_v2 state_v2 = (Ok 2000, state_v2) /\
  GpuDnnConvDesc_init (BMStr "valid") [1; 1; 1] "conv" state_v2
  = (Ok (GpuDnnConvDesc (BMStr "valid") [1; 1; 1] "conv"), state_v2).
Proof. split; reflexivity. Qed.

(** C7, amended.  A pooling descriptor with three axes fails with
    "CuDNN 3d pooling requires v3" when the detected version is below
    3000 and is constructed when it is 3000 or more; a convolution
    descriptor with three strides and valid parameters is constructed
    whatever the version, which it never reads. *)
Theorem C7_descriptor_rank3 (e : Env) (s s' : State) (v : Z)
    (ws stride pad : list Z) (mode : string)
    (bm : border_mode) (sub : list Z) (cm : string) :
  version e s = (Ok v, s') ->
  List.length ws = 3%nat -> List.length stride = 3%nat ->
  List.length pad = 3%nat ->
  mem_string mode ["max"; "average_inc_pad"; "average_exc_pad"] = true ->
  List.length sub = 3%nat -> valid_border_mode bm 3 = true ->
  mem_string cm ["conv"; "cross"] = true ->
  (v < 3000 ->
   GpuDnnPoolDesc_init e ws stride mode pad s
   = (Raise (RuntimeError "CuDNN 3d pooling requires v3"), s')) /\
  (3000 <= v ->
   GpuDnnPoolDesc_init e ws stride mode pad s
   = (Ok (GpuDnnPoolDesc ws stride mode pad), s')) /\
  GpuDnnConvDesc_init bm sub cm s
  = (Ok (GpuDnnConvDesc (stored_border_mode bm 3) sub cm), s).
Proof.
  intros Hv Hws Hst Hpad Hmode Hsub Hbm Hcm.
  assert (Hm : (if String.eqb mode "average" then "average_inc_pad" else mode)
               = mode).
  { apply mem_string_cases in Hmode.
    destruct Hmode as [<-|[<-|[<-|[]]]]; reflexivity. }
  assert (Hpool : forall r,
    (if v <? 3000 then raise (RuntimeError "CuDNN 3d pooling requires v3")
     else ret tt) s' = (r, s') ->
    GpuDnnPoolDesc_init e ws stride mode pad s
    = (match r with Ok _ => Ok (GpuDnnPoolDesc ws stride mode pad)
                  | Raise x => Raise x end, s')).
  { intros r Hr. unfold GpuDnnPoolDesc_init. rewrite Hm.
    unfold bind at 1. unfold assert at 1. rewrite Hmode. cbn [ret].
    rewrite Hws, Hst, Hpad. cbn.
    unfold bind. rewrite Hv.
    destruct (v <? 3000); cbn in Hr |- *; inversion Hr; reflexivity. }
  split; [|split].
  - intros Hlt. apply Z.ltb_lt in Hlt.
    rewrite (Hpool (Raise (RuntimeError "CuDNN 3d pooling requires v3")));
      [reflexivity | rewrite Hlt; reflexivity].
  - intros Hge. apply Z.ltb_ge in Hge.
    rewrite (Hpool (Ok tt)); [reflexivity | rewrite Hge; reflexivity].
  - unfold GpuDnnConvDesc_init. rewrite Hsub. cbn in Hcm.
    destruct bm as [m | p | t]; cbn in Hbm |- *.
    + unfold bind. cbn. rewrite Hbm. cbn. rewrite Hcm. reflexivity.
    + unfold bind. cbn. rewrite Hbm. cbn. rewrite Hcm. reflexivity.
    + apply andb_true_iff in Hbm as [Hl Hp].
      unfold bind. rewrite Hl. cbn.
      destruct t as [|a t]; [discriminate|].
      rewrite Hp. cbn. rewrite Hcm. reflexivity.
Qed.

Lemma C7_descriptor_rank3_witness :
  (2000 < 3000 ->
   GpuDnnPoolDesc_init env_v2 [2; 2; 2] [2; 2; 2] "max" [0; 0; 0] state_v2
   = (Raise (RuntimeError "CuDNN 3d pooling requires v3"), state_v2)) /\
  (3000 <= 2000 ->
   GpuDnnPoolDesc_init env_v2 [2; 2; 2] [2; 2; 2] "max" [0; 0; 0] state_v2
   = (Ok (GpuDnnPoolDesc [2; 2; 2] [2; 2; 2] "max" [0; 0; 0]), state_v2)) /\
  GpuDnnConvDesc_init (BMInt 1) [1; 1; 1] "conv" state_v2
  = (Ok (GpuDnnConvDesc (stored_border_mode (BMInt 1) 3) [1; 1; 1] "conv"),
     state_v2).
Proof.
  apply (C7_descriptor_rank3 env_v2 state_v2 state_v2 2000
           [2; 2; 2] [2; 2; 2] [0; 0; 0] "max" (BMInt 1) [1; 1; 1] "conv");
    reflexivity.
Defined.

(** ** Heap bookkeeping *)

Lemma nth_old {A} (h l : list A) (v : nat) (x : A) :
  nth_error h v = Some x -> nth_error (h ++ l) v = Some x.
Proof.
  intros H. rewrite nth_error_app1; [exact H|].
  apply nth_error_Some. congruence.
Qed.

Lemma nth_new {A} (h l : list A) (k : nat) :
  nth_error (h ++ l) (List.length h + k) = nth_error l k.
Proof.
  rewrite nth_error_app2 by lia. f_equal. lia.
Qed.

Lemma nth_new0 {A} (h l : list A) :
  nth_error (h ++ l) (List.length h) = nth_error l 0.
Proof. rewrite <- (Nat.add_0_r (List.length h)) at 1. apply nth_new. Qed.

Lemma default_scalar_ext (h l : list PyVariable) (v : var) (c : Const)
    (dt : string) :
  default_scalar h v c dt -> default_scalar (h ++ l) v c dt.
Proof.
  intros [[E H] | [E (c0 & H1 & H2)]]; [left | right]; split; auto.
  - apply nth_old, H.
  - exists c0. split; apply nth_old; assumption.
Qed.

(** Bring the heap to the form [h ++ [x1; ...; xn]] and the addresses to
    the form [length h + k]. *)
Ltac heap_norm :=
  repeat match goal with
    | |- context [(?a ++ ?b) ++ ?c] => rewrite <- (app_assoc a b c)
    | |- context [List.length (?a ++ ?b)] => rewrite (length_app a b)
    end;
  cbn [app List.length Nat.add];
  repeat match goal with
    | |- context [(?a + ?b + ?c)%nat] => rewrite <- (Nat.add_assoc a b c)
    end;
  cbn [Nat.add].

Ltac heap_read :=
  repeat match goal with
    | |- context [nth_error (?h ++ ?l) (List.length ?h + ?k)] =>
        rewrite (nth_new h l k)
    | |- context [nth_error (?h ++ ?l) (List.length ?h)] =>
        rewrite (nth_new0 h l)
    | H : nth_error ?h ?v = Some _ |- context [nth_error (?h ++ ?l) ?v] =>
        rewrite (nth_old h l v _ H)
    | H : nth_error ?h ?v = Some _ |- context [nth_error ?h ?v] =>
        rewrite H
    end.

Create HintDb py discriminated.
#[local] Hint Unfold bind ret raise lift type_of owner_of deref new_variable
  call_op attr as_scalar astype constant assert clients_of node_of
  as_gpuarray_variable gpu_contiguous as_tensor shape_of_var shape_i
  shape_getitem mul grad_not_implemented disconnected get_ndim
  check_pool_rank setitem unpack1 unpack2 unpack6 as_args algo_of
  inplace_of int64_scalar : py.

(** Decide the membership tests whose arguments are literals. *)
Ltac eval_lit t :=
  let b := eval vm_compute in t in
  lazymatch b with
  | true => change t with true
  | false => change t with false
  end.

Ltac eval_mem :=
  repeat match goal with
    | |- context [mem_string ?a ?l] => eval_lit (mem_string a l)
    | |- context [String.eqb ?a ?b] => eval_lit (String.eqb a b)
    | |- context [Z.ltb ?a ?b] => eval_lit (Z.ltb a b)
    | |- context [Z.leb ?a ?b] => eval_lit (Z.leb a b)
    end.

(** One round of symbolic execution of [m s] in a goal [m s = _]: reduce
    the left side at its head until it is stuck on a heap access, then
    resolve the access. *)
Ltac head_step :=
  match goal with
  | |- ?L = ?R =>
      let L' := eval lazy head beta iota zeta delta
        -[String.eqb mem_string Z.ltb Z.leb Z.eqb Z.add Z.sub Z.mul Z.div
          nth_error List.length app Nat.add algo_bwd algo_fwd] in L in
      progress change (L' = R)
  end.

Ltac tidy :=
  cbn [heap avail msg version_v log andb negb orb Nat.eqb in_4_5 seq];
  eval_mem; heap_norm; heap_read; cbn [nth_error].

Ltac run := repeat (progress (try head_step; tidy)).

Ltac split_all := repeat match goal with |- _ /\ _ => split end.

(** The facts about a heap [h ++ [x1; ...; xn]] that are read off it. *)
Ltac heap_fact :=
  unfold has_type, node_at, is_constant; cbn [heap];
  heap_norm; heap_read; cbn;
  first [ reflexivity | solve [eauto] | lia ].

(** [ensure_dt] on an omitted argument: one new constant, and one cast
    when the requested dtype is not float64. *)
Lemma ensure_dt_default (c : Const) (name dt : string) (s : State) :
  exists v l,
    ensure_dt ANone c name dt s
    = (Ok v, {| avail := avail s; msg := msg s; version_v := version_v s;
                log := log s; heap := heap s ++ l |}) /\
    default_scalar (heap s ++ l) v c dt.
Proof.
  destruct s as [av ms vv lg h]. cbn [heap avail msg version_v log].
  destruct (String.eqb "float64" dt) eqn:E.
  - exists (List.length h), [mkVariable (Scalar "float64") None (Some c)].
    split; [run; rewrite E; run; reflexivity|].
    apply String.eqb_eq in E. subst dt.
    left. split; [reflexivity | heap_fact].
  - eexists _, [_; _].
    split; [run; rewrite E; run; reflexivity|].
    apply String.eqb_neq in E.
    right. split; [congruence|]. eexists. split; [ heap_fact ..].
Qed.

(** ** Default scaling factors *)

Lemma default_scalar_value (h : list PyVariable) (v : var) (q : Q) (dt : string) :
  default_scalar h v (CFloat q) dt -> scalar_value 2 h v = Some q.
Proof.
  intros [[_ H] | [_ (c0 & H1 & H2)]]; unfold is_constant in *; cbn.
  - rewrite H. reflexivity.
  - rewrite H1, H2. reflexivity.
Qed.

Lemma grows_refl (s : State) : grows s s.
Proof. exists []. destruct s; cbn. rewrite app_nil_r. reflexivity. Qed.

Lemma grows_trans (s1 s2 s3 : State) : grows s1 s2 -> grows s2 s3 -> grows s1 s3.
Proof.
  intros [l1 ->] [l2 ->]. exists (l1 ++ l2). cbn. rewrite app_assoc. reflexivity.
Qed.

Lemma grows_old (s s' : State) (v : var) (x : PyVariable) :
  grows s s' -> nth_error (heap s) v = Some x -> nth_error (heap s') v = Some x.
Proof. intros [l ->] H. cbn. apply nth_old, H. Qed.

Ltac default_scaling_tac E :=
  first
    [ apply String.eqb_eq in E; subst;
      eexists _, _; split_all;
      [ heap_fact
      | left; split; [reflexivity | heap_fact]
      | left; split; [reflexivity | heap_fact]
      | cbn; heap_norm; heap_read; reflexivity
      | cbn; heap_norm; heap_read; reflexivity ]
    | apply String.eqb_neq in E;
      eexists _, _; split_all;
      [ heap_fact
      | right; split; [congruence | eexists; split; [ heap_fact ..]]
      | right; split; [congruence | eexists; split; [ heap_fact ..]]
      | cbn; heap_norm; heap_read; cbn; heap_read; reflexivity
      | cbn; heap_norm; heap_read; cbn; heap_read; reflexivity ] ].

Ltac make_node_default_tac Hn Halgo dt h :=
  let E := fresh "E" in
  destruct (String.eqb "float64" dt) eqn:E;
  (destruct Hn as [-> | ->]; cbn in Halgo);
  (eexists _, _; split;
   [ repeat (progress (run; rewrite ?E, ?Halgo)); reflexivity |]);
  (split; [eexists; reflexivity|]);
  (split; [cbn; lia|]);
  (split; [heap_fact|]);
  default_scaling_tac E.

(** [GpuDnnConv.make_node] with [alpha] and [beta] omitted. *)
Lemma GpuDnnConv_make_node_default (s : State) (algo : string) (inplace : bool)
    (img kern out desc : var) (dt dk dto : string) (n : nat) :
  has_type (heap s) img (GpuArrayType dt n) ->
  has_type (heap s) kern (GpuArrayType dk n) ->
  has_type (heap s) out (GpuArrayType dto n) ->
  has_type (heap s) desc conv_desc_type ->
  (n = 4 \/ n = 5)%nat ->
  ((n =? 5)%nat && String.eqb algo "fft" = false) ->
  exists r s',
    GpuDnnConv_make_node (GpuDnnConv algo inplace) img kern out desc ANone ANone s
    = (Ok r, s') /\
    grows s s' /\ (List.length (heap s) <= r)%nat /\
    has_type (heap s') r (GpuArrayType dto n) /\
    default_scaling_node (heap s') r (GpuDnnConv algo inplace) img kern out desc dt.
Proof.
  intros (oi & di & Hi) (ok & dk' & Hk) (oo & do' & Ho) (od & dd & Hd) Hn Halgo.
  destruct s as [av ms vv lg h]. cbn [heap] in *.
  make_node_default_tac Hn Halgo dt h.
Qed.

Lemma GpuDnnConvGradW_make_node_default (s : State) (algo : string)
    (inplace : bool) (img top out desc : var) (dt dk dto : string) (n : nat) :
  has_type (heap s) img (GpuArrayType dt n) ->
  has_type (heap s) top (GpuArrayType dk n) ->
  has_type (heap s) out (GpuArrayType dto n) ->
  has_type (heap s) desc conv_desc_type ->
  (n = 4 \/ n = 5)%nat ->
  ((n =? 5)%nat && mem_string algo ["fft"; "deterministic"] = false) ->
  exists r s',
    GpuDnnConvGradW_make_node (GpuDnnConvGradW algo inplace) img top out desc
      ANone ANone s = (Ok r, s') /\
    grows s s' /\ (List.length (heap s) <= r)%nat /\
    has_type (heap s') r (GpuArrayType dto n) /\
    default_scaling_node (heap s') r (GpuDnnConvGradW algo inplace)
      img top out desc dt.
Proof.
  intros (oi & di & Hi) (ok & dk' & Hk) (oo & do' & Ho) (od & dd & Hd) Hn Halgo.
  destruct s as [av ms vv lg h]. cbn [heap] in *.
  make_node_default_tac Hn Halgo dt h.
Qed.

Lemma GpuDnnConvGradI_make_node_default (s : State) (algo : string)
    (inplace : bool) (kern top out desc : var) (dt dk dto : string) (n : nat) :
  has_type (heap s) kern (GpuArrayType dt n) ->
  has_type (heap s) top (GpuArrayType dk n) ->
  has_type (heap s) out (GpuArrayType dto n) ->
  has_type (heap s) desc conv_desc_type ->
  (n = 4 \/ n = 5)%nat ->
  ((n =? 5)%nat && mem_string algo ["fft"; "deterministic"] = false) ->
  exists r s',
    GpuDnnConvGradI_make_node (GpuDnnConvGradI algo inplace) kern top out desc
      ANone ANone s = (Ok r, s') /\
    grows s s' /\ (List.length (heap s) <= r)%nat /\
    has_type (heap s') r (GpuArrayType dto n) /\
    default_scaling_node (heap s') r (GpuDnnConvGradI algo inplace)
      kern top out desc dt.
Proof.
  intros (oi & di & Hi) (ok & dk' & Hk) (oo & do' & Ho) (od & dd & Hd) Hn Halgo.
  destruct s as [av ms vv lg h]. cbn [heap] in *.
  make_node_default_tac Hn Halgo dt h.
Qed.

(** ** Composition: what survives when the heap grows *)

Lemma bind_ok {A B} (m : M A) (k : A -> M B) (s s1 : State) (a : A) :
  m s = (Ok a, s1) -> bind m k s = k a s1.
Proof. intros H. unfold bind. rewrite H. reflexivity. Qed.

Lemma has_type_grows (s s' : State) (v : var) (t : Ty) :
  grows s s' -> has_type (heap s) v t -> has_type (heap s') v t.
Proof.
  intros G (o & d & H). exists o, d. eapply grows_old; eassumption.
Qed.

Lemma node_at_grows (s s' : State) (v : var) (a : Apply) :
  grows s s' -> node_at (heap s) v = Some a -> node_at (heap s') v = Some a.
Proof.
  intros G H. unfold node_at in *.
  destruct (nth_error (heap s) v) as [x|] eqn:E; [|discriminate].
  rewrite (grows_old s s' v x G E). exact H.
Qed.

Lemma scaled_by_grows (s s' : State) (g x a : var) :
  grows s s' -> scaled_by (heap s) g x a -> scaled_by (heap s') g x a.
Proof. apply node_at_grows. Qed.

Lemma nth_grows (s s' : State) (v : var) (x : PyVariable) :
  grows s s' -> nth_error (heap s) v = Some x -> nth_error (heap s') v = Some x.
Proof. apply grows_old. Qed.

Lemma default_scalar_grows (s s' : State) (v : var) (c : Const) (dt : string) :
  grows s s' -> default_scalar (heap s) v c dt -> default_scalar (heap s') v c dt.
Proof. intros [l ->]. cbn. apply default_scalar_ext. Qed.

Lemma default_scaling_node_grows (s s' : State) (r : var) (o : Op)
    (a b c d : var) (dt : string) :
  grows s s' ->
  default_scaling_node (heap s) r o a b c d dt ->
  default_scaling_node (heap s') r o a b c d dt.
Proof.
  intros G (al & be & N & Da & Db & _ & _). exists al, be.
  pose proof (default_scalar_grows s s' al _ dt G Da) as Da'.
  pose proof (default_scalar_grows s s' be _ dt G Db) as Db'.
  split_all;
    [ eauto using node_at_grows | exact Da' | exact Db'
     | apply (default_scalar_value _ _ _ dt Da')
     | apply (default_scalar_value _ _ _ dt Db') ].
Qed.

Lemma empty_like_of_grows (s s' : State) (v x : var) (dt : string) (n : nat) :
  grows s s' ->
  empty_like_of (heap s) v x dt n -> empty_like_of (heap s') v x dt n.
Proof.
  intros G (sh & dims & N1 & N2 & L & F). exists sh, dims.
  split_all; eauto using node_at_grows.
Qed.

(** Carry a fact about an earlier heap to the current one. *)
Ltac transport :=
  first
    [ eassumption
    | match goal with
      | G : grows ?s0 ?s1 |- context [heap ?s1] =>
          first
            [ eapply (has_type_grows s0 s1 _ _ G)
            | eapply (node_at_grows s0 s1 _ _ G)
            | eapply (scaled_by_grows s0 s1 _ _ _ G)
            | eapply (default_scaling_node_grows s0 s1 _ _ _ _ _ _ _ G)
            | eapply (empty_like_of_grows s0 s1 _ _ _ _ G)
            | eapply (nth_grows s0 s1 _ _ G) ];
          transport
      end ].

(** ** Specifications of the construction primitives *)

Ltac prim_spec :=
  eexists _, _; split; [run; reflexivity|];
  split; [eexists; reflexivity|];
  split_all; [ heap_fact ..].

Lemma gpu_contiguous_spec (s : State) (x : var) (d : string) (n : nat) :
  has_type (heap s) x (GpuArrayType d n) ->
  exists r s',
    gpu_contiguous x s = (Ok r, s') /\ grows s s' /\
    node_at (heap s') r = Some (mkApply GpuContiguous [x]) /\
    has_type (heap s') r (GpuArrayType d n).
Proof.
  intros (o & c & H). destruct s as [av ms vv lg h]. cbn [heap] in *.
  prim_spec.
Qed.

Lemma mul_spec (s : State) (x a : var) (d : string) (n : nat) :
  has_type (heap s) x (GpuArrayType d n) ->
  exists r s',
    mul x a s = (Ok r, s') /\ grows s s' /\ scaled_by (heap s') r x a.
Proof.
  intros (o & c & H). destruct s as [av ms vv lg h]. cbn [heap] in *.
  unfold scaled_by. prim_spec.
Qed.

Lemma grad_not_implemented_spec (s : State) (o : Op) (i : nat) (x : var) :
  exists r s',
    grad_not_implemented o i x s = (Ok r, s') /\ grows s s' /\
    exists w, nth_error (heap s') r = Some (mkVariable (NullType w) None None).
Proof.
  destruct s as [av ms vv lg h].
  eexists _, _; split; [run; reflexivity|].
  split; [eexists; reflexivity|]. eexists. heap_fact.
Qed.

Lemma disconnected_spec (s : State) :
  exists r s',
    disconnected s = (Ok r, s') /\ grows s s' /\
    nth_error (heap s') r = Some (mkVariable DisconnectedType None None).
Proof. destruct s as [av ms vv lg h]. prim_spec. Qed.

Lemma empty_like_spec (s : State) (x : var) (d : string) (n : nat) :
  has_type (heap s) x (GpuArrayType d n) -> (n = 4 \/ n = 5)%nat ->
  exists r s',
    empty_like x s = (Ok r, s') /\ grows s s' /\
    empty_like_of (heap s') r x d n /\
    has_type (heap s') r (GpuArrayType d n).
Proof.
  intros (o & c & H) Hn. destruct s as [av ms vv lg h]. cbn [heap] in *.
  destruct Hn as [-> | ->];
    (eexists _, _; split; [run; reflexivity|];
     split; [eexists; reflexivity|]; split;
     [ (exists (List.length h); eexists; split_all;
         [ heap_fact | heap_fact | reflexivity
          | let i := fresh "i" in
            let d := fresh "d" in
            let Hd := fresh "H" in
            intros i d Hd;
            repeat (destruct i as [|i]; cbn in Hd; try discriminate);
            injection Hd as <-; heap_fact ])
      | heap_fact ]).
Qed.

Lemma GpuDnnConvGradI_init_ok (e : Env) (inplace : bool) (s : State) :
  mem_string (algo_bwd e) bwd_algos = true ->
  GpuDnnConvGradI_init e inplace None s
  = (Ok (GpuDnnConvGradI (algo_bwd e) inplace), s).
Proof.
  intros H. unfold GpuDnnConvGradI_init, bind, assert. rewrite H. reflexivity.
Qed.

Lemma GpuDnnConvGradW_init_ok (e : Env) (inplace : bool) (s : State) :
  mem_string (algo_bwd e) bwd_algos = true ->
  GpuDnnConvGradW_init e inplace None s
  = (Ok (GpuDnnConvGradW (algo_bwd e) inplace), s).
Proof.
  intros H. unfold GpuDnnConvGradW_init, bind, assert. rewrite H. reflexivity.
Qed.

(** ** The gradient of the forward convolution *)

(** Counterexample to C4 as stated: a forward convolution on tensors of
    rank 5 is a valid application, [output] (2) has the type of an output
    gradient, and the configured backward algorithm is "deterministic";
    [grad] builds [GpuDnnConvGradI()] with that algorithm, whose
    [make_node] refuses rank 5, and raises instead of returning. *)
Lemma C4_grad_rank5_deterministic_raises :
  (exists r s',
     GpuDnnConv_make_node (GpuDnnConv "small" false) 0%nat 1%nat 2%nat 3%nat
       (AVar 4%nat) (AVar 5%nat) rank5_state = (Ok r, s')) /\
  exists s',
    GpuDnnConv_grad env_deterministic (GpuDnnConv "small" false)
      [0; 1; 2; 3; 4; 5]%nat [6%nat] rank5_state
    = (Raise (ValueError "convolution algo can't be used for 3d convolutions"),
       s').
Proof.
  split.
  - eexists _, _. vm_compute. reflexivity.
  - eexists. vm_compute. reflexivity.
Qed.

(** ** The entry point [dnn_conv] *)

#[local] Hint Unfold int_node shape_i_node int_const : py.



Lemma type_of_ok (s : State) (v : var) (t : Ty) :
  has_type (heap s) v t -> type_of v s = (Ok t, s).
Proof.
  intros (o & d & H). unfold type_of, bind, deref. rewrite H. reflexivity.
Qed.

Lemma dimshuffle_spec (s : State) (x : var) (d : string) :
  has_type (heap s) x (GpuArrayType d 4) ->
  exists r s',
    dimshuffle x swap01 s = (Ok r, s') /\ grows s s' /\
    node_at (heap s') r = Some (mkApply (DimShuffle swap01) [x]) /\
    has_type (heap s') r (GpuArrayType d 4).
Proof.
  intros (o & c & H). destruct s as [av ms vv lg h]. cbn [heap] in *.
  prim_spec.
Qed.

Lemma shape_i_spec (s : State) (x : var) (i : nat) :
  exists r s',
    shape_i x i s = (Ok r, s') /\ grows s s' /\
    shape_i_node (heap s') r i x.
Proof. destruct s as [av ms vv lg h]. unfold shape_i_node. prim_spec. Qed.

Lemma shape_of_var_spec (s : State) (x : var) :
  exists r s',
    shape_of_var x s = (Ok r, s') /\ grows s s' /\
    node_at (heap s') r = Some (mkApply Shape [x]) /\
    has_type (heap s') r (TensorType "int64" 1).
Proof. destruct s as [av ms vv lg h]. prim_spec. Qed.

Lemma int_binop_sym_spec (o : ScalarOp) (f : Z -> Z -> Result Z) (s : State)
    (a b : var) :
  exists r s',
    int_binop o f (Sym a) (Sym b) s = (Ok (Sym r), s') /\ grows s s' /\
    int_node (heap s') r o a b.
Proof. destruct s as [av ms vv lg h]. unfold int_node. prim_spec. Qed.

Lemma int_binop_const_spec (o : ScalarOp) (f : Z -> Z -> Result Z) (s : State)
    (a : var) (z : Z) :
  exists r c s',
    int_binop o f (Sym a) (PyInt z) s = (Ok (Sym r), s') /\ grows s s' /\
    int_node (heap s') r o a c /\ int_const (heap s') c z.
Proof.
  destruct s as [av ms vv lg h]. unfold int_node, int_const.
  eexists _, _, _; split; [run; reflexivity|].
  split; [eexists; reflexivity|]. split; [ heap_fact .. ].
Qed.

Lemma alloc4_spec (s : State) (dt : string) (a b c d : var) :
  exists r s',
    GpuAllocEmpty_call dt [Sym a; Sym b; Sym c; Sym d] s = (Ok r, s') /\
    grows s s' /\
    node_at (heap s') r = Some (mkApply (GpuAllocEmpty dt) [a; b; c; d]) /\
    has_type (heap s') r (GpuArrayType dt 4).
Proof. destruct s as [av ms vv lg h]. prim_spec. Qed.

Lemma GpuDnnConvDesc_make_node_spec (s : State) (self : Op) (ksh : var) :
  has_type (heap s) ksh (TensorType "int64" 1) ->
  exists r s',
    GpuDnnConvDesc_make_node self ksh s = (Ok r, s') /\ grows s s' /\
    node_at (heap s') r = Some (mkApply self [ksh]) /\
    has_type (heap s') r conv_desc_type.
Proof.
  intros (o & c & H). destruct s as [av ms vv lg h]. cbn [heap] in *.
  prim_spec.
Qed.

Lemma GpuDnnConvDesc_init_valid11 (cm : string) (s : State) :
  mem_string cm ["conv"; "cross"] = true ->
  GpuDnnConvDesc_init (BMStr "valid") [1; 1] cm s
  = (Ok (GpuDnnConvDesc (BMStr "valid") [1; 1] cm), s).
Proof.
  intros H. unfold GpuDnnConvDesc_init, bind, assert. cbn. eval_mem.
  rewrite H. reflexivity.
Qed.

(** ** Running a composite function through the specifications

    The left side of a goal [m s = _] is reduced at its head with the
    construction primitives kept folded, so that it stops at the next
    primitive call; the call is then rewritten with the equation its
    specification gave. *)
Ltac block_step :=
  match goal with
  | |- ?L = ?R =>
      let L' := eval lazy head beta iota zeta delta
        -[String.eqb mem_string Z.ltb Z.leb Z.eqb Z.add Z.sub Z.mul Z.div
          algo_bwd algo_fwd complement_mode is_forward_hint
          type_of owner_of node_of clients_of
          gpu_contiguous as_gpuarray_variable dimshuffle flip_last_two
          shape_i shape_of_var int_binop GpuAllocEmpty_call empty_like
          mul grad_not_implemented disconnected
          dnn_available version
          GpuDnnConvDesc_init GpuDnnConvDesc_make_node
          GpuDnnConv_init GpuDnnConvGradW_init GpuDnnConvGradI_init
          GpuDnnConv_make_node GpuDnnConvGradW_make_node
          GpuDnnConvGradI_make_node
          GpuDnnPoolDesc_init GpuDnnPoolDesc_make_node
          GpuDnnPool_make_node GpuDnnPoolGrad_make_node
          GpuDnnSoftmax_init GpuDnnSoftmax_make_node fresh_dest] in L in
      progress change (L' = R)
  end.

Ltac use_eq :=
  match goal with
  | E : ?L = (Ok _, _) |- context [?L] => rewrite E
  | |- context [type_of ?v ?s] =>
      rewrite (type_of_ok s v _ ltac:(transport))
  end.

Ltac chain := repeat first [ block_step | use_eq | progress eval_mem ].



(** ** Lifting the average-pooling gradient *)

Lemma grows_avail (s s' : State) : grows s s' -> avail s' = avail s.
Proof. intros [l ->]. reflexivity. Qed.

Lemma grows_version_v (s s' : State) : grows s s' -> version_v s' = version_v s.
Proof. intros [l ->]. reflexivity. Qed.

Lemma node_of_ok (s : State) (v : var) (a : Apply) :
  node_at (heap s) v = Some a -> node_of v s = (Ok a, s).
Proof.
  unfold node_at, node_of, owner_of, bind, deref. intros H.
  destruct (nth_error (heap s) v) as [x|]; [|discriminate].
  cbn. rewrite H. reflexivity.
Qed.

Lemma gpu_contiguous_any_spec (s : State) (x : var) (t : Ty) (d : string)
    (n : nat) :
  has_type (heap s) x t -> tensor_type t d n ->
  exists r s' x',
    gpu_contiguous x s = (Ok r, s') /\ grows s s' /\
    node_at (heap s') r = Some (mkApply GpuContiguous [x']) /\
    has_type (heap s') r (GpuArrayType d n) /\
    on_gpu_of (heap s') x' x.
Proof.
  intros (o & c & H) [-> | ->]; destruct s as [av ms vv lg h];
    cbn [heap] in *; unfold on_gpu_of.
  - exists (List.length h). eexists. exists x.
    split; [run; reflexivity|]. split; [eexists; reflexivity|].
    split_all; [heap_fact | heap_fact | left; reflexivity].
  - exists (List.length h + 1)%nat. eexists. exists (List.length h).
    split; [run; reflexivity|]. split; [eexists; reflexivity|].
    split_all; [heap_fact | heap_fact | right; heap_fact].
Qed.

Lemma GpuDnnPoolDesc_init_ok (e : Env) (s : State) (ws stride pad : list Z)
    (mode : string) (v : Z) :
  mem_string (stored_mode mode) ["max"; "average_inc_pad"; "average_exc_pad"]
  = true ->
  List.length ws = List.length stride ->
  List.length stride = List.length pad ->
  (List.length ws = 2%nat \/
   List.length ws = 3%nat /\ avail s = Some true /\ version_v s = Some v /\
   3000 <= v) ->
  GpuDnnPoolDesc_init e ws stride mode pad s
  = (Ok (GpuDnnPoolDesc ws stride (stored_mode mode) pad), s).
Proof.
  intros Hm L1 L2 Hr. unfold GpuDnnPoolDesc_init. fold (stored_mode mode).
  unfold bind at 1. unfold assert at 1. rewrite Hm. cbn [ret].
  rewrite <- L2, <- L1, Nat.eqb_refl. cbn [andb assert].
  destruct Hr as [L | (L & Ha & Hv & Hge)]; rewrite L; cbn.
  - reflexivity.
  - unfold bind. rewrite (version_hit e s v Ha Hv).
    apply Z.ltb_ge in Hge. rewrite Hge. reflexivity.
Qed.

Lemma GpuDnnPoolDesc_make_node_spec (s : State) (self : Op) :
  exists r s',
    GpuDnnPoolDesc_make_node self s = (Ok r, s') /\ grows s s' /\
    node_at (heap s') r = Some (mkApply self []) /\
    has_type (heap s') r pool_desc_type.
Proof. destruct s as [av ms vv lg h]. prim_spec. Qed.

Lemma GpuDnnPoolGrad_make_node_spec (s : State) (inp out out_grad desc : var)
    (di do_ dg : string) (ws stride pad : list Z) (mode : string) :
  has_type (heap s) inp (GpuArrayType di (List.length ws + 2)) ->
  has_type (heap s) out (GpuArrayType do_ (List.length ws + 2)) ->
  has_type (heap s) out_grad (GpuArrayType dg (List.length ws + 2)) ->
  has_type (heap s) desc pool_desc_type ->
  node_at (heap s) desc = Some (mkApply (GpuDnnPoolDesc ws stride mode pad) []) ->
  exists r s',
    GpuDnnPoolGrad_make_node GpuDnnPoolGrad inp out out_grad desc s
    = (Ok r, s') /\ grows s s' /\
    node_at (heap s') r
    = Some (mkApply GpuDnnPoolGrad [inp; out; out_grad; desc]).
Proof.
  intros (oi & ci & Hi) (oo & co & Ho) (og & cg & Hg) (od & cd & Hd) Nd.
  destruct s as [av ms vv lg h]. cbn [heap] in *.
  unfold node_at in Nd. rewrite Hd in Nd. cbn in Nd. subst od.
  eexists _, _; split;
    [ repeat (progress (run; rewrite ?Nat.eqb_refl)); reflexivity |].
  split; [eexists; reflexivity|]. heap_fact.
Qed.



(** ** The log-softmax fusion *)



Lemma owner_of_ok (s : State) (v : var) (x : PyVariable) :
  nth_error (heap s) v = Some x -> owner_of v s = (Ok (owner x), s).
Proof.
  intros H. unfold owner_of, bind, deref. rewrite H. reflexivity.
Qed.

Lemma node_at_inv (h : list PyVariable) (v : var) (a : Apply) :
  node_at h v = Some a ->
  exists x, nth_error h v = Some x /\ owner x = Some a.
Proof.
  unfold node_at. destruct (nth_error h v) as [x|]; [|discriminate].
  intros H. exists x. auto.
Qed.





(** ** Clients before and after a substitution *)

Lemma nth_error_combine_seq {A} (h : list A) (a i : nat) :
  nth_error (combine (seq a (List.length h)) h) i
  = option_map (fun x => ((a + i)%nat, x)) (nth_error h i).
Proof.
  revert a i. induction h as [|x h IH]; intros a i.
  - destruct i; reflexivity.
  - destruct i as [|i]; cbn.
    + rewrite Nat.add_0_r. reflexivity.
    + rewrite IH. rewrite Nat.add_succ_r. reflexivity.
Qed.

Lemma nth_error_redirect (nodes : list var) (old new : var)
    (h : list PyVariable) (i : nat) :
  nth_error (redirect nodes old new h) i
  = option_map
      (fun x =>
         if existsb (Nat.eqb i) nodes then
           match owner x with
           | Some a =>
               mkVariable (vtype x)
                 (Some (mkApply (op a) (map (subst_var old new) (inputs a))))
                 (data x)
           | None => x
           end
         else x)
      (nth_error h i).
Proof.
  unfold redirect. rewrite nth_error_map, nth_error_combine_seq.
  destruct (nth_error h i); reflexivity.
Qed.

Lemma node_inputs_redirect (nodes : list var) (old new : var)
    (h : list PyVariable) (n : var) :
  node_inputs (redirect nodes old new h) n
  = if existsb (Nat.eqb n) nodes
    then map (subst_var old new) (node_inputs h n)
    else node_inputs h n.
Proof.
  unfold node_inputs. rewrite nth_error_redirect.
  destruct (nth_error h n) as [[t o d]|]; cbn.
  - destruct (existsb (Nat.eqb n) nodes); [|reflexivity].
    destruct o; reflexivity.
  - destruct (existsb (Nat.eqb n) nodes); reflexivity.
Qed.

Lemma op_at_redirect (nodes : list var) (old new : var)
    (h : list PyVariable) (n : var) :
  op_at (redirect nodes old new h) n = op_at h n.
Proof.
  unfold op_at. rewrite nth_error_redirect.
  destruct (nth_error h n) as [[t o d]|]; cbn; [|reflexivity].
  destruct (existsb (Nat.eqb n) nodes); [|reflexivity].
  destruct o; reflexivity.
Qed.

Lemma existsb_eqb_false (n : nat) (l : list nat) :
  ~ In n l -> existsb (Nat.eqb n) l = false.
Proof.
  intros H. destruct (existsb (Nat.eqb n) l) eqn:E; [|reflexivity].
  apply existsb_exists in E. destruct E as (x & Hx & Ex).
  apply Nat.eqb_eq in Ex. subst. contradiction.
Qed.

Lemma existsb_eqb_true (n : nat) (l : list nat) :
  In n l -> existsb (Nat.eqb n) l = true.
Proof.
  intros H. apply existsb_exists. exists n. split; [exact H|].
  apply Nat.eqb_refl.
Qed.

Lemma node_at_redirect_other (nodes : list var) (old new : var)
    (h : list PyVariable) (n : var) :
  ~ In n nodes -> node_at (redirect nodes old new h) n = node_at h n.
Proof.
  intros H. unfold node_at. rewrite nth_error_redirect.
  rewrite (existsb_eqb_false n nodes H).
  destruct (nth_error h n); reflexivity.
Qed.

Lemma positions_not_in (v : var) (l : list var) (i : nat) :
  ~ In v l -> positions v l i = [].
Proof.
  revert i. induction l as [|x l IH]; intros i H; [reflexivity|].
  cbn. destruct (Nat.eqb_spec x v) as [->|N].
  - exfalso. apply H. left. reflexivity.
  - apply IH. intros HI. apply H. right. exact HI.
Qed.

Lemma positions_subst (v old new : var) (l : list var) (i : nat) :
  v <> old -> v <> new ->
  positions v (map (subst_var old new) l) i = positions v l i.
Proof.
  intros Ho Hn. revert i. induction l as [|x l IH]; intros i; [reflexivity|].
  cbn. unfold subst_var at 1.
  destruct (Nat.eqb_spec x old) as [->|N].
  - destruct (Nat.eqb_spec new v) as [->|_]; [contradiction|].
    destruct (Nat.eqb_spec old v) as [->|_]; [contradiction|]. apply IH.
  - rewrite IH. reflexivity.
Qed.

Lemma in_subst_var (old new : var) (l : list var) (x : var) :
  In x (map (subst_var old new) l) -> x = new \/ In x l.
Proof.
  intros H. apply in_map_iff in H. destruct H as (y & E & Hy).
  unfold subst_var in E. destruct (y =? old)%nat; subst; auto.
Qed.

Lemma length_flat_map_ext {A B C} (f : A -> list B) (g : A -> list C)
    (l : list A) :
  (forall a, In a l -> List.length (f a) = List.length (g a)) ->
  List.length (flat_map f l) = List.length (flat_map g l).
Proof.
  induction l as [|a l IH]; intros H; [reflexivity|].
  cbn. rewrite !length_app, (H a (or_introl eq_refl)), IH; [reflexivity|].
  intros b Hb. apply H. right. exact Hb.
Qed.

Lemma flat_map_nil {A B} (f : A -> list B) (l : list A) :
  (forall a, In a l -> f a = []) -> flat_map f l = [].
Proof.
  induction l as [|a l IH]; intros H; [reflexivity|].
  cbn. rewrite (H a (or_introl eq_refl)), IH; [reflexivity|].
  intros b Hb. apply H. right. exact Hb.
Qed.

Lemma filter_neq_notin (a : nat) (l : list nat) :
  ~ In a l -> filter (fun n => negb (n =? a)%nat) l = l.
Proof.
  induction l as [|x l IH]; intros H; [reflexivity|].
  cbn. destruct (Nat.eqb_spec x a) as [->|N].
  - exfalso. apply H. left. reflexivity.
  - cbn. rewrite IH; [reflexivity|]. intros HI. apply H. right. exact HI.
Qed.

Lemma length_flat_map_remove {B} (f : nat -> list B) (a : nat) (l : list nat) :
  NoDup l -> In a l ->
  List.length (flat_map f l)
  = (List.length (flat_map f (filter (fun n => negb (n =? a)%nat) l))
     + List.length (f a))%nat.
Proof.
  induction l as [|x l IH]; intros ND HI; [contradiction|].
  inversion ND as [|? ? Hx ND']; subst.
  cbn [flat_map filter]. destruct (Nat.eqb_spec x a) as [->|N].
  - cbn [negb]. rewrite (filter_neq_notin a l Hx), length_app. lia.
  - cbn [negb flat_map]. destruct HI as [->|HI]; [contradiction|].
    rewrite !length_app, (IH ND' HI). lia.
Qed.

Lemma length_clients (fg : FunctionGraph) (h : list PyVariable) (v : var) :
  List.length (clients fg h v)
  = (List.length
       (flat_map (fun n => positions v (node_inputs h n) 0) (apply_nodes fg))
     + List.length (positions v (fg_outputs fg) 0))%nat.
Proof.
  unfold clients. rewrite length_app, length_map. f_equal.
  apply length_flat_map_ext. intros a _. apply length_map.
Qed.

Lemma node_inputs_old (h l : list PyVariable) (n : var) :
  (n < List.length h)%nat -> node_inputs (h ++ l) n = node_inputs h n.
Proof.
  intros H. unfold node_inputs. rewrite nth_error_app1 by exact H. reflexivity.
Qed.

Lemma imported_one (h0 : list PyVariable) (newvar : PyVariable) (a : Apply) :
  owner newvar = Some a ->
  filter (has_owner (h0 ++ [newvar]))
    (seq (List.length h0)
       (List.length (h0 ++ [newvar]) - List.length h0))
  = [List.length h0].
Proof.
  intros Ho. rewrite length_app. cbn [List.length].
  replace (List.length h0 + 1 - List.length h0)%nat with 1%nat by lia.
  cbn [seq filter]. unfold has_owner. rewrite nth_new0. cbn [nth_error].
  rewrite Ho. reflexivity.
Qed.

Lemma imported_two (h0 : list PyVariable) (allocvar newvar : PyVariable)
    (a b : Apply) :
  owner allocvar = Some a -> owner newvar = Some b ->
  filter (has_owner (h0 ++ [allocvar; newvar]))
    (seq (List.length h0)
       (List.length (h0 ++ [allocvar; newvar]) - List.length h0))
  = [List.length h0; (List.length h0 + 1)%nat].
Proof.
  intros Ha Hb. rewrite length_app. cbn [List.length].
  replace (List.length h0 + 2 - List.length h0)%nat with 2%nat by lia.
  cbn [seq filter]. unfold has_owner.
  replace (S (List.length h0)) with (List.length h0 + 1)%nat by lia.
  rewrite nth_new0, nth_new. cbn [nth_error]. rewrite Ha, Hb. reflexivity.
Qed.

(** When the rule keeps the destination, the substitution leaves the
    number of its clients as it was. *)
Lemma count_after_kept (fg : FunctionGraph) (h0 : list PyVariable)
    (newvar : PyVariable) (node dest : var) (o : Op) :
  NoDup (apply_nodes fg) -> In node (apply_nodes fg) ->
  (forall n, In n (apply_nodes fg) -> (n < List.length h0)%nat) ->
  owner newvar = Some (mkApply o (node_inputs h0 node)) ->
  (dest < List.length h0)%nat -> dest <> node ->
  List.length
    (clients (fst (replace_node fg node (List.length h0) (List.length h0)
                     (h0 ++ [newvar])))
       (snd (replace_node fg node (List.length h0) (List.length h0)
               (h0 ++ [newvar]))) dest)
  = List.length (clients fg h0 dest).
Proof.
  intros ND HI Hlt Ho Hd Hne.
  unfold replace_node. cbn [fst snd].
  rewrite (imported_one h0 newvar _ Ho).
  rewrite !length_clients. cbn [apply_nodes fg_outputs].
  rewrite (positions_subst dest node (List.length h0)) by lia.
  f_equal.
  rewrite flat_map_app, length_app. cbn [flat_map]. rewrite app_nil_r.
  rewrite (length_flat_map_remove _ node (apply_nodes fg) ND HI).
  f_equal.
  - apply length_flat_map_ext. intros n Hn.
    apply filter_In in Hn. destruct Hn as [Hn _].
    rewrite node_inputs_redirect, (existsb_eqb_true n _ Hn).
    rewrite (node_inputs_old h0 [newvar] n (Hlt n Hn)).
    rewrite positions_subst by lia. reflexivity.
  - rewrite node_inputs_redirect.
    rewrite existsb_eqb_false.
    + unfold node_inputs at 1. rewrite nth_new0. cbn. rewrite Ho. reflexivity.
    + intros Hin. apply Hlt in Hin. lia.
Qed.

(** When the rule substitutes a fresh allocation, the new node is its
    only client. *)
Lemma count_after_fresh (fg : FunctionGraph) (h0 : list PyVariable)
    (allocvar newvar : PyVariable) (node : var) (o : Op)
    (i0 i1 desc al be : var) (dtype : string) (dims : list var) :
  (forall n, In n (apply_nodes fg) ->
     (n < List.length h0)%nat /\
     forall x, In x (node_inputs h0 n) -> (x < List.length h0)%nat) ->
  (forall x, In x (fg_outputs fg) -> (x < List.length h0)%nat) ->
  owner allocvar = Some (mkApply (GpuAllocEmpty dtype) dims) ->
  (forall x, In x dims -> (x < List.length h0)%nat) ->
  owner newvar
  = Some (mkApply o [i0; i1; List.length h0; desc; al; be]) ->
  (i0 < List.length h0)%nat -> (i1 < List.length h0)%nat ->
  (desc < List.length h0)%nat -> (al < List.length h0)%nat ->
  (be < List.length h0)%nat ->
  List.length
    (clients (fst (replace_node fg node (List.length h0 + 1)%nat (List.length h0)
                     (h0 ++ [allocvar; newvar])))
       (snd (replace_node fg node (List.length h0 + 1)%nat (List.length h0)
               (h0 ++ [allocvar; newvar]))) (List.length h0))
  = 1%nat.
Proof.
  intros Hwf Hout Hoa Hdims Hon H0 H1 Hd Ha Hb.
  unfold replace_node. cbn [fst snd].
  rewrite (imported_two h0 allocvar newvar _ _ Hoa Hon).
  rewrite length_clients. cbn [apply_nodes fg_outputs].
  rewrite (positions_not_in (List.length h0)
             (map (subst_var node (List.length h0 + 1)%nat) (fg_outputs fg))).
  2: { intros Hin. apply in_subst_var in Hin. destruct Hin as [E | Hin];
       [lia | apply Hout in Hin; lia]. }
  rewrite flat_map_app, length_app.
  rewrite flat_map_nil.
  2: { intros n Hn. apply filter_In in Hn. destruct Hn as [Hn _].
       rewrite node_inputs_redirect, (existsb_eqb_true n _ Hn).
       destruct (Hwf n Hn) as [Hlt Hins].
       rewrite (node_inputs_old h0 _ n Hlt).
       apply positions_not_in. intros Hin. apply in_subst_var in Hin.
       destruct Hin as [E | Hin]; [lia | apply Hins in Hin; lia]. }
  cbn [flat_map List.length Nat.add]. rewrite app_nil_r, length_app.
  assert (Hnot : forall k, ~ In (List.length h0 + k)%nat (apply_nodes fg)).
  { intros k Hin. apply Hwf in Hin. lia. }
  rewrite !node_inputs_redirect.
  rewrite (existsb_eqb_false (List.length h0 + 1)%nat _ (Hnot 1%nat)).
  pose proof (Hnot 0%nat) as Hnot0. rewrite Nat.add_0_r in Hnot0.
  rewrite (existsb_eqb_false (List.length h0) _ Hnot0).
  unfold node_inputs. rewrite nth_new, nth_new0. cbn [nth_error].
  rewrite Hoa, Hon. cbn [inputs].
  rewrite (positions_not_in (List.length h0) dims).
  2: { intros Hin. apply Hdims in Hin. lia. }
  cbn [positions List.length Nat.add].
  rewrite Nat.eqb_refl.
  replace (i0 =? List.length h0)%nat with false
    by (symmetry; apply Nat.eqb_neq; lia).
  replace (i1 =? List.length h0)%nat with false
    by (symmetry; apply Nat.eqb_neq; lia).
  replace (desc =? List.length h0)%nat with false
    by (symmetry; apply Nat.eqb_neq; lia).
  replace (al =? List.length h0)%nat with false
    by (symmetry; apply Nat.eqb_neq; lia).
  replace (be =? List.length h0)%nat with false
    by (symmetry; apply Nat.eqb_neq; lia).
  reflexivity.
Qed.

(** ** The in-place rules *)

Lemma has_type_fun (h : list PyVariable) (v : var) (t t' : Ty) :
  has_type h v t -> has_type h v t' -> t = t'.
Proof.
  intros (o & d & H) (o' & d' & H'). rewrite H in H'.
  injection H' as E _ _. exact E.
Qed.

Lemma has_type_lt (h : list PyVariable) (v : var) (t : Ty) :
  has_type h v t -> (v < List.length h)%nat.
Proof. intros (o & d & H). apply nth_error_Some. congruence. Qed.

Lemma has_type_push (s : State) (x : PyVariable) (v : var) (t : Ty) :
  has_type (heap s) v t -> has_type (heap (push s x)) v t.
Proof. intros (o & d & H). exists o, d. cbn. apply nth_old, H. Qed.

Lemma has_type_push_new (s : State) (t : Ty) (o : option Apply)
    (d : option Const) :
  has_type (heap (push s (mkVariable t o d))) (List.length (heap s)) t.
Proof. exists o, d. cbn. rewrite nth_new0. reflexivity. Qed.

Lemma mapM_as_tensor_sym (l : list var) (s : State) :
  mapM as_tensor (map Sym l) s = (Ok l, s).
Proof.
  induction l as [|x l IH]; [reflexivity|].
  cbn [map mapM]. unfold bind at 1. cbn [as_tensor]. unfold ret at 1.
  unfold bind at 1. rewrite IH. reflexivity.
Qed.

Lemma shared_alloc_dec (fg : FunctionGraph) (h : list PyVariable) (dest : var) :
  shared_alloc fg h dest \/ ~ shared_alloc fg h dest.
Proof.
  unfold shared_alloc.
  destruct (node_at h dest) as [[o ins]|] eqn:E.
  - destruct o; try (right; intros (dt & dims & H & _); discriminate H).
    destruct (Nat.ltb_spec 1 (List.length (clients fg h dest))) as [L|L].
    + left. eauto.
    + right. intros (dt & dims & _ & H). lia.
  - right. intros (dt & dims & H & _). discriminate H.
Qed.

(** [fresh_dest] when the destination is a shared empty allocation. *)
Lemma fresh_dest_shared (fg : FunctionGraph) (s : State)
    (i0 i1 dest desc al be : var) (dtype : string) (dims : list var) :
  node_at (heap s) dest = Some (mkApply (GpuAllocEmpty dtype) dims) ->
  (1 < List.length (clients fg (heap s) dest))%nat ->
  fresh_dest fg [i0; i1; dest; desc; al; be] s
  = (Ok [i0; i1; List.length (heap s); desc; al; be],
     push s (mkVariable (GpuArrayType dtype (List.length dims))
               (Some (mkApply (GpuAllocEmpty dtype) dims)) None)).
Proof.
  intros Hn Hc. destruct (node_at_inv _ _ _ Hn) as (x & Ex & Eo).
  unfold fresh_dest. unfold lift at 1, getitem at 1. cbn [nth_error].
  unfold bind at 1.
  rewrite (bind_ok _ _ _ _ _ (owner_of_ok s dest x Ex)). rewrite Eo.
  cbn [op inputs is_alloc_empty].
  unfold clients_of at 1. unfold bind at 1.
  apply Nat.ltb_lt in Hc. rewrite Hc.
  unfold GpuAllocEmpty_call. unfold bind at 1. unfold bind at 1.
  rewrite mapM_as_tensor_sym. rewrite length_map.
  reflexivity.
Qed.

(** [fresh_dest] in every other case. *)
Lemma fresh_dest_kept (fg : FunctionGraph) (s : State)
    (i0 i1 dest desc al be : var) (t : Ty) :
  has_type (heap s) dest t ->
  ~ shared_alloc fg (heap s) dest ->
  fresh_dest fg [i0; i1; dest; desc; al; be] s
  = (Ok [i0; i1; dest; desc; al; be], s).
Proof.
  intros (o & d & Ex) Hns.
  unfold fresh_dest. unfold lift at 1, getitem at 1. cbn [nth_error].
  unfold bind at 1.
  rewrite (bind_ok _ _ _ _ _ (owner_of_ok s dest _ Ex)). cbn [owner].
  destruct o as [[o ins]|]; [|reflexivity].
  cbn [op inputs]. destruct o; try reflexivity.
  cbn [is_alloc_empty]. unfold clients_of at 1. unfold bind at 1.
  destruct (Nat.ltb_spec 1 (List.length (clients fg (heap s) dest))) as [L|L];
    [|reflexivity].
  exfalso. apply Hns. exists dtype, ins. split; [|exact L].
  unfold node_at. rewrite Ex. reflexivity.
Qed.

(** [make_node] of the three operators on inputs already in the form it
    produces: one new node on exactly these inputs. *)
Ltac make_node_given_tac :=
  match goal with
  | Hn : (_ = 4 \/ _ = 5)%nat, Halgo : _ = false |- _ =>
      destruct Hn as [-> | ->]; cbn in Halgo;
      repeat (progress (run; rewrite ?String.eqb_refl, ?Halgo)); reflexivity
  end.

Lemma GpuDnnConv_make_node_given (s : State) (algo : string) (inplace : bool)
    (a b out desc al be : var) (n : nat) :
  conv_inputs_typed (heap s) a b out desc al be n ->
  ((n =? 5)%nat && String.eqb algo "fft" = false) ->
  exists dto,
    has_type (heap s) out (GpuArrayType dto n) /\
    GpuDnnConv_make_node (GpuDnnConv algo inplace) a b out desc
      (AVar al) (AVar be) s
    = (Ok (List.length (heap s)),
       push s (mkVariable (GpuArrayType dto n)
                 (Some (mkApply (GpuDnnConv algo inplace)
                          [a; b; out; desc; al; be])) None)).
Proof.
  intros (dt & dk & dto & Ha & Hb & Ho & Hd & Hal & Hbe & Hn) Halgo.
  exists dto. split; [exact Ho|].
  destruct Ha as (? & ? & Ha), Hb as (? & ? & Hb), Ho as (? & ? & Ho),
    Hd as (? & ? & Hd), Hal as (? & ? & Hal), Hbe as (? & ? & Hbe).
  destruct s as [av ms vv lg h]. unfold push. cbn [heap avail msg version_v log] in *.
  make_node_given_tac.
Qed.

Lemma GpuDnnConvGradW_make_node_given (s : State) (algo : string)
    (inplace : bool) (a b out desc al be : var) (n : nat) :
  conv_inputs_typed (heap s) a b out desc al be n ->
  ((n =? 5)%nat && mem_string algo ["fft"; "deterministic"] = false) ->
  exists dto,
    has_type (heap s) out (GpuArrayType dto n) /\
    GpuDnnConvGradW_make_node (GpuDnnConvGradW algo inplace) a b out desc
      (AVar al) (AVar be) s
    = (Ok (List.length (heap s)),
       push s (mkVariable (GpuArrayType dto n)
                 (Some (mkApply (GpuDnnConvGradW algo inplace)
                          [a; b; out; desc; al; be])) None)).
Proof.
  intros (dt & dk & dto & Ha & Hb & Ho & Hd & Hal & Hbe & Hn) Halgo.
  exists dto. split; [exact Ho|].
  destruct Ha as (? & ? & Ha), Hb as (? & ? & Hb), Ho as (? & ? & Ho),
    Hd as (? & ? & Hd), Hal as (? & ? & Hal), Hbe as (? & ? & Hbe).
  destruct s as [av ms vv lg h]. unfold push. cbn [heap avail msg version_v log] in *.
  make_node_given_tac.
Qed.

Lemma GpuDnnConvGradI_make_node_given (s : State) (algo : string)
    (inplace : bool) (a b out desc al be : var) (n : nat) :
  conv_inputs_typed (heap s) a b out desc al be n ->
  ((n =? 5)%nat && mem_string algo ["fft"; "deterministic"] = false) ->
  exists dto,
    has_type (heap s) out (GpuArrayType dto n) /\
    GpuDnnConvGradI_make_node (GpuDnnConvGradI algo inplace) a b out desc
      (AVar al) (AVar be) s
    = (Ok (List.length (heap s)),
       push s (mkVariable (GpuArrayType dto n)
                 (Some (mkApply (GpuDnnConvGradI algo inplace)
                          [a; b; out; desc; al; be])) None)).
Proof.
  intros (dt & dk & dto & Ha & Hb & Ho & Hd & Hal & Hbe & Hn) Halgo.
  exists dto. split; [exact Ho|].
  destruct Ha as (? & ? & Ha), Hb as (? & ? & Hb), Ho as (? & ? & Ho),
    Hd as (? & ? & Hd), Hal as (? & ? & Hal), Hbe as (? & ? & Hbe).
  destruct s as [av ms vv lg h]. unfold push. cbn [heap avail msg version_v log] in *.
  make_node_given_tac.
Qed.

Lemma GpuDnnConv_init_some_ok (e : Env) (s : State) (algo : string) (v : Z) :
  avail s = Some true -> version_v s = Some v ->
  mem_string algo fwd_algos = true ->
  (v < 3000 -> mem_string algo ["none"; "small"; "large"] = true) ->
  GpuDnnConv_init e (Some algo) true s = (Ok (GpuDnnConv algo true), s).
Proof.
  intros Ha Hv Hm Hold. unfold GpuDnnConv_init.
  rewrite (bind_ok _ _ _ _ _ (version_hit e s v Ha Hv)).
  destruct (Z.ltb_spec v 3000) as [L|L].
  - specialize (Hold L). apply mem_string_cases in Hold.
    destruct Hold as [<-|[<-|[<-|[]]]]; reflexivity.
  - unfold bind, ret, assert. rewrite Hm. reflexivity.
Qed.

Lemma GpuDnnConvGradW_init_some_ok (e : Env) (s : State) (algo : string) :
  mem_string algo bwd_algos = true ->
  GpuDnnConvGradW_init e true (Some algo) s
  = (Ok (GpuDnnConvGradW algo true), s).
Proof.
  intros H. unfold GpuDnnConvGradW_init, bind, assert. rewrite H. reflexivity.
Qed.

Lemma GpuDnnConvGradI_init_some_ok (e : Env) (s : State) (algo : string) :
  mem_string algo bwd_algos = true ->
  GpuDnnConvGradI_init e true (Some algo) s
  = (Ok (GpuDnnConvGradI algo true), s).
Proof.
  intros H. unfold GpuDnnConvGradI_init, bind, assert. rewrite H. reflexivity.
Qed.

(** The three rules are instances of [inplace_rule]. *)
Lemma local_dnn_conv_inplace_shape (e : Env) (fg : FunctionGraph) (node : var)
    (s : State) :
  local_dnn_conv_inplace e fg node s
  = inplace_rule sel_conv (fun a => GpuDnnConv_init e (Some a) true)
      GpuDnnConv_make_node fg node s.
Proof.
  unfold local_dnn_conv_inplace, inplace_rule, bind.
  destruct (node_of node s) as [[[o ins]|ex] s1]; [|reflexivity].
  destruct o; reflexivity.
Qed.

Lemma local_dnn_convgw_inplace_shape (e : Env) (fg : FunctionGraph)
    (node : var) (s : State) :
  local_dnn_convgw_inplace e fg node s
  = inplace_rule sel_convgw (fun a => GpuDnnConvGradW_init e true (Some a))
      GpuDnnConvGradW_make_node fg node s.
Proof.
  unfold local_dnn_convgw_inplace, inplace_rule, bind.
  destruct (node_of node s) as [[[o ins]|ex] s1]; [|reflexivity].
  destruct o; reflexivity.
Qed.

Lemma local_dnn_convgi_inplace_shape (e : Env) (fg : FunctionGraph)
    (node : var) (s : State) :
  local_dnn_convgi_inplace e fg node s
  = inplace_rule sel_convgi (fun a => GpuDnnConvGradI_init e true (Some a))
      GpuDnnConvGradI_make_node fg node s.
Proof.
  unfold local_dnn_convgi_inplace, inplace_rule, bind.
  destruct (node_of node s) as [[[o ins]|ex] s1]; [|reflexivity].
  destruct o; reflexivity.
Qed.

Lemma positions_nth (v : var) (l : list var) (k i : nat) :
  nth_error l k = Some v -> In (i + k)%nat (positions v l i).
Proof.
  revert k i. induction l as [|x l IH]; intros k i H.
  - destruct k; discriminate H.
  - destruct k as [|k]; cbn in H |- *.
    + injection H as ->. rewrite Nat.eqb_refl, Nat.add_0_r. left. reflexivity.
    + specialize (IH k (S i) H).
      replace (i + S k)%nat with (S i + k)%nat by lia.
      destruct (x =? v)%nat; [right|]; exact IH.
Qed.

Lemma length_flat_map_ge {B} (f : nat -> list B) (a : nat) (l : list nat) :
  In a l -> (List.length (f a) <= List.length (flat_map f l))%nat.
Proof.
  induction l as [|x l IH]; intros H; [contradiction|].
  cbn. rewrite length_app. destruct H as [->|H]; [lia|].
  specialize (IH H). lia.
Qed.

(** A node of the graph is a client of each of its inputs. *)
Lemma clients_ge_1 (fg : FunctionGraph) (h : list PyVariable)
    (node dest : var) (k : nat) :
  In node (apply_nodes fg) ->
  nth_error (node_inputs h node) k = Some dest ->
  (1 <= List.length (clients fg h dest))%nat.
Proof.
  intros Hin Hk. rewrite length_clients.
  pose proof (length_flat_map_ge
                (fun m => positions dest (node_inputs h m) 0) node
                (apply_nodes fg) Hin) as Hge.
  pose proof (positions_nth dest _ k 0 Hk) as Hp.
  cbv beta in Hge.
  destruct (positions dest (node_inputs h node) 0); [contradiction|].
  cbn [List.length] in Hge. unfold var in *. lia.
Qed.

Lemma let_pair_eta {A B C} (p : A * B) (x : C) :
  (let (a, b) := p in Some (x, a, b)) = Some (x, fst p, snd p).
Proof. destruct p. reflexivity. Qed.

Section InplaceRule.

Variable sel : Op -> option (string * bool).
Variable init : string -> M Op.
Variable mk : string -> bool -> Op.
Variable make_node : Op -> var -> var -> var -> var -> Arg -> Arg -> M var.
Variable fg : FunctionGraph.
Variable s : State.
Variables (node : var) (algo : string) (i0 i1 dest desc al be : var) (n : nat).

Hypothesis Hsel : sel (mk algo false) = Some (algo, false).
Hypothesis Hdestroy :
  forall h v, op_at h v = Some (mk algo true) ->
              destroyed_input h v = nth_error (node_inputs h v) 2.
Hypothesis Hinit :
  forall s', grows s s' -> init algo s' = (Ok (mk algo true), s').
Hypothesis Hmk :
  forall s' out,
    conv_inputs_typed (heap s') i0 i1 out desc al be n ->
    exists dto,
      has_type (heap s') out (GpuArrayType dto n) /\
      make_node (mk algo true) i0 i1 out desc (AVar al) (AVar be) s'
      = (Ok (List.length (heap s')),
         push s' (mkVariable (GpuArrayType dto n)
                    (Some (mkApply (mk algo true) [i0; i1; out; desc; al; be]))
                    None)).
Hypothesis Hwf : wf_graph fg (heap s).
Hypothesis Hin : In node (apply_nodes fg).
Hypothesis Hnode :
  node_at (heap s) node
  = Some (mkApply (mk algo false) [i0; i1; dest; desc; al; be]).
Hypothesis Htyped : conv_inputs_typed (heap s) i0 i1 dest desc al be n.
Hypothesis Hacyclic : dest <> node.

Lemma node_inputs_node :
  node_inputs (heap s) node = [i0; i1; dest; desc; al; be].
Proof.
  unfold node_inputs. unfold node_at in Hnode.
  destruct (nth_error (heap s) node) as [x|]; [|discriminate].
  rewrite Hnode. reflexivity.
Qed.

Lemma rule_runs (out : var) (s2 : State) (dto : string) :
  grows s s2 ->
  fresh_dest fg [i0; i1; dest; desc; al; be] s
  = (Ok [i0; i1; out; desc; al; be], s2) ->
  make_node (mk algo true) i0 i1 out desc (AVar al) (AVar be) s2
  = (Ok (List.length (heap s2)),
     push s2 (mkVariable (GpuArrayType dto n)
                (Some (mkApply (mk algo true) [i0; i1; out; desc; al; be]))
                None)) ->
  inplace_rule sel init make_node fg node s
  = (Ok (Some [List.length (heap s2)]),
     push s2 (mkVariable (GpuArrayType dto n)
                (Some (mkApply (mk algo true) [i0; i1; out; desc; al; be]))
                None)).
Proof.
  intros G Efd Emk. unfold inplace_rule.
  rewrite (bind_ok _ _ _ _ _ (node_of_ok s node _ Hnode)). cbn [op inputs].
  rewrite Hsel.
  rewrite (bind_ok _ _ _ _ _ Efd), (bind_ok _ _ _ _ _ (Hinit s2 G)).
  cbn [as_args]. unfold bind at 1, ret at 1.
  rewrite (bind_ok _ _ _ _ _ Emk). reflexivity.
Qed.

Theorem inplace_rule_ok :
  inplace_rewrite_ok (inplace_rule sel init make_node) mk fg s node algo
    i0 i1 dest desc al be.
Proof.
  pose proof node_inputs_node as Hins.
  destruct Hwf as (ND & Wn & Wo & Wa).
  assert (Hlt : forall x, In x [i0; i1; dest; desc; al; be] ->
                          (x < List.length (heap s))%nat).
  { intros x Hx. rewrite <- Hins in Hx. exact (proj2 (Wn node Hin) x Hx). }
  destruct (shared_alloc_dec fg (heap s) dest) as [Hs | Hns].
  - (* a fresh allocation is substituted *)
    destruct Hs as (dtype & dims & Hn & Hc).
    destruct (Wa dest dtype dims Hn) as [Tdest Hdims].
    destruct Htyped as (dt & dk & dto & Ta & Tb & To & Td & Tal & Tbe & Hr).
    pose proof (has_type_fun _ _ _ _ Tdest To) as Et.
    injection Et as Edt Edims.
    set (allocvar := mkVariable (GpuArrayType dtype (List.length dims))
                       (Some (mkApply (GpuAllocEmpty dtype) dims)) None).
    pose proof (fresh_dest_shared fg s i0 i1 dest desc al be dtype dims Hn Hc)
      as Efd. fold allocvar in Efd.
    assert (G1 : grows s (push s allocvar)) by (eexists; reflexivity).
    assert (T1 : conv_inputs_typed (heap (push s allocvar)) i0 i1
                   (List.length (heap s)) desc al be n).
    { exists dt, dk, dto. split_all; try (apply has_type_push; assumption);
        [|exact Hr].
      unfold allocvar. rewrite Edt, Edims. apply has_type_push_new. }
    destruct (Hmk (push s allocvar) (List.length (heap s)) T1)
      as (dto' & _ & Emk).
    pose proof (rule_runs _ _ dto' G1 Efd Emk) as Erule.
    set (newvar := mkVariable (GpuArrayType dto' n)
                     (Some (mkApply (mk algo true)
                              [i0; i1; List.length (heap s); desc; al; be]))
                     None) in *.
    assert (Eh : heap (push (push s allocvar) newvar)
                 = heap s ++ [allocvar; newvar]).
    { cbn. rewrite <- app_assoc. reflexivity. }
    assert (El : List.length (heap (push s allocvar))
                 = (List.length (heap s) + 1)%nat).
    { cbn. rewrite length_app. reflexivity. }
    assert (Hnot : forall k, ~ In (List.length (heap s) + k)%nat
                                  (apply_nodes fg)).
    { intros k Hk. apply Wn in Hk. lia. }
    pose proof (Hnot 0%nat) as Hnot0. rewrite Nat.add_0_r in Hnot0.
    exists (List.length (heap s) + 1)%nat,
      (fst (replace_node fg node (List.length (heap s) + 1)%nat
              (List.length (heap s)) (heap s ++ [allocvar; newvar]))),
      (snd (replace_node fg node (List.length (heap s) + 1)%nat
              (List.length (heap s)) (heap s ++ [allocvar; newvar]))),
      (List.length (heap s)).
    assert (Hop : op_at (snd (replace_node fg node
                                (List.length (heap s) + 1)%nat
                                (List.length (heap s))
                                (heap s ++ [allocvar; newvar])))
                    (List.length (heap s) + 1)%nat = Some (mk algo true)).
    { unfold replace_node. cbn [snd]. rewrite op_at_redirect.
      unfold op_at. rewrite nth_new. reflexivity. }
    assert (Hni : node_inputs (snd (replace_node fg node
                                      (List.length (heap s) + 1)%nat
                                      (List.length (heap s))
                                      (heap s ++ [allocvar; newvar])))
                    (List.length (heap s) + 1)%nat
                  = [i0; i1; List.length (heap s); desc; al; be]).
    { unfold replace_node. cbn [snd]. rewrite node_inputs_redirect.
      rewrite (existsb_eqb_false _ _ (Hnot 1%nat)).
      unfold node_inputs. rewrite nth_new. reflexivity. }
    split_all.
    + unfold rewrite_at. rewrite Erule. cbv beta iota.
      rewrite let_pair_eta. cbn [heap push].
      rewrite <- app_assoc. cbn [app]. rewrite length_app. reflexivity.
    + exact Hop.
    + exact Hni.
    + rewrite (Hdestroy _ _ Hop), Hni. reflexivity.
    + intros _. split_all.
      * reflexivity.
      * unfold replace_node. cbn [snd].
        rewrite (node_at_redirect_other _ _ _ _ _ Hnot0).
        unfold node_at at 1. rewrite nth_new0. cbn. symmetry. exact Hn.
      * apply (count_after_fresh fg (heap s) allocvar newvar node
                 (mk algo true) i0 i1 desc al be dtype dims);
          try reflexivity; try assumption;
          try (apply Hlt; cbn; tauto).
    + intros Hns. exfalso. apply Hns. exists dtype, dims. auto.
    + intros _ _ _.
      apply (count_after_fresh fg (heap s) allocvar newvar node
               (mk algo true) i0 i1 desc al be dtype dims);
        try reflexivity; try assumption;
        try (apply Hlt; cbn; tauto).
  - (* the destination is kept *)
    destruct Htyped as (dt & dk & dto & Ta & Tb & To & Td & Tal & Tbe & Hr).
    pose proof (fresh_dest_kept fg s i0 i1 dest desc al be _ To Hns) as Efd.
    destruct (Hmk s dest Htyped) as (dto' & _ & Emk).
    pose proof (rule_runs _ _ dto' (grows_refl s) Efd Emk) as Erule.
    set (newvar := mkVariable (GpuArrayType dto' n)
                     (Some (mkApply (mk algo true)
                              [i0; i1; dest; desc; al; be])) None) in *.
    assert (Hnot : ~ In (List.length (heap s)) (apply_nodes fg)).
    { intros Hk. apply Wn in Hk. lia. }
    exists (List.length (heap s)),
      (fst (replace_node fg node (List.length (heap s))
              (List.length (heap s)) (heap s ++ [newvar]))),
      (snd (replace_node fg node (List.length (heap s))
              (List.length (heap s)) (heap s ++ [newvar]))),
      dest.
    assert (Hop : op_at (snd (replace_node fg node (List.length (heap s))
                                (List.length (heap s)) (heap s ++ [newvar])))
                    (List.length (heap s)) = Some (mk algo true)).
    { unfold replace_node. cbn [snd]. rewrite op_at_redirect.
      unfold op_at. rewrite nth_new0. reflexivity. }
    assert (Hni : node_inputs (snd (replace_node fg node
                                      (List.length (heap s))
                                      (List.length (heap s))
                                      (heap s ++ [newvar])))
                    (List.length (heap s))
                  = [i0; i1; dest; desc; al; be]).
    { unfold replace_node. cbn [snd]. rewrite node_inputs_redirect.
      rewrite (existsb_eqb_false _ _ Hnot).
      unfold node_inputs. rewrite nth_new0. reflexivity. }
    split_all.
    + unfold rewrite_at. rewrite Erule. cbv beta iota.
      rewrite let_pair_eta. reflexivity.
    + exact Hop.
    + exact Hni.
    + rewrite (Hdestroy _ _ Hop), Hni. reflexivity.
    + intros Hs. contradiction.
    + intros _. split; [reflexivity|].
      apply (count_after_kept fg (heap s) newvar node dest (mk algo true));
        try assumption.
      * intros m Hm. exact (proj1 (Wn m Hm)).
      * rewrite Hins. reflexivity.
      * apply Hlt. cbn. tauto.
    + intros dtype dims Hn.
      rewrite (count_after_kept fg (heap s) newvar node dest (mk algo true));
        try assumption.
      * assert (Hge : (1 <= List.length (clients fg (heap s) dest))%nat).
        { apply (clients_ge_1 fg (heap s) node dest 2 Hin).
          rewrite Hins. reflexivity. }
        destruct (Nat.ltb_spec 1 (List.length (clients fg (heap s) dest)))
          as [L|L]; [|lia].
        exfalso. apply Hns. exists dtype, dims. auto.
      * intros m Hm. exact (proj1 (Wn m Hm)).
      * rewrite Hins. reflexivity.
      * apply Hlt. cbn. tauto.
Qed.

End InplaceRule.

Lemma inplace_rewrite_ok_ext
    (rule1 rule2 : FunctionGraph -> var -> M (option (list var)))
    (mk : string -> bool -> Op) (fg : FunctionGraph) (s : State) (node : var)
    (algo : string) (i0 i1 dest desc al be : var) :
  (forall fg node s, rule1 fg node s = rule2 fg node s) ->
  inplace_rewrite_ok rule2 mk fg s node algo i0 i1 dest desc al be ->
  inplace_rewrite_ok rule1 mk fg s node algo i0 i1 dest desc al be.
Proof.
  intros E (r & fg' & h' & dest' & H & R).
  exists r, fg', h', dest'. split; [|exact R].
  unfold rewrite_at in *. rewrite E. exact H.
Qed.

(** Counterexample to C2 as stated: the output buffer of the matched
    convolution is a graph input with two clients.  The rule does not
    allocate; it marks the node in place on that buffer, which still has
    two clients after the substitution. *)
Lemma C2_shared_input_marked_inplace :
  List.length (clients shared_fg (heap shared_state) 2%nat) = 2%nat /\
  exists r fg' h',
    rewrite_at (local_dnn_conv_inplace env_v3) shared_fg 7%nat shared_state
    = Some (r, fg', h') /\
    op_at h' r = Some (GpuDnnConv "small" true) /\
    destroyed_input h' r = Some 2%nat /\
    clients fg' h' 2%nat = [CNode 8%nat 0; CNode r 2].
Proof.
  split; [reflexivity|].
  eexists _, _, _.
  split; [vm_compute; reflexivity|].
  split; [reflexivity|].
  split; reflexivity.
Qed.

(** C2, amended.  On a well-formed graph, each of the three in-place
    rules, fired on a node of its operator that is not yet in place,
    yields the in-place operator with the same algorithm on the same
    inputs except perhaps the output buffer, which the new node
    overwrites.  When the buffer is produced by an empty allocation and
    has more than one client, the new node gets a new buffer produced by
    the same allocation (same dtype, same inputs) and is its only client
    afterwards.  In every other case the buffer is kept and has as many
    clients afterwards as before; so a buffer produced by an empty
    allocation always ends with exactly one client. *)
Theorem C2_inplace_rules (e : Env) (fg : FunctionGraph) (s : State)
    (node : var) (algo : string) (i0 i1 dest desc al be : var) (n : nat)
    (v : Z) :
  wf_graph fg (heap s) ->
  In node (apply_nodes fg) ->
  conv_inputs_typed (heap s) i0 i1 dest desc al be n ->
  dest <> node ->
  (node_at (heap s) node
   = Some (mkApply (GpuDnnConv algo false) [i0; i1; dest; desc; al; be]) ->
   avail s = Some true -> version_v s = Some v ->
   mem_string algo fwd_algos = true ->
   (v < 3000 -> mem_string algo ["none"; "small"; "large"] = true) ->
   (n =? 5)%nat && String.eqb algo "fft" = false ->
   inplace_rewrite_ok (local_dnn_conv_inplace e) GpuDnnConv fg s node algo
     i0 i1 dest desc al be) /\
  (node_at (heap s) node
   = Some (mkApply (GpuDnnConvGradW algo false) [i0; i1; dest; desc; al; be]) ->
   mem_string algo bwd_algos = true ->
   (n =? 5)%nat && mem_string algo ["fft"; "deterministic"] = false ->
   inplace_rewrite_ok (local_dnn_convgw_inplace e) GpuDnnConvGradW fg s node
     algo i0 i1 dest desc al be) /\
  (node_at (heap s) node
   = Some (mkApply (GpuDnnConvGradI algo false) [i0; i1; dest; desc; al; be]) ->
   mem_string algo bwd_algos = true ->
   (n =? 5)%nat && mem_string algo ["fft"; "deterministic"] = false ->
   inplace_rewrite_ok (local_dnn_convgi_inplace e) GpuDnnConvGradI fg s node
     algo i0 i1 dest desc al be).
Proof.
  intros Hwf Hin Hty Hac. split_all.
  - intros Hnode Ha Hv Hm Hold Hfft.
    apply (inplace_rewrite_ok_ext _ _ _ _ _ _ _ _ _ _ _ _ _
             (local_dnn_conv_inplace_shape e)).
    apply (inplace_rule_ok sel_conv _ GpuDnnConv GpuDnnConv_make_node
             fg s node algo i0 i1 dest desc al be n); try assumption.
    + reflexivity.
    + intros h x H. unfold destroyed_input. rewrite H. reflexivity.
    + intros s' G. apply (GpuDnnConv_init_some_ok e s' algo v); try assumption.
      * rewrite (grows_avail s s' G). exact Ha.
      * rewrite (grows_version_v s s' G). exact Hv.
    + intros s' out T.
      exact (GpuDnnConv_make_node_given s' algo true i0 i1 out desc al be n
               T Hfft).
  - intros Hnode Hm Hnf.
    apply (inplace_rewrite_ok_ext _ _ _ _ _ _ _ _ _ _ _ _ _
             (local_dnn_convgw_inplace_shape e)).
    apply (inplace_rule_ok sel_convgw _ GpuDnnConvGradW
             GpuDnnConvGradW_make_node
             fg s node algo i0 i1 dest desc al be n); try assumption.
    + reflexivity.
    + intros h x H. unfold destroyed_input. rewrite H. reflexivity.
    + intros s' G. apply GpuDnnConvGradW_init_some_ok, Hm.
    + intros s' out T.
      exact (GpuDnnConvGradW_make_node_given s' algo true i0 i1 out desc al be
               n T Hnf).
  - intros Hnode Hm Hnf.
    apply (inplace_rewrite_ok_ext _ _ _ _ _ _ _ _ _ _ _ _ _
             (local_dnn_convgi_inplace_shape e)).
    apply (inplace_rule_ok sel_convgi _ GpuDnnConvGradI
             GpuDnnConvGradI_make_node
             fg s node algo i0 i1 dest desc al be n); try assumption.
    + reflexivity.
    + intros h x H. unfold destroyed_input. rewrite H. reflexivity.
    + intros s' G. apply GpuDnnConvGradI_init_some_ok, Hm.
    + intros s' out T.
      exact (GpuDnnConvGradI_make_node_given s' algo true i0 i1 out desc al be
               n T Hnf).
Qed.

Lemma alloc_graph_wf : wf_graph alloc_fg (heap alloc_state).
Proof.
  unfold wf_graph. split_all.
  - cbn. repeat (apply NoDup_cons; [cbn; intuition discriminate|]).
    apply NoDup_nil.
  - intros m Hm. cbn in Hm.
    destruct Hm as [<-|[<-|[<-|[]]]]; (split; [cbn; lia|]);
      intros x Hx; cbn in Hx; cbn; intuition lia.
  - intros x Hx. cbn in Hx. cbn. intuition lia.
  - intros x dtype dims H.
    do 8 (destruct x as [|x]; [discriminate H|]).
    destruct x as [|x].
    + injection H as <- <-. split.
      * eexists _, _. reflexivity.
      * intros y Hy. cbn in Hy. cbn. intuition lia.
    + do 2 (destruct x as [|x]; [discriminate H|]).
      destruct x; discriminate H.
Qed.

Lemma C2_inplace_rules_witness :
  inplace_rewrite_ok (local_dnn_conv_inplace env_v3) GpuDnnConv alloc_fg
    alloc_state 9%nat "small" 0%nat 1%nat 8%nat 3%nat 4%nat 5%nat.
Proof.
  assert (T : conv_inputs_typed (heap alloc_state)
                0%nat 1%nat 8%nat 3%nat 4%nat 5%nat 4).
  { exists "float32", "float32", "float32".
    split_all; try (eexists _, _; reflexivity). left. reflexivity. }
  assert (Hin : In 9%nat (apply_nodes alloc_fg)) by (cbn; tauto).
  assert (Hne : 8%nat <> 9%nat) by discriminate.
  destruct (C2_inplace_rules env_v3 alloc_fg alloc_state 9%nat "small"
              0%nat 1%nat 8%nat 3%nat 4%nat 5%nat 4%nat 3007
              alloc_graph_wf Hin T Hne) as (F & _ & _).
  apply F; reflexivity.
Defined.

(** On that graph the buffer is a shared empty allocation, so the new
    node works on a fresh one. *)
Example alloc_graph_shared :
  shared_alloc alloc_fg (heap alloc_state) 8%nat.
Proof. exists "float32", [7; 7; 7; 7]%nat. split; [reflexivity | cbn; lia]. Qed.

(** * Properties of the rest of the module *)

(** ** More on the availability gate *)

Lemma dnn_available_rec_999 (e : Env) (s : State) :
  dnn_available_rec e (pred recursion_limit) s = dnn_available_rec e 2 s.
Proof. apply (dnn_available_rec_depth e 997 s). Qed.

Lemma version_unfold (e : Env) (s : State) :
  version e s = version_body e (dnn_available_rec e 2) s.
Proof.
  unfold version, version_body, bind. rewrite dnn_available_rec_999.
  reflexivity.
Qed.

(** Unfold one call of the gate into its tests. *)
Ltac gate_unfold :=
  rewrite ?dnn_available_unfold, ?version_unfold;
  unfold version_body, dnn_available_rec, dnn_available_body, version_body,
    bind, get_avail, get_version_v, set_avail, set_msg, set_version_v, emit,
    ret, raise;
  cbn [avail msg version_v log heap negb fst snd].

Ltac gate_unfold_in H :=
  rewrite ?dnn_available_unfold, ?version_unfold in H;
  unfold version_body, dnn_available_rec, dnn_available_body, version_body,
    bind, get_avail, get_version_v, set_avail, set_msg, set_version_v, emit,
    ret, raise in H;
  cbn [avail msg version_v log heap negb fst snd] in H.

(** An open gate is a checked gate.  When the first call of
    [dnn_available] returns [True], the bindings are present, the device
    is a CUDA device, the trial compilation succeeded, the header and the
    library agree on a version that is at least 2000 and is not a release
    candidate of v3; that version is cached and [version] returns it. *)
Theorem dnn_available_true_is_checked (e : Env) (s' : State) :
  dnn_available e initial_state = (Ok true, s') ->
  pygpu_present e = true /\
  String.prefix "cuda" (device e) = true /\
  try_flags_comp e = true /\
  header_version e = library_version e /\
  2000 <= library_version e /\
  ~ (3000 <= library_version e < 3007) /\
  avail s' = Some true /\
  version_v s' = Some (library_version e) /\
  version e s' = (Ok (library_version e), s').
Proof.
  intros H. gate_unfold_in H. unfold initial_state in H. cbn in H.
  destruct (pygpu_present e) eqn:E1; cbn in H; [|discriminate H].
  destruct (String.prefix "cuda" (device e)) eqn:E2; cbn in H; [|discriminate H].
  assert (K :
    (if try_flags_comp e
     then
       if negb (header_version e =? library_version e) then None
       else if library_version e <? 2000 then None
       else if (3000 <=? library_version e) && (library_version e <? 3007)
       then None else Some true
     else Some false) = Some true /\
    (try_flags_comp e = true -> header_version e = library_version e ->
     avail s' = Some true /\ version_v s' = Some (library_version e))).
  { destruct (drop_last2 (bin_id e) <? "30")%string; cbn in H;
      (destruct (try_flags_comp e); cbn in H; [|discriminate H]);
      (destruct (header_version e =? library_version e); cbn in H;
       [|discriminate H]);
      (destruct (library_version e <? 2000); cbn in H; [discriminate H|]);
      (destruct ((3000 <=? library_version e) && (library_version e <? 3007));
       cbn in H; [discriminate H|]);
      injection H as <-; (split; [reflexivity | intros _ _; split; reflexivity]). }
  destruct K as [K1 K2].
  destruct (try_flags_comp e) eqn:E3; [|discriminate K1].
  destruct (Z.eqb_spec (header_version e) (library_version e)) as [E4|E4];
    cbn in K1; [|discriminate K1].
  destruct (Z.ltb_spec (library_version e) 2000) as [E5|E5]; [discriminate K1|].
  destruct ((3000 <=? library_version e) && (library_version e <? 3007)) eqn:E6;
    [discriminate K1|].
  destruct (K2 eq_refl E4) as [A V].
  split_all; try reflexivity; try assumption.
  - intros [L1 L2]. apply Z.leb_le in L1. apply Z.ltb_lt in L2.
    rewrite L1, L2 in E6. discriminate E6.
  - apply version_hit; assumption.
Qed.


Lemma dnn_available_true_is_checked_witness :
  header_version env_v3 = library_version env_v3 /\
  2000 <= library_version env_v3 /\
  version env_v3 (snd (dnn_available env_v3 initial_state))
  = (Ok 3007, snd (dnn_available env_v3 initial_state)).
Proof.
  destruct (dnn_available_true_is_checked env_v3
              (snd (dnn_available env_v3 initial_state)) eq_refl)
    as (_ & _ & _ & H1 & H2 & _ & _ & _ & H3).
  split; [exact H1|]. split; [exact H2|]. exact H3.
Defined.

(** A rejected version is reported once.  When everything up to the
    version test passes and the version is below 2000 or a release
    candidate of v3, the first call of [dnn_available] raises a
    [RuntimeError] and caches [False] with the text of the error; every
    later call, in whatever environment, returns [False] without raising,
    and [version] raises its own exception without probing again. *)
Theorem rejected_version_raises_once (e e' : Env) :
  pygpu_present e = true ->
  String.prefix "cuda" (device e) = true ->
  try_flags_comp e = true ->
  header_version e = library_version e ->
  library_version e < 2000 \/ 3000 <= library_version e < 3007 ->
  exists m s1,
    dnn_available e initial_state = (Raise (RuntimeError m), s1) /\
    avail s1 = Some false /\ msg s1 = Some m /\
    count_event VersionProbe (log s1) = 1%nat /\
    dnn_available e' s1 = (Ok false, s1) /\
    version e' s1
    = (Raise (Exception "We can't determine the cudnn version as it is not available"),
       s1).
Proof.
  intros H1 H2 H3 H4 H5.
  assert (K : exists m s1,
             dnn_available e initial_state = (Raise (RuntimeError m), s1) /\
             avail s1 = Some false /\ msg s1 = Some m /\
             count_event VersionProbe (log s1) = 1%nat).
  { gate_unfold. unfold initial_state. cbn.
    rewrite H1. cbn. rewrite H2. cbn.
    destruct H5 as [L | [L1 L2]].
    - apply Z.ltb_lt in L.
      destruct (drop_last2 (bin_id e) <? "30")%string; cbn; rewrite H3; cbn;
        rewrite H4, Z.eqb_refl; cbn; rewrite L; cbn;
        eexists _, _; repeat split.
    - assert (L : (library_version e <? 2000) = false) by (apply Z.ltb_ge; lia).
      apply Z.leb_le in L1. apply Z.ltb_lt in L2.
      destruct (drop_last2 (bin_id e) <? "30")%string; cbn; rewrite H3; cbn;
        rewrite H4, Z.eqb_refl; cbn; rewrite L, L1, L2; cbn;
        eexists _, _; repeat split. }
  destruct K as (m & s1 & E & A & Mg & C).
  exists m, s1. split_all; try assumption.
  - apply dnn_available_hit, A.
  - unfold version, version_body, bind.
    change (pred recursion_limit) with (S 998).
    rewrite (dnn_available_cached e' 998 s1 false A). reflexivity.
Qed.

Lemma rejected_version_raises_once_witness :
  exists m s1,
    dnn_available env_v3_rc initial_state = (Raise (RuntimeError m), s1) /\
    dnn_available env_v3 s1 = (Ok false, s1).
Proof.
  assert (H : library_version env_v3_rc < 2000 \/
              3000 <= library_version env_v3_rc < 3007)
    by (right; cbn; lia).
  destruct (rejected_version_raises_once env_v3_rc env_v3
              eq_refl eq_refl eq_refl eq_refl H)
    as (m & s1 & E & _ & _ & _ & E' & _).
  exists m, s1. split; assumption.
Defined.

(** A version mismatch leaves the gate open.  When the header and the
    library report different versions, the first call of [dnn_available]
    raises "Mixed dnn version" after it has cached [True] and before any
    version is cached; so the next call returns [True], while [version]
    runs the probe again and raises again, each time it is called. *)
Theorem mixed_version_leaves_gate_open (e : Env) :
  pygpu_present e = true ->
  String.prefix "cuda" (device e) = true ->
  try_flags_comp e = true ->
  header_version e <> library_version e ->
  exists s1 s2,
    dnn_available e initial_state
    = (Raise (RuntimeError "Mixed dnn version."), s1) /\
    avail s1 = Some true /\ version_v s1 = None /\
    dnn_available e s1 = (Ok true, s1) /\
    version e s1 = (Raise (RuntimeError "Mixed dnn version."), s2) /\
    avail s2 = Some true /\ version_v s2 = None /\
    count_event VersionProbe (log s1) = 1%nat /\
    count_event VersionProbe (log s2) = 2%nat.
Proof.
  intros H1 H2 H3 H4. apply Z.eqb_neq in H4.
  assert (K : exists s1,
             dnn_available e initial_state
             = (Raise (RuntimeError "Mixed dnn version."), s1) /\
             avail s1 = Some true /\ version_v s1 = None /\
             log s1 = [ProbeBody; CompileProbe; VersionProbe]).
  { gate_unfold. unfold initial_state. cbn.
    rewrite H1. cbn. rewrite H2. cbn.
    destruct (drop_last2 (bin_id e) <? "30")%string; cbn; rewrite H3; cbn;
      rewrite H4; cbn; eexists; repeat split. }
  destruct K as (s1 & E & A & V & L).
  assert (K2 : exists s2,
             version e s1 = (Raise (RuntimeError "Mixed dnn version."), s2) /\
             avail s2 = Some true /\ version_v s2 = None /\
             log s2 = log s1 ++ [VersionProbe]).
  { rewrite version_unfold. unfold version_body, bind.
    rewrite (dnn_available_cached e 1 s1 true A). cbn.
    unfold get_version_v. rewrite V. cbn. rewrite H4. cbn.
    eexists; repeat split; assumption. }
  destruct K2 as (s2 & E2 & A2 & V2 & L2).
  exists s1, s2. split_all; try assumption.
  - apply dnn_available_hit, A.
  - rewrite L. reflexivity.
  - rewrite L2, L. reflexivity.
Qed.

Lemma mixed_version_leaves_gate_open_witness :
  exists s1,
    dnn_available env_mixed initial_state
    = (Raise (RuntimeError "Mixed dnn version."), s1) /\
    dnn_available env_mixed s1 = (Ok true, s1).
Proof.
  destruct (mixed_version_leaves_gate_open env_mixed eq_refl eq_refl eq_refl
              ltac:(cbn; lia))
    as (s1 & s2 & E & _ & _ & E' & _).
  exists s1. split; assumption.
Defined.

(** ** The optimizer that insists on cuDNN *)

(** What a call of the gate leaves behind, from any state: a verdict
    equal to the value returned; an exception only when no verdict was
    cached, and then a [RuntimeError]; and a message beside every
    [False]. *)
Lemma dnn_available_post (e : Env) (s s' : State) (r : Result bool) :
  dnn_available e s = (r, s') ->
  gate_inv s ->
  gate_inv s' /\
  match r with
  | Ok b => avail s' = Some b
  | Raise (RuntimeError _) => avail s = None
  | Raise _ => False
  end.
Proof.
  intros H I. destruct s as [av ms vv lg h].
  gate_unfold_in H. unfold gate_inv in *. cbn [avail msg] in *.
  destruct av as [b|].
  { injection H as <- <-. cbn. auto. }
  cbn in H.
  destruct (pygpu_present e); cbn in H;
    [|injection H as <- <-; cbn; eauto].
  destruct (String.prefix "cuda" (device e)); cbn in H;
    [|injection H as <- <-; cbn; eauto].
  destruct (drop_last2 (bin_id e) <? "30")%string; cbn in H;
    (destruct (try_flags_comp e); cbn in H;
     [|injection H as <- <-; cbn; eauto]);
    (destruct vv as [v0|]; cbn in H;
     [ (destruct (v0 <? 2000); cbn in H;
        [injection H as <- <-; cbn; eauto|]);
       (destruct ((3000 <=? v0) && (v0 <? 3007)); cbn in H;
        injection H as <- <-; cbn; split; eauto; intros; discriminate)
     | (destruct (header_version e =? library_version e); cbn in H;
        [|injection H as <- <-; cbn; split; eauto; intros; discriminate]);
       (destruct (library_version e <? 2000); cbn in H;
        [injection H as <- <-; cbn; eauto|]);
       (destruct ((3000 <=? library_version e) && (library_version e <? 3007));
        cbn in H;
        injection H as <- <-; cbn; split; eauto; intros; discriminate) ]).
Qed.

(** [NoCuDNNRaise.apply] reports the cause.  From a state in which every
    cached [False] has its message (the initial state is one, and the
    gate keeps it so), the optimizer returns when the gate is open;
    raises an [AssertionError] whose text ends with the recorded message
    when the gate is closed; lets a [RuntimeError] of the first probe
    through; and raises nothing else: the concatenation with the message
    never meets [None]. *)
Theorem NoCuDNNRaise_reports_the_cause (e : Env) (fg : FunctionGraph)
    (s s' : State) (r : Result unit) :
  gate_inv s ->
  NoCuDNNRaise_apply e fg s = (r, s') ->
  gate_inv s' /\
  match r with
  | Ok _ => avail s' = Some true
  | Raise (AssertionError t) =>
      avail s' = Some false /\
      exists m, msg s' = Some m /\ t = (msg_no_cudnn ++ m)%string
  | Raise (RuntimeError _) => avail s = None
  | Raise _ => False
  end.
Proof.
  intros I H. unfold NoCuDNNRaise_apply, bind in H.
  destruct (dnn_available e s) as [r0 s0] eqn:E.
  destruct (dnn_available_post e s s0 r0 E I) as [I0 P].
  destruct r0 as [b|x].
  - destruct b; cbn in H.
    + injection H as <- <-. auto.
    + unfold get_msg in H. destruct (I0 P) as (m & Hm). rewrite Hm in H.
      cbn in H. injection H as <- <-. split; [exact I0|]. eauto.
  - injection H as <- <-. split; [exact I0|].
    destruct x; try exact P; contradiction.
Qed.

Lemma NoCuDNNRaise_reports_the_cause_witness :
  exists t s',
    NoCuDNNRaise_apply env_no_pygpu {| apply_nodes := []; fg_outputs := [] |}
      initial_state = (Raise (AssertionError t), s') /\
    t = (msg_no_cudnn ++ "PyGPU not available")%string.
Proof.
  assert (I : gate_inv initial_state) by (intros H; discriminate H).
  pose proof (NoCuDNNRaise_reports_the_cause env_no_pygpu
                {| apply_nodes := []; fg_outputs := [] |} initial_state _ _ I
                eq_refl) as [_ (_ & m & Hm & Ht)].
  eexists _, _. split; [reflexivity|].
  cbn in Hm. injection Hm as <-. exact Ht.
Defined.

(** ** The cached version *)

(** Whatever the state [version] is called in, a version it returns is
    the cached one from then on: the verdict [True] and that version are
    stored, and later calls of [version] and of [dnn_available] return
    them at once, also when the environment has changed meanwhile. *)
Theorem version_result_is_cached (e e' : Env) (s s' : State) (v : Z) :
  version e s = (Ok v, s') ->
  avail s' = Some true /\ version_v s' = Some v /\
  version e' s' = (Ok v, s') /\ dnn_available e' s' = (Ok true, s').
Proof.
  intros H.
  assert (K : avail s' = Some true /\ version_v s' = Some v).
  { destruct s as [av ms vv lg h]. gate_unfold_in H.
    destruct av as [[|]|]; cbn in H.
    - destruct vv as [v0|]; cbn in H.
      + injection H as <- <-. auto.
      + destruct (header_version e =? library_version e); cbn in H;
          [|discriminate H].
        injection H as <- <-. auto.
    - discriminate H.
    - destruct (pygpu_present e); cbn in H; [|discriminate H].
      destruct (String.prefix "cuda" (device e)); cbn in H; [|discriminate H].
      destruct (drop_last2 (bin_id e) <? "30")%string; cbn in H;
        (destruct (try_flags_comp e); cbn in H; [|discriminate H]);
        (destruct vv as [v0|]; cbn in H;
         [ (destruct (v0 <? 2000); cbn in H; [discriminate H|]);
           (destruct ((3000 <=? v0) && (v0 <? 3007)); cbn in H;
            [discriminate H|]);
           injection H as <- <-; auto
         | (destruct (header_version e =? library_version e); cbn in H;
            [|discriminate H]);
           (destruct (library_version e <? 2000); cbn in H;
            [discriminate H|]);
           (destruct ((3000 <=? library_version e)
                      && (library_version e <? 3007)); cbn in H;
            [discriminate H|]);
           injection H as <- <-; auto ]). }
  destruct K as [A V]. split_all; try assumption.
  - apply version_hit; assumption.
  - apply dnn_available_hit, A.
Qed.

Lemma version_result_is_cached_witness :
  version env_v2 (snd (version env_v3 initial_state))
  = (Ok 3007, snd (version env_v3 initial_state)).
Proof.
  destruct (version_result_is_cached env_v3 env_v2 initial_state
              (snd (version env_v3 initial_state)) 3007 eq_refl)
    as (_ & _ & E & _).
  exact E.
Defined.

(** ** Descriptor constructors *)

#[local] Arguments str : simpl never.

Lemma forallb_repeat {A} (f : A -> bool) (x : A) (n : nat) :
  forallb f (repeat x (S n)) = f x.
Proof.
  induction n as [|n IH]; cbn in *.
  - apply andb_true_r.
  - rewrite IH. destruct (f x); reflexivity.
Qed.

Lemma GpuDnnConvDesc_init_char (bm : border_mode) (sub : list Z) (cm : string)
    (s : State) :
  exists r,
    GpuDnnConvDesc_init bm sub cm s = (r, s) /\
    if conv_desc_args_ok bm sub cm
    then r = Ok (GpuDnnConvDesc (stored_border_mode bm (List.length sub)) sub cm)
    else exists m, r = Raise (ValueError m) \/ r = Raise (AssertionError m).
Proof.
  unfold GpuDnnConvDesc_init, conv_desc_args_ok, bind, assert, ret, raise.
  remember (List.length sub) as n eqn:En.
  set (lok := ((n =? 2)%nat || (n =? 3)%nat)).
  assert (H0 : n = 0%nat -> lok = false) by (intros ->; reflexivity).
  clearbody lok.
  destruct bm as [m | p | t]; cbn [valid_border_mode stored_border_mode].
  - destruct (mem_string m ["valid"; "full"]); cbn; [|eauto].
    destruct lok; cbn; [|eauto].
    destruct (mem_string cm ["conv"; "cross"]); cbn; eauto.
  - rewrite repeat_length, Nat.eqb_refl.
    destruct n as [|n].
    { rewrite (H0 eq_refl). cbn. rewrite andb_false_r. cbn. eauto. }
    rewrite forallb_repeat. cbn [repeat].
    destruct (0 <=? p); cbn; [|eauto].
    destruct lok; cbn; [|eauto].
    destruct (mem_string cm ["conv"; "cross"]); cbn; eauto.
  - destruct (List.length t =? n)%nat eqn:El; cbn; [|eauto].
    destruct t as [|a t].
    { apply Nat.eqb_eq in El. cbn in El. rewrite (H0 (eq_sym El)). cbn. eauto. }
    destruct (forallb (fun p => 0 <=? p) (a :: t)); cbn; [|eauto].
    destruct lok; cbn; [|eauto].
    destruct (mem_string cm ["conv"; "cross"]); cbn; eauto.
Qed.

Lemma GpuDnnConvDesc_init_inv (bm : border_mode) (sub : list Z) (cm : string)
    (s s' : State) (o : Op) :
  GpuDnnConvDesc_init bm sub cm s = (Ok o, s') ->
  conv_desc_args_ok bm sub cm = true /\ s' = s /\
  o = GpuDnnConvDesc (stored_border_mode bm (List.length sub)) sub cm.
Proof.
  intros H. destruct (GpuDnnConvDesc_init_char bm sub cm s) as (r & E & C).
  rewrite E in H. injection H as -> <-.
  destruct (conv_desc_args_ok bm sub cm).
  - injection C as <-. auto.
  - destruct C as (m & [C | C]); discriminate C.
Qed.

(** What [GpuDnnConvDesc.__init__] accepts.  The constructor never
    touches the process state.  It returns a descriptor exactly when the
    padding is "valid", "full", a non-negative integer or a tuple of
    non-negative integers with one entry per stride, there are two or
    three strides, and the mode is "conv" or "cross"; an integer padding
    is stored as a tuple that repeats it once per stride.  Every other
    call raises a [ValueError] or an [AssertionError]. *)
Theorem GpuDnnConvDesc_init_accepts (bm : border_mode) (sub : list Z)
    (cm : string) (s : State) :
  exists r,
    GpuDnnConvDesc_init bm sub cm s = (r, s) /\
    if conv_desc_args_ok bm sub cm
    then r = Ok (GpuDnnConvDesc (stored_border_mode bm (List.length sub)) sub cm)
    else exists m, r = Raise (ValueError m) \/ r = Raise (AssertionError m).
Proof. apply GpuDnnConvDesc_init_char. Qed.

(** The definitions of a constructed descriptor.  For every descriptor
    the constructor returns, [get_op_params] returns (it reaches neither
    its own "Invalid value for border_mode" nor an index error) the nine
    definitions in their fixed order, with the number of strides under
    NB_DIMS and the kind of padding under BORDER_MODE: 1 for "valid", 0
    for "full", 2 for explicit padding. *)
Theorem GpuDnnConvDesc_get_op_params_total (bm : border_mode) (sub : list Z)
    (cm : string) (s s' : State) (o : Op) :
  GpuDnnConvDesc_init bm sub cm s = (Ok o, s') ->
  exists l,
    GpuDnnConvDesc_get_op_params o = Ok l /\
    map fst l = conv_desc_keys /\
    lookup_param "NB_DIMS" l = Some (str (Z.of_nat (List.length sub))) /\
    lookup_param "BORDER_MODE" l = Some (border_mode_code bm) /\
    forall p, bm = BMInt p ->
      lookup_param "PAD_0" l = Some (str p) /\
      lookup_param "PAD_1" l = Some (str p).
Proof.
  intros H. apply GpuDnnConvDesc_init_inv in H as (A & _ & ->).
  unfold conv_desc_args_ok in A.
  apply andb_true_iff in A as [A Hcm]. apply andb_true_iff in A as [Hbm Hn].
  assert (L : List.length sub = 2%nat \/ List.length sub = 3%nat).
  { apply orb_true_iff in Hn as [Hn | Hn]; apply Nat.eqb_eq in Hn; auto. }
  destruct bm as [m | p | t]; cbn [stored_border_mode valid_border_mode] in *.
  - apply mem_string_cases in Hbm. destruct Hbm as [<- | [<- | []]];
      destruct L as [L | L];
      (destruct sub as [|a [|b [|c [|d sub]]]]; try discriminate L);
      (eexists; split; [reflexivity|]; split_all; try reflexivity;
       intros p Hp; discriminate Hp).
  - destruct L as [L | L];
      (destruct sub as [|a [|b [|c [|d sub]]]]; try discriminate L);
      (eexists; split; [reflexivity|]; split_all; try reflexivity;
       intros p' Hp; injection Hp as <-; split; reflexivity).
  - apply andb_true_iff in Hbm as [Hl _]. apply Nat.eqb_eq in Hl.
    destruct L as [L | L]; rewrite L in Hl;
      (destruct sub as [|a [|b [|c [|d sub]]]]; try discriminate L);
      (destruct t as [|x [|y [|z [|w t]]]]; try discriminate Hl);
      (eexists; split; [reflexivity|]; split_all; try reflexivity;
       intros p Hp; discriminate Hp).
Qed.

Lemma GpuDnnConvDesc_get_op_params_total_witness :
  exists l,
    GpuDnnConvDesc_get_op_params (GpuDnnConvDesc (BMTuple [1; 1; 1]) [2; 2; 2] "cross")
    = Ok l /\
    lookup_param "NB_DIMS" l = Some "3" /\
    lookup_param "BORDER_MODE" l = Some "2" /\
    lookup_param "PAD_0" l = Some "1".
Proof.
  destruct (GpuDnnConvDesc_get_op_params_total (BMInt 1) [2; 2; 2] "cross"
              initial_state initial_state
              (GpuDnnConvDesc (BMTuple [1; 1; 1]) [2; 2; 2] "cross") eq_refl)
    as (l & E & _ & N & B & P).
  destruct (P 1 eq_refl) as [P0 _].
  exists l. split; [exact E|]. split; [exact N|]. split; [exact B|]. exact P0.
Defined.

(** A pooling descriptor with two axes never consults the gate.  With a
    window of two entries, [GpuDnnPoolDesc.__init__] leaves the process
    state as it is, whether or not the gate has ever been probed; it
    returns a descriptor exactly when the mode is one of the three modes
    (or their old name "average", stored as "average_inc_pad") and
    [stride] and [pad] have two entries too, and fails an assertion
    otherwise. *)
Theorem GpuDnnPoolDesc_init_two_axes (e : Env) (ws stride pad : list Z)
    (mode : string) (s : State) :
  List.length ws = 2%nat ->
  exists r,
    GpuDnnPoolDesc_init e ws stride mode pad s = (r, s) /\
    if pool_desc_args_ok stride mode pad
    then r = Ok (GpuDnnPoolDesc ws stride (stored_mode mode) pad)
    else exists m, r = Raise (AssertionError m).
Proof.
  intros L. unfold GpuDnnPoolDesc_init, pool_desc_args_ok.
  fold (stored_mode mode). unfold bind, assert, ret, raise. rewrite L.
  destruct (mem_string (stored_mode mode)
              ["max"; "average_inc_pad"; "average_exc_pad"]); cbn; [|eauto].
  destruct stride as [|a [|b [|c stride]]]; cbn; eauto.
  destruct pad as [|x [|y [|z pad]]]; cbn; eauto.
Qed.

Lemma GpuDnnPoolDesc_init_two_axes_witness :
  GpuDnnPoolDesc_init env_v2 [2; 2] [2; 2] "average" [0; 0] initial_state
  = (Ok (GpuDnnPoolDesc [2; 2] [2; 2] "average_inc_pad" [0; 0]), initial_state).
Proof.
  destruct (GpuDnnPoolDesc_init_two_axes env_v2 [2; 2] [2; 2] [0; 0] "average"
              initial_state eq_refl) as (r & E & C).
  cbn in C. rewrite C in E. exact E.
Defined.

(** ** Macro definitions of the convolution operators *)

Lemma mem_string_cons (x y : string) (l : list string) :
  mem_string x (y :: l) = String.eqb x y || mem_string x l.
Proof. reflexivity. Qed.

Lemma mem_string_nil (x : string) : mem_string x [] = false.
Proof. reflexivity. Qed.

(** Case analysis on the tests that compare [algo] with the names of the
    guessing and timing variants. *)
Ltac algo_cases algo :=
  rewrite ?mem_string_cons, ?mem_string_nil;
  destruct (String.eqb algo "guess_once");
  destruct (String.eqb algo "guess_on_shape_change");
  destruct (String.eqb algo "time_once");
  destruct (String.eqb algo "time_on_shape_change").

(** The definitions of the forward operator.  For every algorithm name
    and either value of the in-place flag, [get_op_params] defines
    CONV_ALGO exactly once; defines CONV_INPLACE exactly when the
    operator is in place, and the in-place operator has the definitions
    of the other one behind it; never defines CHOOSE_ONCE or CHOOSE_TIME
    without CHOOSE_ALGO; and gives the guessing and timing variants the
    algorithm of "small". *)
Theorem GpuDnnConv_get_op_params_shape (algo : string) (inplace : bool) :
  exists l l0 small,
    GpuDnnConv_get_op_params (GpuDnnConv algo inplace) = Ok l /\
    GpuDnnConv_get_op_params (GpuDnnConv algo false) = Ok l0 /\
    GpuDnnConv_get_op_params (GpuDnnConv "small" false) = Ok small /\
    l = inplace_defs inplace ++ l0 /\
    count_param "CONV_ALGO" l = 1%nat /\
    defined "CONV_INPLACE" l = inplace /\
    (defined "CHOOSE_ONCE" l || defined "CHOOSE_TIME" l = true ->
     defined "CHOOSE_ALGO" l = true) /\
    (mem_string algo ["guess_once"; "guess_on_shape_change"; "time_once";
                      "time_on_shape_change"] = true ->
     mem_string algo ["none"; "large"; "fft"] = false ->
     lookup_param "CONV_ALGO" l = lookup_param "CONV_ALGO" small).
Proof.
  eexists _, _, _. split; [reflexivity|]. split; [reflexivity|].
  split; [reflexivity|]. split; [reflexivity|].
  unfold choose_defs, count_param, defined.
  split_all.
  - destruct inplace; algo_cases algo; vm_compute; reflexivity.
  - destruct inplace; algo_cases algo; vm_compute; reflexivity.
  - destruct inplace; algo_cases algo; vm_compute; intros H;
      first [reflexivity | discriminate H].
  - intros _ H. rewrite !mem_string_cons, mem_string_nil in H.
    apply orb_false_iff in H as [H1 H]. apply orb_false_iff in H as [H2 H].
    apply orb_false_iff in H as [H3 _].
    rewrite H1, H2, H3.
    destruct inplace; cbn; rewrite ?H1;
      destruct (String.eqb algo "small"); reflexivity.
Qed.

Lemma GpuDnnConv_get_op_params_shape_witness :
  exists l,
    GpuDnnConv_get_op_params (GpuDnnConv "time_once" true) = Ok l /\
    lookup_param "CONV_ALGO" l
    = Some "CUDNN_CONVOLUTION_FWD_ALGO_IMPLICIT_PRECOMP_GEMM" /\
    defined "CHOOSE_ALGO" l = true.
Proof.
  destruct (GpuDnnConv_get_op_params_shape "time_once" true)
    as (l & l0 & small & E & _ & Es & _ & _ & _ & C & A).
  exists l. split; [exact E|].
  injection Es as <-.
  split; [exact (A eq_refl eq_refl)|].
  apply C. injection E as <-. reflexivity.
Defined.

(** The definitions of the two gradient operators.  With a version
    below 3000, [get_op_params] of the weight-gradient and of the
    input-gradient operator ignores the algorithm: CONV_ALGO is "0" and
    nothing is chosen at run time, whatever [algo] is.  From 3000 on, as
    for the forward operator, CONV_ALGO is defined exactly once and
    CHOOSE_ONCE or CHOOSE_TIME never come without CHOOSE_ALGO.  In both
    cases CONV_ALGO is the last definition and CONV_INPLACE is defined
    exactly when the operator is in place. *)
Theorem bwd_get_op_params_shape (e : Env) (s s' : State) (v : Z)
    (algo : string) (inplace : bool) :
  version e s = (Ok v, s') ->
  exists lw li,
    GpuDnnConvGradW_get_op_params e (GpuDnnConvGradW algo inplace) s
    = (Ok lw, s') /\
    GpuDnnConvGradI_get_op_params e (GpuDnnConvGradI algo inplace) s
    = (Ok li, s') /\
    (v < 3000 ->
     lw = inplace_defs inplace ++ [("CONV_ALGO", "0")] /\ li = lw) /\
    (forall l, l = lw \/ l = li ->
       count_param "CONV_ALGO" l = 1%nat /\
       option_map fst (last (map Some l) None) = Some "CONV_ALGO" /\
       defined "CONV_INPLACE" l = inplace /\
       (defined "CHOOSE_ONCE" l || defined "CHOOSE_TIME" l = true ->
        defined "CHOOSE_ALGO" l = true)).
Proof.
  intros H.
  unfold GpuDnnConvGradW_get_op_params, GpuDnnConvGradI_get_op_params,
    bwd_get_op_params.
  rewrite !(bind_ok _ _ _ _ _ H).
  destruct (Z.ltb_spec v 3000) as [L | L].
  - eexists _, _. split; [reflexivity|]. split; [reflexivity|].
    split; [auto|].
    intros l [-> | ->]; destruct inplace; vm_compute; split_all;
      first [reflexivity | intros D; discriminate D].
  - eexists _, _. split; [reflexivity|]. split; [reflexivity|].
    split; [intros L'; lia|].
    unfold choose_defs, count_param, defined.
    intros l [-> | ->]; split_all;
      try (destruct inplace; algo_cases algo; vm_compute; reflexivity);
      destruct inplace; algo_cases algo; vm_compute; intros D;
      first [reflexivity | discriminate D].
Qed.

Lemma bwd_get_op_params_shape_witness :
  GpuDnnConvGradW_get_op_params env_v2 (GpuDnnConvGradW "fft" false) state_v2
  = (Ok [("CONV_ALGO", "0")], state_v2).
Proof.
  destruct (bwd_get_op_params_shape env_v2 state_v2 state_v2 2000 "fft" false
              eq_refl) as (lw & li & E & _ & V & _).
  destruct (V ltac:(lia)) as [-> _]. exact E.
Defined.

(** ** Inversion of monadic code *)

Lemma bind_inv {A B} (m : M A) (k : A -> M B) (s s' : State) (b : B) :
  bind m k s = (Ok b, s') ->
  exists a s1, m s = (Ok a, s1) /\ k a s1 = (Ok b, s').
Proof.
  unfold bind. destruct (m s) as [[a|x] s1]; [eauto | discriminate].
Qed.

Ltac binv H :=
  let a := fresh "a" in
  let s1 := fresh "s" in
  let E := fresh "E" in
  apply bind_inv in H as (a & s1 & E & H).

Lemma grows_push (s : State) (x : PyVariable) : grows s (push s x).
Proof. exists [x]. reflexivity. Qed.

Lemma call_op_eq (o : Op) (ins : list var) (t : Ty) (s : State) :
  call_op o ins t s
  = (Ok (List.length (heap s)),
     push s (mkVariable t (Some (mkApply o ins)) None)).
Proof. reflexivity. Qed.

Lemma new_variable_eq (t : Ty) (o : option Apply) (d : option Const)
    (s : State) :
  new_variable t o d s = (Ok (List.length (heap s)), push s (mkVariable t o d)).
Proof. reflexivity. Qed.

Lemma node_at_push_new (s : State) (t : Ty) (a : Apply) (d : option Const) :
  node_at (heap (push s (mkVariable t (Some a) d))) (List.length (heap s))
  = Some a.
Proof. unfold node_at. cbn. rewrite nth_new0. reflexivity. Qed.

Lemma type_of_inv (v : var) (s s' : State) (t : Ty) :
  type_of v s = (Ok t, s') -> s' = s /\ has_type (heap s) v t.
Proof.
  unfold type_of, bind, deref, ret.
  destruct (nth_error (heap s) v) as [[t0 o d]|] eqn:E; [|discriminate].
  intros H. injection H as <- <-. split; [reflexivity|]. exists o, d. exact E.
Qed.

Lemma as_gpuarray_variable_inv (x x' : var) (s s' : State) :
  as_gpuarray_variable x s = (Ok x', s') ->
  grows s s' /\
  (exists d n, has_type (heap s') x' (GpuArrayType d n)) /\
  on_gpu_of (heap s') x' x.
Proof.
  unfold as_gpuarray_variable. intros H. binv H.
  apply type_of_inv in E as [-> T].
  destruct a as [d n | d n | d | c f | | w]; try discriminate H.
  - injection H as <- <-. split; [apply grows_refl|].
    split; [eauto | left; reflexivity].
  - rewrite call_op_eq in H. injection H as <- <-.
    split; [apply grows_push|].
    split; [exists d, n; apply has_type_push_new|].
    right. apply node_at_push_new.
Qed.

Lemma in_4_5_cases (n : nat) : in_4_5 n = true -> (n = 4 \/ n = 5)%nat.
Proof.
  unfold in_4_5. intros H. apply orb_true_iff in H as [H | H];
    apply Nat.eqb_eq in H; auto.
Qed.

Lemma check_ranks_inv (a b c : Ty) (n1 n2 n3 : string) (s s' : State)
    (n : nat) :
  check_ranks a b c n1 n2 n3 s = (Ok n, s') ->
  s' = s /\ ndim_of a = Some n /\ ndim_of b = Some n /\ ndim_of c = Some n /\
  (n = 4 \/ n = 5)%nat.
Proof.
  unfold check_ranks, bind, attr, ret, raise.
  destruct (ndim_of a) as [na|]; [|discriminate].
  destruct (in_4_5 na) eqn:Ia; cbn; [|discriminate].
  destruct (ndim_of b) as [nb|]; [|discriminate].
  destruct (in_4_5 nb) eqn:Ib; cbn; [|discriminate].
  destruct (ndim_of c) as [nc|]; [|discriminate].
  destruct (in_4_5 nc) eqn:Ic; cbn; [|discriminate].
  destruct (na =? nb)%nat eqn:E1; cbn; [|discriminate].
  destruct (na =? nc)%nat eqn:E2; cbn; [|discriminate].
  intros H. injection H as <- <-.
  apply Nat.eqb_eq in E1, E2. subst nb nc.
  split_all; try reflexivity. apply in_4_5_cases, Ia.
Qed.

Lemma has_type_gpu_ndim (h : list PyVariable) (v : var) (d : string)
    (m n : nat) (t : Ty) :
  has_type h v (GpuArrayType d m) -> has_type h v t -> ndim_of t = Some n ->
  t = GpuArrayType d n.
Proof.
  intros H1 H2 Hn. rewrite <- (has_type_fun h v _ _ H1 H2) in Hn |- *.
  cbn in Hn. injection Hn as ->. reflexivity.
Qed.

(** [ensure_dt] returns scalars of the dtype it was asked for. *)
Lemma ensure_dt_post (val : Arg) (c : Const) (name dt : string)
    (s s' : State) (v : var) :
  ensure_dt val c name dt s = (Ok v, s') ->
  grows s s' /\ has_type (heap s') v (Scalar dt).
Proof.
  unfold ensure_dt. intros H.
  binv H. rename a into v0, s0 into s0, E into E0.
  assert (G0 : grows s s0).
  { destruct val as [|k|x].
    - rewrite new_variable_eq in E0. injection E0 as <- <-. apply grows_push.
    - destruct k; cbn [constant] in E0; rewrite new_variable_eq in E0;
        injection E0 as <- <-; apply grows_push.
    - injection E0 as <- <-. apply grows_refl. }
  binv H. apply type_of_inv in E as [-> T0]. rename a into t0.
  binv H. rename a into v1, s1 into s1, E into E1.
  assert (K : grows s0 s1 /\ exists t1, has_type (heap s1) v1 t1 /\
              (forall d, t1 = Scalar d -> True)).
  { destruct (ndim_of t0) as [[|k]|].
    - unfold as_scalar in E1. binv E1. apply type_of_inv in E as [-> T].
      destruct a as [d n | d [|n] | d | ? ? | | ?]; try discriminate E1.
      + rewrite call_op_eq in E1. injection E1 as <- <-.
        split; [apply grows_push|]. eexists. split; [apply has_type_push_new|].
        auto.
      + injection E1 as <- <-. split; [apply grows_refl|]. eauto.
    - injection E1 as <- <-. split; [apply grows_refl|]. eauto.
    - injection E1 as <- <-. split; [apply grows_refl|]. eauto. }
  destruct K as (G1 & t1 & T1 & _).
  binv H. apply type_of_inv in E as [-> T1'].
  pose proof (has_type_fun _ _ _ _ T1 T1') as <-.
  destruct t1 as [? ? | ? ? | d | ? ? | | ?]; try discriminate H.
  destruct (String.eqb d dt) eqn:Ed; cbn [negb] in H.
  - injection H as <- <-. apply String.eqb_eq in Ed. subst d.
    split; [eapply grows_trans; eassumption | exact T1].
  - unfold astype in H. rewrite call_op_eq in H. injection H as <- <-.
    split; [|apply has_type_push_new].
    eapply grows_trans; [eassumption|].
    eapply grows_trans; [eassumption | apply grows_push].
Qed.

(** [ensure_dt] returns scalars of the requested dtype.  Whatever it is
    given for [val] (nothing, a Python number or a variable), whenever
    [ensure_dt] returns, it returns a variable whose type is the scalar
    type of exactly the dtype asked for, and it has only added objects to
    the graph heap. *)
Theorem ensure_dt_returns_scalar (val : Arg) (c : Const) (name dt : string)
    (s s' : State) (v : var) :
  ensure_dt val c name dt s = (Ok v, s') ->
  grows s s' /\ has_type (heap s') v (Scalar dt).
Proof. apply ensure_dt_post. Qed.

Lemma ensure_dt_returns_scalar_witness :
  exists v s',
    ensure_dt (APy (CInt 2)) _one "alpha" "float32" sample_state = (Ok v, s') /\
    has_type (heap s') v (Scalar "float32").
Proof.
  eexists _, _. split; [reflexivity|].
  apply (ensure_dt_returns_scalar (APy (CInt 2)) _one "alpha" "float32"
           sample_state _ _ eq_refl).
Defined.

(** ** Nodes built by [make_node] *)

Lemma on_gpu_of_grows (s s' : State) (x v : var) :
  grows s s' -> on_gpu_of (heap s) x v -> on_gpu_of (heap s') x v.
Proof.
  intros G [-> | N]; [left; reflexivity | right].
  eapply node_at_grows; eassumption.
Qed.

Lemma is_ctype_inv (t : Ty) (c : string) :
  is_ctype t c = true -> exists ff, t = CDataType c ff.
Proof.
  destruct t; cbn; try discriminate. intros H.
  apply String.eqb_eq in H. subst. eauto.
Qed.

Tactic Notation "binv" hyp(H) "as" ident(a) ident(s1) ident(E) :=
  apply bind_inv in H as (a & s1 & E & H).

(** The common part of the three [make_node] methods, from the rank
    tests on: [bad5] is the test on the algorithm that refuses rank 5. *)
Lemma conv_make_node_tail (self : Op) (bad5 : string -> bool)
    (n1 n2 n3 m5 : string) (a b c desc : var) (alpha beta : Arg)
    (s1 s' : State) (r : var) (da db dc : string) (na nb nc : nat) :
  has_type (heap s1) a (GpuArrayType da na) ->
  has_type (heap s1) b (GpuArrayType db nb) ->
  has_type (heap s1) c (GpuArrayType dc nc) ->
  (ti <- type_of a ;;
   tk <- type_of b ;;
   to <- type_of c ;;
   n <- check_ranks ti tk to n1 n2 n3 ;;
   algo <- algo_of self ;;
   (if (n =? 5)%nat && bad5 algo then raise (ValueError m5) else ret tt) ;;
   td <- type_of desc ;;
   (if negb (is_ctype td "cudnnConvolutionDescriptor_t") then
      raise (TypeError "desc must be cudnnConvolutionDescriptor_t")
    else ret tt) ;;
   dt <- attr "dtype" (dtype_of ti) ;;
   alpha <- ensure_dt alpha _one "alpha" dt ;;
   beta <- ensure_dt beta _zero "beta" dt ;;
   call_op self [a; b; c; desc; alpha; beta] to) s1 = (Ok r, s') ->
  grows s1 s' /\
  exists algo,
    algo_of self s1 = (Ok algo, s1) /\
    conv_node_wf (heap s') r self a b c desc na /\
    (na =? 5)%nat && bad5 algo = false.
Proof.
  intros Ta Tb Tc H.
  binv H as ti s2 E. apply type_of_inv in E as [-> Ta'].
  binv H as tk s2 E. apply type_of_inv in E as [-> Tb'].
  binv H as to s2 E. apply type_of_inv in E as [-> Tc'].
  binv H as n s2 E. apply check_ranks_inv in E as (-> & Ni & Nk & No & Hn).
  pose proof (has_type_gpu_ndim _ _ _ _ _ _ Ta Ta' Ni) as ->.
  pose proof (has_type_gpu_ndim _ _ _ _ _ _ Tb Tb' Nk) as ->.
  pose proof (has_type_gpu_ndim _ _ _ _ _ _ Tc Tc' No) as ->.
  pose proof (has_type_fun _ _ _ _ Ta Ta') as Ea. injection Ea as ->.
  binv H as algo s2 Ealgo.
  assert (s2 = s1) as ->.
  { destruct self; cbn in Ealgo; try discriminate Ealgo;
      injection Ealgo as _ <-; reflexivity. }
  binv H as u s2 E.
  destruct ((n =? 5)%nat && bad5 algo) eqn:E5; [discriminate E|].
  injection E as _ <-.
  binv H as td s2 E. apply type_of_inv in E as [-> Td].
  binv H as u' s2 E.
  destruct (is_ctype td "cudnnConvolutionDescriptor_t") eqn:Ec;
    [|discriminate E].
  injection E as _ <-. apply is_ctype_inv in Ec as (ff & ->).
  binv H as dt s2 E. injection E as <- <-.
  binv H as al s2 E. apply ensure_dt_post in E as [G1 Tal].
  binv H as be s3 E. apply ensure_dt_post in E as [G2 Tbe].
  rewrite call_op_eq in H. injection H as <- <-.
  assert (G : grows s1 (push s3 (mkVariable (GpuArrayType dc n)
                (Some (mkApply self [a; b; c; desc; al; be])) None))).
  { eapply grows_trans; [exact G1|].
    eapply grows_trans; [exact G2 | apply grows_push]. }
  split; [exact G|].
  exists algo. split; [exact Ealgo|]. split; [|exact E5].
  exists al, be, da, db, dc, ff.
  split; [apply node_at_push_new|].
  split_all;
    try (eapply has_type_grows; [exact G | eassumption]);
    try apply has_type_push_new; try exact Hn.
  - apply has_type_push.
    eapply has_type_grows; [exact G2 | exact Tal].
  - apply has_type_push. exact Tbe.
Qed.

(** The three [make_node] methods: conversion of the tensors, then the
    common part. *)
Lemma GpuDnnConv_make_node_wf (self : Op) (img kern out desc : var)
    (alpha beta : Arg) (s s' : State) (r : var) :
  GpuDnnConv_make_node self img kern out desc alpha beta s = (Ok r, s') ->
  grows s s' /\
  exists a b c n algo,
    algo_of self s = (Ok algo, s) /\
    conv_node_wf (heap s') r self a b c desc n /\
    (n =? 5)%nat && String.eqb algo "fft" = false /\
    on_gpu_of (heap s') a img /\
    on_gpu_of (heap s') b kern /\
    on_gpu_of (heap s') c out.
Proof.
  unfold GpuDnnConv_make_node. intros H.
  binv H as a s1 E.
  apply as_gpuarray_variable_inv in E as (G1 & (da & na & Ta) & O1).
  binv H as b s2 E.
  apply as_gpuarray_variable_inv in E as (G2 & (db & nb & Tb) & O2).
  binv H as c s3 E.
  apply as_gpuarray_variable_inv in E as (G3 & (dc & nc & Tc) & O3).
  assert (G23 : grows s1 s3) by (eapply grows_trans; eassumption).
  pose proof (has_type_grows _ _ _ _ G23 Ta) as Ta3.
  pose proof (has_type_grows _ _ _ _ G3 Tb) as Tb3.
  apply (conv_make_node_tail _ (fun al : string => String.eqb al "fft")
           _ _ _ _ _ _ _ _ _ _ _ _ _ da db dc na nb nc Ta3 Tb3 Tc) in H.
  destruct H as (G & algo & Ea & W & E5).
  split.
  { eapply grows_trans; [exact G1|]. eapply grows_trans; [exact G23 | exact G]. }
  exists a, b, c, na, algo.
  split.
  { destruct self; cbn in Ea |- *; try discriminate Ea;
      injection Ea as <-; reflexivity. }
  split; [exact W|]. split; [exact E5|].
  split_all.
  - eapply on_gpu_of_grows; [|exact O1].
    eapply grows_trans; [exact G23 | exact G].
  - eapply on_gpu_of_grows; [|exact O2].
    eapply grows_trans; [exact G3 | exact G].
  - eapply on_gpu_of_grows; [exact G | exact O3].
Qed.

Lemma GpuDnnConvGradW_make_node_wf (self : Op) (img top out desc : var)
    (alpha beta : Arg) (s s' : State) (r : var) :
  GpuDnnConvGradW_make_node self img top out desc alpha beta s = (Ok r, s') ->
  grows s s' /\
  exists a b c n algo,
    algo_of self s = (Ok algo, s) /\
    conv_node_wf (heap s') r self a b c desc n /\
    (n =? 5)%nat && mem_string algo ["fft"; "deterministic"] = false /\
    on_gpu_of (heap s') a img /\
    on_gpu_of (heap s') b top /\
    on_gpu_of (heap s') c out.
Proof.
  unfold GpuDnnConvGradW_make_node. intros H.
  binv H as a s1 E.
  apply as_gpuarray_variable_inv in E as (G1 & (da & na & Ta) & O1).
  binv H as b s2 E.
  apply as_gpuarray_variable_inv in E as (G2 & (db & nb & Tb) & O2).
  binv H as c s3 E.
  apply as_gpuarray_variable_inv in E as (G3 & (dc & nc & Tc) & O3).
  assert (G23 : grows s1 s3) by (eapply grows_trans; eassumption).
  pose proof (has_type_grows _ _ _ _ G23 Ta) as Ta3.
  pose proof (has_type_grows _ _ _ _ G3 Tb) as Tb3.
  apply (conv_make_node_tail _ (fun al : string => mem_string al ["fft"; "deterministic"])
           _ _ _ _ _ _ _ _ _ _ _ _ _ da db dc na nb nc Ta3 Tb3 Tc) in H.
  destruct H as (G & algo & Ea & W & E5).
  split.
  { eapply grows_trans; [exact G1|]. eapply grows_trans; [exact G23 | exact G]. }
  exists a, b, c, na, algo.
  split.
  { destruct self; cbn in Ea |- *; try discriminate Ea;
      injection Ea as <-; reflexivity. }
  split; [exact W|]. split; [exact E5|].
  split_all.
  - eapply on_gpu_of_grows; [|exact O1].
    eapply grows_trans; [exact G23 | exact G].
  - eapply on_gpu_of_grows; [|exact O2].
    eapply grows_trans; [exact G3 | exact G].
  - eapply on_gpu_of_grows; [exact G | exact O3].
Qed.

Lemma GpuDnnConvGradI_make_node_wf (self : Op) (kern top out desc : var)
    (alpha beta : Arg) (s s' : State) (r : var) :
  GpuDnnConvGradI_make_node self kern top out desc alpha beta s = (Ok r, s') ->
  grows s s' /\
  exists a b c n algo,
    algo_of self s = (Ok algo, s) /\
    conv_node_wf (heap s') r self a b c desc n /\
    (n =? 5)%nat && mem_string algo ["fft"; "deterministic"] = false /\
    on_gpu_of (heap s') a kern /\
    on_gpu_of (heap s') b top /\
    on_gpu_of (heap s') c out.
Proof.
  unfold GpuDnnConvGradI_make_node. intros H.
  binv H as a s1 E.
  apply as_gpuarray_variable_inv in E as (G1 & (da & na & Ta) & O1).
  binv H as b s2 E.
  apply as_gpuarray_variable_inv in E as (G2 & (db & nb & Tb) & O2).
  binv H as c s3 E.
  apply as_gpuarray_variable_inv in E as (G3 & (dc & nc & Tc) & O3).
  assert (G23 : grows s1 s3) by (eapply grows_trans; eassumption).
  pose proof (has_type_grows _ _ _ _ G23 Ta) as Ta3.
  pose proof (has_type_grows _ _ _ _ G3 Tb) as Tb3.
  apply (conv_make_node_tail _ (fun al : string => mem_string al ["fft"; "deterministic"])
           _ _ _ _ _ _ _ _ _ _ _ _ _ da db dc na nb nc Ta3 Tb3 Tc) in H.
  destruct H as (G & algo & Ea & W & E5).
  split.
  { eapply grows_trans; [exact G1|]. eapply grows_trans; [exact G23 | exact G]. }
  exists a, b, c, na, algo.
  split.
  { destruct self; cbn in Ea |- *; try discriminate Ea;
      injection Ea as <-; reflexivity. }
  split; [exact W|]. split; [exact E5|].
  split_all.
  - eapply on_gpu_of_grows; [|exact O1].
    eapply grows_trans; [exact G23 | exact G].
  - eapply on_gpu_of_grows; [|exact O2].
    eapply grows_trans; [exact G3 | exact G].
  - eapply on_gpu_of_grows; [exact G | exact O3].
Qed.

(** Every convolution node is well formed.  Whenever [make_node] of the
    forward, the weight-gradient or the input-gradient operator returns,
    the node it built reads three GPU tensors of one and the same rank,
    4 or 5 (the arguments, or their transfers to the GPU), the descriptor
    it was given, of the convolution-descriptor type, and two scalars of
    the dtype of the first tensor; the output has the type of the third
    tensor; the heap has only grown; and a node of rank 5 never carries
    the algorithm "fft". *)
Theorem conv_make_node_well_formed (self : Op) (x y out desc : var)
    (alpha beta : Arg) (s s' : State) (r : var) :
  GpuDnnConv_make_node self x y out desc alpha beta s = (Ok r, s') \/
  GpuDnnConvGradW_make_node self x y out desc alpha beta s = (Ok r, s') \/
  GpuDnnConvGradI_make_node self x y out desc alpha beta s = (Ok r, s') ->
  grows s s' /\
  exists a b c n algo,
    conv_node_wf (heap s') r self a b c desc n /\
    on_gpu_of (heap s') a x /\
    on_gpu_of (heap s') b y /\
    on_gpu_of (heap s') c out /\
    algo_of self s = (Ok algo, s) /\
    (n =? 5)%nat && String.eqb algo "fft" = false.
Proof.
  intros [H | [H | H]].
  - apply GpuDnnConv_make_node_wf in H
      as (G & a & b & c & n & algo & Ea & W & E5 & O1 & O2 & O3).
    split; [exact G|]. exists a, b, c, n, algo. auto 10.
  - apply GpuDnnConvGradW_make_node_wf in H
      as (G & a & b & c & n & algo & Ea & W & E5 & O1 & O2 & O3).
    split; [exact G|]. exists a, b, c, n, algo. split_all; try assumption.
    rewrite mem_string_cons in E5.
    destruct (n =? 5)%nat; [|reflexivity].
    cbn in E5 |- *. apply orb_false_iff in E5 as [E5 _]. exact E5.
  - apply GpuDnnConvGradI_make_node_wf in H
      as (G & a & b & c & n & algo & Ea & W & E5 & O1 & O2 & O3).
    split; [exact G|]. exists a, b, c, n, algo. split_all; try assumption.
    rewrite mem_string_cons in E5.
    destruct (n =? 5)%nat; [|reflexivity].
    cbn in E5 |- *. apply orb_false_iff in E5 as [E5 _]. exact E5.
Qed.

Lemma conv_make_node_well_formed_witness :
  exists r s',
    GpuDnnConvGradW_make_node (GpuDnnConvGradW "none" false)
      0%nat 1%nat 2%nat 3%nat ANone (APy (CInt 1)) sample_state = (Ok r, s') /\
    exists a b c n,
      conv_node_wf (heap s') r (GpuDnnConvGradW "none" false) a b c 3%nat n.
Proof.
  eexists _, _. split; [reflexivity|].
  destruct (conv_make_node_well_formed (GpuDnnConvGradW "none" false)
              0%nat 1%nat 2%nat 3%nat ANone (APy (CInt 1)) sample_state _ _
              (or_intror (or_introl eq_refl)))
    as (_ & a & b & c & n & algo & W & _).
  exists a, b, c, n. exact W.
Defined.

(** ** What [make_node] refuses *)

Lemma as_gpuarray_variable_gpu (s : State) (x : var) (d : string) (n : nat) :
  has_type (heap s) x (GpuArrayType d n) ->
  as_gpuarray_variable x s = (Ok x, s).
Proof.
  intros H. unfold as_gpuarray_variable.
  rewrite (bind_ok _ _ _ _ _ (type_of_ok s x _ H)). reflexivity.
Qed.

Lemma check_ranks_rejects (a b c : Ty) (n1 n2 n3 : string) (s : State)
    (na nb nc : nat) :
  ndim_of a = Some na -> ndim_of b = Some nb -> ndim_of c = Some nc ->
  ranks_ok na nb nc = false ->
  exists m, check_ranks a b c n1 n2 n3 s = (Raise (TypeError m), s).
Proof.
  intros Ha Hb Hc R. unfold check_ranks, bind, attr, ret, raise.
  rewrite Ha, Hb, Hc. unfold ranks_ok in R.
  destruct (in_4_5 na) eqn:Ia; cbn; [|eauto].
  destruct (in_4_5 nb) eqn:Ib; cbn; [|eauto].
  destruct (in_4_5 nc) eqn:Ic; cbn; [|eauto].
  cbn in R.
  destruct (na =? nb)%nat; cbn in R |- *; [|eauto].
  rewrite R. cbn. eauto.
Qed.

Lemma check_ranks_accepts (a b c : Ty) (n1 n2 n3 : string) (s : State)
    (n : nat) :
  ndim_of a = Some n -> ndim_of b = Some n -> ndim_of c = Some n ->
  in_4_5 n = true ->
  check_ranks a b c n1 n2 n3 s = (Ok n, s).
Proof.
  intros Ha Hb Hc R. unfold check_ranks, bind, attr, ret, raise.
  rewrite Ha, Hb, Hc, R, Nat.eqb_refl. reflexivity.
Qed.

(** The start of each [make_node] on tensors that are on the GPU. *)
Ltac make_node_start Hx Hy Hz :=
  rewrite (bind_ok _ _ _ _ _ (as_gpuarray_variable_gpu _ _ _ _ Hx));
  rewrite (bind_ok _ _ _ _ _ (as_gpuarray_variable_gpu _ _ _ _ Hy));
  rewrite (bind_ok _ _ _ _ _ (as_gpuarray_variable_gpu _ _ _ _ Hz));
  rewrite (bind_ok _ _ _ _ _ (type_of_ok _ _ _ Hx));
  rewrite (bind_ok _ _ _ _ _ (type_of_ok _ _ _ Hy));
  rewrite (bind_ok _ _ _ _ _ (type_of_ok _ _ _ Hz)).

(** Refused arguments leave no trace.  On three tensors that are on the
    GPU, each of the three [make_node] methods raises a [TypeError] and
    leaves the state, hence the graph, untouched when the ranks are not
    all equal or are not 4 or 5, whatever the operator; and, with ranks
    that agree and an algorithm the rank admits, when the descriptor is
    not of the convolution-descriptor type (a pooling descriptor, for
    instance). *)
Theorem conv_make_node_rejects (self : Op) (x y out desc : var)
    (alpha beta : Arg) (s : State) (dx dy dz : string) (nx ny nz : nat)
    (td : Ty) (algo : string) :
  has_type (heap s) x (GpuArrayType dx nx) ->
  has_type (heap s) y (GpuArrayType dy ny) ->
  has_type (heap s) out (GpuArrayType dz nz) ->
  has_type (heap s) desc td ->
  ranks_ok nx ny nz = false \/
  (is_ctype td "cudnnConvolutionDescriptor_t" = false /\
   algo_of self s = (Ok algo, s) /\
   (nx =? 5)%nat && mem_string algo ["fft"; "deterministic"] = false) ->
  exists m1 m2 m3,
    GpuDnnConv_make_node self x y out desc alpha beta s
    = (Raise (TypeError m1), s) /\
    GpuDnnConvGradW_make_node self x y out desc alpha beta s
    = (Raise (TypeError m2), s) /\
    GpuDnnConvGradI_make_node self x y out desc alpha beta s
    = (Raise (TypeError m3), s).
Proof.
  intros Hx Hy Hz Hd [R | (C & Ea & E5)].
  - destruct (check_ranks_rejects (GpuArrayType dx nx) (GpuArrayType dy ny)
                (GpuArrayType dz nz) "img" "kern" "output" s nx ny nz
                eq_refl eq_refl eq_refl R) as (m1 & E1).
    destruct (check_ranks_rejects (GpuArrayType dx nx) (GpuArrayType dy ny)
                (GpuArrayType dz nz) "img" "topgrad" "output" s nx ny nz
                eq_refl eq_refl eq_refl R) as (m2 & E2).
    destruct (check_ranks_rejects (GpuArrayType dx nx) (GpuArrayType dy ny)
                (GpuArrayType dz nz) "kern" "topgrad" "output" s nx ny nz
                eq_refl eq_refl eq_refl R) as (m3 & E3).
    exists m1, m2, m3.
    unfold GpuDnnConv_make_node, GpuDnnConvGradW_make_node,
      GpuDnnConvGradI_make_node.
    split_all; make_node_start Hx Hy Hz;
      unfold bind at 1; rewrite ?E1, ?E2, ?E3; reflexivity.
  - destruct (ranks_ok nx ny nz) eqn:R.
    2: { destruct (check_ranks_rejects (GpuArrayType dx nx) (GpuArrayType dy ny)
                (GpuArrayType dz nz) "img" "kern" "output" s nx ny nz
                eq_refl eq_refl eq_refl R) as (m1 & E1).
         destruct (check_ranks_rejects (GpuArrayType dx nx) (GpuArrayType dy ny)
                (GpuArrayType dz nz) "img" "topgrad" "output" s nx ny nz
                eq_refl eq_refl eq_refl R) as (m2 & E2).
         destruct (check_ranks_rejects (GpuArrayType dx nx) (GpuArrayType dy ny)
                (GpuArrayType dz nz) "kern" "topgrad" "output" s nx ny nz
                eq_refl eq_refl eq_refl R) as (m3 & E3).
         exists m1, m2, m3.
         unfold GpuDnnConv_make_node, GpuDnnConvGradW_make_node,
           GpuDnnConvGradI_make_node.
         split_all; make_node_start Hx Hy Hz;
           unfold bind at 1; rewrite ?E1, ?E2, ?E3; reflexivity. }
    unfold ranks_ok in R. apply andb_true_iff in R as [R R3].
    apply andb_true_iff in R as [R1 R2].
    apply Nat.eqb_eq in R2, R3. subst ny nz.
    assert (E5' : (nx =? 5)%nat && String.eqb algo "fft" = false).
    { rewrite mem_string_cons in E5. destruct (nx =? 5)%nat; [|reflexivity].
      cbn in E5 |- *. apply orb_false_iff in E5 as [E5 _]. exact E5. }
    eexists _, _, _.
    unfold GpuDnnConv_make_node, GpuDnnConvGradW_make_node,
      GpuDnnConvGradI_make_node.
    split_all; make_node_start Hx Hy Hz;
      rewrite (bind_ok _ _ _ _ _
                 (check_ranks_accepts (GpuArrayType dx nx) (GpuArrayType dy nx)
                    (GpuArrayType dz nx) _ _ _ s nx
                    eq_refl eq_refl eq_refl R1));
      rewrite (bind_ok _ _ _ _ _ Ea);
      rewrite ?E5, ?E5';
      unfold bind at 1, ret at 1;
      rewrite (bind_ok _ _ _ _ _ (type_of_ok _ _ _ Hd));
      rewrite C; reflexivity.
Qed.

Lemma conv_make_node_rejects_witness :
  exists m,
    GpuDnnConv_make_node (GpuDnnConv "small" false) 0%nat 1%nat 2%nat 4%nat
      ANone ANone sample_state = (Raise (TypeError m), sample_state).
Proof.
  assert (H0 : has_type (heap sample_state) 0%nat (GpuArrayType "float32" 4))
    by (eexists _, _; reflexivity).
  assert (H4 : has_type (heap sample_state) 4%nat (Scalar "float32"))
    by (eexists _, _; reflexivity).
  destruct (conv_make_node_rejects (GpuDnnConv "small" false)
              0%nat 1%nat 2%nat 4%nat ANone ANone sample_state
              "float32" "float32" "float32" 4 4 4 (Scalar "float32") "small"
              H0 ltac:(eexists _, _; reflexivity)
              ltac:(eexists _, _; reflexivity) H4
              (or_intror (conj eq_refl (conj eq_refl eq_refl))))
    as (m1 & _ & _ & E & _).
  exists m1. exact E.
Defined.

(** ** Pooling *)

Lemma GpuDnnPool_make_node_spec (s : State) (img desc : var) (d : string)
    (ws stride pad : list Z) (mode : string) :
  has_type (heap s) img (GpuArrayType d (List.length ws + 2)) ->
  has_type (heap s) desc pool_desc_type ->
  node_at (heap s) desc = Some (mkApply (GpuDnnPoolDesc ws stride mode pad) []) ->
  exists r s',
    GpuDnnPool_make_node GpuDnnPool img desc s = (Ok r, s') /\ grows s s' /\
    node_at (heap s') r = Some (mkApply GpuDnnPool [img; desc]) /\
    has_type (heap s') r (GpuArrayType d (List.length ws + 2)) /\
    (List.length (heap s) <= r)%nat.
Proof.
  intros (oi & ci & Hi) (od & cd & Hd) Nd.
  destruct s as [av ms vv lg h]. cbn [heap] in *.
  unfold node_at in Nd. rewrite Hd in Nd. cbn in Nd. subst od.
  eexists _, _; split;
    [ repeat (progress (run; rewrite ?Nat.eqb_refl)); reflexivity |].
  split; [eexists; reflexivity|]. split; [heap_fact|].
  split; [heap_fact | cbn; lia].
Qed.

Lemma grows_length (s s' : State) :
  grows s s' -> (List.length (heap s) <= List.length (heap s'))%nat.
Proof. intros [l ->]. cbn. rewrite length_app. lia. Qed.

Lemma floordiv_nonzero (a b : Z) : b <> 0 -> floordiv a b = Ok (a / b).
Proof. intros H. unfold floordiv. apply Z.eqb_neq in H. rewrite H. reflexivity. Qed.

(** The shape rule of pooling.  For a pooling node whose descriptor was
    built by the descriptor operator, with two or three axes, one window
    size, stride and pad per axis and strides that are not zero,
    [infer_shape] on an input shape given as integers keeps the batch and
    channel entries and maps every spatial entry [x] to
    [(x + 2 * pad - window) // stride + 1], on each of the two or three
    axes; it creates no graph object. *)
Theorem GpuDnnPool_infer_shape_ints (s : State) (node img desc : var)
    (ws stride pad spatial : list Z) (mode : string) (b c : Z) :
  node_at (heap s) node = Some (mkApply GpuDnnPool [img; desc]) ->
  node_at (heap s) desc = Some (mkApply (GpuDnnPoolDesc ws stride mode pad) []) ->
  List.length ws = 2%nat \/ List.length ws = 3%nat ->
  List.length stride = List.length ws ->
  List.length pad = List.length ws ->
  List.length spatial = List.length ws ->
  Forall (fun x => x <> 0) stride ->
  GpuDnnPool_infer_shape node [ints (b :: c :: spatial)] s
  = (Ok [ints (b :: c :: spec_spatial spatial ws pad stride)], s).
Proof.
  intros Hn Hd L Ls Lp Lx Hz.
  destruct (node_at_inv _ _ _ Hd) as (xd & Ed & Eo).
  unfold GpuDnnPool_infer_shape.
  rewrite (bind_ok _ _ _ _ _ (node_of_ok s node _ Hn)). cbn [inputs].
  unfold lift at 1, getitem at 1. cbn [nth_error]. unfold bind at 1.
  rewrite (bind_ok _ _ _ _ _ (owner_of_ok s desc xd Ed)). rewrite Eo.
  cbn [attr]. unfold bind at 1, ret at 1. cbn [op pool_desc_attrs].
  unfold bind at 1, ret at 1.
  destruct L as [L | L]; rewrite L in Ls, Lp, Lx.
  - destruct ws as [|w0 [|w1 [|? ?]]]; try discriminate L.
    destruct stride as [|s0 [|s1 [|? ?]]]; try discriminate Ls.
    destruct pad as [|p0 [|p1 [|? ?]]]; try discriminate Lp.
    destruct spatial as [|x0 [|x1 [|? ?]]]; try discriminate Lx.
    inversion Hz as [|? ? Z0 Hz']. inversion Hz' as [|? ? Z1 _]. subst.
    unfold pool_out_dim, bind, lift, getitem, int_add, int_sub, int_floordiv,
      int_binop, bind, lift, ret.
    cbn [ints map nth_error List.length Nat.ltb Nat.leb].
    rewrite !floordiv_nonzero by assumption. reflexivity.
  - destruct ws as [|w0 [|w1 [|w2 [|? ?]]]]; try discriminate L.
    destruct stride as [|s0 [|s1 [|s2 [|? ?]]]]; try discriminate Ls.
    destruct pad as [|p0 [|p1 [|p2 [|? ?]]]]; try discriminate Lp.
    destruct spatial as [|x0 [|x1 [|x2 [|? ?]]]]; try discriminate Lx.
    inversion Hz as [|? ? Z0 Hz']. inversion Hz' as [|? ? Z1 Hz''].
    inversion Hz'' as [|? ? Z2 _]. subst.
    unfold pool_out_dim, bind, lift, getitem, int_add, int_sub, int_floordiv,
      int_binop, bind, lift, ret.
    cbn [ints map nth_error List.length Nat.ltb Nat.leb].
    rewrite !floordiv_nonzero by assumption. reflexivity.
Qed.

Lemma GpuDnnPool_infer_shape_ints_witness :
  GpuDnnPool_infer_shape 2%nat [ints [2; 3; 8; 8]] pooled_state
  = (Ok [ints [2; 3; 4; 4]], pooled_state).
Proof.
  assert (Hz : Forall (fun x : Z => x <> 0) [2; 2])
    by (repeat constructor; discriminate).
  exact (GpuDnnPool_infer_shape_ints pooled_state 2%nat 0%nat 1%nat
           [2; 2] [2; 2] [0; 0] [8; 8] "max" 2 3
           eq_refl eq_refl (or_introl eq_refl) eq_refl eq_refl eq_refl Hz).
Defined.

(** A descriptor that is a graph input.  [GpuDnnPool.make_node] skips
    its rank test when the descriptor has no owner, so it accepts an
    image of any rank with such a descriptor; [infer_shape] of the node
    it builds then fails, for it reads the window from the descriptor's
    owner. *)
Theorem GpuDnnPool_ownerless_descriptor (s : State) (img desc : var)
    (d : string) (n : nat) (shape : list (list IntLike)) :
  has_type (heap s) img (GpuArrayType d n) ->
  nth_error (heap s) desc = Some (mkVariable pool_desc_type None None) ->
  exists r s',
    GpuDnnPool_make_node GpuDnnPool img desc s = (Ok r, s') /\
    node_at (heap s') r = Some (mkApply GpuDnnPool [img; desc]) /\
    has_type (heap s') r (GpuArrayType d n) /\
    GpuDnnPool_infer_shape r shape s'
    = (Raise (Exception "AttributeError: op"), s').
Proof.
  intros (oi & ci & Hi) Hd.
  destruct s as [av ms vv lg h]. cbn [heap] in *.
  eexists _, _. split; [run; reflexivity|].
  split; [heap_fact|]. split; [heap_fact|].
  run. reflexivity.
Qed.

Lemma GpuDnnPool_ownerless_descriptor_witness :
  exists r s',
    GpuDnnPool_make_node GpuDnnPool 0%nat 1%nat ownerless_desc_state
    = (Ok r, s') /\
    GpuDnnPool_infer_shape r [ints [2; 3; 8; 8]] s'
    = (Raise (Exception "AttributeError: op"), s').
Proof.
  destruct (GpuDnnPool_ownerless_descriptor ownerless_desc_state 0%nat 1%nat
              "float32" 4 [ints [2; 3; 8; 8]]
              (ex_intro _ None (ex_intro _ None eq_refl)) eq_refl)
    as (r & s' & E & _ & _ & F).
  exists r, s'. split; assumption.
Defined.

Lemma GpuDnnPool_make_node_rank (s : State) (img desc : var) (d : string)
    (n : nat) (ws stride pad : list Z) (mode : string) :
  has_type (heap s) img (GpuArrayType d n) ->
  node_at (heap s) desc = Some (mkApply (GpuDnnPoolDesc ws stride mode pad) []) ->
  n <> (List.length ws + 2)%nat ->
  exists m,
    GpuDnnPool_make_node GpuDnnPool img desc s = (Raise (TypeError m), s).
Proof.
  intros Hi Nd Hn. destruct (node_at_inv _ _ _ Nd) as (xd & Ed & Eo).
  unfold GpuDnnPool_make_node.
  rewrite (bind_ok _ _ _ _ _ (as_gpuarray_variable_gpu _ _ _ _ Hi)).
  rewrite (bind_ok _ _ _ _ _ (type_of_ok _ _ _ Hi)).
  rewrite (bind_ok _ _ _ _ _ (owner_of_ok s desc xd Ed)). rewrite Eo.
  cbn [op get_ndim]. unfold bind at 2, ret at 1.
  unfold check_pool_rank, attr. cbn [ndim_of]. unfold bind at 2, ret at 1.
  apply Nat.eqb_neq in Hn. rewrite Hn. cbn [negb].
  eexists. reflexivity.
Qed.

Lemma dnn_pool_spec (e : Env) (s : State) (img : var) (t : Ty)
    (d : string) (n : nat) (ws stride pad : list Z) (mode : string) (v : Z) :
  has_type (heap s) img t -> tensor_type t d n ->
  mem_string (stored_mode mode) ["max"; "average_inc_pad"; "average_exc_pad"]
  = true ->
  List.length ws = List.length stride ->
  List.length stride = List.length pad ->
  (List.length ws = 2%nat \/
   List.length ws = 3%nat /\ avail s = Some true /\ version_v s = Some v /\
   3000 <= v) ->
  (n = (List.length ws + 2)%nat ->
   exists r s' c x desc,
     dnn_pool e img ws stride mode pad s = (Ok r, s') /\ grows s s' /\
     node_at (heap s') r = Some (mkApply GpuDnnPool [c; desc]) /\
     node_at (heap s') c = Some (mkApply GpuContiguous [x]) /\
     on_gpu_of (heap s') x img /\
     node_at (heap s') desc
     = Some (mkApply (GpuDnnPoolDesc ws stride (stored_mode mode) pad) []) /\
     has_type (heap s') r (GpuArrayType d n)) /\
  (n <> (List.length ws + 2)%nat ->
   exists m s', dnn_pool e img ws stride mode pad s = (Raise (TypeError m), s')).
Proof.
  intros Hi Ti Hm L1 L2 Hr.
  destruct (gpu_contiguous_any_spec s img t d n Hi Ti)
    as (c & s1 & x & E1 & G1 & N1 & T1 & X1).
  assert (E2 : GpuDnnPoolDesc_init e ws stride mode pad s1
               = (Ok (GpuDnnPoolDesc ws stride (stored_mode mode) pad), s1)).
  { apply (GpuDnnPoolDesc_init_ok e s1 _ _ _ _ v Hm L1 L2).
    destruct Hr as [L | (L & Ha & Hv & Hge)]; [left; exact L | right].
    rewrite (grows_avail s s1 G1), (grows_version_v s s1 G1). auto. }
  destruct (GpuDnnPoolDesc_make_node_spec s1
              (GpuDnnPoolDesc ws stride (stored_mode mode) pad))
    as (desc & s3 & E3 & G3 & N3 & T3).
  assert (T1' : has_type (heap s3) c (GpuArrayType d n)) by transport.
  split.
  - intros ->.
    destruct (GpuDnnPool_make_node_spec s3 c desc d ws stride pad
                (stored_mode mode) T1' T3 N3) as (r & s4 & E4 & G4 & N4 & T4 & _).
    exists r, s4, c, x, desc.
    split.
    { unfold dnn_pool.
      rewrite (bind_ok _ _ _ _ _ E1), (bind_ok _ _ _ _ _ E2).
      rewrite (bind_ok _ _ _ _ _ E3). exact E4. }
    split.
    { eapply grows_trans; [exact G1|]. eapply grows_trans; eassumption. }
    split_all; try transport.
    destruct X1 as [-> | X1]; [left; reflexivity | right; transport].
  - intros Hn.
    destruct (GpuDnnPool_make_node_rank s3 c desc d n ws stride pad
                (stored_mode mode) T1' N3 Hn) as (m & E4).
    exists m, s3. unfold dnn_pool.
    rewrite (bind_ok _ _ _ _ _ E1), (bind_ok _ _ _ _ _ E2).
    rewrite (bind_ok _ _ _ _ _ E3). exact E4.
Qed.

(** [dnn_pool] end to end.  On a tensor on the host or on the GPU, with
    a mode, a window, strides and pads the descriptor accepts (three axes
    need an open gate and version 3000 or more): when the rank of the
    tensor is the number of window axes plus two, [dnn_pool] returns a
    [GpuDnnPool] node that reads a contiguous copy of the tensor and a
    fresh descriptor carrying the window, the strides, the stored mode
    and the pads, and whose output has the dtype and rank of the tensor;
    with any other rank it raises a [TypeError]. *)
Theorem dnn_pool_builds (e : Env) (s : State) (img : var) (t : Ty)
    (d : string) (n : nat) (ws stride pad : list Z) (mode : string) (v : Z) :
  has_type (heap s) img t -> tensor_type t d n ->
  mem_string (stored_mode mode) ["max"; "average_inc_pad"; "average_exc_pad"]
  = true ->
  List.length ws = List.length stride ->
  List.length stride = List.length pad ->
  (List.length ws = 2%nat \/
   List.length ws = 3%nat /\ avail s = Some true /\ version_v s = Some v /\
   3000 <= v) ->
  (n = (List.length ws + 2)%nat ->
   exists r s' c x desc,
     dnn_pool e img ws stride mode pad s = (Ok r, s') /\ grows s s' /\
     node_at (heap s') r = Some (mkApply GpuDnnPool [c; desc]) /\
     node_at (heap s') c = Some (mkApply GpuContiguous [x]) /\
     on_gpu_of (heap s') x img /\
     node_at (heap s') desc
     = Some (mkApply (GpuDnnPoolDesc ws stride (stored_mode mode) pad) []) /\
     has_type (heap s') r (GpuArrayType d n)) /\
  (n <> (List.length ws + 2)%nat ->
   exists m s', dnn_pool e img ws stride mode pad s = (Raise (TypeError m), s')).
Proof. apply dnn_pool_spec. Qed.

Lemma dnn_pool_builds_witness :
  exists r s',
    dnn_pool env_v3 0%nat [2; 2] [2; 2] "average" [0; 0] avg_pool_state
    = (Ok r, s') /\
    has_type (heap s') r (GpuArrayType "float32" 4).
Proof.
  destruct (dnn_pool_builds env_v3 avg_pool_state 0%nat
              (TensorType "float32" 4) "float32" 4 [2; 2] [2; 2] [0; 0]
              "average" 3007
              (ex_intro _ None (ex_intro _ None eq_refl))
              (or_intror eq_refl) eq_refl eq_refl eq_refl
              (or_introl eq_refl)) as [F _].
  destruct (F eq_refl) as (r & s' & c & x & desc & E & _ & _ & _ & _ & _ & T).
  exists r, s'. split; assumption.
Defined.



(** ** Lifting the pooling nodes of the host graph *)

Lemma gpu_contiguous_fresh (s : State) (x : var) (t : Ty) (d : string)
    (n : nat) :
  has_type (heap s) x t -> tensor_type t d n ->
  exists r s' x',
    gpu_contiguous x s = (Ok r, s') /\ grows s s' /\
    node_at (heap s') r = Some (mkApply GpuContiguous [x']) /\
    has_type (heap s') r (GpuArrayType d n) /\
    on_gpu_of (heap s') x' x /\
    (List.length (heap s) <= r < List.length (heap s'))%nat.
Proof.
  intros (o & c & H) [-> | ->]; destruct s as [av ms vv lg h];
    cbn [heap] in *; unfold on_gpu_of.
  - exists (List.length h). eexists. exists x.
    split; [run; reflexivity|]. split; [eexists; reflexivity|].
    split_all; [heap_fact | heap_fact | left; reflexivity | lia
               | cbn; rewrite length_app; cbn; lia].
  - exists (List.length h + 1)%nat. eexists. exists (List.length h).
    split; [run; reflexivity|]. split; [eexists; reflexivity|].
    split_all; [heap_fact | heap_fact | right; heap_fact | lia
               | cbn; rewrite length_app; cbn; lia].
Qed.

(** Lifting a max-pooling gradient.  When the gate is open and the
    matched node is a [MaxPoolGrad] with [ignore_border], pooling
    parameters the descriptor accepts and three inputs of the
    descriptor's rank, the rule returns a [GpuDnnPoolGrad] node on
    contiguous copies of the input, of the forward output and of the
    output gradient, in this order, and a fresh descriptor; the three
    copies are three different nodes, also when two of the inputs are the
    same variable.  Without [ignore_border] the rule declines and leaves
    the state as it is. *)
Theorem max_pool_grad_lifted (e : Env) (s : State) (p : PoolParams)
    (inp out out_grad : var) (ti to tg : Ty) (di do_ dg : string) (v : Z) :
  avail s = Some true ->
  mem_string (stored_mode (pp_mode p))
    ["max"; "average_inc_pad"; "average_exc_pad"] = true ->
  List.length (pp_ds p) = List.length (pp_st p) ->
  List.length (pp_st p) = List.length (pp_padding p) ->
  (List.length (pp_ds p) = 2%nat \/
   List.length (pp_ds p) = 3%nat /\ version_v s = Some v /\ 3000 <= v) ->
  has_type (heap s) inp ti ->
  tensor_type ti di (List.length (pp_ds p) + 2) ->
  has_type (heap s) out to ->
  tensor_type to do_ (List.length (pp_ds p) + 2) ->
  has_type (heap s) out_grad tg ->
  tensor_type tg dg (List.length (pp_ds p) + 2) ->
  (pp_ignore_border p = true ->
   exists r s' ci co cg desc xi xo xg,
     local_pool_dnn_grad_stride e
       (mkHostApply (MaxPoolGrad p) [inp; out; out_grad]) s
     = (Ok (Some r), s') /\
     node_at (heap s') r = Some (mkApply GpuDnnPoolGrad [ci; co; cg; desc]) /\
     node_at (heap s') ci = Some (mkApply GpuContiguous [xi]) /\
     on_gpu_of (heap s') xi inp /\
     node_at (heap s') co = Some (mkApply GpuContiguous [xo]) /\
     on_gpu_of (heap s') xo out /\
     node_at (heap s') cg = Some (mkApply GpuContiguous [xg]) /\
     on_gpu_of (heap s') xg out_grad /\
     node_at (heap s') desc
     = Some (mkApply (GpuDnnPoolDesc (pp_ds p) (pp_st p)
                        (stored_mode (pp_mode p)) (pp_padding p)) []) /\
     ci <> co /\ co <> cg /\ ci <> cg) /\
  (pp_ignore_border p = false ->
   local_pool_dnn_grad_stride e
     (mkHostApply (MaxPoolGrad p) [inp; out; out_grad]) s = (Ok None, s)).
Proof.
  intros Ha Hm L1 L2 Hr Hti Tti Hto Tto Htg Ttg.
  split.
  - intros Hib.
    assert (E2 : GpuDnnPoolDesc_init e (pp_ds p) (pp_st p) (pp_mode p)
                   (pp_padding p) s
                 = (Ok (GpuDnnPoolDesc (pp_ds p) (pp_st p)
                          (stored_mode (pp_mode p)) (pp_padding p)), s)).
    { apply (GpuDnnPoolDesc_init_ok e s _ _ _ _ v Hm L1 L2).
      destruct Hr as [L | (L & Hv & Hge)]; [left; exact L | right]. auto. }
    destruct (GpuDnnPoolDesc_make_node_spec s
                (GpuDnnPoolDesc (pp_ds p) (pp_st p) (stored_mode (pp_mode p))
                   (pp_padding p)))
      as (desc & s1 & E3 & G3 & N3 & T3).
    destruct (gpu_contiguous_fresh s1 inp ti di _ ltac:(transport) Tti)
      as (ci & s2 & xi & E4 & G4 & N4 & T4 & X4 & B4).
    destruct (gpu_contiguous_fresh s2 out to do_ _ ltac:(transport) Tto)
      as (co & s3 & xo & E5 & G5 & N5 & T5 & X5 & B5).
    destruct (gpu_contiguous_fresh s3 out_grad tg dg _ ltac:(transport) Ttg)
      as (cg & s4 & xg & E6 & G6 & N6 & T6 & X6 & B6).
    destruct (GpuDnnPoolGrad_make_node_spec s4 ci co cg desc di do_ dg
                (pp_ds p) (pp_st p) (pp_padding p) (stored_mode (pp_mode p))
                ltac:(transport) ltac:(transport) T6 ltac:(transport)
                ltac:(transport))
      as (r & s5 & E7 & G7 & N7).
    exists r, s5, ci, co, cg, desc, xi, xo, xg.
    split.
    { unfold local_pool_dnn_grad_stride.
      rewrite (bind_ok _ _ _ _ _ (dnn_available_hit e s true Ha)).
      cbn [negb hop hinputs pool_params_of]. unfold bind at 1, ret at 1.
      rewrite Hib. cbn [negb unpack3]. unfold bind at 1, ret at 1.
      rewrite (bind_ok _ _ _ _ _ E2), (bind_ok _ _ _ _ _ E3).
      rewrite (bind_ok _ _ _ _ _ E4), (bind_ok _ _ _ _ _ E5).
      rewrite (bind_ok _ _ _ _ _ E6), (bind_ok _ _ _ _ _ E7). reflexivity. }
    assert (G57 : grows s3 s5) by (eapply grows_trans; eassumption).
    assert (G47 : grows s2 s5) by (eapply grows_trans; eassumption).
    split_all; try transport; try lia.
    + destruct X4 as [-> | X4]; [left; reflexivity | right; transport].
    + destruct X5 as [-> | X5]; [left; reflexivity | right; transport].
    + destruct X6 as [-> | X6]; [left; reflexivity | right; transport].
  - intros Hib. unfold local_pool_dnn_grad_stride.
    rewrite (bind_ok _ _ _ _ _ (dnn_available_hit e s true Ha)).
    cbn [negb hop hinputs pool_params_of]. unfold bind at 1, ret at 1.
    rewrite Hib. reflexivity.
Qed.

Lemma max_pool_grad_lifted_witness :
  exists r s' ci co cg desc,
    local_pool_dnn_grad_stride env_v3
      (mkHostApply (MaxPoolGrad max_pool_params) [0; 1; 1]%nat) avg_pool_state
    = (Ok (Some r), s') /\
    node_at (heap s') r = Some (mkApply GpuDnnPoolGrad [ci; co; cg; desc]) /\
    co <> cg.
Proof.
  assert (H0 : has_type (heap avg_pool_state) 0%nat (TensorType "float32" 4))
    by (eexists _, _; reflexivity).
  assert (H1 : has_type (heap avg_pool_state) 1%nat (TensorType "float32" 4))
    by (eexists _, _; reflexivity).
  destruct (max_pool_grad_lifted env_v3 avg_pool_state max_pool_params
              0%nat 1%nat 1%nat (TensorType "float32" 4)
              (TensorType "float32" 4) (TensorType "float32" 4)
              "float32" "float32" "float32" 3007
              eq_refl eq_refl eq_refl eq_refl (or_introl eq_refl)
              H0 (or_intror eq_refl) H1 (or_intror eq_refl)
              H1 (or_intror eq_refl)) as [F _].
  destruct (F eq_refl)
    as (r & s' & ci & co & cg & desc & xi & xo & xg & E & N & _ & _ & _ & _
        & _ & _ & _ & _ & D & _).
  exists r, s', ci, co, cg, desc. auto.
Defined.

Lemma dnn_pool_gpu_spec (e : Env) (s : State) (img : var) (d : string)
    (ws stride pad : list Z) (mode : string) (v : Z) :
  has_type (heap s) img (GpuArrayType d (List.length ws + 2)) ->
  mem_string (stored_mode mode) ["max"; "average_inc_pad"; "average_exc_pad"]
  = true ->
  List.length ws = List.length stride ->
  List.length stride = List.length pad ->
  (List.length ws = 2%nat \/
   List.length ws = 3%nat /\ avail s = Some true /\ version_v s = Some v /\
   3000 <= v) ->
  exists r s' c desc,
    dnn_pool e img ws stride mode pad s = (Ok r, s') /\ grows s s' /\
    node_at (heap s') r = Some (mkApply GpuDnnPool [c; desc]) /\
    node_at (heap s') c = Some (mkApply GpuContiguous [img]) /\
    node_at (heap s') desc
    = Some (mkApply (GpuDnnPoolDesc ws stride (stored_mode mode) pad) []) /\
    has_type (heap s') r (GpuArrayType d (List.length ws + 2)).
Proof.
  intros Hi Hm L1 L2 Hr.
  destruct (gpu_contiguous_spec s img d _ Hi) as (c & s1 & E1 & G1 & N1 & T1).
  assert (E2 : GpuDnnPoolDesc_init e ws stride mode pad s1
               = (Ok (GpuDnnPoolDesc ws stride (stored_mode mode) pad), s1)).
  { apply (GpuDnnPoolDesc_init_ok e s1 _ _ _ _ v Hm L1 L2).
    destruct Hr as [L | (L & Ha & Hv & Hge)]; [left; exact L | right].
    rewrite (grows_avail s s1 G1), (grows_version_v s s1 G1). auto. }
  destruct (GpuDnnPoolDesc_make_node_spec s1
              (GpuDnnPoolDesc ws stride (stored_mode mode) pad))
    as (desc & s3 & E3 & G3 & N3 & T3).
  destruct (GpuDnnPool_make_node_spec s3 c desc d ws stride pad
              (stored_mode mode) ltac:(transport) T3 N3)
    as (r & s4 & E4 & G4 & N4 & T4 & _).
  exists r, s4, c, desc.
  split.
  { unfold dnn_pool.
    rewrite (bind_ok _ _ _ _ _ E1), (bind_ok _ _ _ _ _ E2).
    rewrite (bind_ok _ _ _ _ _ E3). exact E4. }
  split.
  { eapply grows_trans; [exact G1|]. eapply grows_trans; eassumption. }
  split_all; transport.
Qed.

(** Lifting a max-pooling node.  When the gate is open and the matched
    node is a [DownsampleFactorMax] with [ignore_border] whose input was
    produced by a node reading [x] first (the transfer of [x] to the
    host), the rule pools [x] itself: it returns a [GpuDnnPool] node on a
    fresh descriptor and on a contiguous copy of a contiguous copy of
    [x], one made by the rule and one by [dnn_pool]. *)
Theorem max_pool_lifted (e : Env) (s : State) (p : PoolParams)
    (img x : var) (o : Op) (rest : list var) (t : Ty) (d : string) (v : Z) :
  avail s = Some true ->
  pp_ignore_border p = true ->
  mem_string (stored_mode (pp_mode p))
    ["max"; "average_inc_pad"; "average_exc_pad"] = true ->
  List.length (pp_ds p) = List.length (pp_st p) ->
  List.length (pp_st p) = List.length (pp_padding p) ->
  (List.length (pp_ds p) = 2%nat \/
   List.length (pp_ds p) = 3%nat /\ version_v s = Some v /\ 3000 <= v) ->
  node_at (heap s) img = Some (mkApply o (x :: rest)) ->
  has_type (heap s) x t ->
  tensor_type t d (List.length (pp_ds p) + 2) ->
  exists r s' c2 c1 x' desc,
    local_pool_dnn_alternative e
      (mkHostApply (DownsampleFactorMax p) [img]) s = (Ok (Some r), s') /\
    node_at (heap s') r = Some (mkApply GpuDnnPool [c2; desc]) /\
    node_at (heap s') c2 = Some (mkApply GpuContiguous [c1]) /\
    node_at (heap s') c1 = Some (mkApply GpuContiguous [x']) /\
    on_gpu_of (heap s') x' x /\
    node_at (heap s') desc
    = Some (mkApply (GpuDnnPoolDesc (pp_ds p) (pp_st p)
                       (stored_mode (pp_mode p)) (pp_padding p)) []) /\
    has_type (heap s') r (GpuArrayType d (List.length (pp_ds p) + 2)).
Proof.
  intros Ha Hib Hm L1 L2 Hr Nimg Hx Tx.
  destruct (node_at_inv _ _ _ Nimg) as (xi & Ei & Eo).
  destruct (gpu_contiguous_any_spec s x t d _ Hx Tx)
    as (c1 & s1 & x' & E1 & G1 & N1 & T1 & X1).
  destruct (dnn_pool_gpu_spec e s1 c1 d (pp_ds p) (pp_st p) (pp_padding p)
              (pp_mode p) v T1 Hm L1 L2)
    as (r & s2 & c2 & desc & E2 & G2 & N2 & N3 & N4 & T2).
  { destruct Hr as [L | (L & Hv & Hge)]; [left; exact L | right].
    rewrite (grows_avail s s1 G1), (grows_version_v s s1 G1). auto. }
  exists r, s2, c2, c1, x', desc.
  split.
  { unfold local_pool_dnn_alternative.
    rewrite (bind_ok _ _ _ _ _ (dnn_available_hit e s true Ha)).
    cbn [negb hop hinputs pool_params_of]. unfold bind at 1, ret at 1.
    rewrite Hib. cbn [negb unpack1]. unfold bind at 1, ret at 1.
    rewrite (bind_ok _ _ _ _ _ (owner_of_ok s img xi Ei)). rewrite Eo.
    cbn [attr]. unfold bind at 1, ret at 1. cbn [inputs].
    unfold lift at 1, getitem at 1. cbn [nth_error]. unfold bind at 1.
    rewrite (bind_ok _ _ _ _ _ E1), (bind_ok _ _ _ _ _ E2). reflexivity. }
  split_all; try assumption; try transport.
  destruct X1 as [-> | X1]; [left; reflexivity | right; transport].
Qed.

Lemma max_pool_lifted_witness :
  exists r s' c2 c1 x' desc,
    local_pool_dnn_alternative env_v3
      (mkHostApply (DownsampleFactorMax max_pool_params) [1%nat])
      host_pool_state = (Ok (Some r), s') /\
    node_at (heap s') r = Some (mkApply GpuDnnPool [c2; desc]) /\
    node_at (heap s') c2 = Some (mkApply GpuContiguous [c1]) /\
    node_at (heap s') c1 = Some (mkApply GpuContiguous [x']) /\
    on_gpu_of (heap s') x' 0%nat.
Proof.
  destruct (max_pool_lifted env_v3 host_pool_state max_pool_params
              1%nat 0%nat HostFromGpu [] (GpuArrayType "float32" 4) "float32"
              3007 eq_refl eq_refl eq_refl eq_refl eq_refl (or_introl eq_refl)
              eq_refl (ex_intro _ None (ex_intro _ None eq_refl))
              (or_introl eq_refl))
    as (r & s' & c2 & c1 & x' & desc & E & N1 & N2 & N3 & X & _).
  exists r, s', c2, c1, x', desc. auto.
Defined.

(** A closed gate disables every lifting rule.  When [dnn_available]
    returns [False], on a first probe or from its cache, each local
    optimizer that lifts a node of the host graph to cuDNN returns
    nothing, whatever node it is given, and changes nothing beyond what
    the gate itself recorded: no graph object is created. *)
Theorem closed_gate_disables_lifting (e : Env) (fg : FunctionGraph)
    (s s1 : State) (hnode : HostApply) (node : var) :
  dnn_available e s = (Ok false, s1) ->
  local_conv_dnn e hnode s = (Ok None, s1) /\
  local_conv_dnn_alternative e hnode s = (Ok None, s1) /\
  local_pool_dnn_alternative e hnode s = (Ok None, s1) /\
  local_pool_dnn_grad_stride e hnode s = (Ok None, s1) /\
  local_avg_pool_dnn_grad_stride e node s = (Ok None, s1) /\
  local_log_softmax_dnn e fg node s = (Ok None, s1) /\
  heap s1 = heap s.
Proof.
  intros H.
  unfold local_conv_dnn, local_conv_dnn_alternative,
    local_pool_dnn_alternative, local_pool_dnn_grad_stride,
    local_avg_pool_dnn_grad_stride, local_log_softmax_dnn.
  rewrite !(bind_ok _ _ _ _ _ H). cbn [negb].
  split_all; try reflexivity.
  (* the gate does not touch the heap *)
  destruct s as [av ms vv lg h]. gate_unfold_in H.
  destruct av as [b|]; cbn in H.
  { injection H as _ <-. reflexivity. }
  destruct (pygpu_present e); cbn in H; [|injection H as <-; reflexivity].
  destruct (String.prefix "cuda" (device e)); cbn in H;
    [|injection H as <-; reflexivity].
  destruct (drop_last2 (bin_id e) <? "30")%string; cbn in H;
    (destruct (try_flags_comp e); cbn in H; [|injection H as <-; reflexivity]);
    (destruct vv as [v0|]; cbn in H;
     [ (destruct (v0 <? 2000); cbn in H; [discriminate H|]);
       (destruct ((3000 <=? v0) && (v0 <? 3007)); cbn in H;
        [discriminate H|]);
       injection H as _ <-; reflexivity
     | (destruct (header_version e =? library_version e); cbn in H;
        [|discriminate H]);
       (destruct (library_version e <? 2000); cbn in H; [discriminate H|]);
       (destruct ((3000 <=? library_version e) && (library_version e <? 3007));
        cbn in H; [discriminate H|]);
       injection H as _ <-; reflexivity ]).
Qed.

Lemma closed_gate_disables_lifting_witness :
  local_conv_dnn env_no_pygpu
    (mkHostApply (GpuConv (BMStr "valid") [1; 1] None) [0; 1]%nat) closed_state
  = (Ok None, closed_state).
Proof.
  destruct (closed_gate_disables_lifting env_no_pygpu
              {| apply_nodes := []; fg_outputs := [] |} closed_state
              closed_state
              (mkHostApply (GpuConv (BMStr "valid") [1; 1] None) [0; 1]%nat)
              0%nat eq_refl) as (E & _).
  exact E.
Defined.

(** ** The gradient of softmax *)

Lemma GpuDnnSoftmaxBase_init_ok (e : Env) (s : State) (algo mode : string)
    (v : Z) :
  mem_string algo ["fast"; "accurate"; "log"] = true ->
  mem_string mode ["instance"; "channel"] = true ->
  (algo = "log" -> avail s = Some true /\ version_v s = Some v /\ 3000 <= v) ->
  GpuDnnSoftmaxBase_init e algo mode s = (Ok tt, s).
Proof.
  intros Ha Hm Hl. unfold GpuDnnSoftmaxBase_init, bind, assert.
  rewrite Ha. cbn [ret].
  destruct (String.eqb algo "log") eqn:El.
  - apply String.eqb_eq in El. destruct (Hl El) as (A & V & G).
    rewrite (version_hit e s v A V). apply Z.ltb_ge in G. rewrite G.
    cbn [ret]. rewrite Hm. reflexivity.
  - cbn [ret]. rewrite Hm. reflexivity.
Qed.

Lemma GpuDnnSoftmax_make_node_fresh (s : State) (self : Op) (x : var)
    (d : string) :
  has_type (heap s) x (GpuArrayType d 4) ->
  exists r s',
    GpuDnnSoftmax_make_node self x s = (Ok r, s') /\ grows s s' /\
    node_at (heap s') r = Some (mkApply self [x]) /\
    has_type (heap s') r (GpuArrayType d 4) /\
    (List.length (heap s) <= r)%nat.
Proof.
  intros (o & c & H). destruct s as [av ms vv lg h]. cbn [heap] in *.
  eexists _, _; split; [run; reflexivity|].
  split; [eexists; reflexivity|].
  split; [heap_fact|]. split; [heap_fact | cbn; lia].
Qed.

Lemma GpuDnnSoftmax_make_node_rank (s : State) (self : Op) (x : var)
    (d : string) (n : nat) :
  has_type (heap s) x (GpuArrayType d n) -> n <> 4%nat ->
  GpuDnnSoftmax_make_node self x s
  = (Raise (AssertionError "x.ndim == 4"), s).
Proof.
  intros Hx Hn. unfold GpuDnnSoftmax_make_node.
  rewrite (bind_ok _ _ _ _ _ (as_gpuarray_variable_gpu s x d n Hx)).
  rewrite (bind_ok _ _ _ _ _ (type_of_ok s x _ Hx)).
  cbn [ndim_of attr]. unfold bind, ret, assert.
  apply Nat.eqb_neq in Hn. rewrite Hn. reflexivity.
Qed.

Lemma GpuDnnSoftmaxGrad_make_node_spec (s : State) (self : Op) (dy sm : var)
    (d dg : string) :
  has_type (heap s) dy (GpuArrayType dg 4) ->
  has_type (heap s) sm (GpuArrayType d 4) ->
  exists r s',
    GpuDnnSoftmaxGrad_make_node self dy sm s = (Ok r, s') /\ grows s s' /\
    node_at (heap s') r = Some (mkApply self [dy; sm]) /\
    has_type (heap s') r (GpuArrayType d 4).
Proof.
  intros (o & c & H) (o' & c' & H').
  destruct s as [av ms vv lg h]. cbn [heap] in *.
  unfold GpuDnnSoftmaxGrad_make_node.
  eexists _, _; split; [run; reflexivity|].
  split; [eexists; reflexivity|]. split; heap_fact.
Qed.

(** The gradient of softmax.  For a softmax operator with an algorithm
    and a mode its constructor accepts, applied to a rank-4 GPU tensor,
    and a rank-4 gradient of its output, [GpuDnnSoftmax.grad] returns one
    [GpuDnnSoftmaxGrad] node with the same algorithm and mode, on the
    gradient and on a second application of the operator to the input (a
    new node); the result has the dtype of the input, whatever the dtype
    of the gradient.  On an input of another rank the assertion of
    [make_node] fails. *)
Theorem GpuDnnSoftmax_grad_structure (e : Env) (s : State) (x g_sm : var)
    (algo mode d dg : string) (n : nat) (v : Z) :
  has_type (heap s) x (GpuArrayType d n) ->
  has_type (heap s) g_sm (GpuArrayType dg 4) ->
  mem_string algo ["fast"; "accurate"; "log"] = true ->
  mem_string mode ["instance"; "channel"] = true ->
  (algo = "log" -> avail s = Some true /\ version_v s = Some v /\ 3000 <= v) ->
  (n = 4%nat ->
   exists r s' sm,
     GpuDnnSoftmax_grad e (GpuDnnSoftmax algo mode) [x] [g_sm] s
     = (Ok [r], s') /\ grows s s' /\
     node_at (heap s') r = Some (mkApply (GpuDnnSoftmaxGrad algo mode) [g_sm; sm]) /\
     node_at (heap s') sm = Some (mkApply (GpuDnnSoftmax algo mode) [x]) /\
     (List.length (heap s) <= sm)%nat /\
     has_type (heap s') r (GpuArrayType d 4)) /\
  (n <> 4%nat ->
   GpuDnnSoftmax_grad e (GpuDnnSoftmax algo mode) [x] [g_sm] s
   = (Raise (AssertionError "x.ndim == 4"), s)).
Proof.
  intros Hx Hg Ha Hm Hl. split.
  - intros ->.
    destruct (GpuDnnSoftmax_make_node_fresh s (GpuDnnSoftmax algo mode) x d Hx)
      as (sm & s1 & E1 & G1 & N1 & T1 & L1).
    assert (E2 : GpuDnnSoftmaxGrad_init e algo mode s1
                 = (Ok (GpuDnnSoftmaxGrad algo mode), s1)).
    { assert (Hl1 : algo = "log" ->
                avail s1 = Some true /\ version_v s1 = Some v /\ 3000 <= v).
      { intros El. rewrite (grows_avail s s1 G1), (grows_version_v s s1 G1).
        auto. }
      unfold GpuDnnSoftmaxGrad_init.
      rewrite (bind_ok _ _ _ _ _ (GpuDnnSoftmaxBase_init_ok e s1 algo mode v
                                   Ha Hm Hl1)).
      reflexivity. }
    destruct (GpuDnnSoftmaxGrad_make_node_spec s1 (GpuDnnSoftmaxGrad algo mode)
                g_sm sm d dg ltac:(transport) T1)
      as (r & s2 & E3 & G3 & N3 & T3).
    exists r, s2, sm.
    split.
    { unfold GpuDnnSoftmax_grad. cbn [unpack1].
      unfold bind at 1, ret at 1. unfold bind at 1, ret at 1.
      rewrite (bind_ok _ _ _ _ _ E1). cbn [algo_of mode_of].
      unfold bind at 1, ret at 1. unfold bind at 1, ret at 1.
      rewrite (bind_ok _ _ _ _ _ E2), (bind_ok _ _ _ _ _ E3). reflexivity. }
    split; [eapply grows_trans; eassumption|].
    split_all; try assumption; transport.
  - intros Hn. unfold GpuDnnSoftmax_grad. cbn [unpack1].
    unfold bind at 1, ret at 1. unfold bind at 1, ret at 1.
    unfold bind at 1.
    rewrite (GpuDnnSoftmax_make_node_rank s (GpuDnnSoftmax algo mode) x d n
               Hx Hn).
    reflexivity.
Qed.

Lemma GpuDnnSoftmax_grad_structure_witness :
  exists r s' sm,
    GpuDnnSoftmax_grad env_v3 (GpuDnnSoftmax "log" "channel") [0%nat] [1%nat]
      softmax_state = (Ok [r], s') /\
    node_at (heap s') r
    = Some (mkApply (GpuDnnSoftmaxGrad "log" "channel") [1%nat; sm]).
Proof.
  assert (H0 : has_type (heap softmax_state) 0%nat (GpuArrayType "float32" 4))
    by (eexists _, _; reflexivity).
  assert (H1 : has_type (heap softmax_state) 1%nat (GpuArrayType "float32" 4))
    by (eexists _, _; reflexivity).
  assert (Hl : "log" = "log" ->
               avail softmax_state = Some true /\
               version_v softmax_state = Some 3007 /\ 3000 <= 3007)
    by (intros _; split; [reflexivity|]; split; [reflexivity | lia]).
  destruct (GpuDnnSoftmax_grad_structure env_v3 softmax_state 0%nat 1%nat
              "log" "channel" "float32" "float32" 4 3007
              H0 H1 eq_refl eq_refl Hl) as [F _].
  destruct (F eq_refl) as (r & s' & sm & E & _ & N & _).
  exists r, s', sm. split; assumption.
Defined.

(** ** Constructors of the convolution operators *)

(** Case analysis on an algorithm name: one of the eight names, or none
    of them. *)
Ltac name_cases a :=
  destruct (String.eqb_spec a "fft") as [-> | N1];
  [| destruct (String.eqb_spec a "guess_once") as [-> | N2];
  [| destruct (String.eqb_spec a "guess_on_shape_change") as [-> | N3];
  [| destruct (String.eqb_spec a "time_once") as [-> | N4];
  [| destruct (String.eqb_spec a "time_on_shape_change") as [-> | N5];
  [| destruct (String.eqb_spec a "none") as [-> | N6];
  [| destruct (String.eqb_spec a "small") as [-> | N7];
  [| destruct (String.eqb_spec a "large") as [-> | N8];
  [| apply String.eqb_neq in N1, N2, N3, N4, N5, N6, N7, N8;
     rewrite ?mem_string_cons, ?mem_string_nil, ?N1, ?N2, ?N3, ?N4, ?N5,
       ?N6, ?N7, ?N8 ]]]]]]]].

Lemma GpuDnnConv_init_char (e : Env) (s s' : State) (v : Z)
    (algo : option string) (inplace : bool) :
  version e s = (Ok v, s') ->
  exists r,
    GpuDnnConv_init e algo inplace s = (r, s') /\
    if conv_algo_ok v (stored_algo algo (algo_fwd e))
    then r = Ok (GpuDnnConv (stored_algo algo (algo_fwd e)) inplace)
    else exists m, r = Raise (RuntimeError m) \/ r = Raise (AssertionError m).
Proof.
  intros H. unfold GpuDnnConv_init. fold (stored_algo algo (algo_fwd e)).
  rewrite (bind_ok _ _ _ _ _ H).
  generalize (stored_algo algo (algo_fwd e)). intros a.
  unfold conv_algo_ok, fwd_algos, bind, assert, ret, raise.
  destruct (v <? 3000); name_cases a; eval_mem; cbn; eauto.
Qed.

Lemma GpuDnnConv_init_inv (e : Env) (s s' : State) (algo : option string)
    (inplace : bool) (o : Op) :
  GpuDnnConv_init e algo inplace s = (Ok o, s') ->
  o = GpuDnnConv (stored_algo algo (algo_fwd e)) inplace.
Proof.
  unfold GpuDnnConv_init. fold (stored_algo algo (algo_fwd e)). intros H.
  binv H as v s1 E. binv H as u s2 E'. binv H as u' s3 E''.
  injection H as <- _. reflexivity.
Qed.

Lemma bwd_init_char (e : Env) (s : State) (algo : option string)
    (inplace : bool) :
  GpuDnnConvGradW_init e inplace algo s
  = (if mem_string (stored_algo algo (algo_bwd e)) bwd_algos
     then Ok (GpuDnnConvGradW (stored_algo algo (algo_bwd e)) inplace)
     else Raise (AssertionError "self.algo in [...]"), s) /\
  GpuDnnConvGradI_init e inplace algo s
  = (if mem_string (stored_algo algo (algo_bwd e)) bwd_algos
     then Ok (GpuDnnConvGradI (stored_algo algo (algo_bwd e)) inplace)
     else Raise (AssertionError "self.algo in [...]"), s).
Proof.
  unfold GpuDnnConvGradW_init, GpuDnnConvGradI_init, bind, assert, ret, raise.
  fold (stored_algo algo (algo_bwd e)).
  destruct (mem_string (stored_algo algo (algo_bwd e)) bwd_algos);
    split; reflexivity.
Qed.

(** What the constructors of the convolution operators accept.  The
    forward operator reads the version: below 3000 it accepts the
    algorithms "none", "small" and "large" only, from 3000 on the eight
    names of its list; it stores the configured forward algorithm when
    none is given, and fails with a [RuntimeError] or an
    [AssertionError] otherwise.  The two gradient operators accept the
    seven names of their list, "fft" and the guessing and timing variants
    included, without reading the version or touching the state. *)
Theorem conv_constructors_accept (e : Env) (s s' : State) (v : Z)
    (algo : option string) (inplace : bool) :
  version e s = (Ok v, s') ->
  (exists r,
     GpuDnnConv_init e algo inplace s = (r, s') /\
     if conv_algo_ok v (stored_algo algo (algo_fwd e))
     then r = Ok (GpuDnnConv (stored_algo algo (algo_fwd e)) inplace)
     else exists m, r = Raise (RuntimeError m) \/ r = Raise (AssertionError m)) /\
  GpuDnnConvGradW_init e inplace algo s
  = (if mem_string (stored_algo algo (algo_bwd e)) bwd_algos
     then Ok (GpuDnnConvGradW (stored_algo algo (algo_bwd e)) inplace)
     else Raise (AssertionError "self.algo in [...]"), s) /\
  GpuDnnConvGradI_init e inplace algo s
  = (if mem_string (stored_algo algo (algo_bwd e)) bwd_algos
     then Ok (GpuDnnConvGradI (stored_algo algo (algo_bwd e)) inplace)
     else Raise (AssertionError "self.algo in [...]"), s).
Proof.
  intros H. split; [exact (GpuDnnConv_init_char e s s' v algo inplace H)|].
  apply bwd_init_char.
Qed.

Lemma conv_constructors_accept_witness :
  (exists m,
     GpuDnnConv_init env_v2 (Some "fft") false state_v2
     = (Raise (RuntimeError m), state_v2)) /\
  GpuDnnConvGradW_init env_v2 false (Some "fft") state_v2
  = (Ok (GpuDnnConvGradW "fft" false), state_v2).
Proof.
  destruct (conv_constructors_accept env_v2 state_v2 state_v2 2000
              (Some "fft") false eq_refl) as ((r & E & C) & W & _).
  split; [|exact W].
  cbn in C. destruct C as (m & [-> | ->]).
  - exists m. exact E.
  - exfalso. vm_compute in E. discriminate E.
Defined.

(** ** The in-place rules fire once *)

Lemma bwd_init_inv (e : Env) (s s' : State) (algo : option string)
    (inplace : bool) (o : Op) :
  (GpuDnnConvGradW_init e inplace algo s = (Ok o, s') ->
   o = GpuDnnConvGradW (stored_algo algo (algo_bwd e)) inplace) /\
  (GpuDnnConvGradI_init e inplace algo s = (Ok o, s') ->
   o = GpuDnnConvGradI (stored_algo algo (algo_bwd e)) inplace).
Proof.
  destruct (bwd_init_char e s algo inplace) as [EW EI].
  rewrite EW, EI.
  destruct (mem_string (stored_algo algo (algo_bwd e)) bwd_algos);
    split; intros H; first [discriminate H | injection H as <- _; reflexivity].
Qed.

Lemma conv_node_wf_node (h : list PyVariable) (r : var) (o : Op)
    (a b c desc : var) (n : nat) :
  conv_node_wf h r o a b c desc n -> op_at h r = Some o.
Proof.
  intros (al & be & dt & dk & dto & ff & N & _).
  unfold op_at. unfold node_at in N.
  destruct (nth_error h r) as [x|]; [|discriminate N]. rewrite N. reflexivity.
Qed.

Lemma op_at_node (h : list PyVariable) (r : var) (o : Op) :
  op_at h r = Some o -> exists ins, node_at h r = Some (mkApply o ins).
Proof.
  unfold op_at, node_at. destruct (nth_error h r) as [x|]; [|discriminate].
  destruct (owner x) as [[o' ins]|]; [|discriminate].
  intros H. injection H as ->. eauto.
Qed.

(** What an in-place rule returns is an in-place node of its operator. *)
Lemma inplace_result_op (e : Env) (fg : FunctionGraph) (node r : var)
    (s s' : State) :
  (local_dnn_conv_inplace e fg node s = (Ok (Some [r]), s') ->
   exists algo, op_at (heap s') r = Some (GpuDnnConv algo true)) /\
  (local_dnn_convgw_inplace e fg node s = (Ok (Some [r]), s') ->
   exists algo, op_at (heap s') r = Some (GpuDnnConvGradW algo true)) /\
  (local_dnn_convgi_inplace e fg node s = (Ok (Some [r]), s') ->
   exists algo, op_at (heap s') r = Some (GpuDnnConvGradI algo true)).
Proof.
  split_all; intros H.
  - unfold local_dnn_conv_inplace in H. binv H as n s1 E.
    destruct (op n); try discriminate H.
    destruct inplace; [discriminate H|].
    binv H as ins s2 E1. binv H as new_op s3 E2.
    apply GpuDnnConv_init_inv in E2. cbn [stored_algo] in E2. subst new_op.
    binv H as p s4 E3. destruct p as [[[[[a b] c] d] al] be].
    binv H as r' s5 E4. injection H as <- <-.
    apply GpuDnnConv_make_node_wf in E4
      as (_ & a' & b' & c' & k & algo' & _ & W & _).
    exists algo. eapply conv_node_wf_node, W.
  - unfold local_dnn_convgw_inplace in H. binv H as n s1 E.
    destruct (op n); try discriminate H.
    destruct inplace; [discriminate H|].
    binv H as ins s2 E1. binv H as new_op s3 E2.
    apply (proj1 (bwd_init_inv e _ _ _ _ _)) in E2.
    cbn [stored_algo] in E2. subst new_op.
    binv H as p s4 E3. destruct p as [[[[[a b] c] d] al] be].
    binv H as r' s5 E4. injection H as <- <-.
    apply GpuDnnConvGradW_make_node_wf in E4
      as (_ & a' & b' & c' & k & algo' & _ & W & _).
    exists algo. eapply conv_node_wf_node, W.
  - unfold local_dnn_convgi_inplace in H. binv H as n s1 E.
    destruct (op n); try discriminate H.
    destruct inplace; [discriminate H|].
    binv H as ins s2 E1. binv H as new_op s3 E2.
    apply (proj2 (bwd_init_inv e _ _ _ _ _)) in E2.
    cbn [stored_algo] in E2. subst new_op.
    binv H as p s4 E3. destruct p as [[[[[a b] c] d] al] be].
    binv H as r' s5 E4. injection H as <- <-.
    apply GpuDnnConvGradI_make_node_wf in E4
      as (_ & a' & b' & c' & k & algo' & _ & W & _).
    exists algo. eapply conv_node_wf_node, W.
Qed.

Lemma inplace_rules_decline (e : Env) (fg : FunctionGraph) (r : var)
    (s : State) (o : Op) :
  op_at (heap s) r = Some o ->
  (forall algo, o <> GpuDnnConv algo false) ->
  (forall algo, o <> GpuDnnConvGradW algo false) ->
  (forall algo, o <> GpuDnnConvGradI algo false) ->
  local_dnn_conv_inplace e fg r s = (Ok None, s) /\
  local_dnn_convgw_inplace e fg r s = (Ok None, s) /\
  local_dnn_convgi_inplace e fg r s = (Ok None, s).
Proof.
  intros H N1 N2 N3. apply op_at_node in H as (ins & H).
  unfold local_dnn_conv_inplace, local_dnn_convgw_inplace,
    local_dnn_convgi_inplace.
  rewrite !(bind_ok _ _ _ _ _ (node_of_ok s r _ H)). cbn [op].
  split_all; destruct o; try reflexivity; destruct inplace; try reflexivity;
    first [ exfalso; eapply N1; reflexivity
          | exfalso; eapply N2; reflexivity
          | exfalso; eapply N3; reflexivity ].
Qed.

(** The in-place rules fire once.  Whatever node one of the three
    in-place rules has returned a replacement for, none of the three
    rules fires on the replacement: each declines and leaves the state as
    it is, in whatever graph the replacement sits.  So the rewrite cannot
    go round in circles. *)
Theorem inplace_rules_fire_once (e : Env) (fg fg' : FunctionGraph)
    (node r : var) (s s' : State) :
  local_dnn_conv_inplace e fg node s = (Ok (Some [r]), s') \/
  local_dnn_convgw_inplace e fg node s = (Ok (Some [r]), s') \/
  local_dnn_convgi_inplace e fg node s = (Ok (Some [r]), s') ->
  local_dnn_conv_inplace e fg' r s' = (Ok None, s') /\
  local_dnn_convgw_inplace e fg' r s' = (Ok None, s') /\
  local_dnn_convgi_inplace e fg' r s' = (Ok None, s').
Proof.
  intros H.
  destruct (inplace_result_op e fg node r s s') as (R1 & R2 & R3).
  destruct H as [H | [H | H]];
    [ destruct (R1 H) as (algo & O)
    | destruct (R2 H) as (algo & O)
    | destruct (R3 H) as (algo & O) ];
    (eapply inplace_rules_decline; [exact O | ..]); intros a D; discriminate D.
Qed.

Lemma inplace_rules_fire_once_witness :
  exists r s',
    local_dnn_conv_inplace env_v3 shared_fg 7%nat shared_state
    = (Ok (Some [r]), s') /\
    local_dnn_conv_inplace env_v3 shared_fg r s' = (Ok None, s').
Proof.
  eexists _, _. split; [reflexivity|].
  apply (inplace_rules_fire_once env_v3 shared_fg shared_fg 7%nat _
           shared_state _ (or_introl eq_refl)).
Defined.

(** ** The merge rules *)

Lemma node_of_inv (v : var) (s s' : State) (a : Apply) :
  node_of v s = (Ok a, s') -> s' = s /\ node_at (heap s) v = Some a.
Proof.
  unfold node_of, owner_of, bind, deref, attr, ret, raise, node_at.
  destruct (nth_error (heap s) v) as [x|]; [|discriminate].
  destruct (owner x) as [a'|]; [|discriminate].
  intros H. injection H as <- <-. auto.
Qed.

Lemma algo_of_inv (o : Op) (s s' : State) (algo : string) :
  algo_of o s = (Ok algo, s') ->
  s' = s /\ forall t, algo_of o t = (Ok algo, t).
Proof.
  destruct o; cbn; try discriminate; intros H; injection H as <- <-;
    split; reflexivity.
Qed.

Lemma as_args_inv (ins : list var) (s s' : State) (a b c d : var)
    (e f : Arg) :
  as_args ins s = (Ok (a, b, c, d, e, f), s') ->
  s' = s /\ exists rest, ins = a :: b :: c :: d :: rest.
Proof.
  destruct ins as [|x0 [|x1 [|x2 [|x3 [|x4 [|x5 [|x6 l]]]]]]]; cbn;
    try discriminate; intros H; injection H as <- <- <- <- _ _ <-;
    split; eauto.
Qed.

Lemma version_heap (e : Env) (s s' : State) (r : Result Z) :
  version e s = (r, s') -> heap s' = heap s.
Proof.
  intros H. destruct s as [av ms vv lg h]. gate_unfold_in H.
  repeat match type of H with
         | context [match ?x with _ => _ end] =>
             match type of x with
             | bool => destruct x
             | option _ => destruct x
             end; cbn in H
         end;
    injection H as <- <-; reflexivity.
Qed.

Lemma GpuDnnConv_init_heap (e : Env) (algo : option string) (inplace : bool)
    (s s' : State) (r : Result Op) :
  GpuDnnConv_init e algo inplace s = (r, s') -> heap s' = heap s.
Proof.
  unfold GpuDnnConv_init, bind. intros H.
  destruct (version e s) as [rv s1] eqn:E. apply version_heap in E.
  destruct rv as [v|x]; [|injection H as <- <-; exact E].
  unfold assert, ret, raise in H.
  repeat match type of H with
         | context [if ?x then _ else _] => destruct x
         end;
    injection H as <- <-; exact E.
Qed.

Lemma gpu_contiguous_inv (x r : var) (s s' : State) :
  gpu_contiguous x s = (Ok r, s') ->
  grows s s' /\
  exists x' d n,
    node_at (heap s') r = Some (mkApply GpuContiguous [x']) /\
    has_type (heap s') r (GpuArrayType d n) /\
    on_gpu_of (heap s') x' x /\
    (List.length (heap s) <= r)%nat.
Proof.
  unfold gpu_contiguous. intros H.
  binv H as x' s1 E.
  apply as_gpuarray_variable_inv in E as (G1 & (d & n & T) & O).
  binv H as t s2 E. apply type_of_inv in E as [-> T'].
  pose proof (has_type_fun _ _ _ _ T T') as <-.
  rewrite call_op_eq in H. injection H as <- <-.
  split; [eapply grows_trans; [exact G1 | apply grows_push]|].
  exists x', d, n. split_all.
  - apply node_at_push_new.
  - apply has_type_push_new.
  - eapply on_gpu_of_grows; [apply grows_push | exact O].
  - apply grows_length. exact G1.
Qed.

Lemma as_gpuarray_variable_same (x x' : var) (s s' : State) (d : string)
    (n : nat) :
  as_gpuarray_variable x s = (Ok x', s') ->
  has_type (heap s) x (GpuArrayType d n) -> x' = x.
Proof.
  intros H T. rewrite (as_gpuarray_variable_gpu s x d n T) in H.
  injection H as <- _. reflexivity.
Qed.

(** A destination that is on the GPU is read as it is. *)
Lemma conv_make_node_dest (self : Op) (x y out desc : var)
    (alpha beta : Arg) (s s' : State) (r : var) (d : string) (n : nat) :
  has_type (heap s) out (GpuArrayType d n) ->
  GpuDnnConv_make_node self x y out desc alpha beta s = (Ok r, s') \/
  GpuDnnConvGradW_make_node self x y out desc alpha beta s = (Ok r, s') \/
  GpuDnnConvGradI_make_node self x y out desc alpha beta s = (Ok r, s') ->
  exists a b m,
    conv_node_wf (heap s') r self a b out desc m /\
    on_gpu_of (heap s') a x /\ on_gpu_of (heap s') b y.
Proof.
  intros T [H | [H | H]].
  - unfold GpuDnnConv_make_node in H.
    binv H as a s1 E.
    apply as_gpuarray_variable_inv in E as (G1 & (da & na & Ta) & O1).
    binv H as b s2 E.
    apply as_gpuarray_variable_inv in E as (G2 & (db & nb & Tb) & O2).
    binv H as c s3 E.
    assert (c = out) as ->.
    { eapply as_gpuarray_variable_same; [exact E|].
      eapply has_type_grows; [|exact T].
      eapply grows_trans; [exact G1 | exact G2]. }
    apply as_gpuarray_variable_inv in E as (G3 & (dc & nc & Tc) & O3).
    assert (G23 : grows s1 s3) by (eapply grows_trans; eassumption).
    pose proof (has_type_grows _ _ _ _ G23 Ta) as Ta3.
    pose proof (has_type_grows _ _ _ _ G3 Tb) as Tb3.
    apply (conv_make_node_tail _ (fun al : string => String.eqb al "fft")
             _ _ _ _ _ _ _ _ _ _ _ _ _ da db dc na nb nc Ta3 Tb3 Tc) in H.
    destruct H as (G & algo & Ea & W & E5).
    exists a, b, na. split; [exact W|]. split.
    + eapply on_gpu_of_grows; [|exact O1].
      eapply grows_trans; [exact G23 | exact G].
    + eapply on_gpu_of_grows; [|exact O2].
      eapply grows_trans; [exact G3 | exact G].
  - unfold GpuDnnConvGradW_make_node in H.
    binv H as a s1 E.
    apply as_gpuarray_variable_inv in E as (G1 & (da & na & Ta) & O1).
    binv H as b s2 E.
    apply as_gpuarray_variable_inv in E as (G2 & (db & nb & Tb) & O2).
    binv H as c s3 E.
    assert (c = out) as ->.
    { eapply as_gpuarray_variable_same; [exact E|].
      eapply has_type_grows; [|exact T].
      eapply grows_trans; [exact G1 | exact G2]. }
    apply as_gpuarray_variable_inv in E as (G3 & (dc & nc & Tc) & O3).
    assert (G23 : grows s1 s3) by (eapply grows_trans; eassumption).
    pose proof (has_type_grows _ _ _ _ G23 Ta) as Ta3.
    pose proof (has_type_grows _ _ _ _ G3 Tb) as Tb3.
    apply (conv_make_node_tail _ (fun al : string => mem_string al ["fft"; "deterministic"])
             _ _ _ _ _ _ _ _ _ _ _ _ _ da db dc na nb nc Ta3 Tb3 Tc) in H.
    destruct H as (G & algo & Ea & W & E5).
    exists a, b, na. split; [exact W|]. split.
    + eapply on_gpu_of_grows; [|exact O1].
      eapply grows_trans; [exact G23 | exact G].
    + eapply on_gpu_of_grows; [|exact O2].
      eapply grows_trans; [exact G3 | exact G].
  - unfold GpuDnnConvGradI_make_node in H.
    binv H as a s1 E.
    apply as_gpuarray_variable_inv in E as (G1 & (da & na & Ta) & O1).
    binv H as b s2 E.
    apply as_gpuarray_variable_inv in E as (G2 & (db & nb & Tb) & O2).
    binv H as c s3 E.
    assert (c = out) as ->.
    { eapply as_gpuarray_variable_same; [exact E|].
      eapply has_type_grows; [|exact T].
      eapply grows_trans; [exact G1 | exact G2]. }
    apply as_gpuarray_variable_inv in E as (G3 & (dc & nc & Tc) & O3).
    assert (G23 : grows s1 s3) by (eapply grows_trans; eassumption).
    pose proof (has_type_grows _ _ _ _ G23 Ta) as Ta3.
    pose proof (has_type_grows _ _ _ _ G3 Tb) as Tb3.
    apply (conv_make_node_tail _ (fun al : string => mem_string al ["fft"; "deterministic"])
             _ _ _ _ _ _ _ _ _ _ _ _ _ da db dc na nb nc Ta3 Tb3 Tc) in H.
    destruct H as (G & algo & Ea & W & E5).
    exists a, b, na. split; [exact W|]. split.
    + eapply on_gpu_of_grows; [|exact O1].
      eapply grows_trans; [exact G23 | exact G].
    + eapply on_gpu_of_grows; [|exact O2].
      eapply grows_trans; [exact G3 | exact G].
Qed.

(** The alpha-merge rules rebuild out of place.  Whenever one of the
    three rules returns, it returns one variable, the output of a
    well-formed node of its operator that keeps the algorithm of the
    matched node and is not in place, also when the matched node was in
    place; the node reads the first four of the inputs it was given,
    tensors moved to the GPU when they are not there. *)
Theorem alpha_merge_rebuilds_out_of_place (e : Env) (node : var)
    (ins l : list var) (s s' : State) (mk : string -> bool -> Op) :
  (local_dnn_conv_alpha_merge e node ins s = (Ok l, s') /\ mk = GpuDnnConv) \/
  (local_dnn_convw_alpha_merge e node ins s = (Ok l, s')
   /\ mk = GpuDnnConvGradW) \/
  (local_dnn_convi_alpha_merge e node ins s = (Ok l, s')
   /\ mk = GpuDnnConvGradI) ->
  exists r x y z desc rest,
    l = [r] /\ ins = x :: y :: z :: desc :: rest /\
    rebuilt_from (heap s) (heap s') node r mk x y z desc.
Proof.
  intros [[H ->] | [[H ->] | [H ->]]].
  - unfold local_dnn_conv_alpha_merge in H.
    binv H as nd s1 E. apply node_of_inv in E as [-> N].
    binv H as algo s1 E. apply algo_of_inv in E as [-> A].
    binv H as new_op s1 E. apply GpuDnnConv_init_inv in E.
    cbn [stored_algo] in E. subst new_op.
    binv H as p s2 E. destruct p as [[[[[a b] c] d] al] be].
    apply as_args_inv in E as (-> & rest & ->).
    binv H as r s3 E. injection H as <- <-.
    apply GpuDnnConv_make_node_wf in E
      as (_ & a' & b' & c' & k & algo' & _ & W & _ & O1 & O2 & O3).
    exists r, a, b, c, d, rest. split; [reflexivity|]. split; [reflexivity|].
    exists (op nd), algo, a', b', c', k.
    split; [unfold op_at, node_at in *;
            destruct (nth_error (heap s) node) as [v|]; [|discriminate N];
            rewrite N; reflexivity|].
    auto 10.
  - unfold local_dnn_convw_alpha_merge in H.
    binv H as nd s1 E. apply node_of_inv in E as [-> N].
    binv H as algo s1 E. apply algo_of_inv in E as [-> A].
    binv H as new_op s1 E. apply (proj1 (bwd_init_inv e _ _ _ _ _)) in E.
    cbn [stored_algo] in E. subst new_op.
    binv H as p s2 E. destruct p as [[[[[a b] c] d] al] be].
    apply as_args_inv in E as (-> & rest & ->).
    binv H as r s3 E. injection H as <- <-.
    apply GpuDnnConvGradW_make_node_wf in E
      as (_ & a' & b' & c' & k & algo' & _ & W & _ & O1 & O2 & O3).
    exists r, a, b, c, d, rest. split; [reflexivity|]. split; [reflexivity|].
    exists (op nd), algo, a', b', c', k.
    split; [unfold op_at, node_at in *;
            destruct (nth_error (heap s) node) as [v|]; [|discriminate N];
            rewrite N; reflexivity|].
    auto 10.
  - unfold local_dnn_convi_alpha_merge in H.
    binv H as nd s1 E. apply node_of_inv in E as [-> N].
    binv H as algo s1 E. apply algo_of_inv in E as [-> A].
    binv H as new_op s1 E. apply (proj2 (bwd_init_inv e _ _ _ _ _)) in E.
    cbn [stored_algo] in E. subst new_op.
    binv H as p s2 E. destruct p as [[[[[a b] c] d] al] be].
    apply as_args_inv in E as (-> & rest & ->).
    binv H as r s3 E. injection H as <- <-.
    apply GpuDnnConvGradI_make_node_wf in E
      as (_ & a' & b' & c' & k & algo' & _ & W & _ & O1 & O2 & O3).
    exists r, a, b, c, d, rest. split; [reflexivity|]. split; [reflexivity|].
    exists (op nd), algo, a', b', c', k.
    split; [unfold op_at, node_at in *;
            destruct (nth_error (heap s) node) as [v|]; [|discriminate N];
            rewrite N; reflexivity|].
    auto 10.
Qed.

Lemma alpha_merge_rebuilds_out_of_place_witness :
  exists r s',
    local_dnn_conv_alpha_merge env_v3 7%nat [0; 1; 2; 3; 4; 5]%nat
      inplace_state = (Ok [r], s') /\
    op_at (heap inplace_state) 7%nat = Some (GpuDnnConv "small" true) /\
    op_at (heap s') r = Some (GpuDnnConv "small" false).
Proof.
  eexists _, _. split; [reflexivity|]. split; [reflexivity|].
  destruct (alpha_merge_rebuilds_out_of_place env_v3 7%nat
              [0; 1; 2; 3; 4; 5]%nat _ inplace_state _ GpuDnnConv
              (or_introl (conj eq_refl eq_refl)))
    as (r & x & y & z & desc & rest & L & _ & o & algo & a & b & c & n
        & O & A & W & _).
  injection L as <-.
  injection O as <-. specialize (A inplace_state). injection A as <-.
  eapply conv_node_wf_node, W.
Defined.

Lemma node_at_op_at (h : list PyVariable) (v : var) (a : Apply) :
  node_at h v = Some a -> op_at h v = Some (op a).
Proof.
  unfold op_at, node_at. destruct (nth_error h v) as [x|]; [|discriminate].
  intros ->. reflexivity.
Qed.

Lemma bwd_init_heap (e : Env) (inplace : bool) (algo : option string)
    (s s' : State) (r : Result Op) :
  (GpuDnnConvGradW_init e inplace algo s = (r, s') -> heap s' = heap s) /\
  (GpuDnnConvGradI_init e inplace algo s = (r, s') -> heap s' = heap s).
Proof.
  destruct (bwd_init_char e s algo inplace) as [EW EI]. rewrite EW, EI.
  split; intros H; injection H as _ <-; reflexivity.
Qed.

(** The output-merge rules read the merged output through a copy.
    Whenever one of the three rules returns, it returns one variable, the
    output of a well-formed node of its operator that keeps the algorithm
    of the matched node and is not in place; its third input is a
    [GpuContiguous] node made by this call on the third of the inputs
    given (moved to the GPU when it is not there), so the rebuilt node
    never has the given variable itself as its destination; the first
    two inputs and the descriptor are those given. *)
Theorem output_merge_reads_a_copy (e : Env) (node : var)
    (ins l : list var) (s s' : State) (mk : string -> bool -> Op) :
  (local_dnn_conv_output_merge e node ins s = (Ok l, s') /\ mk = GpuDnnConv) \/
  (local_dnn_convw_output_merge e node ins s = (Ok l, s')
   /\ mk = GpuDnnConvGradW) \/
  (local_dnn_convi_output_merge e node ins s = (Ok l, s')
   /\ mk = GpuDnnConvGradI) ->
  exists r x y z desc rest c z' a b o algo n,
    l = [r] /\ ins = x :: y :: z :: desc :: rest /\
    op_at (heap s') node = Some o /\
    (forall t, algo_of o t = (Ok algo, t)) /\
    conv_node_wf (heap s') r (mk algo false) a b c desc n /\
    on_gpu_of (heap s') a x /\ on_gpu_of (heap s') b y /\
    node_at (heap s') c = Some (mkApply GpuContiguous [z']) /\
    on_gpu_of (heap s') z' z /\
    (List.length (heap s) <= c)%nat.
Proof.
  intros [[H ->] | [[H ->] | [H ->]]].
  - unfold local_dnn_conv_output_merge, contiguous_dest in H.
    binv H as ins' s1 E. binv E as z s0 E0. binv E as c s2 E1.
    injection E as <- <-.
    unfold lift, getitem in E0.
    destruct ins as [|x [|y [|z0 rest]]]; cbn in E0; try discriminate E0.
    injection E0 as <- <-.
    cbn [firstn skipn app] in H.
    apply gpu_contiguous_inv in E1
      as (G1 & z' & dz & nz & Nc & Tc & Oz & Lc).
    binv H as nd s3 E. apply node_of_inv in E as [-> N].
    binv H as algo s3 E. apply algo_of_inv in E as [-> A].
    binv H as new_op s3 E.
    pose proof (GpuDnnConv_init_heap _ _ _ _ _ _ E) as Hh.
    apply GpuDnnConv_init_inv in E.
    cbn [stored_algo] in E. subst new_op.
    binv H as p s4 E. destruct p as [[[[[a b] c'] d] al] be].
    apply as_args_inv in E as (-> & rest' & E).
    injection E as <- <- <- ->.
    binv H as r s5 E. injection H as <- <-.
    rewrite <- Hh in Nc, Tc, Oz, N.
    pose proof (GpuDnnConv_make_node_wf _ _ _ _ _ _ _ _ _ _ E) as (G & _).
    destruct (conv_make_node_dest _ _ _ _ _ _ _ _ _ _ _ _ Tc
                (or_introl E)) as (a' & b' & k & W & O1 & O2).
    exists r, x, y, z0, d, rest', c, z', a', b', (op nd), algo, k.
    split_all; try reflexivity; try assumption.
    + apply node_at_op_at. eapply node_at_grows; [exact G | exact N].
    + eapply node_at_grows; [exact G | exact Nc].
    + eapply on_gpu_of_grows; [exact G | exact Oz].
  - unfold local_dnn_convw_output_merge, contiguous_dest in H.
    binv H as ins' s1 E. binv E as z s0 E0. binv E as c s2 E1.
    injection E as <- <-.
    unfold lift, getitem in E0.
    destruct ins as [|x [|y [|z0 rest]]]; cbn in E0; try discriminate E0.
    injection E0 as <- <-.
    cbn [firstn skipn app] in H.
    apply gpu_contiguous_inv in E1
      as (G1 & z' & dz & nz & Nc & Tc & Oz & Lc).
    binv H as nd s3 E. apply node_of_inv in E as [-> N].
    binv H as algo s3 E. apply algo_of_inv in E as [-> A].
    binv H as new_op s3 E.
    pose proof (proj1 (bwd_init_heap _ _ _ _ _ _) E) as Hh.
    apply (proj1 (bwd_init_inv e _ _ _ _ _)) in E.
    cbn [stored_algo] in E. subst new_op.
    binv H as p s4 E. destruct p as [[[[[a b] c'] d] al] be].
    apply as_args_inv in E as (-> & rest' & E).
    injection E as <- <- <- ->.
    binv H as r s5 E. injection H as <- <-.
    rewrite <- Hh in Nc, Tc, Oz, N.
    pose proof (GpuDnnConvGradW_make_node_wf _ _ _ _ _ _ _ _ _ _ E) as (G & _).
    destruct (conv_make_node_dest _ _ _ _ _ _ _ _ _ _ _ _ Tc
                (or_intror (or_introl E))) as (a' & b' & k & W & O1 & O2).
    exists r, x, y, z0, d, rest', c, z', a', b', (op nd), algo, k.
    split_all; try reflexivity; try assumption.
    + apply node_at_op_at. eapply node_at_grows; [exact G | exact N].
    + eapply node_at_grows; [exact G | exact Nc].
    + eapply on_gpu_of_grows; [exact G | exact Oz].
  - unfold local_dnn_convi_output_merge, contiguous_dest in H.
    binv H as ins' s1 E. binv E as z s0 E0. binv E as c s2 E1.
    injection E as <- <-.
    unfold lift, getitem in E0.
    destruct ins as [|x [|y [|z0 rest]]]; cbn in E0; try discriminate E0.
    injection E0 as <- <-.
    cbn [firstn skipn app] in H.
    apply gpu_contiguous_inv in E1
      as (G1 & z' & dz & nz & Nc & Tc & Oz & Lc).
    binv H as nd s3 E. apply node_of_inv in E as [-> N].
    binv H as algo s3 E. apply algo_of_inv in E as [-> A].
    binv H as new_op s3 E.
    pose proof (proj2 (bwd_init_heap _ _ _ _ _ _) E) as Hh.
    apply (proj2 (bwd_init_inv e _ _ _ _ _)) in E.
    cbn [stored_algo] in E. subst new_op.
    binv H as p s4 E. destruct p as [[[[[a b] c'] d] al] be].
    apply as_args_inv in E as (-> & rest' & E).
    injection E as <- <- <- ->.
    binv H as r s5 E. injection H as <- <-.
    rewrite <- Hh in Nc, Tc, Oz, N.
    pose proof (GpuDnnConvGradI_make_node_wf _ _ _ _ _ _ _ _ _ _ E) as (G & _).
    destruct (conv_make_node_dest _ _ _ _ _ _ _ _ _ _ _ _ Tc
                (or_intror (or_intror E))) as (a' & b' & k & W & O1 & O2).
    exists r, x, y, z0, d, rest', c, z', a', b', (op nd), algo, k.
    split_all; try reflexivity; try assumption.
    + apply node_at_op_at. eapply node_at_grows; [exact G | exact N].
    + eapply node_at_grows; [exact G | exact Nc].
    + eapply on_gpu_of_grows; [exact G | exact Oz].
Qed.

Lemma output_merge_reads_a_copy_witness :
  exists l s',
    local_dnn_conv_output_merge env_v3 7%nat [0; 1; 2; 3; 4; 5]%nat
      inplace_state = (Ok l, s') /\
    exists r c z',
      l = [r] /\
      node_at (heap s') c = Some (mkApply GpuContiguous [z']) /\
      on_gpu_of (heap s') z' 2%nat /\
      (8 <= c)%nat.
Proof.
  assert (E : exists l s',
             local_dnn_conv_output_merge env_v3 7%nat [0; 1; 2; 3; 4; 5]%nat
               inplace_state = (Ok l, s'))
    by (eexists _, _; vm_compute; reflexivity).
  destruct E as (l & s' & E). exists l, s'. split; [exact E|].
  destruct (output_merge_reads_a_copy env_v3 7%nat [0; 1; 2; 3; 4; 5]%nat
              l inplace_state s' GpuDnnConv
              (or_introl (conj E eq_refl)))
    as (r & x & y & z & desc & rest & c & z' & a & b & o & algo & n
        & L & I & _ & _ & _ & _ & _ & Nc & Oz & Lc).
  injection I as <- <- <- <- <-.
  exists r, c, z'. auto.
Defined.

(** ** The gradients of the two gradient operators *)

Lemma GpuDnnConv_init_default_ok (e : Env) (s0 s : State) (v : Z) :
  avail s0 = Some true -> version_v s0 = Some v -> grows s0 s ->
  conv_algo_ok v (algo_fwd e) = true ->
  GpuDnnConv_init e None false s = (Ok (GpuDnnConv (algo_fwd e) false), s).
Proof.
  intros Ha Hv G Hok.
  assert (Hver : version e s = (Ok v, s)).
  { apply version_hit.
    - rewrite (grows_avail _ _ G). exact Ha.
    - rewrite (grows_version_v _ _ G). exact Hv. }
  destruct (GpuDnnConv_init_char e s s v None false Hver) as (r & Er & C).
  cbn [stored_algo] in C. rewrite Hok in C. subst r. exact Er.
Qed.



(** The gradient of the input-gradient operator.  On a well-typed
    application (kerns, topgrad, output, desc, alpha, beta) and one
    output gradient, under the same conditions, [grad] returns six
    variables: for [kerns] a weight-gradient node (on the contiguous
    output gradient, [topgrad], an empty buffer like [kerns], the
    descriptor, default scaling) times [alpha]; for [topgrad] a forward
    convolution node (on the contiguous output gradient, [kerns], an
    empty buffer like [topgrad], the descriptor) times [alpha]; for the
    output buffer the contiguous output gradient times [beta]; for the
    descriptor a variable of the disconnected type; for [alpha] and
    [beta] variables of the null type. *)
Theorem GpuDnnConvGradI_grad_structure (e : Env) (s : State) (self : Op)
    (kerns top output desc alpha beta img : var)
    (dk dtop dt : string) (n : nat) (v : Z) :
  has_type (heap s) kerns (GpuArrayType dk n) ->
  has_type (heap s) top (GpuArrayType dtop n) ->
  has_type (heap s) img (GpuArrayType dt n) ->
  has_type (heap s) desc conv_desc_type ->
  (n = 4 \/ n = 5)%nat ->
  mem_string (algo_bwd e) bwd_algos = true ->
  (n =? 5)%nat && mem_string (algo_bwd e) ["fft"; "deterministic"] = false ->
  avail s = Some true -> version_v s = Some v ->
  conv_algo_ok v (algo_fwd e) = true ->
  (n =? 5)%nat && String.eqb (algo_fwd e) "fft" = false ->
  exists g_kerns g_top g_out g_desc d_alpha d_beta s',
    GpuDnnConvGradI_grad e self [kerns; top; output; desc; alpha; beta] [img] s
    = (Ok [g_kerns; g_top; g_out; g_desc; d_alpha; d_beta], s') /\
    exists img' d_kerns e_kerns d_top e_top,
      node_at (heap s') img' = Some (mkApply GpuContiguous [img]) /\
      scaled_by (heap s') g_kerns d_kerns alpha /\
      default_scaling_node (heap s') d_kerns
        (GpuDnnConvGradW (algo_bwd e) false) img' top e_kerns desc dt /\
      empty_like_of (heap s') e_kerns kerns dk n /\
      scaled_by (heap s') g_top d_top alpha /\
      default_scaling_node (heap s') d_top
        (GpuDnnConv (algo_fwd e) false) img' kerns e_top desc dt /\
      empty_like_of (heap s') e_top top dtop n /\
      scaled_by (heap s') g_out img' beta /\
      nth_error (heap s') g_desc = Some (mkVariable DisconnectedType None None) /\
      (exists w, nth_error (heap s') d_alpha
                 = Some (mkVariable (NullType w) None None)) /\
      (exists w, nth_error (heap s') d_beta
                 = Some (mkVariable (NullType w) None None)).
Proof.
  intros Hk Ht Hi Hd Hn Hb Hnb Ha Hv Hf Hnf.
  destruct (gpu_contiguous_spec s img dt n Hi)
    as (img' & s1 & E1 & G1 & N1 & T1).
  destruct (empty_like_spec s1 kerns dk n ltac:(transport) Hn)
    as (e_kerns & s2 & E2 & G2 & L2 & T2).
  destruct (GpuDnnConvGradW_make_node_default s2 (algo_bwd e) false
              img' top e_kerns desc dt dtop dk n
              ltac:(transport) ltac:(transport) T2 ltac:(transport) Hn Hnb)
    as (d_kerns & s3 & E3 & G3 & _ & T3 & D3).
  assert (G03 : grows s s3)
    by (eapply grows_trans; [exact G1|];
        eapply grows_trans; [exact G2 | exact G3]).
  pose proof (GpuDnnConv_init_default_ok e s s3 v Ha Hv G03 Hf) as EF.
  destruct (empty_like_spec s3 top dtop n ltac:(transport) Hn)
    as (e_top & s4 & E4 & G4 & L4 & T4).
  destruct (GpuDnnConv_make_node_default s4 (algo_fwd e) false
              img' kerns e_top desc dt dk dtop n
              ltac:(transport) ltac:(transport) T4 ltac:(transport) Hn Hnf)
    as (d_top & s5 & E5 & G5 & _ & T5 & D5).
  destruct (grad_not_implemented_spec s5 self 4 alpha)
    as (d_alpha & s6 & E6 & G6 & (wa & Na)).
  destruct (grad_not_implemented_spec s6 self 5 beta)
    as (d_beta & s7 & E7 & G7 & (wb & Nb)).
  destruct (mul_spec s7 d_kerns alpha dk n ltac:(transport))
    as (g_kerns & s8 & E8 & G8 & M8).
  destruct (mul_spec s8 d_top alpha dtop n ltac:(transport))
    as (g_top & s9 & E9 & G9 & M9).
  destruct (mul_spec s9 img' beta dt n ltac:(transport))
    as (g_out & s10 & E10 & G10 & M10).
  destruct (disconnected_spec s10) as (g_desc & s11 & E11 & G11 & N11).
  exists g_kerns, g_top, g_out, g_desc, d_alpha, d_beta, s11.
  split.
  - unfold GpuDnnConvGradI_grad. cbn [unpack6 unpack1].
    unfold bind at 1, ret at 1. unfold bind at 1, ret at 1.
    rewrite (bind_ok _ _ _ _ _ E1).
    rewrite (bind_ok _ _ _ _ _ (GpuDnnConvGradW_init_ok e false s1 Hb)).
    rewrite (bind_ok _ _ _ _ _ E2), (bind_ok _ _ _ _ _ E3).
    rewrite (bind_ok _ _ _ _ _ EF).
    rewrite (bind_ok _ _ _ _ _ E4), (bind_ok _ _ _ _ _ E5).
    rewrite (bind_ok _ _ _ _ _ E6), (bind_ok _ _ _ _ _ E7).
    rewrite (bind_ok _ _ _ _ _ E8), (bind_ok _ _ _ _ _ E9).
    rewrite (bind_ok _ _ _ _ _ E10), (bind_ok _ _ _ _ _ E11).
    reflexivity.
  - exists img', d_kerns, e_kerns, d_top, e_top.
    split_all; try (eexists; transport); transport.
Qed.

Lemma GpuDnnConvGradI_grad_structure_witness :
  exists gs s',
    GpuDnnConvGradI_grad env_v3 (GpuDnnConvGradI "none" false)
      [1; 0; 2; 3; 4; 5]%nat [6%nat] sample_state = (Ok gs, s') /\
    List.length gs = 6%nat.
Proof.
  assert (H0 : forall i, (i = 0 \/ i = 1 \/ i = 6)%nat ->
             has_type (heap sample_state) i (GpuArrayType "float32" 4)).
  { intros i [-> | [-> | ->]]; eexists _, _; reflexivity. }
  assert (H3 : has_type (heap sample_state) 3%nat conv_desc_type)
    by (eexists _, _; reflexivity).
  assert (Hn : (4 = 4 \/ 4 = 5)%nat) by (left; reflexivity).
  destruct (GpuDnnConvGradI_grad_structure env_v3 sample_state
              (GpuDnnConvGradI "none" false)
              1%nat 0%nat 2%nat 3%nat 4%nat 5%nat 6%nat
              "float32" "float32" "float32" 4%nat 3007
              (H0 1%nat (or_intror (or_introl eq_refl)))
              (H0 0%nat (or_introl eq_refl))
              (H0 6%nat (or_intror (or_intror eq_refl)))
              H3 Hn eq_refl eq_refl eq_refl eq_refl eq_refl eq_refl)
    as (g1 & g2 & g3 & g4 & g5 & g6 & s' & E & _).
  exists [g1; g2; g3; g4; g5; g6], s'. split; [exact E | reflexivity].
Defined.

(** ** The other paths of [dnn_conv] *)

Lemma flip_last_two_spec (s : State) (x : var) (d : string) :
  has_type (heap s) x (GpuArrayType d 4) ->
  exists r s',
    flip_last_two x s = (Ok r, s') /\ grows s s' /\
    node_at (heap s') r = Some (mkApply FlipLastTwo [x]) /\
    has_type (heap s') r (GpuArrayType d 4).
Proof.
  intros (o & c & H). destruct s as [av ms vv lg h]. cbn [heap] in *.
  unfold flip_last_two. prim_spec.
Qed.

Lemma workmem_algo_ok (workmem algo : option string) (s : State) :
  workmem = None \/ algo = None ->
  (match workmem with
   | Some w =>
       match algo with
       | Some _ => raise (ValueError "You can't use both algo and workmem")
       | None => ret (Some w)
       end
   | None => ret algo
   end) s
  = (Ok (match workmem with Some w => Some w | None => algo end), s).
Proof. intros [-> | ->]; [|destruct workmem]; reflexivity. Qed.

Lemma dnn_conv_bprop_weights_spec (e : Env) (s : State) (img kerns : var)
    (cm : string) (workmem algo : option string) (dt dk : string) :
  has_type (heap s) img (GpuArrayType dt 4) ->
  has_type (heap s) kerns (GpuArrayType dk 4) ->
  workmem = None \/ algo = None ->
  mem_string (algo_bwd e) bwd_algos = true ->
  exists r s' conv it img' kf kt k' out desc osh,
    dnn_conv e img kerns (BMStr "valid") [1; 1] cm (Some "bprop weights")
      workmem algo s = (Ok r, s') /\
    node_at (heap s') r = Some (mkApply (DimShuffle swap01) [conv]) /\
    default_scaling_node (heap s') conv (GpuDnnConvGradW (algo_bwd e) false)
      img' k' out desc dt /\
    node_at (heap s') it = Some (mkApply (DimShuffle swap01) [img]) /\
    node_at (heap s') img' = Some (mkApply GpuContiguous [it]) /\
    (if String.eqb cm "conv"
     then node_at (heap s') kf = Some (mkApply FlipLastTwo [kerns])
     else kf = kerns) /\
    node_at (heap s') kt = Some (mkApply (DimShuffle swap01) [kf]) /\
    node_at (heap s') k' = Some (mkApply GpuContiguous [kt]) /\
    node_at (heap s') desc
    = Some (mkApply (GpuDnnConvDesc (BMStr "valid") [1; 1] "cross") [osh]) /\
    node_at (heap s') osh = Some (mkApply Shape [out]) /\
    exists k1 i1 shape2 shape3 i2 k2 i3 k3 a2 a3 c2 c3,
      node_at (heap s') out
      = Some (mkApply (GpuAllocEmpty dt) [k1; i1; shape2; shape3]) /\
      shape_i_node (heap s') k1 1 k' /\
      shape_i_node (heap s') i1 1 img' /\
      int_node (heap s') shape2 Add a2 c2 /\
      int_node (heap s') a2 Sub i2 k2 /\
      shape_i_node (heap s') i2 2 img' /\
      shape_i_node (heap s') k2 2 k' /\
      int_const (heap s') c2 1 /\
      int_node (heap s') shape3 Add a3 c3 /\
      int_node (heap s') a3 Sub i3 k3 /\
      shape_i_node (heap s') i3 3 img' /\
      shape_i_node (heap s') k3 3 k' /\
      int_const (heap s') c3 1.
Proof.
  intros Hi Hk Hw Hb.
  destruct (dimshuffle_spec s img dt Hi) as (it & s1 & E1 & G1 & N1 & T1).
  destruct (gpu_contiguous_spec s1 it dt 4 T1)
    as (img' & s2 & E2 & G2 & N2 & T2).
  assert (F : exists kf s3,
             (if String.eqb cm "conv" then flip_last_two kerns
              else ret kerns) s2 = (Ok kf, s3) /\ grows s2 s3 /\
             has_type (heap s3) kf (GpuArrayType dk 4) /\
             (if String.eqb cm "conv"
              then node_at (heap s3) kf = Some (mkApply FlipLastTwo [kerns])
              else kf = kerns)).
  { destruct (String.eqb cm "conv").
    - destruct (flip_last_two_spec s2 kerns dk ltac:(transport))
        as (kf & s3 & E & G & N & T).
      exists kf, s3. auto.
    - exists kerns, s2. split; [reflexivity|].
      split; [apply grows_refl|]. split; [transport | reflexivity]. }
  destruct F as (kf & s3 & E3 & G3 & T3 & N3).
  destruct (dimshuffle_spec s3 kf dk T3) as (kt & s4 & E4 & G4 & N4 & T4).
  destruct (gpu_contiguous_spec s4 kt dk 4 T4)
    as (k' & s5 & E5 & G5 & N5 & T5).
  destruct (shape_i_spec s5 img' 2) as (i2 & s6 & E6 & G6 & N6).
  destruct (shape_i_spec s6 k' 2) as (k2 & s7 & E7 & G7 & N7).
  destruct (int_binop_sym_spec Sub (fun x y => Ok (x - y)) s7 i2 k2)
    as (a2 & s8 & E8 & G8 & N8).
  destruct (int_binop_const_spec Add (fun x y => Ok (x + y)) s8 a2 1)
    as (shape2 & c2 & s9 & E9 & G9 & N9 & C9).
  destruct (shape_i_spec s9 img' 3) as (i3 & s10 & E10 & G10 & N10).
  destruct (shape_i_spec s10 k' 3) as (k3 & s11 & E11 & G11 & N11).
  destruct (int_binop_sym_spec Sub (fun x y => Ok (x - y)) s11 i3 k3)
    as (a3 & s12 & E12 & G12 & N12).
  destruct (int_binop_const_spec Add (fun x y => Ok (x + y)) s12 a3 1)
    as (shape3 & c3 & s13 & E13 & G13 & N13 & C13).
  destruct (shape_i_spec s13 k' 1) as (k1 & s14 & E14 & G14 & N14).
  destruct (shape_i_spec s14 img' 1) as (i1 & s15 & E15 & G15 & N15).
  destruct (alloc4_spec s15 dt k1 i1 shape2 shape3)
    as (out & s16 & E16 & G16 & N16 & T16).
  pose proof (GpuDnnConvDesc_init_valid11 "cross" s16 eq_refl) as E17.
  destruct (shape_of_var_spec s16 out) as (osh & s18 & E18 & G18 & N18 & T18).
  destruct (GpuDnnConvDesc_make_node_spec s18
              (GpuDnnConvDesc (BMStr "valid") [1; 1] "cross") osh T18)
    as (desc & s19 & E19 & G19 & N19 & T19).
  pose proof (GpuDnnConvGradW_init_ok e false s19 Hb) as E20.
  destruct (GpuDnnConvGradW_make_node_default s19 (algo_bwd e) false
              img' k' out desc dt dk dt 4
              ltac:(transport) ltac:(transport) ltac:(transport) T19
              ltac:(left; reflexivity) ltac:(reflexivity))
    as (conv & s21 & E21 & G21 & _ & T21 & D21).
  destruct (dimshuffle_spec s21 conv dt T21)
    as (r & s22 & E22 & G22 & N22 & T22).
  pose proof (as_gpuarray_variable_gpu s22 r dt 4 T22) as E23.
  exists r, s22, conv, it, img', kf, kt, k', out, desc, osh.
  split.
  - unfold dnn_conv, int_add, int_sub.
    rewrite (bind_ok _ _ _ _ _ (workmem_algo_ok workmem algo s Hw)).
    chain; reflexivity.
  - unfold shape_i_node, int_node, int_const in *.
    split_all; try transport.
    + destruct (String.eqb cm "conv"); [transport | exact N3].
    + exists k1, i1, shape2, shape3, i2, k2, i3, k3, a2, a3, c2, c3.
      split_all; transport.
Qed.

(** The weight-gradient path of [dnn_conv].  Called on rank-4 GPU
    tensors with [border_mode] "valid", [subsample] (1,1) and the hint
    "bprop weights", [dnn_conv] returns the first two axes swapped of an
    application of [GpuDnnConvGradW], with the configured backward
    algorithm and default scaling, to: the contiguous image with its
    first two axes swapped; the contiguous kernel with its first two
    axes swapped, its last two axes reversed before when [conv_mode] is
    "conv"; an empty buffer of the image's dtype with dimensions (axis 1
    of the swapped kernel, axis 1 of the swapped image, image - kernel +
    1 on each spatial axis); and a descriptor built with "valid", (1,1)
    and "cross" from the shape of that buffer.  The [algo] argument is
    not used on this path, and [conv_mode] is not validated: any value
    other than "conv" is treated as "cross". *)
Theorem dnn_conv_bprop_weights (e : Env) (s : State) (img kerns : var)
    (cm : string) (workmem algo : option string) (dt dk : string) :
  has_type (heap s) img (GpuArrayType dt 4) ->
  has_type (heap s) kerns (GpuArrayType dk 4) ->
  workmem = None \/ algo = None ->
  mem_string (algo_bwd e) bwd_algos = true ->
  exists r s' conv it img' kf kt k' out desc osh,
    dnn_conv e img kerns (BMStr "valid") [1; 1] cm (Some "bprop weights")
      workmem algo s = (Ok r, s') /\
    node_at (heap s') r = Some (mkApply (DimShuffle swap01) [conv]) /\
    default_scaling_node (heap s') conv (GpuDnnConvGradW (algo_bwd e) false)
      img' k' out desc dt /\
    node_at (heap s') it = Some (mkApply (DimShuffle swap01) [img]) /\
    node_at (heap s') img' = Some (mkApply GpuContiguous [it]) /\
    (if String.eqb cm "conv"
     then node_at (heap s') kf = Some (mkApply FlipLastTwo [kerns])
     else kf = kerns) /\
    node_at (heap s') kt = Some (mkApply (DimShuffle swap01) [kf]) /\
    node_at (heap s') k' = Some (mkApply GpuContiguous [kt]) /\
    node_at (heap s') desc
    = Some (mkApply (GpuDnnConvDesc (BMStr "valid") [1; 1] "cross") [osh]) /\
    node_at (heap s') osh = Some (mkApply Shape [out]) /\
    exists k1 i1 shape2 shape3 i2 k2 i3 k3 a2 a3 c2 c3,
      node_at (heap s') out
      = Some (mkApply (GpuAllocEmpty dt) [k1; i1; shape2; shape3]) /\
      shape_i_node (heap s') k1 1 k' /\
      shape_i_node (heap s') i1 1 img' /\
      int_node (heap s') shape2 Add a2 c2 /\
      int_node (heap s') a2 Sub i2 k2 /\
      shape_i_node (heap s') i2 2 img' /\
      shape_i_node (heap s') k2 2 k' /\
      int_const (heap s') c2 1 /\
      int_node (heap s') shape3 Add a3 c3 /\
      int_node (heap s') a3 Sub i3 k3 /\
      shape_i_node (heap s') i3 3 img' /\
      shape_i_node (heap s') k3 3 k' /\
      int_const (heap s') c3 1.
Proof. apply dnn_conv_bprop_weights_spec. Qed.

Lemma dnn_conv_bprop_weights_witness :
  exists r s',
    dnn_conv env_v3 0%nat 1%nat (BMStr "valid") [1; 1] "conv"
      (Some "bprop weights") None None sample_state = (Ok r, s') /\
    eval_shape 20 (heap s') sample_shapes r = Some [2; 4; 6; 6].
Proof.
  assert (H0 : has_type (heap sample_state) 0%nat (GpuArrayType "float32" 4))
    by (eexists _, _; reflexivity).
  assert (H1 : has_type (heap sample_state) 1%nat (GpuArrayType "float32" 4))
    by (eexists _, _; reflexivity).
  destruct (dnn_conv_bprop_weights env_v3 sample_state 0%nat 1%nat "conv"
              None None "float32" "float32" H0 H1 (or_introl eq_refl) eq_refl)
    as (r & s' & conv & it & img' & kf & kt & k' & out & desc & osh & E & _).
  exists r, s'. split; [exact E|].
  vm_compute in E. injection E as <- <-. vm_compute. reflexivity.
Defined.

(** ** Running a composite function under a postcondition

    A goal [Q (m s)] is reduced at its head until it is stuck on a
    primitive whose specification is then used. *)

Lemma shape_getitem_sym_spec (s : State) (v : var) (i : nat) :
  exists r s',
    shape_getitem (SymVec v) i s = (Ok (Sym r), s') /\ grows s s' /\
    shape_i_node (heap s') r i v.
Proof. destruct s as [av ms vv lg h]. unfold shape_i_node. prim_spec. Qed.

Lemma int_binop_const_l_spec (o : ScalarOp) (f : Z -> Z -> Result Z)
    (s : State) (z : Z) (a : var) :
  exists r c s',
    int_binop o f (PyInt z) (Sym a) s = (Ok (Sym r), s') /\ grows s s' /\
    int_node (heap s') r o c a /\ int_const (heap s') c z.
Proof.
  destruct s as [av ms vv lg h]. unfold int_node, int_const.
  eexists _, _, _; split; [run; reflexivity|].
  split; [eexists; reflexivity|]. split; [ heap_fact .. ].
Qed.

Lemma int_binop_py (o : ScalarOp) (f : Z -> Z -> Result Z) (x y z : Z)
    (s : State) :
  f x y = Ok z -> int_binop o f (PyInt x) (PyInt y) s = (Ok (PyInt z), s).
Proof. intros H. unfold int_binop, bind, lift, ret. rewrite H. reflexivity. Qed.

Ltac wp_red :=
  match goal with
  | |- ?Q ?L =>
      let L' := eval lazy head beta iota zeta delta
        -[shape_getitem int_binop] in L in
      progress change (Q L')
  end.

Ltac wp_prim :=
  let r := fresh "r" in
  let c := fresh "c" in
  let s1 := fresh "s" in
  let E := fresh "E" in
  let G := fresh "G" in
  let N := fresh "N" in
  let C := fresh "C" in
  match goal with
  | |- context [shape_getitem (SymVec ?v) ?i ?s] =>
      destruct (shape_getitem_sym_spec s v i) as (r & s1 & E & G & N);
      rewrite E
  | |- context [int_binop ?o ?f (Sym ?a) (Sym ?b) ?s] =>
      destruct (int_binop_sym_spec o f s a b) as (r & s1 & E & G & N);
      rewrite E
  | |- context [int_binop ?o ?f (Sym ?a) (PyInt ?z) ?s] =>
      destruct (int_binop_const_spec o f s a z)
        as (r & c & s1 & E & G & N & C);
      rewrite E
  | |- context [int_binop ?o ?f (PyInt ?z) (Sym ?a) ?s] =>
      destruct (int_binop_const_l_spec o f s z a)
        as (r & c & s1 & E & G & N & C);
      rewrite E
  | |- context [int_binop ?o ?f (PyInt ?x) (PyInt ?y) ?s] =>
      rewrite (int_binop_py o f x y _ s eq_refl)
  end.

Ltac wp_run := repeat first [ wp_red | wp_prim ].

Ltac grows_chain :=
  repeat (eapply grows_trans; [eassumption|]); apply grows_refl.

(** On symbolic shapes and two strides [get_out_shape] returns four
    symbolic entries, whatever the strides: the first is entry 0 of the
    image shape, the second entry 0 of the kernel shape. *)
Lemma get_out_shape_sym_2d (s : State) (ish ksh : var) (bm : border_mode)
    (sh sw : Z) :
  bm = BMStr "valid" \/ bm = BMStr "full" \/
  (exists p0 p1, bm = BMTuple [p0; p1]) ->
  exists b nb r2 r3 s',
    get_out_shape (SymVec ish) (SymVec ksh) bm [sh; sw] s
    = (Ok [Sym b; Sym nb; Sym r2; Sym r3], s') /\
    grows s s' /\
    shape_i_node (heap s') b 0 ish /\
    shape_i_node (heap s') nb 0 ksh.
Proof.
  intros Hbm.
  set (Q := fun p : Result (list IntLike) * State =>
              exists b nb r2 r3 s',
                p = (Ok [Sym b; Sym nb; Sym r2; Sym r3], s') /\
                grows s s' /\
                shape_i_node (heap s') b 0 ish /\
                shape_i_node (heap s') nb 0 ksh).
  change (Q (get_out_shape (SymVec ish) (SymVec ksh) bm [sh; sw] s)).
  destruct Hbm as [-> | [-> | (p0 & p1 & ->)]];
    wp_run; subst Q; cbv beta;
    (eexists _, _, _, _, _; split; [reflexivity|]);
    (split; [grows_chain|]);
    unfold shape_i_node in *; split; transport.
Qed.

Lemma GpuDnnConv_init_ok_at (e : Env) (s0 s : State) (v : Z)
    (algo : option string) (inplace : bool) :
  avail s0 = Some true -> version_v s0 = Some v -> grows s0 s ->
  conv_algo_ok v (stored_algo algo (algo_fwd e)) = true ->
  GpuDnnConv_init e algo inplace s
  = (Ok (GpuDnnConv (stored_algo algo (algo_fwd e)) inplace), s).
Proof.
  intros Ha Hv G Hok.
  assert (Hver : version e s = (Ok v, s)).
  { apply version_hit.
    - rewrite (grows_avail _ _ G). exact Ha.
    - rewrite (grows_version_v _ _ G). exact Hv. }
  destruct (GpuDnnConv_init_char e s s v algo inplace Hver) as (r & Er & C).
  rewrite Hok in C. subst r. exact Er.
Qed.

Lemma stored_border_mode_cases (bm : border_mode) (sub : list Z)
    (cm : string) :
  conv_desc_args_ok bm sub cm = true -> List.length sub = 2%nat ->
  stored_border_mode bm 2 = BMStr "valid" \/
  stored_border_mode bm 2 = BMStr "full" \/
  exists p0 p1, stored_border_mode bm 2 = BMTuple [p0; p1].
Proof.
  unfold conv_desc_args_ok. intros H L. rewrite L in H.
  apply andb_prop in H as [H _]. apply andb_prop in H as [H _].
  destruct bm as [m | p | t]; cbn in *.
  - apply orb_prop in H as [H | H].
    + apply String.eqb_eq in H. subst. auto.
    + apply orb_prop in H as [H | H]; [|discriminate H].
      apply String.eqb_eq in H. subst. auto.
  - right. right. eauto.
  - right. right. apply andb_prop in H as [H _].
    destruct t as [|p0 [|p1 [|p2 t]]]; try discriminate H. eauto.
Qed.

Lemma dnn_conv_standard_spec (e : Env) (s : State) (img kerns : var)
    (bm : border_mode) (sub : list Z) (cm : string)
    (hint workmem algo : option string) (dt dk : string) (v : Z) :
  has_type (heap s) img (GpuArrayType dt 4) ->
  has_type (heap s) kerns (GpuArrayType dk 4) ->
  List.length sub = 2%nat ->
  conv_desc_args_ok bm sub cm = true ->
  border_mode_is bm "valid" && list_Z_eqb sub [1; 1]
    && hint_is hint "bprop weights" = false ->
  border_mode_is bm "full" && list_Z_eqb sub [1; 1]
    && negb (hint_is hint "forward!") = false ->
  workmem = None \/ algo = None ->
  avail s = Some true -> version_v s = Some v ->
  conv_algo_ok v
    (stored_algo (match workmem with Some w => Some w | None => algo end)
       (algo_fwd e)) = true ->
  exists r s' img' k' out desc ksh ish ksh' b nb r2 r3,
    dnn_conv e img kerns bm sub cm hint workmem algo s = (Ok r, s') /\
    default_scaling_node (heap s') r
      (GpuDnnConv
         (stored_algo (match workmem with Some w => Some w | None => algo end)
            (algo_fwd e)) false)
      img' k' out desc dt /\
    node_at (heap s') img' = Some (mkApply GpuContiguous [img]) /\
    node_at (heap s') k' = Some (mkApply GpuContiguous [kerns]) /\
    node_at (heap s') desc
    = Some (mkApply (GpuDnnConvDesc (stored_border_mode bm 2) sub cm) [ksh]) /\
    node_at (heap s') ksh = Some (mkApply Shape [k']) /\
    node_at (heap s') out
    = Some (mkApply (GpuAllocEmpty dt) [b; nb; r2; r3]) /\
    shape_i_node (heap s') b 0 ish /\
    node_at (heap s') ish = Some (mkApply Shape [img']) /\
    shape_i_node (heap s') nb 0 ksh' /\
    node_at (heap s') ksh' = Some (mkApply Shape [k']).
Proof.
  intros Hi Hk Hl Hok H1 H2 Hw Ha Hv Halg.
  pose proof (stored_border_mode_cases bm sub cm Hok Hl) as Hbm.
  destruct sub as [|sh [|sw [|x sub]]]; try discriminate Hl. clear Hl.
  set (alg := match workmem with Some w => Some w | None => algo end) in *.
  destruct (gpu_contiguous_spec s img dt 4 Hi)
    as (img' & s1 & E1 & G1 & N1 & T1).
  destruct (gpu_contiguous_spec s1 kerns dk 4 ltac:(transport))
    as (k' & s2 & E2 & G2 & N2 & T2).
  destruct (GpuDnnConvDesc_init_char bm [sh; sw] cm s2) as (rd & E3 & C3).
  rewrite Hok in C3. subst rd. cbn [List.length] in E3.
  destruct (shape_of_var_spec s2 k') as (ksh & s3 & E4 & G3 & N3 & T3).
  destruct (GpuDnnConvDesc_make_node_spec s3
              (GpuDnnConvDesc (stored_border_mode bm 2) [sh; sw] cm) ksh T3)
    as (desc & s4 & E5 & G4 & N4 & T4).
  destruct (shape_of_var_spec s4 img') as (ish & s5 & E6 & G5 & N5 & T5).
  destruct (shape_of_var_spec s5 k') as (ksh' & s6 & E7 & G6 & N6 & T6).
  destruct (get_out_shape_sym_2d s6 ish ksh' (stored_border_mode bm 2) sh sw
              Hbm) as (b & nb & r2 & r3 & s7 & E8 & G7 & Nb & Nnb).
  destruct (alloc4_spec s7 dt b nb r2 r3) as (out & s8 & E9 & G8 & N8 & T8).
  assert (G08 : grows s s8) by grows_chain.
  pose proof (GpuDnnConv_init_ok_at e s s8 v alg false Ha Hv G08 Halg) as E10.
  destruct (GpuDnnConv_make_node_default s8 (stored_algo alg (algo_fwd e))
              false img' k' out desc dt dk dt 4
              ltac:(transport) ltac:(transport) T8 ltac:(transport)
              ltac:(left; reflexivity) ltac:(reflexivity))
    as (r & s9 & E11 & G9 & _ & T9 & D9).
  exists r, s9, img', k', out, desc, ksh, ish, ksh', b, nb, r2, r3.
  split.
  - unfold dnn_conv. unfold hint_is in H1, H2.
    rewrite (bind_ok _ _ _ _ _ (workmem_algo_ok workmem algo s Hw)).
    fold alg. rewrite H1, H2.
    rewrite (bind_ok _ _ _ _ _ E1), (bind_ok _ _ _ _ _ E2).
    rewrite (bind_ok _ _ _ _ _ E3).
    rewrite (bind_ok _ _ _ _ _ E4), (bind_ok _ _ _ _ _ E5).
    rewrite (bind_ok _ _ _ _ _ E6), (bind_ok _ _ _ _ _ E7).
    rewrite (bind_ok _ _ _ _ _ E8).
    rewrite (bind_ok _ _ _ _ _ (type_of_ok s7 img' _ ltac:(transport))).
    cbn [dtype_of attr]. unfold bind at 1, ret at 1.
    rewrite (bind_ok _ _ _ _ _ E9), (bind_ok _ _ _ _ _ E10).
    exact E11.
  - unfold shape_i_node in *. split_all; transport.
Qed.

(** The standard path of [dnn_conv].  Called on rank-4 GPU tensors with
    two strides and arguments the descriptor accepts, outside the two
    special cases (not "valid" with unit strides and the hint "bprop
    weights"; not "full" with unit strides unless the hint is
    "forward!"), with a cached version that admits the algorithm,
    [dnn_conv] returns an application of [GpuDnnConv], out of place and
    with default scaling, to the contiguous image, the contiguous
    kernel, an empty buffer of the image's dtype with four symbolic
    dimensions whose first two are entry 0 of the image shape and entry
    0 of the kernel shape, and a descriptor that carries the requested
    padding (an integer repeated per stride), strides and mode and reads
    the kernel shape.  The algorithm is [workmem] when given, else
    [algo], else the configured forward algorithm. *)
Theorem dnn_conv_standard (e : Env) (s : State) (img kerns : var)
    (bm : border_mode) (sub : list Z) (cm : string)
    (hint workmem algo : option string) (dt dk : string) (v : Z) :
  has_type (heap s) img (GpuArrayType dt 4) ->
  has_type (heap s) kerns (GpuArrayType dk 4) ->
  List.length sub = 2%nat ->
  conv_desc_args_ok bm sub cm = true ->
  border_mode_is bm "valid" && list_Z_eqb sub [1; 1]
    && hint_is hint "bprop weights" = false ->
  border_mode_is bm "full" && list_Z_eqb sub [1; 1]
    && negb (hint_is hint "forward!") = false ->
  workmem = None \/ algo = None ->
  avail s = Some true -> version_v s = Some v ->
  conv_algo_ok v
    (stored_algo (match workmem with Some w => Some w | None => algo end)
       (algo_fwd e)) = true ->
  exists r s' img' k' out desc ksh ish ksh' b nb r2 r3,
    dnn_conv e img kerns bm sub cm hint workmem algo s = (Ok r, s') /\
    default_scaling_node (heap s') r
      (GpuDnnConv
         (stored_algo (match workmem with Some w => Some w | None => algo end)
            (algo_fwd e)) false)
      img' k' out desc dt /\
    node_at (heap s') img' = Some (mkApply GpuContiguous [img]) /\
    node_at (heap s') k' = Some (mkApply GpuContiguous [kerns]) /\
    node_at (heap s') desc
    = Some (mkApply (GpuDnnConvDesc (stored_border_mode bm 2) sub cm) [ksh]) /\
    node_at (heap s') ksh = Some (mkApply Shape [k']) /\
    node_at (heap s') out
    = Some (mkApply (GpuAllocEmpty dt) [b; nb; r2; r3]) /\
    shape_i_node (heap s') b 0 ish /\
    node_at (heap s') ish = Some (mkApply Shape [img']) /\
    shape_i_node (heap s') nb 0 ksh' /\
    node_at (heap s') ksh' = Some (mkApply Shape [k']).
Proof. apply dnn_conv_standard_spec. Qed.

Lemma dnn_conv_standard_witness :
  exists r s',
    dnn_conv env_v3 0%nat 1%nat (BMInt 1) [2; 2] "conv" None None
      (Some "large") sample_state = (Ok r, s') /\
    op_at (heap s') r = Some (GpuDnnConv "large" false) /\
    eval_shape 20 (heap s') sample_shapes r = Some [2; 4; 4; 4].
Proof.
  assert (H0 : has_type (heap sample_state) 0%nat (GpuArrayType "float32" 4))
    by (eexists _, _; reflexivity).
  assert (H1 : has_type (heap sample_state) 1%nat (GpuArrayType "float32" 4))
    by (eexists _, _; reflexivity).
  destruct (dnn_conv_standard env_v3 sample_state 0%nat 1%nat (BMInt 1)
              [2; 2] "conv" None None (Some "large") "float32" "float32"
              3007 H0 H1 eq_refl eq_refl eq_refl eq_refl (or_introl eq_refl)
              eq_refl eq_refl eq_refl)
    as (r & s' & img' & k' & out & desc & ksh & ish & ksh' & b & nb & r2 & r3
        & E & _).
  exists r, s'. split; [exact E|].
  vm_compute in E. injection E as <- <-. split; vm_compute; reflexivity.
Defined.

(** ** The two rules that lift a host convolution *)

Lemma default_scaling_op (h : list PyVariable) (r : var) (o : Op)
    (a b c d : var) (dt : string) :
  default_scaling_node h r o a b c d dt -> op_at h r = Some o.
Proof.
  intros (al & be & N & _). apply node_at_op_at in N. exact N.
Qed.

Lemma dnn_conv_forward (e : Env) (s : State) (img kern : var) (bm : string)
    (hint : option string) (dt dk : string) (v : Z) :
  has_type (heap s) img (GpuArrayType dt 4) ->
  has_type (heap s) kern (GpuArrayType dk 4) ->
  avail s = Some true -> version_v s = Some v ->
  conv_algo_ok v (algo_fwd e) = true ->
  mem_string bm ["valid"; "full"] = true ->
  String.eqb bm "valid" && hint_is hint "bprop weights" = false ->
  String.eqb bm "full" && negb (hint_is hint "forward!") = false ->
  exists r s',
    dnn_conv e img kern (BMStr bm) [1; 1] "conv" hint None None s
    = (Ok r, s') /\
    forward_result (heap s') r (algo_fwd e).
Proof.
  intros Hi Hk Ha Hv Hf Hbm H1 H2.
  destruct (dnn_conv_standard_spec e s img kern (BMStr bm) [1; 1] "conv"
              hint None None dt dk v Hi Hk eq_refl) as
    (r & s' & img' & k' & out & desc & ksh & ish & ksh' & b & nb & r2 & r3
     & E & D & _); try assumption.
  - unfold conv_desc_args_ok. cbn [valid_border_mode]. rewrite Hbm. reflexivity.
  - cbn [border_mode_is]. destruct (String.eqb bm "valid"); [|reflexivity].
    cbn in H1 |- *. exact H1.
  - cbn [border_mode_is]. destruct (String.eqb bm "full"); [|reflexivity].
    cbn in H2 |- *. exact H2.
  - left. reflexivity.
  - exists r, s'. split; [exact E|].
    eapply default_scaling_op. exact D.
Qed.

Lemma dnn_conv_weight (e : Env) (s : State) (img kern : var)
    (dt dk : string) :
  has_type (heap s) img (GpuArrayType dt 4) ->
  has_type (heap s) kern (GpuArrayType dk 4) ->
  mem_string (algo_bwd e) bwd_algos = true ->
  exists r s',
    dnn_conv e img kern (BMStr "valid") [1; 1] "conv" (Some "bprop weights")
      None None s = (Ok r, s') /\
    weight_result (heap s') r (algo_bwd e).
Proof.
  intros Hi Hk Hb.
  destruct (dnn_conv_bprop_weights_spec e s img kern "conv" None None dt dk
              Hi Hk (or_introl eq_refl) Hb)
    as (r & s' & conv & it & img' & kf & kt & k' & out & desc & osh
        & E & N & D & _).
  exists r, s'. split; [exact E|]. exists conv. split; [exact N|].
  eapply default_scaling_op. exact D.
Qed.

Lemma local_conv_dnn_open (e : Env) (s : State) (bm : string)
    (hint : option string) (img kern : var) :
  avail s = Some true -> mem_string bm ["full"; "valid"] = true ->
  local_conv_dnn e (unit_conv bm hint img kern) s
  = (r <- dnn_conv e img kern (BMStr bm) [1; 1] "conv" hint None None ;;
     ret (Some [r])) s.
Proof.
  intros Ha Hbm. unfold local_conv_dnn, unit_conv.
  rewrite (bind_ok _ _ _ _ _ (dnn_available_hit e s true Ha)).
  cbn [negb hop hinputs border_mode_is].
  unfold mem_string in Hbm. cbn [existsb] in Hbm.
  rewrite orb_false_r in Hbm. rewrite Hbm. reflexivity.
Qed.

Lemma local_conv_dnn_alternative_open (e : Env) (s : State) (bm : string)
    (hint : option string) (img kern : var) :
  avail s = Some true -> mem_string bm ["full"; "valid"] = true ->
  local_conv_dnn_alternative e (unit_conv bm hint img kern) s
  = (r <- dnn_conv e img kern (BMStr bm) [1; 1] "conv"
            (if String.eqb bm "full" then Some "forward!"
             else if hint_is hint "bprop weights" then Some "forward"
                  else Some "bprop weights") None None ;;
     ret (Some [r])) s.
Proof.
  intros Ha Hbm. unfold local_conv_dnn_alternative, unit_conv.
  rewrite (bind_ok _ _ _ _ _ (dnn_available_hit e s true Ha)).
  cbn [negb hop hinputs border_mode_is].
  unfold mem_string in Hbm. cbn [existsb] in Hbm.
  rewrite orb_false_r in Hbm. rewrite Hbm.
  change (list_Z_eqb [1; 1] [1; 1]) with true. cbn [negb orb].
  destruct (String.eqb bm "full") eqn:Ef; [reflexivity|].
  cbn in Hbm. rewrite Hbm. reflexivity.
Qed.

(** The alternative rule takes the other path.  With the gate open, a
    cached version that admits the configured forward algorithm, a valid
    configured backward algorithm, and a [GpuConv] node with unit
    strides on two rank-4 GPU tensors: for "full" the alternative rule
    returns a forward convolution; for "valid" the two rules return one
    a forward convolution and the other a weight-gradient convolution
    with its first two axes swapped, [local_conv_dnn] the
    weight-gradient one exactly when the hint of the node is "bprop
    weights". *)
Theorem conv_alternative_takes_other_path (e : Env) (s : State)
    (img kern : var) (hint : option string) (dt dk : string) (v : Z) :
  has_type (heap s) img (GpuArrayType dt 4) ->
  has_type (heap s) kern (GpuArrayType dk 4) ->
  avail s = Some true -> version_v s = Some v ->
  conv_algo_ok v (algo_fwd e) = true ->
  mem_string (algo_bwd e) bwd_algos = true ->
  (exists r s',
     local_conv_dnn_alternative e (unit_conv "full" hint img kern) s
     = (Ok (Some [r]), s') /\
     forward_result (heap s') r (algo_fwd e)) /\
  (exists r s',
     local_conv_dnn e (unit_conv "valid" hint img kern) s
     = (Ok (Some [r]), s') /\
     if hint_is hint "bprop weights"
     then weight_result (heap s') r (algo_bwd e)
     else forward_result (heap s') r (algo_fwd e)) /\
  (exists r s',
     local_conv_dnn_alternative e (unit_conv "valid" hint img kern) s
     = (Ok (Some [r]), s') /\
     if hint_is hint "bprop weights"
     then forward_result (heap s') r (algo_fwd e)
     else weight_result (heap s') r (algo_bwd e)).
Proof.
  intros Hi Hk Ha Hv Hf Hb. split_all.
  - rewrite (local_conv_dnn_alternative_open e s "full" hint img kern Ha eq_refl).
    destruct (dnn_conv_forward e s img kern "full" (Some "forward!") dt dk v
                Hi Hk Ha Hv Hf eq_refl eq_refl eq_refl) as (r & s' & E & R).
    exists r, s'. split; [|exact R].
    change (String.eqb "full" "full") with true. cbv iota.
    rewrite (bind_ok _ _ _ _ _ E). reflexivity.
  - rewrite (local_conv_dnn_open e s "valid" hint img kern Ha eq_refl).
    destruct (hint_is hint "bprop weights") eqn:Eh.
    + assert (hint = Some "bprop weights") as ->.
      { destruct hint as [h|]; [|discriminate Eh].
        apply String.eqb_eq in Eh. subst. reflexivity. }
      destruct (dnn_conv_weight e s img kern dt dk Hi Hk Hb)
        as (r & s' & E & R).
      exists r, s'. split; [|exact R].
      rewrite (bind_ok _ _ _ _ _ E). reflexivity.
    + destruct (dnn_conv_forward e s img kern "valid" hint dt dk v
                  Hi Hk Ha Hv Hf eq_refl
                  ltac:(rewrite Eh; reflexivity) eq_refl)
        as (r & s' & E & R).
      exists r, s'. split; [|exact R].
      rewrite (bind_ok _ _ _ _ _ E). reflexivity.
  - rewrite (local_conv_dnn_alternative_open e s "valid" hint img kern Ha
               eq_refl).
    change (String.eqb "valid" "full") with false. cbv iota.
    destruct (hint_is hint "bprop weights") eqn:Eh.
    + destruct (dnn_conv_forward e s img kern "valid" (Some "forward") dt dk v
                  Hi Hk Ha Hv Hf eq_refl eq_refl eq_refl)
        as (r & s' & E & R).
      exists r, s'. split; [|exact R].
      rewrite (bind_ok _ _ _ _ _ E). reflexivity.
    + destruct (dnn_conv_weight e s img kern dt dk Hi Hk Hb)
        as (r & s' & E & R).
      exists r, s'. split; [|exact R].
      rewrite (bind_ok _ _ _ _ _ E). reflexivity.
Qed.

Lemma conv_alternative_takes_other_path_witness :
  (exists r s',
     local_conv_dnn env_v3 (unit_conv "valid" None 0%nat 1%nat) sample_state
     = (Ok (Some [r]), s') /\
     forward_result (heap s') r "small") /\
  (exists r s',
     local_conv_dnn_alternative env_v3 (unit_conv "valid" None 0%nat 1%nat)
       sample_state = (Ok (Some [r]), s') /\
     weight_result (heap s') r "none").
Proof.
  assert (H0 : has_type (heap sample_state) 0%nat (GpuArrayType "float32" 4))
    by (eexists _, _; reflexivity).
  assert (H1 : has_type (heap sample_state) 1%nat (GpuArrayType "float32" 4))
    by (eexists _, _; reflexivity).
  destruct (conv_alternative_takes_other_path env_v3 sample_state 0%nat 1%nat
              None "float32" "float32" 3007 H0 H1 eq_refl eq_refl eq_refl
              eq_refl) as (_ & A & B).
  split; [exact A | exact B].
Defined.

(** * The gradient of the forward convolution, and the default scaling *)

(** ** [GpuDnnConv.grad] *)

Lemma gpu_contiguous_tensor_spec (s : State) (x : var) (t : Ty) (d : string)
    (n : nat) :
  has_type (heap s) x t -> tensor_type t d n ->
  exists r s' x',
    gpu_contiguous x s = (Ok r, s') /\ grows s s' /\
    node_at (heap s') r = Some (mkApply GpuContiguous [x']) /\
    has_type (heap s') r (GpuArrayType d n) /\
    moved_to_gpu (heap s') t x' x.
Proof.
  intros (o & c & H) [-> | ->]; destruct s as [av ms vv lg h];
    cbn [heap moved_to_gpu] in *.
  - exists (List.length h). eexists. exists x.
    split; [run; reflexivity|]. split; [eexists; reflexivity|].
    split_all; [heap_fact | heap_fact | reflexivity].
  - exists (List.length h + 1)%nat. eexists. exists (List.length h).
    split; [run; reflexivity|]. split; [eexists; reflexivity|].
    split_all; [heap_fact | heap_fact | heap_fact].
Qed.

(** On tensors of rank 5 the input-gradient operator refuses the
    algorithms "fft" and "deterministic", and leaves the state as it is. *)
Lemma GpuDnnConvGradI_make_node_rank5_raises (s : State) (algo : string)
    (inplace : bool) (a b out desc : var) (alpha beta : Arg)
    (da db dc : string) :
  has_type (heap s) a (GpuArrayType da 5) ->
  has_type (heap s) b (GpuArrayType db 5) ->
  has_type (heap s) out (GpuArrayType dc 5) ->
  mem_string algo ["fft"; "deterministic"] = true ->
  GpuDnnConvGradI_make_node (GpuDnnConvGradI algo inplace) a b out desc
    alpha beta s
  = (Raise (ValueError "convolution algo can't be used for 3d convolutions"),
     s).
Proof.
  intros Ha Hb Ho Halgo. unfold GpuDnnConvGradI_make_node.
  make_node_start Ha Hb Ho.
  rewrite (bind_ok _ _ _ _ _
             (check_ranks_accepts (GpuArrayType da 5) (GpuArrayType db 5)
                (GpuArrayType dc 5) "kern" "topgrad" "output" s 5
                eq_refl eq_refl eq_refl eq_refl)).
  cbn [algo_of]. unfold bind at 1, ret at 1.
  rewrite Halgo. reflexivity.
Qed.

(** C4, amended (differentiation rule of the forward convolution).  On an
    application of rank 4 or 5 (image and kernels on the GPU, a
    convolution descriptor) and one output gradient that is a tensor of
    that rank, on the GPU or on the host, with a configured backward
    algorithm among the valid ones:
    - on rank 5 with the backward algorithm "fft" or "deterministic",
      [grad] raises a [ValueError];
    - in every other case [grad] returns six variables: for [img] an
      input-gradient node (on the kernels, the contiguous output
      gradient, an empty buffer like [img], the descriptor, default
      scaling) times [alpha]; for [kerns] a weight-gradient node times
      [alpha]; for the output buffer the contiguous output gradient
      times [beta]; for the descriptor a variable of the disconnected
      type; for [alpha] and [beta] variables of the null ("not
      implemented") type.  The contiguous output gradient is a
      [GpuContiguous] node on the gradient itself when it is on the GPU,
      on its transfer when it is on the host.
    The connection pattern is 0 for the descriptor alone. *)
Theorem C4_GpuDnnConv_grad (e : Env) (s : State) (self : Op)
    (img kerns output desc alpha beta top : var) (ttop : Ty)
    (dt dk dtop : string) (n : nat) :
  has_type (heap s) img (GpuArrayType dt n) ->
  has_type (heap s) kerns (GpuArrayType dk n) ->
  has_type (heap s) top ttop ->
  tensor_type ttop dtop n ->
  has_type (heap s) desc conv_desc_type ->
  (n = 4 \/ n = 5)%nat ->
  mem_string (algo_bwd e) bwd_algos = true ->
  (if (n =? 5)%nat && mem_string (algo_bwd e) ["fft"; "deterministic"]
   then
     exists s',
       GpuDnnConv_grad e self [img; kerns; output; desc; alpha; beta] [top] s
       = (Raise (ValueError
                   "convolution algo can't be used for 3d convolutions"), s')
   else
     exists g_img g_kerns g_out g_desc d_alpha d_beta s',
       GpuDnnConv_grad e self [img; kerns; output; desc; alpha; beta] [top] s
       = (Ok [g_img; g_kerns; g_out; g_desc; d_alpha; d_beta], s') /\
       exists top' src d_img e_img d_kerns e_kerns,
         node_at (heap s') top' = Some (mkApply GpuContiguous [src]) /\
         moved_to_gpu (heap s') ttop src top /\
         scaled_by (heap s') g_img d_img alpha /\
         default_scaling_node (heap s') d_img
           (GpuDnnConvGradI (algo_bwd e) false) kerns top' e_img desc dk /\
         empty_like_of (heap s') e_img img dt n /\
         scaled_by (heap s') g_kerns d_kerns alpha /\
         default_scaling_node (heap s') d_kerns
           (GpuDnnConvGradW (algo_bwd e) false) img top' e_kerns desc dt /\
         empty_like_of (heap s') e_kerns kerns dk n /\
         scaled_by (heap s') g_out top' beta /\
         nth_error (heap s') g_desc
         = Some (mkVariable DisconnectedType None None) /\
         (exists w, nth_error (heap s') d_alpha
                    = Some (mkVariable (NullType w) None None)) /\
         (exists w, nth_error (heap s') d_beta
                    = Some (mkVariable (NullType w) None None))) /\
  (forall node, GpuDnnConv_connection_pattern node
                = [[1]; [1]; [1]; [0]; [1]; [1]]).
Proof.
  intros Hi Hk Ht Htt Hd Hn Hb.
  split; [|reflexivity].
  destruct (gpu_contiguous_tensor_spec s top ttop dtop n Ht Htt)
    as (top' & s1 & src & E1 & G1 & N1 & T1 & S1).
  destruct (empty_like_spec s1 img dt n ltac:(transport) Hn)
    as (e_img & s2 & E2 & G2 & L2 & T2).
  destruct ((n =? 5)%nat && mem_string (algo_bwd e) ["fft"; "deterministic"])
    eqn:Hnf.
  - apply andb_prop in Hnf as [H5 Hbad]. apply Nat.eqb_eq in H5. subst n.
    exists s2.
    unfold GpuDnnConv_grad. cbn [unpack6 unpack1].
    unfold bind at 1, ret at 1. unfold bind at 1, ret at 1.
    rewrite (bind_ok _ _ _ _ _ E1).
    rewrite (bind_ok _ _ _ _ _ (GpuDnnConvGradI_init_ok e false s1 Hb)).
    rewrite (bind_ok _ _ _ _ _ E2).
    unfold bind at 1.
    rewrite (GpuDnnConvGradI_make_node_rank5_raises s2 (algo_bwd e) false
               kerns top' e_img desc ANone ANone dk dtop dt
               ltac:(transport) ltac:(transport) T2 Hbad).
    reflexivity.
  - destruct (GpuDnnConvGradI_make_node_default s2 (algo_bwd e) false
                kerns top' e_img desc dk dtop dt n
                ltac:(transport) ltac:(transport) T2 ltac:(transport) Hn Hnf)
      as (d_img & s3 & E3 & G3 & _ & T3 & D3).
    destruct (empty_like_spec s3 kerns dk n ltac:(transport) Hn)
      as (e_kerns & s4 & E4 & G4 & L4 & T4).
    destruct (GpuDnnConvGradW_make_node_default s4 (algo_bwd e) false
                img top' e_kerns desc dt dtop dk n
                ltac:(transport) ltac:(transport) T4 ltac:(transport) Hn Hnf)
      as (d_kerns & s5 & E5 & G5 & _ & T5 & D5).
    destruct (grad_not_implemented_spec s5 self 4 alpha)
      as (d_alpha & s6 & E6 & G6 & (wa & Na)).
    destruct (grad_not_implemented_spec s6 self 5 beta)
      as (d_beta & s7 & E7 & G7 & (wb & Nb)).
    destruct (mul_spec s7 d_img alpha dt n ltac:(transport))
      as (g_img & s8 & E8 & G8 & M8).
    destruct (mul_spec s8 d_kerns alpha dk n ltac:(transport))
      as (g_kerns & s9 & E9 & G9 & M9).
    destruct (mul_spec s9 top' beta dtop n ltac:(transport))
      as (g_out & s10 & E10 & G10 & M10).
    destruct (disconnected_spec s10) as (g_desc & s11 & E11 & G11 & N11).
    exists g_img, g_kerns, g_out, g_desc, d_alpha, d_beta, s11.
    split.
    + unfold GpuDnnConv_grad. cbn [unpack6 unpack1].
      unfold bind at 1, ret at 1. unfold bind at 1, ret at 1.
      rewrite (bind_ok _ _ _ _ _ E1).
      rewrite (bind_ok _ _ _ _ _ (GpuDnnConvGradI_init_ok e false s1 Hb)).
      rewrite (bind_ok _ _ _ _ _ E2), (bind_ok _ _ _ _ _ E3).
      rewrite (bind_ok _ _ _ _ _ (GpuDnnConvGradW_init_ok e false s3 Hb)).
      rewrite (bind_ok _ _ _ _ _ E4), (bind_ok _ _ _ _ _ E5).
      rewrite (bind_ok _ _ _ _ _ E6), (bind_ok _ _ _ _ _ E7).
      rewrite (bind_ok _ _ _ _ _ E8), (bind_ok _ _ _ _ _ E9).
      rewrite (bind_ok _ _ _ _ _ E10), (bind_ok _ _ _ _ _ E11).
      reflexivity.
    + exists top', src, d_img, e_img, d_kerns, e_kerns.
      assert (G111 : grows s1 s11) by grows_chain.
      split_all; try (eexists; transport); try transport.
      destruct ttop; cbn [moved_to_gpu] in *;
        first [exact S1 | eapply node_at_grows; [exact G111 | exact S1]].
Qed.

Lemma C4_GpuDnnConv_grad_witness :
  (exists gs s',
     GpuDnnConv_grad env_v3 (GpuDnnConv "small" false)
       [0; 1; 2; 3; 4; 5]%nat [7%nat] host_grad_state = (Ok gs, s') /\
     List.length gs = 6%nat) /\
  (exists s',
     GpuDnnConv_grad env_deterministic (GpuDnnConv "small" false)
       [0; 1; 2; 3; 4; 5]%nat [6%nat] rank5_state
     = (Raise (ValueError "convolution algo can't be used for 3d convolutions"),
        s')).
Proof.
  split.
  - assert (H0 : has_type (heap host_grad_state) 0%nat
                   (GpuArrayType "float32" 4)) by (eexists _, _; reflexivity).
    assert (H1 : has_type (heap host_grad_state) 1%nat
                   (GpuArrayType "float32" 4)) by (eexists _, _; reflexivity).
    assert (H7 : has_type (heap host_grad_state) 7%nat
                   (TensorType "float64" 4)) by (eexists _, _; reflexivity).
    assert (H3 : has_type (heap host_grad_state) 3%nat conv_desc_type)
      by (eexists _, _; reflexivity).
    assert (Hn : (4 = 4 \/ 4 = 5)%nat) by (left; reflexivity).
    destruct (C4_GpuDnnConv_grad env_v3 host_grad_state
                (GpuDnnConv "small" false)
                0%nat 1%nat 2%nat 3%nat 4%nat 5%nat 7%nat
                (TensorType "float64" 4) "float32" "float32" "float64" 4%nat
                H0 H1 H7 (or_intror eq_refl) H3 Hn eq_refl) as [H _].
    cbn [Nat.eqb andb] in H.
    destruct H as (g1 & g2 & g3 & g4 & g5 & g6 & s' & E & _).
    exists [g1; g2; g3; g4; g5; g6], s'. split; [exact E | reflexivity].
  - assert (H0 : has_type (heap rank5_state) 0%nat (GpuArrayType "float32" 5))
      by (eexists _, _; reflexivity).
    assert (H1 : has_type (heap rank5_state) 1%nat (GpuArrayType "float32" 5))
      by (eexists _, _; reflexivity).
    assert (H6 : has_type (heap rank5_state) 6%nat (GpuArrayType "float32" 5))
      by (eexists _, _; reflexivity).
    assert (H3 : has_type (heap rank5_state) 3%nat conv_desc_type)
      by (eexists _, _; reflexivity).
    assert (Hn : (5 = 4 \/ 5 = 5)%nat) by (right; reflexivity).
    destruct (C4_GpuDnnConv_grad env_deterministic rank5_state
                (GpuDnnConv "small" false)
                0%nat 1%nat 2%nat 3%nat 4%nat 5%nat 6%nat
                (GpuArrayType "float32" 5) "float32" "float32" "float32" 5%nat
                H0 H1 H6 (or_introl eq_refl) H3 Hn eq_refl) as [H _].
    exact H.
Defined.

(** ** Default scaling factors, one argument at a time *)

Lemma ensure_dt_none_inv (c : Const) (name dt : string) (s s' : State)
    (v : var) :
  ensure_dt ANone c name dt s = (Ok v, s') ->
  grows s s' /\ default_scalar (heap s') v c dt.
Proof.
  intros H. destruct (ensure_dt_default c name dt s) as (v0 & l & E & D).
  rewrite E in H. injection H as <- <-.
  split; [exists l; reflexivity | exact D].
Qed.

Lemma one_no_scaling (h : list PyVariable) (al : var) (dt : string) :
  default_scalar h al _one dt -> no_scaling h al.
Proof.
  intros D. exists 1%Q. split; [exact (default_scalar_value _ _ _ dt D)|].
  intros qb r out. unfold conv_contract. ring.
Qed.

Lemma zero_no_accumulation (h : list PyVariable) (be : var) (dt : string) :
  default_scalar h be _zero dt -> no_accumulation h be.
Proof.
  intros D. exists 0%Q. split; [exact (default_scalar_value _ _ _ dt D)|].
  intros qa r out. unfold conv_contract. ring.
Qed.

Lemma defaults_plain_op (h : list PyVariable) (al be : var) (dt : string) :
  default_scalar h al _one dt -> default_scalar h be _zero dt ->
  plain_op h al be.
Proof.
  intros Da Db. exists 1%Q, 0%Q.
  split; [exact (default_scalar_value _ _ _ dt Da)|].
  split; [exact (default_scalar_value _ _ _ dt Db)|].
  intros r out. unfold conv_contract. ring.
Qed.

(** What [ensure_dt] accepts. *)
Lemma ensure_dt_total (val : Arg) (c : Const) (name dt : string) (s : State) :
  scalar_arg (heap s) val ->
  exists v s', ensure_dt val c name dt s = (Ok v, s').
Proof.
  intros A. destruct val as [|k|x].
  - destruct (ensure_dt_default c name dt s) as (v & l & E & _). eauto.
  - destruct s as [av ms vv lg h]. destruct k as [z|q].
    + destruct (String.eqb "int64" dt) eqn:E;
        eexists _, _; run; rewrite E; run; reflexivity.
    + destruct (String.eqb "float64" dt) eqn:E;
        eexists _, _; run; rewrite E; run; reflexivity.
  - destruct A as (d & [(o & k & H) | (o & k & H)]);
      destruct s as [av ms vv lg h]; cbn [heap] in H;
      destruct (String.eqb d dt) eqn:E;
      eexists _, _; run; rewrite E; run; reflexivity.
Qed.

Lemma as_gpuarray_variable_total (s : State) (x : var) (t : Ty) (d : string)
    (n : nat) :
  has_type (heap s) x t -> tensor_type t d n ->
  exists x' s', as_gpuarray_variable x s = (Ok x', s').
Proof.
  intros T [-> | ->]; unfold as_gpuarray_variable;
    rewrite (bind_ok _ _ _ _ _ (type_of_ok s x _ T)).
  - eexists _, _. reflexivity.
  - rewrite call_op_eq. eexists _, _. reflexivity.
Qed.

Lemma scalar_arg_grows (s s' : State) (val : Arg) :
  grows s s' -> scalar_arg (heap s) val -> scalar_arg (heap s') val.
Proof.
  intros G. destruct val as [|k|x]; cbn; auto.
  intros (d & [H | H]); exists d; [left | right];
    eapply has_type_grows; eassumption.
Qed.

Lemma ensure_dt_spec (val : Arg) (c : Const) (name dt : string) (s : State) :
  scalar_arg (heap s) val ->
  exists v s',
    ensure_dt val c name dt s = (Ok v, s') /\ grows s s' /\
    has_type (heap s') v (Scalar dt) /\
    (val = ANone -> default_scalar (heap s') v c dt).
Proof.
  intros A. destruct (ensure_dt_total val c name dt s A) as (v & s' & E).
  exists v, s'. split; [exact E|].
  destruct (ensure_dt_post _ _ _ _ _ _ _ E) as [G T].
  split; [exact G|]. split; [exact T|].
  intros ->. apply (ensure_dt_none_inv _ _ _ _ _ _ E).
Qed.

Lemma moved_to_gpu_grows (s s' : State) (t : Ty) (x' x : var) :
  grows s s' -> moved_to_gpu (heap s) t x' x -> moved_to_gpu (heap s') t x' x.
Proof.
  intros G. destruct t; cbn [moved_to_gpu]; auto;
    intros H; eapply node_at_grows; eassumption.
Qed.

Lemma as_gpuarray_variable_spec (s : State) (x : var) (t : Ty) (d : string)
    (n : nat) :
  has_type (heap s) x t -> tensor_type t d n ->
  exists x' s',
    as_gpuarray_variable x s = (Ok x', s') /\ grows s s' /\
    has_type (heap s') x' (GpuArrayType d n) /\
    moved_to_gpu (heap s') t x' x.
Proof.
  intros T Ht.
  destruct (as_gpuarray_variable_total s x t d n T Ht) as (x' & s' & E).
  exists x', s'. split; [exact E|].
  destruct (as_gpuarray_variable_inv _ _ _ _ E) as (G & _ & _).
  split; [exact G|].
  destruct Ht as [-> | ->].
  - rewrite (as_gpuarray_variable_gpu s x d n T) in E.
    injection E as <- <-. split; [exact T | reflexivity].
  - unfold as_gpuarray_variable in E.
    rewrite (bind_ok _ _ _ _ _ (type_of_ok s x _ T)) in E.
    rewrite call_op_eq in E. injection E as <- <-.
    split; [apply has_type_push_new | apply node_at_push_new].
Qed.

(** The common part of the three [make_node] methods on well-typed
    arguments. *)
Lemma conv_make_node_tail_spec (self : Op) (bad5 : string -> bool)
    (n1 n2 n3 m5 : string) (a b c desc : var) (alpha beta : Arg)
    (s : State) (da db dc algo : string) (n : nat) :
  has_type (heap s) a (GpuArrayType da n) ->
  has_type (heap s) b (GpuArrayType db n) ->
  has_type (heap s) c (GpuArrayType dc n) ->
  has_type (heap s) desc conv_desc_type ->
  (n = 4 \/ n = 5)%nat ->
  (forall t, algo_of self t = (Ok algo, t)) ->
  (n =? 5)%nat && bad5 algo = false ->
  scalar_arg (heap s) alpha -> scalar_arg (heap s) beta ->
  exists r s' al be,
    (ti <- type_of a ;;
     tk <- type_of b ;;
     to <- type_of c ;;
     n <- check_ranks ti tk to n1 n2 n3 ;;
     algo <- algo_of self ;;
     (if (n =? 5)%nat && bad5 algo then raise (ValueError m5) else ret tt) ;;
     td <- type_of desc ;;
     (if negb (is_ctype td "cudnnConvolutionDescriptor_t") then
        raise (TypeError "desc must be cudnnConvolutionDescriptor_t")
      else ret tt) ;;
     dt <- attr "dtype" (dtype_of ti) ;;
     alpha <- ensure_dt alpha _one "alpha" dt ;;
     beta <- ensure_dt beta _zero "beta" dt ;;
     call_op self [a; b; c; desc; alpha; beta] to) s = (Ok r, s') /\
    grows s s' /\
    node_at (heap s') r = Some (mkApply self [a; b; c; desc; al; be]) /\
    (alpha = ANone -> default_scalar (heap s') al _one da) /\
    (beta = ANone -> default_scalar (heap s') be _zero da).
Proof.
  intros Ta Tb Tc Td Hn Halgo H5 Aa Ab.
  destruct (ensure_dt_spec alpha _one "alpha" da s Aa)
    as (al & s1 & E1 & G1 & T1 & D1).
  destruct (ensure_dt_spec beta _zero "beta" da s1
              (scalar_arg_grows _ _ _ G1 Ab))
    as (be & s2 & E2 & G2 & T2 & D2).
  set (x := mkVariable (GpuArrayType dc n)
              (Some (mkApply self [a; b; c; desc; al; be])) None).
  assert (G : grows s (push s2 x)).
  { eapply grows_trans; [exact G1|].
    eapply grows_trans; [exact G2 | apply grows_push]. }
  exists (List.length (heap s2)), (push s2 x), al, be.
  split.
  - rewrite (bind_ok _ _ _ _ _ (type_of_ok s a _ Ta)).
    rewrite (bind_ok _ _ _ _ _ (type_of_ok s b _ Tb)).
    rewrite (bind_ok _ _ _ _ _ (type_of_ok s c _ Tc)).
    assert (Hin : in_4_5 n = true) by (destruct Hn as [-> | ->]; reflexivity).
    rewrite (bind_ok _ _ _ _ _
               (check_ranks_accepts (GpuArrayType da n) (GpuArrayType db n)
                  (GpuArrayType dc n) n1 n2 n3 s n eq_refl eq_refl eq_refl
                  Hin)).
    rewrite (bind_ok _ _ _ _ _ (Halgo s)).
    rewrite H5. unfold bind at 1, ret at 1.
    rewrite (bind_ok _ _ _ _ _ (type_of_ok s desc _ Td)).
    change (is_ctype conv_desc_type "cudnnConvolutionDescriptor_t") with true.
    cbn [negb dtype_of attr].
    unfold bind at 1, ret at 1. unfold bind at 1, ret at 1.
    rewrite (bind_ok _ _ _ _ _ E1), (bind_ok _ _ _ _ _ E2).
    rewrite call_op_eq. reflexivity.
  - split; [exact G|]. split; [apply node_at_push_new|].
    split.
    + intros Ha. apply (default_scalar_grows s1 (push s2 x)).
      * eapply grows_trans; [exact G2 | apply grows_push].
      * exact (D1 Ha).
    + intros Hb. apply (default_scalar_grows s2 (push s2 x)).
      * apply grows_push.
      * exact (D2 Hb).
Qed.

(** C10 (omitted [alpha] or [beta]).  On tensors of one rank, 4 or 5, on
    the GPU or on the host, a convolution descriptor, an algorithm the
    rank admits, and for [alpha] and [beta] each nothing, a Python
    number, a scalar or a tensor of rank 0, each of the three
    [make_node] methods returns a node whose primary tensor is the first
    argument (its transfer when it is on the host) and in which:
    - when [alpha] is omitted, whatever is passed for [beta], the fifth
      input is the constant 1 in the dtype of the primary tensor (the
      float64 constant itself, or a cast of it), so that the kernels'
      contract [alpha * op + beta * output] does not scale [op];
    - when [beta] is omitted, whatever is passed for [alpha], the sixth
      input is the constant 0 in that dtype, so that the contract adds
      nothing of the output buffer. *)
Theorem C10_omitted_alpha_beta (s : State) (algo_f algo_b : string)
    (inplace : bool) (x y out desc : var) (alpha beta : Arg)
    (tx ty to : Ty) (dt dk dto : string) (n : nat) :
  has_type (heap s) x tx -> tensor_type tx dt n ->
  has_type (heap s) y ty -> tensor_type ty dk n ->
  has_type (heap s) out to -> tensor_type to dto n ->
  has_type (heap s) desc conv_desc_type ->
  (n = 4 \/ n = 5)%nat ->
  ((n =? 5)%nat && String.eqb algo_f "fft" = false) ->
  ((n =? 5)%nat && mem_string algo_b ["fft"; "deterministic"] = false) ->
  scalar_arg (heap s) alpha -> scalar_arg (heap s) beta ->
  built_with_defaults
    (GpuDnnConv_make_node (GpuDnnConv algo_f inplace) x y out desc alpha beta)
    (GpuDnnConv algo_f inplace) s x y out desc tx ty to dt n alpha beta /\
  built_with_defaults
    (GpuDnnConvGradW_make_node (GpuDnnConvGradW algo_b inplace) x y out desc
       alpha beta)
    (GpuDnnConvGradW algo_b inplace) s x y out desc tx ty to dt n alpha beta /\
  built_with_defaults
    (GpuDnnConvGradI_make_node (GpuDnnConvGradI algo_b inplace) x y out desc
       alpha beta)
    (GpuDnnConvGradI algo_b inplace) s x y out desc tx ty to dt n alpha beta.
Proof.
  intros Hx Htx Hy Hty Ho Hto Hd Hn Hf Hbw Aa Ab.
  unfold built_with_defaults. split_all.
  - destruct (as_gpuarray_variable_spec s x tx dt n Hx Htx)
      as (a & s1 & E1 & G1 & Ta & O1).
    destruct (as_gpuarray_variable_spec s1 y ty dk n
                ltac:(transport) Hty) as (b & s2 & E2 & G2 & Tb & O2).
    destruct (as_gpuarray_variable_spec s2 out to dto n
                ltac:(transport) Hto) as (c & s3 & E3 & G3 & Tc & O3).
    assert (G03 : grows s s3) by grows_chain.
    destruct (conv_make_node_tail_spec (GpuDnnConv algo_f inplace)
                (fun al : string => String.eqb al "fft")
                "img" "kern" "output"
                "convolution algo fft can't be used for 3d convolutions"
                a b c desc alpha beta s3 dt dk dto algo_f n
                ltac:(transport) ltac:(transport) Tc ltac:(transport) Hn
                (fun t => eq_refl) Hf
                (scalar_arg_grows _ _ _ G03 Aa)
                (scalar_arg_grows _ _ _ G03 Ab))
      as (r & s' & al & be & E & G & N & Da & Db).
    exists r, s', a, b, c, al, be.
    split.
    { unfold GpuDnnConv_make_node.
      rewrite (bind_ok _ _ _ _ _ E1), (bind_ok _ _ _ _ _ E2),
        (bind_ok _ _ _ _ _ E3).
      exact E. }
    split; [exact N|].
    split; [transport|].
    split; [eapply moved_to_gpu_grows; [|exact O1]; grows_chain|].
    split; [eapply moved_to_gpu_grows; [|exact O2]; grows_chain|].
    split; [eapply moved_to_gpu_grows; [|exact O3]; grows_chain|].
    split.
    { intros Ha. split; [exact (Da Ha) | exact (one_no_scaling _ _ _ (Da Ha))]. }
    split.
    { intros Hb. split;
        [exact (Db Hb) | exact (zero_no_accumulation _ _ _ (Db Hb))]. }
    { intros Ha Hb. exact (defaults_plain_op _ _ _ _ (Da Ha) (Db Hb)). }
  - destruct (as_gpuarray_variable_spec s x tx dt n Hx Htx)
      as (a & s1 & E1 & G1 & Ta & O1).
    destruct (as_gpuarray_variable_spec s1 y ty dk n
                ltac:(transport) Hty) as (b & s2 & E2 & G2 & Tb & O2).
    destruct (as_gpuarray_variable_spec s2 out to dto n
                ltac:(transport) Hto) as (c & s3 & E3 & G3 & Tc & O3).
    assert (G03 : grows s s3) by grows_chain.
    destruct (conv_make_node_tail_spec (GpuDnnConvGradW algo_b inplace)
                (fun al : string => mem_string al ["fft"; "deterministic"])
                "img" "topgrad" "output"
                "convolution algo can't be used for 3d convolutions"
                a b c desc alpha beta s3 dt dk dto algo_b n
                ltac:(transport) ltac:(transport) Tc ltac:(transport) Hn
                (fun t => eq_refl) Hbw
                (scalar_arg_grows _ _ _ G03 Aa)
                (scalar_arg_grows _ _ _ G03 Ab))
      as (r & s' & al & be & E & G & N & Da & Db).
    exists r, s', a, b, c, al, be.
    split.
    { unfold GpuDnnConvGradW_make_node.
      rewrite (bind_ok _ _ _ _ _ E1), (bind_ok _ _ _ _ _ E2),
        (bind_ok _ _ _ _ _ E3).
      exact E. }
    split; [exact N|].
    split; [transport|].
    split; [eapply moved_to_gpu_grows; [|exact O1]; grows_chain|].
    split; [eapply moved_to_gpu_grows; [|exact O2]; grows_chain|].
    split; [eapply moved_to_gpu_grows; [|exact O3]; grows_chain|].
    split.
    { intros Ha. split; [exact (Da Ha) | exact (one_no_scaling _ _ _ (Da Ha))]. }
    split.
    { intros Hb. split;
        [exact (Db Hb) | exact (zero_no_accumulation _ _ _ (Db Hb))]. }
    { intros Ha Hb. exact (defaults_plain_op _ _ _ _ (Da Ha) (Db Hb)). }
  - destruct (as_gpuarray_variable_spec s x tx dt n Hx Htx)
      as (a & s1 & E1 & G1 & Ta & O1).
    destruct (as_gpuarray_variable_spec s1 y ty dk n
                ltac:(transport) Hty) as (b & s2 & E2 & G2 & Tb & O2).
    destruct (as_gpuarray_variable_spec s2 out to dto n
                ltac:(transport) Hto) as (c & s3 & E3 & G3 & Tc & O3).
    assert (G03 : grows s s3) by grows_chain.
    destruct (conv_make_node_tail_spec (GpuDnnConvGradI algo_b inplace)
                (fun al : string => mem_string al ["fft"; "deterministic"])
                "kern" "topgrad" "output"
                "convolution algo can't be used for 3d convolutions"
                a b c desc alpha beta s3 dt dk dto algo_b n
                ltac:(transport) ltac:(transport) Tc ltac:(transport) Hn
                (fun t => eq_refl) Hbw
                (scalar_arg_grows _ _ _ G03 Aa)
                (scalar_arg_grows _ _ _ G03 Ab))
      as (r & s' & al & be & E & G & N & Da & Db).
    exists r, s', a, b, c, al, be.
    split.
    { unfold GpuDnnConvGradI_make_node.
      rewrite (bind_ok _ _ _ _ _ E1), (bind_ok _ _ _ _ _ E2),
        (bind_ok _ _ _ _ _ E3).
      exact E. }
    split; [exact N|].
    split; [transport|].
    split; [eapply moved_to_gpu_grows; [|exact O1]; grows_chain|].
    split; [eapply moved_to_gpu_grows; [|exact O2]; grows_chain|].
    split; [eapply moved_to_gpu_grows; [|exact O3]; grows_chain|].
    split.
    { intros Ha. split; [exact (Da Ha) | exact (one_no_scaling _ _ _ (Da Ha))]. }
    split.
    { intros Hb. split;
        [exact (Db Hb) | exact (zero_no_accumulation _ _ _ (Db Hb))]. }
    { intros Ha Hb. exact (defaults_plain_op _ _ _ _ (Da Ha) (Db Hb)). }
Qed.

Lemma C10_omitted_alpha_beta_witness :
  built_with_defaults
    (GpuDnnConv_make_node (GpuDnnConv "small" false) 7%nat 1%nat 2%nat 3%nat
       (AVar 8%nat) ANone)
    (GpuDnnConv "small" false) host_grad_state 7%nat 1%nat 2%nat 3%nat
    (TensorType "float64" 4) (GpuArrayType "float32" 4)
    (GpuArrayType "float32" 4) "float64" 4%nat (AVar 8%nat) ANone /\
  built_with_defaults
    (GpuDnnConvGradW_make_node (GpuDnnConvGradW "none" false)
       7%nat 1%nat 2%nat 3%nat (AVar 8%nat) ANone)
    (GpuDnnConvGradW "none" false) host_grad_state 7%nat 1%nat 2%nat 3%nat
    (TensorType "float64" 4) (GpuArrayType "float32" 4)
    (GpuArrayType "float32" 4) "float64" 4%nat (AVar 8%nat) ANone /\
  built_with_defaults
    (GpuDnnConvGradI_make_node (GpuDnnConvGradI "none" false)
       7%nat 1%nat 2%nat 3%nat (AVar 8%nat) ANone)
    (GpuDnnConvGradI "none" false) host_grad_state 7%nat 1%nat 2%nat 3%nat
    (TensorType "float64" 4) (GpuArrayType "float32" 4)
    (GpuArrayType "float32" 4) "float64" 4%nat (AVar 8%nat) ANone.
Proof.
  assert (H7 : has_type (heap host_grad_state) 7%nat (TensorType "float64" 4))
    by (eexists _, _; reflexivity).
  assert (H1 : has_type (heap host_grad_state) 1%nat
                 (GpuArrayType "float32" 4)) by (eexists _, _; reflexivity).
  assert (H2 : has_type (heap host_grad_state) 2%nat
                 (GpuArrayType "float32" 4)) by (eexists _, _; reflexivity).
  assert (H3 : has_type (heap host_grad_state) 3%nat conv_desc_type)
    by (eexists _, _; reflexivity).
  assert (Hn : (4 = 4 \/ 4 = 5)%nat) by (left; reflexivity).
  assert (Aa : scalar_arg (heap host_grad_state) (AVar 8%nat)).
  { exists "float64". right. eexists _, _. reflexivity. }
  exact (C10_omitted_alpha_beta host_grad_state "small" "none" false
           7%nat 1%nat 2%nat 3%nat (AVar 8%nat) ANone
           (TensorType "float64" 4) (GpuArrayType "float32" 4)
           (GpuArrayType "float32" 4) "float64" "float32" "float32" 4%nat
           H7 (or_intror eq_refl) H1 (or_introl eq_refl)
           H2 (or_introl eq_refl) H3 Hn eq_refl eq_refl Aa I).
Defined.
